(** * Smart-Home ZigBee simulation (ns-3): channel model, statistics, callbacks

    Shallow embedding of the two source variants that carry the statistical
    channel model:

    - [Extended]: src/zigbee-extended-sim.cc
    - [Ver3]:     src/smart-home-zigbee-complete-ver3.cc

    Conventions.
    - A C++ [double] is a real number of [R]: rounding, infinities and NaN
      are outside the model.  Comparisons of doubles are the decidable
      comparisons of [R].
    - A [uint32_t] counter is an [N] below [2^32]; [x++] wraps around.
    - An ns-3 time value is its 64-bit tick count (nanoseconds, the default
      resolution) as a [Z].
    - Global objects ([g_stats], the generator, the scheduler queue) are
      fields of an explicit [World] that every callback transforms.
    - Console output is not modelled. *)

From Stdlib Require Import Reals Lra Lia ZArith NArith List Bool.
From stdpp Require Import gmap.
Import ListNotations.

(** ** C++ scalar operations *)

Module Cpp.

Definition UINT32_MOD : N := 2 ^ 32.

(** [x++] and [x += k] on a [uint32_t]. *)
Definition incr (x : N) : N := ((x + 1) mod UINT32_MOD)%N.

Definition add32 (x k : N) : N := ((x + k) mod UINT32_MOD)%N.

(** [a < b] on doubles. *)
Definition ltb (a b : R) : bool := if Rlt_dec a b then true else false.

(** [std::max(a, b)]: returns [b] when [a < b], else [a]. *)
Definition max (a b : R) : R := if ltb a b then b else a.

(** [std::log10] of a positive double.  At 0 the C++ function returns
    minus infinity, which is outside the model; [ln 0] is 0 here, so
    nothing is to be concluded from this definition at 0. *)
Definition log10 (x : R) : R := (ln x / ln 10)%R.

(** [v[i]] on a [std::vector]: unchecked, so an index past the end has no
    defined result. *)
Definition at_index {A : Type} (v : list A) (i : nat) : option A := nth_error v i.

(** [m[k]++] on a [std::map<uint32_t, uint32_t>]: a missing key is created
    with value 0 first. *)
Definition map_incr (k : N) (m : gmap N N) : gmap N N :=
  <[k := incr (default 0%N (m !! k))]> m.

(** [std::min(a, b)]: returns [b] when [b < a], else [a]. *)
Definition min (a b : R) : R := if ltb b a then b else a.

(** Conversion of a double to an integer type: the fractional part is
    discarded (truncation toward zero). *)
Definition truncate (x : R) : Z :=
  if ltb x 0 then (- Int_part (- x))%Z else Int_part x.

(** [(uint32_t) x] for a double [x]: the truncated value when it fits the
    type, no defined result otherwise. *)
Definition to_uint32 (x : R) : option N :=
  let t := truncate x in
  if (0 <=? t)%Z && (t <? 2 ^ 32)%Z then Some (Z.to_N t) else None.

(** [x - 1] on a [uint32_t]. *)
Definition decr (x : N) : N := ((x + (UINT32_MOD - 1)) mod UINT32_MOD)%N.

End Cpp.

(** ** The ns-3 and standard-library interface the programs consume *)

(** Tick count of an [ns3::Time] (nanoseconds). *)
Abbreviation ns3Time := Z (only parsing).

(** [Time::GetMilliSeconds]: whole milliseconds, truncated. *)
Definition GetMilliSeconds (t : ns3Time) : Z := Z.quot t 1000000.

(** [Time::GetSeconds]: seconds as a double. *)
Definition GetSeconds (t : ns3Time) : R := (IZR t / 1000000000)%R.

(** [Seconds(0)]. *)
Definition Seconds0 : ns3Time := 0%Z.

(** [<random>]: a generator engine ([std::mt19937]) and the normal
    distribution object that draws from it.  Both are left abstract:
    [sample] is one call [dist(engine)], which may update the distribution
    object (it may cache a variate) and advances the engine. *)
Record RandomLib : Type := mkRandomLib {
  engine : Type;
  normal_distribution : Type;
  seed_engine : N -> engine;
  make_normal : R -> R -> normal_distribution;
  sample : normal_distribution -> engine -> R * normal_distribution * engine
}.

(** A generator that replays a fixed script of variates; the distribution
    object carries no state.  Used to run the model on concrete inputs. *)
Definition scripted (script : N -> list R) : RandomLib :=
  {| engine := list R;
     normal_distribution := unit;
     seed_engine := script;
     make_normal := fun _ _ => tt;
     sample := fun d g => (hd 0%R g, d, tl g) |}.

Inductive NwkStatus : Type :=
| SUCCESS
| NWK_ERROR (code : N).

Definition is_success (s : NwkStatus) : bool :=
  match s with SUCCESS => true | NWK_ERROR _ => false end.

Inductive ApsDstAddressMode : Type :=
| DST_ADDR16_DST_ENDPOINT_PRESENT
| GROUP_ADDR_DST_ENDPOINT_NOT_PRESENT
| DST_ADDR_MODE_OTHER.

Record NetworkDescriptor : Type := mkNetworkDescriptor {
  m_extPanId : N
}.

(** The fields of [ApsdeDataRequestParams] the programs set;
    [m_dstEndPoint] is [None] when the program leaves it unset. *)
Record ApsdeDataRequestParams : Type := mkDataReq {
  m_srcEndPoint : N;
  m_dstEndPoint : option N;
  m_clusterId : N;
  m_profileId : N;
  m_dstAddrMode : ApsDstAddressMode;
  m_dstAddr16 : N
}.

(** Calls handed to the external stack through [Simulator::ScheduleNow].
    The first argument is the node whose stack is called; a data request
    carries the packet's uid and size. *)
Inductive StackCall : Type :=
| ApsdeDataRequest (node : N) (params : ApsdeDataRequestParams) (uid size : N)
| NlmeJoinRequest (node : N) (extendedPanId : N)
| NlmeStartRouterRequest (node : N)
| ApsmeAddGroupRequest (node : N) (groupAddress endPoint : N).

Definition is_data_request (c : StackCall) : bool :=
  match c with ApsdeDataRequest _ _ _ _ => true | _ => false end.

(** Outcome of a callback: a new world, or a step with no defined
    behaviour (an unchecked vector read past the end). *)
Inductive outcome (W : Type) : Type :=
| Ok (w : W)
| Undefined.
Arguments Ok {W} w.
Arguments Undefined {W}.

(** ** zigbee-extended-sim.cc *)

Module Extended.

Local Open Scope R_scope.

(** [struct ChannelConfig] with its member defaults. *)
Record ChannelConfig : Type := mkChannelConfig {
  enableNoise : bool;
  enableFading : bool;
  nodeDistance : R;
  numNodes : N;
  txPowerDbm : R;
  refDistance : R;
  refPathLossDb : R;
  pathLossExp : R;
  noiseFloorDbm : R;
  noiseFigureDb : R;
  sensitivityDbm : R;
  snrThresholdDb : R
}.

Definition default_channel : ChannelConfig :=
  {| enableNoise := true; enableFading := true;
     nodeDistance := 10; numNodes := 6;
     txPowerDbm := 4;
     refDistance := 1; refPathLossDb := 40.77; pathLossExp := 2;
     noiseFloorDbm := -174; noiseFigureDb := 3;
     sensitivityDbm := -97; snrThresholdDb := 3 |}.

Definition effectiveNoiseDbm (c : ChannelConfig) : R :=
  noiseFloorDbm c + noiseFigureDb c.

(** The command-line values [main] reads (scenario and file names left out). *)
Record CommandLine : Type := mkCommandLine {
  cl_nodes : N;
  cl_distance : R;
  cl_time : N;
  cl_packets : N;
  cl_interval : R;
  cl_noise : bool;
  cl_fading : bool;
  cl_noiseFloor : R;
  cl_pathLossExp : R
}.

(** [main], "Apply configuration": the only writes to [g_channel]. *)
Definition apply_configuration (cl : CommandLine) : ChannelConfig :=
  {| enableNoise := cl_noise cl; enableFading := cl_fading cl;
     nodeDistance := cl_distance cl; numNodes := cl_nodes cl;
     txPowerDbm := txPowerDbm default_channel;
     refDistance := refDistance default_channel;
     refPathLossDb := refPathLossDb default_channel;
     pathLossExp := cl_pathLossExp cl;
     noiseFloorDbm := cl_noiseFloor cl;
     noiseFigureDb := noiseFigureDb default_channel;
     sensitivityDbm := sensitivityDbm default_channel;
     snrThresholdDb := snrThresholdDb default_channel |}.

(** [struct SimStats]. *)
Record SimStats : Type := mkSimStats {
  totalSent : N;
  totalReceived : N;
  totalDropped : N;
  droppedByNoise : N;
  droppedByFading : N;
  droppedBySensitivity : N;
  snrSamples : list R;
  rxPowerSamples : list R;
  fadingSamples : list R;
  distanceSamples : list R;
  delaysSamples : list R;
  sendTimes : gmap N ns3Time;
  firstSend : ns3Time;
  lastRecv : ns3Time
}.

Definition set_totalSent (v : N) (s : SimStats) : SimStats :=
  {| totalSent := v; totalReceived := totalReceived s; totalDropped := totalDropped s;
     droppedByNoise := droppedByNoise s; droppedByFading := droppedByFading s;
     droppedBySensitivity := droppedBySensitivity s; snrSamples := snrSamples s;
     rxPowerSamples := rxPowerSamples s; fadingSamples := fadingSamples s;
     distanceSamples := distanceSamples s; delaysSamples := delaysSamples s; sendTimes
     := sendTimes s; firstSend := firstSend s; lastRecv := lastRecv s |}.

Definition set_totalReceived (v : N) (s : SimStats) : SimStats :=
  {| totalSent := totalSent s; totalReceived := v; totalDropped := totalDropped s;
     droppedByNoise := droppedByNoise s; droppedByFading := droppedByFading s;
     droppedBySensitivity := droppedBySensitivity s; snrSamples := snrSamples s;
     rxPowerSamples := rxPowerSamples s; fadingSamples := fadingSamples s;
     distanceSamples := distanceSamples s; delaysSamples := delaysSamples s; sendTimes
     := sendTimes s; firstSend := firstSend s; lastRecv := lastRecv s |}.

Definition set_totalDropped (v : N) (s : SimStats) : SimStats :=
  {| totalSent := totalSent s; totalReceived := totalReceived s; totalDropped := v;
     droppedByNoise := droppedByNoise s; droppedByFading := droppedByFading s;
     droppedBySensitivity := droppedBySensitivity s; snrSamples := snrSamples s;
     rxPowerSamples := rxPowerSamples s; fadingSamples := fadingSamples s;
     distanceSamples := distanceSamples s; delaysSamples := delaysSamples s; sendTimes
     := sendTimes s; firstSend := firstSend s; lastRecv := lastRecv s |}.

Definition set_droppedByNoise (v : N) (s : SimStats) : SimStats :=
  {| totalSent := totalSent s; totalReceived := totalReceived s; totalDropped :=
     totalDropped s; droppedByNoise := v; droppedByFading := droppedByFading s;
     droppedBySensitivity := droppedBySensitivity s; snrSamples := snrSamples s;
     rxPowerSamples := rxPowerSamples s; fadingSamples := fadingSamples s;
     distanceSamples := distanceSamples s; delaysSamples := delaysSamples s; sendTimes
     := sendTimes s; firstSend := firstSend s; lastRecv := lastRecv s |}.

Definition set_droppedByFading (v : N) (s : SimStats) : SimStats :=
  {| totalSent := totalSent s; totalReceived := totalReceived s; totalDropped :=
     totalDropped s; droppedByNoise := droppedByNoise s; droppedByFading := v;
     droppedBySensitivity := droppedBySensitivity s; snrSamples := snrSamples s;
     rxPowerSamples := rxPowerSamples s; fadingSamples := fadingSamples s;
     distanceSamples := distanceSamples s; delaysSamples := delaysSamples s; sendTimes
     := sendTimes s; firstSend := firstSend s; lastRecv := lastRecv s |}.

Definition set_droppedBySensitivity (v : N) (s : SimStats) : SimStats :=
  {| totalSent := totalSent s; totalReceived := totalReceived s; totalDropped :=
     totalDropped s; droppedByNoise := droppedByNoise s; droppedByFading :=
     droppedByFading s; droppedBySensitivity := v; snrSamples := snrSamples s;
     rxPowerSamples := rxPowerSamples s; fadingSamples := fadingSamples s;
     distanceSamples := distanceSamples s; delaysSamples := delaysSamples s; sendTimes
     := sendTimes s; firstSend := firstSend s; lastRecv := lastRecv s |}.

Definition set_snrSamples (v : list R) (s : SimStats) : SimStats :=
  {| totalSent := totalSent s; totalReceived := totalReceived s; totalDropped :=
     totalDropped s; droppedByNoise := droppedByNoise s; droppedByFading :=
     droppedByFading s; droppedBySensitivity := droppedBySensitivity s; snrSamples := v;
     rxPowerSamples := rxPowerSamples s; fadingSamples := fadingSamples s;
     distanceSamples := distanceSamples s; delaysSamples := delaysSamples s; sendTimes
     := sendTimes s; firstSend := firstSend s; lastRecv := lastRecv s |}.

Definition set_rxPowerSamples (v : list R) (s : SimStats) : SimStats :=
  {| totalSent := totalSent s; totalReceived := totalReceived s; totalDropped :=
     totalDropped s; droppedByNoise := droppedByNoise s; droppedByFading :=
     droppedByFading s; droppedBySensitivity := droppedBySensitivity s; snrSamples :=
     snrSamples s; rxPowerSamples := v; fadingSamples := fadingSamples s;
     distanceSamples := distanceSamples s; delaysSamples := delaysSamples s; sendTimes
     := sendTimes s; firstSend := firstSend s; lastRecv := lastRecv s |}.

Definition set_fadingSamples (v : list R) (s : SimStats) : SimStats :=
  {| totalSent := totalSent s; totalReceived := totalReceived s; totalDropped :=
     totalDropped s; droppedByNoise := droppedByNoise s; droppedByFading :=
     droppedByFading s; droppedBySensitivity := droppedBySensitivity s; snrSamples :=
     snrSamples s; rxPowerSamples := rxPowerSamples s; fadingSamples := v;
     distanceSamples := distanceSamples s; delaysSamples := delaysSamples s; sendTimes
     := sendTimes s; firstSend := firstSend s; lastRecv := lastRecv s |}.

Definition set_distanceSamples (v : list R) (s : SimStats) : SimStats :=
  {| totalSent := totalSent s; totalReceived := totalReceived s; totalDropped :=
     totalDropped s; droppedByNoise := droppedByNoise s; droppedByFading :=
     droppedByFading s; droppedBySensitivity := droppedBySensitivity s; snrSamples :=
     snrSamples s; rxPowerSamples := rxPowerSamples s; fadingSamples := fadingSamples s;
     distanceSamples := v; delaysSamples := delaysSamples s; sendTimes := sendTimes s;
     firstSend := firstSend s; lastRecv := lastRecv s |}.

Definition set_delaysSamples (v : list R) (s : SimStats) : SimStats :=
  {| totalSent := totalSent s; totalReceived := totalReceived s; totalDropped :=
     totalDropped s; droppedByNoise := droppedByNoise s; droppedByFading :=
     droppedByFading s; droppedBySensitivity := droppedBySensitivity s; snrSamples :=
     snrSamples s; rxPowerSamples := rxPowerSamples s; fadingSamples := fadingSamples s;
     distanceSamples := distanceSamples s; delaysSamples := v; sendTimes := sendTimes s;
     firstSend := firstSend s; lastRecv := lastRecv s |}.

Definition set_sendTimes (v : gmap N ns3Time) (s : SimStats) : SimStats :=
  {| totalSent := totalSent s; totalReceived := totalReceived s; totalDropped :=
     totalDropped s; droppedByNoise := droppedByNoise s; droppedByFading :=
     droppedByFading s; droppedBySensitivity := droppedBySensitivity s; snrSamples :=
     snrSamples s; rxPowerSamples := rxPowerSamples s; fadingSamples := fadingSamples s;
     distanceSamples := distanceSamples s; delaysSamples := delaysSamples s; sendTimes
     := v; firstSend := firstSend s; lastRecv := lastRecv s |}.

Definition set_firstSend (v : ns3Time) (s : SimStats) : SimStats :=
  {| totalSent := totalSent s; totalReceived := totalReceived s; totalDropped :=
     totalDropped s; droppedByNoise := droppedByNoise s; droppedByFading :=
     droppedByFading s; droppedBySensitivity := droppedBySensitivity s; snrSamples :=
     snrSamples s; rxPowerSamples := rxPowerSamples s; fadingSamples := fadingSamples s;
     distanceSamples := distanceSamples s; delaysSamples := delaysSamples s; sendTimes
     := sendTimes s; firstSend := v; lastRecv := lastRecv s |}.

Definition set_lastRecv (v : ns3Time) (s : SimStats) : SimStats :=
  {| totalSent := totalSent s; totalReceived := totalReceived s; totalDropped :=
     totalDropped s; droppedByNoise := droppedByNoise s; droppedByFading :=
     droppedByFading s; droppedBySensitivity := droppedBySensitivity s; snrSamples :=
     snrSamples s; rxPowerSamples := rxPowerSamples s; fadingSamples := fadingSamples s;
     distanceSamples := distanceSamples s; delaysSamples := delaysSamples s; sendTimes
     := sendTimes s; firstSend := firstSend s; lastRecv := v |}.


(** The initial value of [g_stats] (the member defaults). *)
Definition fresh_stats : SimStats :=
  {| totalSent := 0; totalReceived := 0; totalDropped := 0;
     droppedByNoise := 0; droppedByFading := 0; droppedBySensitivity := 0;
     snrSamples := []; rxPowerSamples := []; fadingSamples := [];
     distanceSamples := []; delaysSamples := []; sendTimes := ∅;
     firstSend := Seconds0; lastRecv := Seconds0 |}.

(** [SimStats::reset]: every member back to its initial value.  No
    callback calls it. *)
Definition reset (s : SimStats) : SimStats := fresh_stats.

Inductive ApsStatus : Type :=
| APS_SUCCESS
| APS_ERROR (code : N).

Section Program.

Variable L : RandomLib.

(** [srcMob->GetDistanceFrom(dstMob)] for the nodes with these ids. *)
Variable GetDistanceFrom : N -> N -> R.

Variable g_channel : ChannelConfig.

(** The globals the callbacks touch: [g_stats], [g_rng], and the calls
    scheduled on the external stack (oldest first). *)
Record World : Type := mkWorld {
  g_stats : SimStats;
  g_rng : engine L;
  scheduled : list StackCall
}.

Definition with_stats (f : SimStats -> SimStats) (w : World) : World :=
  {| g_stats := f (g_stats w); g_rng := g_rng w; scheduled := scheduled w |}.

Definition ScheduleNow (c : StackCall) (w : World) : World :=
  {| g_stats := g_stats w; g_rng := g_rng w; scheduled := scheduled w ++ [c] |}.

(** [std::mt19937 g_rng(42)]. *)
Definition initial : World :=
  {| g_stats := fresh_stats;
     g_rng := seed_engine L 42;
     scheduled := [] |}.

Definition GenerateRayleighFading (g : engine L) : R * engine L :=
  if negb (enableFading g_channel) then (1, g)
  else
    let gaussian := make_normal L 0 (1 / sqrt 2) in
    let '(real, gaussian, g) := sample L gaussian g in
    let '(imag, gaussian, g) := sample L gaussian g in
    (sqrt (real * real + imag * imag), g).

Definition GenerateNoisePower (g : engine L) : R * engine L :=
  if negb (enableNoise g_channel) then (-200, g)
  else
    let variation := make_normal L 0 1 in
    let '(v, variation, g) := sample L variation g in
    (effectiveNoiseDbm g_channel + v, g).

Definition CalculatePathLoss (distance : R) : R :=
  let d := Cpp.max distance (refDistance g_channel) in
  let pathLossDb :=
    refPathLossDb g_channel +
    10 * pathLossExp g_channel * Cpp.log10 (d / refDistance g_channel) in
  pathLossDb.

Definition SimulateChannel (srcId dstId pktSize : N) (w : World) : bool * World :=
  let distance := GetDistanceFrom srcId dstId in
  let st := g_stats w in
  let st := set_distanceSamples (distanceSamples st ++ [distance]) st in
  let pathLossDb := CalculatePathLoss distance in
  let '(fadingCoef, g) := GenerateRayleighFading (g_rng w) in
  let fadingDb := 20 * Cpp.log10 (Cpp.max fadingCoef 1e-10) in
  let rxPowerDbm := txPowerDbm g_channel - pathLossDb + fadingDb in
  let '(noisePowerDbm, g) := GenerateNoisePower g in
  let snrDb := rxPowerDbm - noisePowerDbm in
  let st := set_snrSamples (snrSamples st ++ [snrDb]) st in
  let st := set_rxPowerSamples (rxPowerSamples st ++ [rxPowerDbm]) st in
  let st := set_fadingSamples (fadingSamples st ++ [fadingCoef]) st in
  if Cpp.ltb rxPowerDbm (sensitivityDbm g_channel) then
    let st := set_droppedBySensitivity (Cpp.incr (droppedBySensitivity st)) st in
    (false, mkWorld st g (scheduled w))
  else if Cpp.ltb snrDb (snrThresholdDb g_channel) then
    let st :=
      if Cpp.ltb fadingCoef 0.5 && enableFading g_channel
      then set_droppedByFading (Cpp.incr (droppedByFading st)) st
      else set_droppedByNoise (Cpp.incr (droppedByNoise st)) st in
    (false, mkWorld st g (scheduled w))
  else (true, mkWorld st g (scheduled w)).

(** [g_stats.sendTimes[uid] = Simulator::Now()] (SendSensorData). *)
Definition beginPendingDelivery (uid : N) (now : ns3Time) (st : SimStats) : SimStats :=
  set_sendTimes (<[uid := now]> (sendTimes st)) st.

(** The [if (g_stats.sendTimes.count(uid)) { ... }] block of OnDataReceived. *)
Definition completePendingDelivery (uid : N) (now : ns3Time) (st : SimStats) : SimStats :=
  match sendTimes st !! uid with
  | Some t0 =>
      let delayMs := IZR (GetMilliSeconds (now - t0)%Z) in
      let st := set_delaysSamples (delaysSamples st ++ [delayMs]) st in
      set_sendTimes (delete uid (sendTimes st)) st
  | None => st
  end.

Definition OnDataReceived (stack : N) (now : ns3Time) (uid size : N) (w : World) : World :=
  let w := with_stats (fun st => set_totalReceived (Cpp.incr (totalReceived st)) st) w in
  let w := with_stats (set_lastRecv now) w in
  with_stats (completePendingDelivery uid now) w.

Definition OnDataConfirm (stack : N) (m_status : ApsStatus) (w : World) : World :=
  match m_status with
  | APS_SUCCESS => w
  | APS_ERROR _ => with_stats (fun st => set_totalDropped (Cpp.incr (totalDropped st)) st) w
  end.

Definition OnNetworkFormation (stack : N) (m_status : NwkStatus) (w : World) : World := w.

Definition OnNetworkDiscovery (stack : N) (m_status : NwkStatus)
    (m_netDescList : list NetworkDescriptor) (w : World) : outcome World :=
  if is_success m_status && negb (bool_decide (m_netDescList = [])) then
    match Cpp.at_index m_netDescList 0 with
    | Some d => Ok (ScheduleNow (NlmeJoinRequest stack (m_extPanId d)) w)
    | None => Undefined
    end
  else Ok w.

Definition OnJoinConfirm (stack : N) (m_status : NwkStatus) (w : World) : World :=
  if is_success m_status then ScheduleNow (NlmeStartRouterRequest stack) w else w.

Definition OnRouteDiscovery (stack : N) (m_status : NwkStatus) (w : World) : World := w.

(** [uid] is the uid of the packet [Create<Packet>] returns on the
    delivery path, as converted to the [uint32_t] key of [sendTimes];
    [coordinatorAddr] is the coordinator's network address. *)
Definition SendSensorData (sensor coordinator : N) (now : ns3Time) (uid coordinatorAddr : N)
    (w : World) : World :=
  let srcId := sensor in
  let dstId := coordinator in
  let pktSize := 10%N in
  let w := with_stats (fun st => set_totalSent (Cpp.incr (totalSent st)) st) w in
  let w :=
    if Z.eqb (firstSend (g_stats w)) Seconds0
    then with_stats (set_firstSend now) w else w in
  let '(success, w) := SimulateChannel srcId dstId pktSize w in
  if negb success then
    with_stats (fun st => set_totalDropped (Cpp.incr (totalDropped st)) st) w
  else
    let w := with_stats (beginPendingDelivery uid now) w in
    let params :=
      {| m_srcEndPoint := 1; m_dstEndPoint := Some 1%N; m_clusterId := 0x0402;
         m_profileId := 0x0104; m_dstAddrMode := DST_ADDR16_DST_ENDPOINT_PRESENT;
         m_dstAddr16 := coordinatorAddr |} in
    ScheduleNow (ApsdeDataRequest sensor params uid pktSize) w.

(** What the scheduler and the external stack can make the program do. *)
Inductive Event : Type :=
| EvSendSensorData (sensor coordinator : N) (now : ns3Time) (uid coordinatorAddr : N)
| EvDataReceived (stack : N) (now : ns3Time) (uid size : N)
| EvDataConfirm (stack : N) (m_status : ApsStatus)
| EvNetworkFormation (stack : N) (m_status : NwkStatus)
| EvNetworkDiscovery (stack : N) (m_status : NwkStatus) (m_netDescList : list NetworkDescriptor)
| EvJoinConfirm (stack : N) (m_status : NwkStatus)
| EvRouteDiscovery (stack : N) (m_status : NwkStatus).

Definition step (w : World) (e : Event) : outcome World :=
  match e with
  | EvSendSensorData s c now uid a => Ok (SendSensorData s c now uid a w)
  | EvDataReceived s now uid size => Ok (OnDataReceived s now uid size w)
  | EvDataConfirm s st => Ok (OnDataConfirm s st w)
  | EvNetworkFormation s st => Ok (OnNetworkFormation s st w)
  | EvNetworkDiscovery s st l => OnNetworkDiscovery s st l w
  | EvJoinConfirm s st => Ok (OnJoinConfirm s st w)
  | EvRouteDiscovery s st => Ok (OnRouteDiscovery s st w)
  end.

(** [Simulator::Run]: the callbacks fire one after the other. *)
Fixpoint run (w : World) (tr : list Event) : outcome World :=
  match tr with
  | [] => Ok w
  | e :: tr' =>
      match step w e with
      | Ok w' => run w' tr'
      | Undefined => Undefined
      end
  end.

End Program.

Arguments g_stats {L} w.
Arguments g_rng {L} w.
Arguments scheduled {L} w.
Arguments mkWorld {L} _ _ _.
Arguments with_stats {L} f w.
Arguments ScheduleNow {L} c w.

(** *** Reporting: PrintResults and ExportCSV *)

(** The packet delivery ratio both functions compute. *)
Definition pdr (st : SimStats) : R :=
  if (0 <? totalSent st)%N
  then 100 * IZR (Z.of_N (totalReceived st)) / IZR (Z.of_N (totalSent st))
  else 0.

(** The loops over a sample list.  The sum is accumulated in binary64:
    its addition and the final division round, so they are the parameters
    [fadd] and [fdiv] here, and what is proved of a summary holds whatever
    they round to.  Minimum and maximum are found by comparisons alone. *)
Section Summary.

Variable fadd : R -> R -> R.
Variable fdiv : R -> R -> R.

(** One round: [sum += s; mn = std::min(mn, s); mx = std::max(mx, s);]. *)
Definition summary_step (acc : R * R * R) (s : R) : R * R * R :=
  let '(sum, mn, mx) := acc in (fadd sum s, Cpp.min mn s, Cpp.max mx s).

(** Average, minimum and maximum of a sample list as ExportCSV computes
    them: all 0 for an empty list; otherwise minimum and maximum start at
    the first sample, the loop visits every sample, and the sum is divided
    by the size.  PrintResults runs the same loop on SNR, distance and
    delay samples when the list is not empty. *)
Definition summary (samples : list R) : R * R * R :=
  match samples with
  | [] => (0, 0, 0)
  | s0 :: _ =>
      let '(sum, mn, mx) := fold_left summary_step samples (0, s0, s0) in
      (fdiv sum (INR (length samples)), mn, mx)
  end.

(** [avgDelay] of ExportCSV. *)
Definition average (samples : list R) : R :=
  match samples with
  | [] => 0
  | _ :: _ => fdiv (fold_left fadd samples 0) (INR (length samples))
  end.

End Summary.

(** *** The events [main] schedules *)

Inductive Action : Type :=
| CallNetworkFormationRequest (node : N)
| CallNetworkDiscoveryRequest (node : N)
| CallRouteDiscoveryRequest (node : N)
| CallSendSensorData (sensor coordinator : N)
| CallPrintResults
| CallExportCSV.

(** [for (uint32_t i = 1; i < numNodes; i++) { schedule the discovery of
    node i at joinTime; joinTime += 2.0; }]: the iterations left, the
    current [i] and [joinTime]; returns the scheduled events and the final
    [joinTime]. *)
Fixpoint join_loop (iterations : nat) (i : N) (joinTime : R) : list (R * Action) * R :=
  match iterations with
  | O => ([], joinTime)
  | S k =>
      let '(rest, final) := join_loop k (i + 1)%N (joinTime + 2) in
      ((joinTime, CallNetworkDiscoveryRequest i) :: rest, final)
  end.

(** [for (uint32_t i = 0; i < numPackets; i++) schedule SendSensorData at
    dataStartTime + i * packetInterval]. *)
Fixpoint send_loop (iterations : nat) (i : N) (dataStartTime packetInterval : R)
    (sensor coordinator : N) : list (R * Action) :=
  match iterations with
  | O => []
  | S k =>
      (dataStartTime + IZR (Z.of_N i) * packetInterval, CallSendSensorData sensor coordinator)
      :: send_loop k (i + 1)%N dataStartTime packetInterval sensor coordinator
  end.

(** The events of [main] with their times in seconds, in the order they
    are scheduled.  The coordinator is node 0 and the sensor node
    [numNodes - 1]. *)
Definition main_schedule (cl : CommandLine) : list (R * Action) :=
  let numNodes := cl_nodes cl in
  let coordinator := 0%N in
  let sensor := Cpp.decr numNodes in
  let formation := [(1, CallNetworkFormationRequest coordinator)] in
  let '(joins, joinTime) := join_loop (N.to_nat (numNodes - 1)) 1 3 in
  let routeTime := joinTime + 3 in
  let route := [(routeTime, CallRouteDiscoveryRequest coordinator)] in
  let dataStartTime := routeTime + 5 in
  let sends :=
    send_loop (N.to_nat (cl_packets cl)) 0 dataStartTime (cl_interval cl) sensor coordinator in
  let simTime := IZR (Z.of_N (cl_time cl)) in
  formation ++ joins ++ route ++ sends
  ++ [(simTime - 1, CallPrintResults); (simTime - 0.5, CallExportCSV)].

End Extended.

(** ** smart-home-zigbee-complete-ver3.cc *)

Module Ver3.

Local Open Scope R_scope.

(** Power consumption constants. *)
Definition TX_POWER : R := 35.
Definition RX_POWER : R := 25.
Definition IDLE_POWER : R := 0.3.

(** Channel model parameters. *)
Definition NOISE_FLOOR_DBM : R := -95.
Definition TX_POWER_DBM : R := 0.
Definition REFERENCE_DISTANCE : R := 1.
Definition PATH_LOSS_EXPONENT : R := 3.
Definition SNR_THRESHOLD_DB : R := 6.

(** Group addresses. *)
Definition GROUP_LIVING_ROOM : N := 1.
Definition GROUP_BEDROOM : N := 2.
Definition GROUP_ALL_LIGHTS : N := 3.

(** [struct NetworkStats]. *)
Record NetworkStats : Type := mkNetworkStats {
  packetsTransmitted : N;
  packetsReceived : N;
  packetsFailed : N;
  bytesTransmitted : N;
  bytesReceived : N;
  routeDiscoveries : N;
  joinAttempts : N;
  joinSuccesses : N;
  groupCommands : N;
  packetsDroppedByNoise : N;
  packetsDroppedByFading : N;
  snrValues : list R;
  fadingCoefficients : list R;
  firstPacketTime : ns3Time;
  lastPacketTime : ns3Time;
  packetSendTimes : gmap N ns3Time;
  delays : list R;
  totalTxPower : R;
  totalRxPower : R;
  totalIdlePower : R;
  nodePacketsSent : gmap N N;
  nodePacketsReceived : gmap N N
}.

Definition set_packetsTransmitted (v : N) (s : NetworkStats) : NetworkStats :=
  {| packetsTransmitted := v; packetsReceived := packetsReceived s; packetsFailed :=
     packetsFailed s; bytesTransmitted := bytesTransmitted s; bytesReceived :=
     bytesReceived s; routeDiscoveries := routeDiscoveries s; joinAttempts :=
     joinAttempts s; joinSuccesses := joinSuccesses s; groupCommands := groupCommands s;
     packetsDroppedByNoise := packetsDroppedByNoise s; packetsDroppedByFading :=
     packetsDroppedByFading s; snrValues := snrValues s; fadingCoefficients :=
     fadingCoefficients s; firstPacketTime := firstPacketTime s; lastPacketTime :=
     lastPacketTime s; packetSendTimes := packetSendTimes s; delays := delays s;
     totalTxPower := totalTxPower s; totalRxPower := totalRxPower s; totalIdlePower :=
     totalIdlePower s; nodePacketsSent := nodePacketsSent s; nodePacketsReceived :=
     nodePacketsReceived s |}.

Definition set_packetsReceived (v : N) (s : NetworkStats) : NetworkStats :=
  {| packetsTransmitted := packetsTransmitted s; packetsReceived := v; packetsFailed :=
     packetsFailed s; bytesTransmitted := bytesTransmitted s; bytesReceived :=
     bytesReceived s; routeDiscoveries := routeDiscoveries s; joinAttempts :=
     joinAttempts s; joinSuccesses := joinSuccesses s; groupCommands := groupCommands s;
     packetsDroppedByNoise := packetsDroppedByNoise s; packetsDroppedByFading :=
     packetsDroppedByFading s; snrValues := snrValues s; fadingCoefficients :=
     fadingCoefficients s; firstPacketTime := firstPacketTime s; lastPacketTime :=
     lastPacketTime s; packetSendTimes := packetSendTimes s; delays := delays s;
     totalTxPower := totalTxPower s; totalRxPower := totalRxPower s; totalIdlePower :=
     totalIdlePower s; nodePacketsSent := nodePacketsSent s; nodePacketsReceived :=
     nodePacketsReceived s |}.

Definition set_packetsFailed (v : N) (s : NetworkStats) : NetworkStats :=
  {| packetsTransmitted := packetsTransmitted s; packetsReceived := packetsReceived s;
     packetsFailed := v; bytesTransmitted := bytesTransmitted s; bytesReceived :=
     bytesReceived s; routeDiscoveries := routeDiscoveries s; joinAttempts :=
     joinAttempts s; joinSuccesses := joinSuccesses s; groupCommands := groupCommands s;
     packetsDroppedByNoise := packetsDroppedByNoise s; packetsDroppedByFading :=
     packetsDroppedByFading s; snrValues := snrValues s; fadingCoefficients :=
     fadingCoefficients s; firstPacketTime := firstPacketTime s; lastPacketTime :=
     lastPacketTime s; packetSendTimes := packetSendTimes s; delays := delays s;
     totalTxPower := totalTxPower s; totalRxPower := totalRxPower s; totalIdlePower :=
     totalIdlePower s; nodePacketsSent := nodePacketsSent s; nodePacketsReceived :=
     nodePacketsReceived s |}.

Definition set_bytesTransmitted (v : N) (s : NetworkStats) : NetworkStats :=
  {| packetsTransmitted := packetsTransmitted s; packetsReceived := packetsReceived s;
     packetsFailed := packetsFailed s; bytesTransmitted := v; bytesReceived :=
     bytesReceived s; routeDiscoveries := routeDiscoveries s; joinAttempts :=
     joinAttempts s; joinSuccesses := joinSuccesses s; groupCommands := groupCommands s;
     packetsDroppedByNoise := packetsDroppedByNoise s; packetsDroppedByFading :=
     packetsDroppedByFading s; snrValues := snrValues s; fadingCoefficients :=
     fadingCoefficients s; firstPacketTime := firstPacketTime s; lastPacketTime :=
     lastPacketTime s; packetSendTimes := packetSendTimes s; delays := delays s;
     totalTxPower := totalTxPower s; totalRxPower := totalRxPower s; totalIdlePower :=
     totalIdlePower s; nodePacketsSent := nodePacketsSent s; nodePacketsReceived :=
     nodePacketsReceived s |}.

Definition set_bytesReceived (v : N) (s : NetworkStats) : NetworkStats :=
  {| packetsTransmitted := packetsTransmitted s; packetsReceived := packetsReceived s;
     packetsFailed := packetsFailed s; bytesTransmitted := bytesTransmitted s;
     bytesReceived := v; routeDiscoveries := routeDiscoveries s; joinAttempts :=
     joinAttempts s; joinSuccesses := joinSuccesses s; groupCommands := groupCommands s;
     packetsDroppedByNoise := packetsDroppedByNoise s; packetsDroppedByFading :=
     packetsDroppedByFading s; snrValues := snrValues s; fadingCoefficients :=
     fadingCoefficients s; firstPacketTime := firstPacketTime s; lastPacketTime :=
     lastPacketTime s; packetSendTimes := packetSendTimes s; delays := delays s;
     totalTxPower := totalTxPower s; totalRxPower := totalRxPower s; totalIdlePower :=
     totalIdlePower s; nodePacketsSent := nodePacketsSent s; nodePacketsReceived :=
     nodePacketsReceived s |}.

Definition set_routeDiscoveries (v : N) (s : NetworkStats) : NetworkStats :=
  {| packetsTransmitted := packetsTransmitted s; packetsReceived := packetsReceived s;
     packetsFailed := packetsFailed s; bytesTransmitted := bytesTransmitted s;
     bytesReceived := bytesReceived s; routeDiscoveries := v; joinAttempts :=
     joinAttempts s; joinSuccesses := joinSuccesses s; groupCommands := groupCommands s;
     packetsDroppedByNoise := packetsDroppedByNoise s; packetsDroppedByFading :=
     packetsDroppedByFading s; snrValues := snrValues s; fadingCoefficients :=
     fadingCoefficients s; firstPacketTime := firstPacketTime s; lastPacketTime :=
     lastPacketTime s; packetSendTimes := packetSendTimes s; delays := delays s;
     totalTxPower := totalTxPower s; totalRxPower := totalRxPower s; totalIdlePower :=
     totalIdlePower s; nodePacketsSent := nodePacketsSent s; nodePacketsReceived :=
     nodePacketsReceived s |}.

Definition set_joinAttempts (v : N) (s : NetworkStats) : NetworkStats :=
  {| packetsTransmitted := packetsTransmitted s; packetsReceived := packetsReceived s;
     packetsFailed := packetsFailed s; bytesTransmitted := bytesTransmitted s;
     bytesReceived := bytesReceived s; routeDiscoveries := routeDiscoveries s;
     joinAttempts := v; joinSuccesses := joinSuccesses s; groupCommands := groupCommands
     s; packetsDroppedByNoise := packetsDroppedByNoise s; packetsDroppedByFading :=
     packetsDroppedByFading s; snrValues := snrValues s; fadingCoefficients :=
     fadingCoefficients s; firstPacketTime := firstPacketTime s; lastPacketTime :=
     lastPacketTime s; packetSendTimes := packetSendTimes s; delays := delays s;
     totalTxPower := totalTxPower s; totalRxPower := totalRxPower s; totalIdlePower :=
     totalIdlePower s; nodePacketsSent := nodePacketsSent s; nodePacketsReceived :=
     nodePacketsReceived s |}.

Definition set_joinSuccesses (v : N) (s : NetworkStats) : NetworkStats :=
  {| packetsTransmitted := packetsTransmitted s; packetsReceived := packetsReceived s;
     packetsFailed := packetsFailed s; bytesTransmitted := bytesTransmitted s;
     bytesReceived := bytesReceived s; routeDiscoveries := routeDiscoveries s;
     joinAttempts := joinAttempts s; joinSuccesses := v; groupCommands := groupCommands
     s; packetsDroppedByNoise := packetsDroppedByNoise s; packetsDroppedByFading :=
     packetsDroppedByFading s; snrValues := snrValues s; fadingCoefficients :=
     fadingCoefficients s; firstPacketTime := firstPacketTime s; lastPacketTime :=
     lastPacketTime s; packetSendTimes := packetSendTimes s; delays := delays s;
     totalTxPower := totalTxPower s; totalRxPower := totalRxPower s; totalIdlePower :=
     totalIdlePower s; nodePacketsSent := nodePacketsSent s; nodePacketsReceived :=
     nodePacketsReceived s |}.

Definition set_groupCommands (v : N) (s : NetworkStats) : NetworkStats :=
  {| packetsTransmitted := packetsTransmitted s; packetsReceived := packetsReceived s;
     packetsFailed := packetsFailed s; bytesTransmitted := bytesTransmitted s;
     bytesReceived := bytesReceived s; routeDiscoveries := routeDiscoveries s;
     joinAttempts := joinAttempts s; joinSuccesses := joinSuccesses s; groupCommands :=
     v; packetsDroppedByNoise := packetsDroppedByNoise s; packetsDroppedByFading :=
     packetsDroppedByFading s; snrValues := snrValues s; fadingCoefficients :=
     fadingCoefficients s; firstPacketTime := firstPacketTime s; lastPacketTime :=
     lastPacketTime s; packetSendTimes := packetSendTimes s; delays := delays s;
     totalTxPower := totalTxPower s; totalRxPower := totalRxPower s; totalIdlePower :=
     totalIdlePower s; nodePacketsSent := nodePacketsSent s; nodePacketsReceived :=
     nodePacketsReceived s |}.

Definition set_packetsDroppedByNoise (v : N) (s : NetworkStats) : NetworkStats :=
  {| packetsTransmitted := packetsTransmitted s; packetsReceived := packetsReceived s;
     packetsFailed := packetsFailed s; bytesTransmitted := bytesTransmitted s;
     bytesReceived := bytesReceived s; routeDiscoveries := routeDiscoveries s;
     joinAttempts := joinAttempts s; joinSuccesses := joinSuccesses s; groupCommands :=
     groupCommands s; packetsDroppedByNoise := v; packetsDroppedByFading :=
     packetsDroppedByFading s; snrValues := snrValues s; fadingCoefficients :=
     fadingCoefficients s; firstPacketTime := firstPacketTime s; lastPacketTime :=
     lastPacketTime s; packetSendTimes := packetSendTimes s; delays := delays s;
     totalTxPower := totalTxPower s; totalRxPower := totalRxPower s; totalIdlePower :=
     totalIdlePower s; nodePacketsSent := nodePacketsSent s; nodePacketsReceived :=
     nodePacketsReceived s |}.

Definition set_packetsDroppedByFading (v : N) (s : NetworkStats) : NetworkStats :=
  {| packetsTransmitted := packetsTransmitted s; packetsReceived := packetsReceived s;
     packetsFailed := packetsFailed s; bytesTransmitted := bytesTransmitted s;
     bytesReceived := bytesReceived s; routeDiscoveries := routeDiscoveries s;
     joinAttempts := joinAttempts s; joinSuccesses := joinSuccesses s; groupCommands :=
     groupCommands s; packetsDroppedByNoise := packetsDroppedByNoise s;
     packetsDroppedByFading := v; snrValues := snrValues s; fadingCoefficients :=
     fadingCoefficients s; firstPacketTime := firstPacketTime s; lastPacketTime :=
     lastPacketTime s; packetSendTimes := packetSendTimes s; delays := delays s;
     totalTxPower := totalTxPower s; totalRxPower := totalRxPower s; totalIdlePower :=
     totalIdlePower s; nodePacketsSent := nodePacketsSent s; nodePacketsReceived :=
     nodePacketsReceived s |}.

Definition set_snrValues (v : list R) (s : NetworkStats) : NetworkStats :=
  {| packetsTransmitted := packetsTransmitted s; packetsReceived := packetsReceived s;
     packetsFailed := packetsFailed s; bytesTransmitted := bytesTransmitted s;
     bytesReceived := bytesReceived s; routeDiscoveries := routeDiscoveries s;
     joinAttempts := joinAttempts s; joinSuccesses := joinSuccesses s; groupCommands :=
     groupCommands s; packetsDroppedByNoise := packetsDroppedByNoise s;
     packetsDroppedByFading := packetsDroppedByFading s; snrValues := v;
     fadingCoefficients := fadingCoefficients s; firstPacketTime := firstPacketTime s;
     lastPacketTime := lastPacketTime s; packetSendTimes := packetSendTimes s; delays :=
     delays s; totalTxPower := totalTxPower s; totalRxPower := totalRxPower s;
     totalIdlePower := totalIdlePower s; nodePacketsSent := nodePacketsSent s;
     nodePacketsReceived := nodePacketsReceived s |}.

Definition set_fadingCoefficients (v : list R) (s : NetworkStats) : NetworkStats :=
  {| packetsTransmitted := packetsTransmitted s; packetsReceived := packetsReceived s;
     packetsFailed := packetsFailed s; bytesTransmitted := bytesTransmitted s;
     bytesReceived := bytesReceived s; routeDiscoveries := routeDiscoveries s;
     joinAttempts := joinAttempts s; joinSuccesses := joinSuccesses s; groupCommands :=
     groupCommands s; packetsDroppedByNoise := packetsDroppedByNoise s;
     packetsDroppedByFading := packetsDroppedByFading s; snrValues := snrValues s;
     fadingCoefficients := v; firstPacketTime := firstPacketTime s; lastPacketTime :=
     lastPacketTime s; packetSendTimes := packetSendTimes s; delays := delays s;
     totalTxPower := totalTxPower s; totalRxPower := totalRxPower s; totalIdlePower :=
     totalIdlePower s; nodePacketsSent := nodePacketsSent s; nodePacketsReceived :=
     nodePacketsReceived s |}.

Definition set_firstPacketTime (v : ns3Time) (s : NetworkStats) : NetworkStats :=
  {| packetsTransmitted := packetsTransmitted s; packetsReceived := packetsReceived s;
     packetsFailed := packetsFailed s; bytesTransmitted := bytesTransmitted s;
     bytesReceived := bytesReceived s; routeDiscoveries := routeDiscoveries s;
     joinAttempts := joinAttempts s; joinSuccesses := joinSuccesses s; groupCommands :=
     groupCommands s; packetsDroppedByNoise := packetsDroppedByNoise s;
     packetsDroppedByFading := packetsDroppedByFading s; snrValues := snrValues s;
     fadingCoefficients := fadingCoefficients s; firstPacketTime := v; lastPacketTime :=
     lastPacketTime s; packetSendTimes := packetSendTimes s; delays := delays s;
     totalTxPower := totalTxPower s; totalRxPower := totalRxPower s; totalIdlePower :=
     totalIdlePower s; nodePacketsSent := nodePacketsSent s; nodePacketsReceived :=
     nodePacketsReceived s |}.

Definition set_lastPacketTime (v : ns3Time) (s : NetworkStats) : NetworkStats :=
  {| packetsTransmitted := packetsTransmitted s; packetsReceived := packetsReceived s;
     packetsFailed := packetsFailed s; bytesTransmitted := bytesTransmitted s;
     bytesReceived := bytesReceived s; routeDiscoveries := routeDiscoveries s;
     joinAttempts := joinAttempts s; joinSuccesses := joinSuccesses s; groupCommands :=
     groupCommands s; packetsDroppedByNoise := packetsDroppedByNoise s;
     packetsDroppedByFading := packetsDroppedByFading s; snrValues := snrValues s;
     fadingCoefficients := fadingCoefficients s; firstPacketTime := firstPacketTime s;
     lastPacketTime := v; packetSendTimes := packetSendTimes s; delays := delays s;
     totalTxPower := totalTxPower s; totalRxPower := totalRxPower s; totalIdlePower :=
     totalIdlePower s; nodePacketsSent := nodePacketsSent s; nodePacketsReceived :=
     nodePacketsReceived s |}.

Definition set_packetSendTimes (v : gmap N ns3Time) (s : NetworkStats) : NetworkStats :=
  {| packetsTransmitted := packetsTransmitted s; packetsReceived := packetsReceived s;
     packetsFailed := packetsFailed s; bytesTransmitted := bytesTransmitted s;
     bytesReceived := bytesReceived s; routeDiscoveries := routeDiscoveries s;
     joinAttempts := joinAttempts s; joinSuccesses := joinSuccesses s; groupCommands :=
     groupCommands s; packetsDroppedByNoise := packetsDroppedByNoise s;
     packetsDroppedByFading := packetsDroppedByFading s; snrValues := snrValues s;
     fadingCoefficients := fadingCoefficients s; firstPacketTime := firstPacketTime s;
     lastPacketTime := lastPacketTime s; packetSendTimes := v; delays := delays s;
     totalTxPower := totalTxPower s; totalRxPower := totalRxPower s; totalIdlePower :=
     totalIdlePower s; nodePacketsSent := nodePacketsSent s; nodePacketsReceived :=
     nodePacketsReceived s |}.

Definition set_delays (v : list R) (s : NetworkStats) : NetworkStats :=
  {| packetsTransmitted := packetsTransmitted s; packetsReceived := packetsReceived s;
     packetsFailed := packetsFailed s; bytesTransmitted := bytesTransmitted s;
     bytesReceived := bytesReceived s; routeDiscoveries := routeDiscoveries s;
     joinAttempts := joinAttempts s; joinSuccesses := joinSuccesses s; groupCommands :=
     groupCommands s; packetsDroppedByNoise := packetsDroppedByNoise s;
     packetsDroppedByFading := packetsDroppedByFading s; snrValues := snrValues s;
     fadingCoefficients := fadingCoefficients s; firstPacketTime := firstPacketTime s;
     lastPacketTime := lastPacketTime s; packetSendTimes := packetSendTimes s; delays :=
     v; totalTxPower := totalTxPower s; totalRxPower := totalRxPower s; totalIdlePower
     := totalIdlePower s; nodePacketsSent := nodePacketsSent s; nodePacketsReceived :=
     nodePacketsReceived s |}.

Definition set_totalTxPower (v : R) (s : NetworkStats) : NetworkStats :=
  {| packetsTransmitted := packetsTransmitted s; packetsReceived := packetsReceived s;
     packetsFailed := packetsFailed s; bytesTransmitted := bytesTransmitted s;
     bytesReceived := bytesReceived s; routeDiscoveries := routeDiscoveries s;
     joinAttempts := joinAttempts s; joinSuccesses := joinSuccesses s; groupCommands :=
     groupCommands s; packetsDroppedByNoise := packetsDroppedByNoise s;
     packetsDroppedByFading := packetsDroppedByFading s; snrValues := snrValues s;
     fadingCoefficients := fadingCoefficients s; firstPacketTime := firstPacketTime s;
     lastPacketTime := lastPacketTime s; packetSendTimes := packetSendTimes s; delays :=
     delays s; totalTxPower := v; totalRxPower := totalRxPower s; totalIdlePower :=
     totalIdlePower s; nodePacketsSent := nodePacketsSent s; nodePacketsReceived :=
     nodePacketsReceived s |}.

Definition set_totalRxPower (v : R) (s : NetworkStats) : NetworkStats :=
  {| packetsTransmitted := packetsTransmitted s; packetsReceived := packetsReceived s;
     packetsFailed := packetsFailed s; bytesTransmitted := bytesTransmitted s;
     bytesReceived := bytesReceived s; routeDiscoveries := routeDiscoveries s;
     joinAttempts := joinAttempts s; joinSuccesses := joinSuccesses s; groupCommands :=
     groupCommands s; packetsDroppedByNoise := packetsDroppedByNoise s;
     packetsDroppedByFading := packetsDroppedByFading s; snrValues := snrValues s;
     fadingCoefficients := fadingCoefficients s; firstPacketTime := firstPacketTime s;
     lastPacketTime := lastPacketTime s; packetSendTimes := packetSendTimes s; delays :=
     delays s; totalTxPower := totalTxPower s; totalRxPower := v; totalIdlePower :=
     totalIdlePower s; nodePacketsSent := nodePacketsSent s; nodePacketsReceived :=
     nodePacketsReceived s |}.

Definition set_totalIdlePower (v : R) (s : NetworkStats) : NetworkStats :=
  {| packetsTransmitted := packetsTransmitted s; packetsReceived := packetsReceived s;
     packetsFailed := packetsFailed s; bytesTransmitted := bytesTransmitted s;
     bytesReceived := bytesReceived s; routeDiscoveries := routeDiscoveries s;
     joinAttempts := joinAttempts s; joinSuccesses := joinSuccesses s; groupCommands :=
     groupCommands s; packetsDroppedByNoise := packetsDroppedByNoise s;
     packetsDroppedByFading := packetsDroppedByFading s; snrValues := snrValues s;
     fadingCoefficients := fadingCoefficients s; firstPacketTime := firstPacketTime s;
     lastPacketTime := lastPacketTime s; packetSendTimes := packetSendTimes s; delays :=
     delays s; totalTxPower := totalTxPower s; totalRxPower := totalRxPower s;
     totalIdlePower := v; nodePacketsSent := nodePacketsSent s; nodePacketsReceived :=
     nodePacketsReceived s |}.

Definition set_nodePacketsSent (v : gmap N N) (s : NetworkStats) : NetworkStats :=
  {| packetsTransmitted := packetsTransmitted s; packetsReceived := packetsReceived s;
     packetsFailed := packetsFailed s; bytesTransmitted := bytesTransmitted s;
     bytesReceived := bytesReceived s; routeDiscoveries := routeDiscoveries s;
     joinAttempts := joinAttempts s; joinSuccesses := joinSuccesses s; groupCommands :=
     groupCommands s; packetsDroppedByNoise := packetsDroppedByNoise s;
     packetsDroppedByFading := packetsDroppedByFading s; snrValues := snrValues s;
     fadingCoefficients := fadingCoefficients s; firstPacketTime := firstPacketTime s;
     lastPacketTime := lastPacketTime s; packetSendTimes := packetSendTimes s; delays :=
     delays s; totalTxPower := totalTxPower s; totalRxPower := totalRxPower s;
     totalIdlePower := totalIdlePower s; nodePacketsSent := v; nodePacketsReceived :=
     nodePacketsReceived s |}.

Definition set_nodePacketsReceived (v : gmap N N) (s : NetworkStats) : NetworkStats :=
  {| packetsTransmitted := packetsTransmitted s; packetsReceived := packetsReceived s;
     packetsFailed := packetsFailed s; bytesTransmitted := bytesTransmitted s;
     bytesReceived := bytesReceived s; routeDiscoveries := routeDiscoveries s;
     joinAttempts := joinAttempts s; joinSuccesses := joinSuccesses s; groupCommands :=
     groupCommands s; packetsDroppedByNoise := packetsDroppedByNoise s;
     packetsDroppedByFading := packetsDroppedByFading s; snrValues := snrValues s;
     fadingCoefficients := fadingCoefficients s; firstPacketTime := firstPacketTime s;
     lastPacketTime := lastPacketTime s; packetSendTimes := packetSendTimes s; delays :=
     delays s; totalTxPower := totalTxPower s; totalRxPower := totalRxPower s;
     totalIdlePower := totalIdlePower s; nodePacketsSent := nodePacketsSent s;
     nodePacketsReceived := v |}.


Definition fresh_stats : NetworkStats :=
  {| packetsTransmitted := 0; packetsReceived := 0; packetsFailed := 0;
     bytesTransmitted := 0; bytesReceived := 0; routeDiscoveries := 0;
     joinAttempts := 0; joinSuccesses := 0; groupCommands := 0;
     packetsDroppedByNoise := 0; packetsDroppedByFading := 0;
     snrValues := []; fadingCoefficients := [];
     firstPacketTime := Seconds0; lastPacketTime := Seconds0;
     packetSendTimes := ∅; delays := [];
     totalTxPower := 0; totalRxPower := 0; totalIdlePower := 0;
     nodePacketsSent := ∅; nodePacketsReceived := ∅ |}.

Inductive ApsStatus : Type :=
| APS_SUCCESS
| APS_ERROR (code : N).

(** The fields of [ApsdeDataIndicationParams] the callback reads. *)
Record ApsdeDataIndicationParams : Type := mkIndication {
  ind_dstAddrMode : ApsDstAddressMode;
  ind_dstEndPoint : N;
  ind_clusterId : N
}.

(** The command-line values [main] reads (the file name left out). *)
Record CommandLine : Type := mkCommandLine {
  numNodes : N;
  simTime : N;
  verbose : bool;
  manyToOne : bool;
  exportCSV : bool;
  enableNoise : bool;
  enableFading : bool;
  snrThreshold : R
}.

Section Program.

Variable L : RandomLib.

(** [srcMobility->GetDistanceFrom(dstMobility)] for the nodes with these ids. *)
Variable GetDistanceFrom : N -> N -> R.

(** The globals the callbacks touch: [g_stats], [gen], and the calls
    scheduled on the external stack (oldest first). *)
Record World : Type := mkWorld {
  g_stats : NetworkStats;
  gen : engine L;
  scheduled : list StackCall
}.

Definition with_stats (f : NetworkStats -> NetworkStats) (w : World) : World :=
  {| g_stats := f (g_stats w); gen := gen w; scheduled := scheduled w |}.

Definition ScheduleNow (c : StackCall) (w : World) : World :=
  {| g_stats := g_stats w; gen := gen w; scheduled := scheduled w ++ [c] |}.

(** [std::random_device rd; std::mt19937 gen(rd());] where [rd] is the
    value the device returned. *)
Definition initial (rd : N) : World :=
  {| g_stats := fresh_stats; gen := seed_engine L rd; scheduled := [] |}.

Definition GenerateRayleighFading (g : engine L) : R * engine L :=
  let gaussian := make_normal L 0 1 in
  let '(real, gaussian, g) := sample L gaussian g in
  let '(imag, gaussian, g) := sample L gaussian g in
  let amplitude := sqrt (real * real + imag * imag) in
  let amplitude := amplitude / sqrt 2 in
  (amplitude, g).

Definition CalculatePathLoss (distance : R) : R :=
  let distance :=
    if Cpp.ltb distance REFERENCE_DISTANCE then REFERENCE_DISTANCE else distance in
  let pathLoss :=
    40 + 10 * PATH_LOSS_EXPONENT * Cpp.log10 (distance / REFERENCE_DISTANCE) in
  pathLoss.

Definition GenerateGaussianNoise (g : engine L) : R * engine L :=
  let gaussian := make_normal L 0 1 in
  let '(noiseSample, gaussian, g) := sample L gaussian g in
  let noiseDbm := NOISE_FLOOR_DBM + noiseSample * 3 in
  (noiseDbm, g).

(** Returns the received power, the fading coefficient written through the
    reference argument, and the generator. *)
Definition CalculateReceivedPower (distance : R) (g : engine L) : R * R * engine L :=
  let '(fadingCoeff, g) := GenerateRayleighFading g in
  let fadingDb := 20 * Cpp.log10 fadingCoeff in
  let pathLossDb := CalculatePathLoss distance in
  let rxPowerDbm := TX_POWER_DBM - pathLossDb + fadingDb in
  (rxPowerDbm, fadingCoeff, g).

Definition CalculateSNR (rxPowerDbm noisePowerDbm : R) : R :=
  rxPowerDbm - noisePowerDbm.

Definition SimulateChannelEffects (srcNodeId dstNodeId : N) (w : World) : bool * World :=
  let distance := GetDistanceFrom srcNodeId dstNodeId in
  let '(rxPowerDbm, fadingCoeff, g) := CalculateReceivedPower distance (gen w) in
  let '(noisePowerDbm, g) := GenerateGaussianNoise g in
  let snrDb := CalculateSNR rxPowerDbm noisePowerDbm in
  let st := g_stats w in
  let st := set_snrValues (snrValues st ++ [snrDb]) st in
  let st := set_fadingCoefficients (fadingCoefficients st ++ [fadingCoeff]) st in
  if Cpp.ltb snrDb SNR_THRESHOLD_DB then
    let st :=
      if Cpp.ltb fadingCoeff 0.5
      then set_packetsDroppedByFading (Cpp.incr (packetsDroppedByFading st)) st
      else set_packetsDroppedByNoise (Cpp.incr (packetsDroppedByNoise st)) st in
    (false, mkWorld st g (scheduled w))
  else (true, mkWorld st g (scheduled w)).

Definition CalculateTransmissionTime (packetSize : N) : R :=
  let totalBytes := Cpp.add32 (Cpp.add32 (Cpp.add32 packetSize 6) 25) 8 in
  IZR (Z.of_N totalBytes) * 8 / 250000 * 1000.

Definition AddTransmissionPower (packetSize : N) (st : NetworkStats) : NetworkStats :=
  let txTime := CalculateTransmissionTime packetSize in
  set_totalTxPower (totalTxPower st + TX_POWER * txTime / 1000) st.

Definition AddReceptionPower (packetSize : N) (st : NetworkStats) : NetworkStats :=
  let rxTime := CalculateTransmissionTime packetSize in
  set_totalRxPower (totalRxPower st + RX_POWER * rxTime / 1000) st.

(** [g_stats.packetSendTimes[p->GetUid()] = Simulator::Now()]. *)
Definition beginPendingDelivery (uid : N) (now : ns3Time) (st : NetworkStats) : NetworkStats :=
  set_packetSendTimes (<[uid := now]> (packetSendTimes st)) st.

(** The [if (g_stats.packetSendTimes.find(packetUid) != ...end()) { ... }]
    block of ApsDataIndication. *)
Definition completePendingDelivery (uid : N) (now : ns3Time) (st : NetworkStats) : NetworkStats :=
  match packetSendTimes st !! uid with
  | Some t0 =>
      let delay := (now - t0)%Z in
      let st := set_delays (delays st ++ [IZR (GetMilliSeconds delay)]) st in
      set_packetSendTimes (delete uid (packetSendTimes st)) st
  | None => st
  end.

Definition ApsDataIndication (stack : N) (params : ApsdeDataIndicationParams)
    (now : ns3Time) (uid size : N) (w : World) : World :=
  let st := g_stats w in
  let st := set_packetsReceived (Cpp.incr (packetsReceived st)) st in
  let st := set_bytesReceived (Cpp.add32 (bytesReceived st) size) st in
  let nodeId := stack in
  let st := set_nodePacketsReceived (Cpp.map_incr nodeId (nodePacketsReceived st)) st in
  let st := set_lastPacketTime now st in
  let st := completePendingDelivery uid now st in
  let st := AddReceptionPower size st in
  let st :=
    match ind_dstAddrMode params with
    | DST_ADDR16_DST_ENDPOINT_PRESENT => st
    | GROUP_ADDR_DST_ENDPOINT_NOT_PRESENT =>
        set_groupCommands (Cpp.incr (groupCommands st)) st
    | DST_ADDR_MODE_OTHER => st
    end in
  mkWorld st (gen w) (scheduled w).

Definition ApsDataConfirm (stack : N) (m_status : ApsStatus) (w : World) : World :=
  match m_status with
  | APS_SUCCESS => w
  | APS_ERROR _ => with_stats (fun st => set_packetsFailed (Cpp.incr (packetsFailed st)) st) w
  end.

Definition NwkNetworkFormationConfirm (stack : N) (m_status : NwkStatus) (w : World) : World := w.

Definition NwkNetworkDiscoveryConfirm (stack : N) (m_status : NwkStatus)
    (m_netDescList : list NetworkDescriptor) (w : World) : outcome World :=
  if is_success m_status then
    match Cpp.at_index m_netDescList 0 with
    | Some d =>
        let w := with_stats (fun st => set_joinAttempts (Cpp.incr (joinAttempts st)) st) w in
        Ok (ScheduleNow (NlmeJoinRequest stack (m_extPanId d)) w)
    | None => Undefined
    end
  else Ok w.

Definition NwkJoinConfirm (stack : N) (m_status : NwkStatus) (w : World) : World :=
  if is_success m_status then
    let w := with_stats (fun st => set_joinSuccesses (Cpp.incr (joinSuccesses st)) st) w in
    ScheduleNow (NlmeStartRouterRequest stack) w
  else w.

Definition NwkRouteDiscoveryConfirm (stack : N) (m_status : NwkStatus) (w : World) : World :=
  with_stats (fun st => set_routeDiscoveries (Cpp.incr (routeDiscoveries st)) st) w.

(** [uid] is the uid of the packet [Create<Packet>] returns on the
    delivery path, as converted to the [uint32_t] key of [packetSendTimes];
    [coordinatorAddr] is the coordinator's network address. *)
Definition SendTemperatureReading (sensorStack coordinatorStack : N) (now : ns3Time)
    (uid coordinatorAddr : N) (w : World) : World :=
  let srcNodeId := sensorStack in
  let dstNodeId := coordinatorStack in
  let '(channelSuccess, w) := SimulateChannelEffects srcNodeId dstNodeId w in
  if negb channelSuccess then
    let w := with_stats (fun st => set_packetsTransmitted (Cpp.incr (packetsTransmitted st)) st) w in
    with_stats (fun st => set_packetsFailed (Cpp.incr (packetsFailed st)) st) w
  else
    let size := 2%N in
    let st := g_stats w in
    let st := beginPendingDelivery uid now st in
    let st :=
      if Z.eqb (firstPacketTime st) Seconds0 then set_firstPacketTime now st else st in
    let dataReqParams :=
      {| m_srcEndPoint := 1; m_dstEndPoint := Some 1%N; m_clusterId := 0x0402;
         m_profileId := 0x0104; m_dstAddrMode := DST_ADDR16_DST_ENDPOINT_PRESENT;
         m_dstAddr16 := coordinatorAddr |} in
    let st := set_packetsTransmitted (Cpp.incr (packetsTransmitted st)) st in
    let st := set_bytesTransmitted (Cpp.add32 (bytesTransmitted st) size) st in
    let st := set_nodePacketsSent (Cpp.map_incr srcNodeId (nodePacketsSent st)) st in
    let st := AddTransmissionPower size st in
    ScheduleNow (ApsdeDataRequest sensorStack dataReqParams uid size)
      (mkWorld st (gen w) (scheduled w)).

(** [uid] is the uid of the packet [Create<Packet>] returns. *)
Definition SendGroupCommand (sourceStack groupAddr commandId : N) (now : ns3Time)
    (uid : N) (w : World) : World :=
  let size := 1%N in
  let st := g_stats w in
  let st := beginPendingDelivery uid now st in
  let dataReqParams :=
    {| m_srcEndPoint := 1; m_dstEndPoint := None; m_clusterId := 0x0006;
       m_profileId := 0x0104; m_dstAddrMode := GROUP_ADDR_DST_ENDPOINT_NOT_PRESENT;
       m_dstAddr16 := groupAddr |} in
  let st := set_packetsTransmitted (Cpp.incr (packetsTransmitted st)) st in
  let st := set_bytesTransmitted (Cpp.add32 (bytesTransmitted st) size) st in
  let nodeId := sourceStack in
  let st := set_nodePacketsSent (Cpp.map_incr nodeId (nodePacketsSent st)) st in
  let st := AddTransmissionPower size st in
  ScheduleNow (ApsdeDataRequest sourceStack dataReqParams uid size)
    (mkWorld st (gen w) (scheduled w)).

Definition AddToGroup (stack groupAddr endpoint : N) (w : World) : World :=
  ScheduleNow (ApsmeAddGroupRequest stack groupAddr endpoint) w.

(** What the scheduler and the external stack can make the program do. *)
Inductive Event : Type :=
| EvSendTemperatureReading (sensorStack coordinatorStack : N) (now : ns3Time)
    (uid coordinatorAddr : N)
| EvSendGroupCommand (sourceStack groupAddr commandId : N) (now : ns3Time) (uid : N)
| EvAddToGroup (stack groupAddr endpoint : N)
| EvApsDataIndication (stack : N) (params : ApsdeDataIndicationParams) (now : ns3Time)
    (uid size : N)
| EvApsDataConfirm (stack : N) (m_status : ApsStatus)
| EvNwkNetworkFormationConfirm (stack : N) (m_status : NwkStatus)
| EvNwkNetworkDiscoveryConfirm (stack : N) (m_status : NwkStatus)
    (m_netDescList : list NetworkDescriptor)
| EvNwkJoinConfirm (stack : N) (m_status : NwkStatus)
| EvNwkRouteDiscoveryConfirm (stack : N) (m_status : NwkStatus).

Definition step (w : World) (e : Event) : outcome World :=
  match e with
  | EvSendTemperatureReading s c now uid a => Ok (SendTemperatureReading s c now uid a w)
  | EvSendGroupCommand s g c now uid => Ok (SendGroupCommand s g c now uid w)
  | EvAddToGroup s g e => Ok (AddToGroup s g e w)
  | EvApsDataIndication s p now uid size => Ok (ApsDataIndication s p now uid size w)
  | EvApsDataConfirm s st => Ok (ApsDataConfirm s st w)
  | EvNwkNetworkFormationConfirm s st => Ok (NwkNetworkFormationConfirm s st w)
  | EvNwkNetworkDiscoveryConfirm s st l => NwkNetworkDiscoveryConfirm s st l w
  | EvNwkJoinConfirm s st => Ok (NwkJoinConfirm s st w)
  | EvNwkRouteDiscoveryConfirm s st => Ok (NwkRouteDiscoveryConfirm s st w)
  end.

(** [Simulator::Run]: the callbacks fire one after the other. *)
Fixpoint run (w : World) (tr : list Event) : outcome World :=
  match tr with
  | [] => Ok w
  | e :: tr' =>
      match step w e with
      | Ok w' => run w' tr'
      | Undefined => Undefined
      end
  end.

(** [main]: fewer than three nodes is refused with exit status 1 before
    anything runs; otherwise the simulation runs.  The command-line values
    [enableNoise], [enableFading] and [snrThreshold] are locals of [main]
    that are printed and never passed on. *)
Definition main (cl : CommandLine) (rd : N) (tr : list Event) : option (outcome World) :=
  if (numNodes cl <? 3)%N then None else Some (run (initial rd) tr).

End Program.

Arguments g_stats {L} w.
Arguments gen {L} w.
Arguments scheduled {L} w.
Arguments mkWorld {L} _ _ _.
Arguments with_stats {L} f w.
Arguments ScheduleNow {L} c w.

(** *** Reporting: PrintPerformanceMetrics and ExportResultsToCSV *)

(** Packet delivery ratio and loss rate. *)
Definition pdr (st : NetworkStats) : R :=
  if (0 <? packetsTransmitted st)%N
  then IZR (Z.of_N (packetsReceived st)) / IZR (Z.of_N (packetsTransmitted st)) * 100
  else 0.

Definition lossRate (st : NetworkStats) : R := 100 - pdr st.

(** The loops over a sample list; [fadd] and [fdiv] are the binary64
    addition and division of the running sum, as in the extended
    variant. *)
Section Summary.

Variable fadd : R -> R -> R.
Variable fdiv : R -> R -> R.

(** One round: [sum += s; if (s < mn) mn = s; if (s > mx) mx = s;]. *)
Definition summary_step (acc : R * R * R) (s : R) : R * R * R :=
  let '(sum, mn, mx) := acc in
  (fadd sum s, (if Cpp.ltb s mn then s else mn), (if Cpp.ltb mx s then s else mx)).

(** Average, minimum and maximum of a sample list as ExportResultsToCSV
    computes them (SNR, fading, delay): all 0 for an empty list.
    PrintPerformanceMetrics runs the same loop when the list is not
    empty. *)
Definition summary (samples : list R) : R * R * R :=
  match samples with
  | [] => (0, 0, 0)
  | s0 :: _ =>
      let '(sum, mn, mx) := fold_left summary_step samples (0, s0, s0) in
      (fdiv sum (INR (length samples)), mn, mx)
  end.

End Summary.

Definition joinSuccessRate (st : NetworkStats) : R :=
  if (0 <? joinAttempts st)%N
  then IZR (Z.of_N (joinSuccesses st)) / IZR (Z.of_N (joinAttempts st)) * 100
  else 0.

(** Throughput in kbit/s: computed only when the last packet time is
    later than the first, 0 otherwise (ExportResultsToCSV). *)
Definition throughputKbps (st : NetworkStats) : R :=
  if (firstPacketTime st <? lastPacketTime st)%Z then
    let duration := GetSeconds (lastPacketTime st - firstPacketTime st) in
    IZR (Z.of_N (bytesReceived st)) * 8 / duration / 1000
  else 0.

(** Both functions store the idle energy of [numNodes] nodes over
    [simTime] seconds before adding the energies up. *)
Definition estimate_idle_power (numNodes : N) (simTime : R) (st : NetworkStats)
    : NetworkStats :=
  let totalSimTime := simTime * IZR (Z.of_N numNodes) in
  set_totalIdlePower (IDLE_POWER * totalSimTime) st.

(** [totalPower] of both functions: the sum that each of the three
    energies is divided by for its share. *)
Definition totalPower (st : NetworkStats) : R :=
  totalTxPower st + totalRxPower st + totalIdlePower st.

(** *** The events [main] schedules *)

Inductive Action : Type :=
| CallNetworkFormationRequest (node : N)
| CallNetworkDiscoveryRequest (node : N)
| CallAddToGroup (node groupAddr endpoint : N)
| CallRouteDiscoveryManyToOne (node : N)
| CallRouteDiscoveryTo (node dst : N)
| CallSendTemperatureReading (sensor coordinator : N)
| CallSendGroupCommand (source groupAddr commandId : N)
| CallPrintPerformanceMetrics
| CallExportResultsToCSV.

(** [for (uint32_t i = 1; i < numNodes; i++) { schedule the discovery of
    node i at joinTime; joinTime += 2.0; }]: the iterations left, the
    current [i] and [joinTime]; returns the scheduled events and the final
    [joinTime]. *)
Fixpoint join_loop (iterations : nat) (i : N) (joinTime : R) : list (R * Action) * R :=
  match iterations with
  | O => ([], joinTime)
  | S k =>
      let '(rest, final) := join_loop k (i + 1)%N (joinTime + 2) in
      ((joinTime, CallNetworkDiscoveryRequest i) :: rest, final)
  end.

(** [for (uint32_t i = 0; i < numReports; i++) schedule
    SendTemperatureReading at dataTime + i * 15.0]. *)
Fixpoint report_loop (iterations : nat) (i : N) (dataTime : R) (sensor coordinator : N)
    : list (R * Action) :=
  match iterations with
  | O => []
  | S k =>
      (dataTime + IZR (Z.of_N i) * 15, CallSendTemperatureReading sensor coordinator)
      :: report_loop k (i + 1)%N dataTime sensor coordinator
  end.

(** The inner loop of the additional traffic: five reports of node [i] at
    dataTime + 10.0 + i * 2.0 + j * 20.0. *)
Fixpoint extra_report_loop (iterations : nat) (j : N) (dataTime : R) (i coordinator : N)
    : list (R * Action) :=
  match iterations with
  | O => []
  | S k =>
      (dataTime + 10 + IZR (Z.of_N i) * 2 + IZR (Z.of_N j) * 20,
       CallSendTemperatureReading i coordinator)
      :: extra_report_loop k (j + 1)%N dataTime i coordinator
  end.

(** The outer loop: [for (uint32_t i = 3; i < std::min(numNodes, 8u); i++)]. *)
Fixpoint extra_sensor_loop (iterations : nat) (i : N) (dataTime : R) (coordinator : N)
    : list (R * Action) :=
  match iterations with
  | O => []
  | S k =>
      extra_report_loop 5 0 dataTime i coordinator
      ++ extra_sensor_loop k (i + 1)%N dataTime coordinator
  end.

(** The block "Temperature sensor reports (periodic)": nothing for fewer
    than four nodes; otherwise [numReports = std::min(10u,
    (uint32_t)((simTime - dataTime) / 15.0))] reports of the last node.
    The conversion of a double outside the range of [uint32_t] has no
    defined result. *)
Definition periodic_reports (numNodes simTime : N) (dataTime : R)
    : outcome (list (R * Action)) :=
  let coordinator := 0%N in
  if (4 <=? numNodes)%N then
    match Cpp.to_uint32 ((IZR (Z.of_N simTime) - dataTime) / 15) with
    | Some n =>
        let numReports := N.min 10 n in
        Ok (report_loop (N.to_nat numReports) 0 dataTime (Cpp.decr numNodes) coordinator)
    | None => Undefined
    end
  else Ok [].

(** The events of [main] with their times in seconds, in the order they
    are scheduled: [None] when [main] refuses the node count, an undefined
    outcome when the report count has none. *)
Definition main_schedule (cl : CommandLine) : option (outcome (list (R * Action))) :=
  let numNodes := numNodes cl in
  if (numNodes <? 3)%N then None
  else
    let coordinator := 0%N in
    let formation := [(1, CallNetworkFormationRequest coordinator)] in
    let '(joins, joinTime) := join_loop (N.to_nat (numNodes - 1)) 1 3 in
    let groupTime := joinTime + 2 in
    let groups4 :=
      if (5 <=? numNodes)%N
      then [(groupTime, CallAddToGroup 4 GROUP_LIVING_ROOM 1);
            (groupTime + 0.1, CallAddToGroup 4 GROUP_ALL_LIGHTS 1)]
      else [] in
    let groups5 :=
      if (6 <=? numNodes)%N
      then [(groupTime + 0.2, CallAddToGroup 5 GROUP_BEDROOM 1);
            (groupTime + 0.3, CallAddToGroup 5 GROUP_ALL_LIGHTS 1)]
      else [] in
    let routingTime := groupTime + 2 in
    let routing :=
      if manyToOne cl then [(routingTime, CallRouteDiscoveryManyToOne coordinator)]
      else if (4 <=? numNodes)%N
           then [(routingTime, CallRouteDiscoveryTo coordinator (Cpp.decr numNodes))]
           else [] in
    let dataTime := routingTime + 5 in
    let simTimeR := IZR (Z.of_N (simTime cl)) in
    match periodic_reports numNodes (simTime cl) dataTime with
    | Undefined => Some Undefined
    | Ok reports =>
        let commands :=
          if (5 <=? numNodes)%N
          then [(dataTime + 5, CallSendGroupCommand coordinator GROUP_LIVING_ROOM 1);
                (dataTime + 20, CallSendGroupCommand coordinator GROUP_ALL_LIGHTS 0);
                (dataTime + 35, CallSendGroupCommand coordinator GROUP_ALL_LIGHTS 1)]
          else [] in
        let extra :=
          if (8 <=? numNodes)%N
          then extra_sensor_loop (N.to_nat (N.min numNodes 8 - 3)) 3 dataTime coordinator
          else [] in
        let metrics := [(simTimeR - 1, CallPrintPerformanceMetrics)] in
        let export :=
          if exportCSV cl then [(simTimeR - 0.5, CallExportResultsToCSV)] else [] in
        Some (Ok (formation ++ joins ++ groups4 ++ groups5 ++ routing ++ reports
                  ++ commands ++ extra ++ metrics ++ export))
    end.

End Ver3.

(** ** Observations on worlds and traces used to state the properties *)

Module Obs.

(** Number of data requests handed to the external stack. *)
Definition handoffs (calls : list StackCall) : nat :=
  length (List.filter is_data_request calls).

(** The last element of a sample list (0 when there is none). *)
Definition latest (samples : list R) : R := List.last samples 0%R.

Definition ext_channel_drops (st : Extended.SimStats) : N :=
  (Extended.droppedByNoise st + Extended.droppedByFading st
   + Extended.droppedBySensitivity st)%N.

(** Failures reported by the external stack: [totalDropped] counts them
    together with the channel drops. *)
Definition ext_stack_failures (st : Extended.SimStats) : N :=
  (Extended.totalDropped st - ext_channel_drops st)%N.

Definition ext_is_send (e : Extended.Event) : bool :=
  match e with Extended.EvSendSensorData _ _ _ _ _ => true | _ => false end.

Definition ext_is_indication (e : Extended.Event) : bool :=
  match e with Extended.EvDataReceived _ _ _ _ => true | _ => false end.

Definition ext_is_failed_confirm (e : Extended.Event) : bool :=
  match e with
  | Extended.EvDataConfirm _ (Extended.APS_ERROR _) => true
  | _ => false
  end.

Definition v3_channel_drops (st : Ver3.NetworkStats) : N :=
  (Ver3.packetsDroppedByNoise st + Ver3.packetsDroppedByFading st)%N.

(** Failures reported by the external stack: [packetsFailed] counts them
    together with the channel drops. *)
Definition v3_stack_failures (st : Ver3.NetworkStats) : N :=
  (Ver3.packetsFailed st - v3_channel_drops st)%N.

Definition v3_is_unicast_send (e : Ver3.Event) : bool :=
  match e with Ver3.EvSendTemperatureReading _ _ _ _ _ => true | _ => false end.

Definition v3_is_send (e : Ver3.Event) : bool :=
  match e with
  | Ver3.EvSendTemperatureReading _ _ _ _ _ => true
  | Ver3.EvSendGroupCommand _ _ _ _ _ => true
  | _ => false
  end.

Definition v3_is_indication (e : Ver3.Event) : bool :=
  match e with Ver3.EvApsDataIndication _ _ _ _ _ => true | _ => false end.

Definition v3_is_failed_confirm (e : Ver3.Event) : bool :=
  match e with
  | Ver3.EvApsDataConfirm _ (Ver3.APS_ERROR _) => true
  | _ => false
  end.

(** How many events of a trace satisfy a test. *)
Definition count {E : Type} (p : E -> bool) (tr : list E) : nat :=
  length (List.filter p tr).

(** Two events are the same call when they invoke the same callback with
    the same arguments, whatever the simulation time and the uid of the
    packet the environment attaches to them. *)
Definition ext_same_call (e1 e2 : Extended.Event) : Prop :=
  match e1, e2 with
  | Extended.EvSendSensorData s1 c1 _ _ a1, Extended.EvSendSensorData s2 c2 _ _ a2 =>
      s1 = s2 /\ c1 = c2 /\ a1 = a2
  | Extended.EvDataReceived s1 _ _ z1, Extended.EvDataReceived s2 _ _ z2 =>
      s1 = s2 /\ z1 = z2
  | Extended.EvDataConfirm s1 st1, Extended.EvDataConfirm s2 st2 => s1 = s2 /\ st1 = st2
  | Extended.EvNetworkFormation s1 st1, Extended.EvNetworkFormation s2 st2 =>
      s1 = s2 /\ st1 = st2
  | Extended.EvNetworkDiscovery s1 st1 l1, Extended.EvNetworkDiscovery s2 st2 l2 =>
      s1 = s2 /\ st1 = st2 /\ l1 = l2
  | Extended.EvJoinConfirm s1 st1, Extended.EvJoinConfirm s2 st2 => s1 = s2 /\ st1 = st2
  | Extended.EvRouteDiscovery s1 st1, Extended.EvRouteDiscovery s2 st2 =>
      s1 = s2 /\ st1 = st2
  | _, _ => False
  end.

Definition v3_same_call (e1 e2 : Ver3.Event) : Prop :=
  match e1, e2 with
  | Ver3.EvSendTemperatureReading s1 c1 _ _ a1, Ver3.EvSendTemperatureReading s2 c2 _ _ a2 =>
      s1 = s2 /\ c1 = c2 /\ a1 = a2
  | Ver3.EvSendGroupCommand s1 g1 c1 _ _, Ver3.EvSendGroupCommand s2 g2 c2 _ _ =>
      s1 = s2 /\ g1 = g2 /\ c1 = c2
  | Ver3.EvAddToGroup s1 g1 p1, Ver3.EvAddToGroup s2 g2 p2 => s1 = s2 /\ g1 = g2 /\ p1 = p2
  | Ver3.EvApsDataIndication s1 p1 _ _ z1, Ver3.EvApsDataIndication s2 p2 _ _ z2 =>
      s1 = s2 /\ p1 = p2 /\ z1 = z2
  | Ver3.EvApsDataConfirm s1 st1, Ver3.EvApsDataConfirm s2 st2 => s1 = s2 /\ st1 = st2
  | Ver3.EvNwkNetworkFormationConfirm s1 st1, Ver3.EvNwkNetworkFormationConfirm s2 st2 =>
      s1 = s2 /\ st1 = st2
  | Ver3.EvNwkNetworkDiscoveryConfirm s1 st1 l1, Ver3.EvNwkNetworkDiscoveryConfirm s2 st2 l2 =>
      s1 = s2 /\ st1 = st2 /\ l1 = l2
  | Ver3.EvNwkJoinConfirm s1 st1, Ver3.EvNwkJoinConfirm s2 st2 => s1 = s2 /\ st1 = st2
  | Ver3.EvNwkRouteDiscoveryConfirm s1 st1, Ver3.EvNwkRouteDiscoveryConfirm s2 st2 =>
      s1 = s2 /\ st1 = st2
  | _, _ => False
  end.

(** The counters, channel samples and generator state of a world: all of
    the statistics but what is computed from the simulation times and the
    packet uids the callbacks are given (send time stamps, latency
    samples, pending deliveries). *)
Record ExtReport (L : RandomLib) : Type := mkExtReport {
  er_counters : N * N * N * N * N * N;
  er_snr : list R;
  er_rxPower : list R;
  er_fading : list R;
  er_distance : list R;
  er_rng : engine L
}.

Definition ext_report {L : RandomLib} (w : Extended.World L) : ExtReport L :=
  let st := Extended.g_stats w in
  {| er_counters :=
       (Extended.totalSent st, Extended.totalReceived st, Extended.totalDropped st,
        Extended.droppedByNoise st, Extended.droppedByFading st,
        Extended.droppedBySensitivity st);
     er_snr := Extended.snrSamples st;
     er_rxPower := Extended.rxPowerSamples st;
     er_fading := Extended.fadingSamples st;
     er_distance := Extended.distanceSamples st;
     er_rng := Extended.g_rng w |}.

Record V3Report (L : RandomLib) : Type := mkV3Report {
  vr_packets : N * N * N * N * N;
  vr_control : N * N * N * N;
  vr_drops : N * N;
  vr_snr : list R;
  vr_fading : list R;
  vr_nodes : gmap N N * gmap N N;
  vr_energy : R * R * R;
  vr_gen : engine L
}.

Definition v3_report {L : RandomLib} (w : Ver3.World L) : V3Report L :=
  let st := Ver3.g_stats w in
  {| vr_packets :=
       (Ver3.packetsTransmitted st, Ver3.packetsReceived st, Ver3.packetsFailed st,
        Ver3.bytesTransmitted st, Ver3.bytesReceived st);
     vr_control :=
       (Ver3.routeDiscoveries st, Ver3.joinAttempts st, Ver3.joinSuccesses st,
        Ver3.groupCommands st);
     vr_drops := (Ver3.packetsDroppedByNoise st, Ver3.packetsDroppedByFading st);
     vr_snr := Ver3.snrValues st;
     vr_fading := Ver3.fadingCoefficients st;
     vr_nodes := (Ver3.nodePacketsSent st, Ver3.nodePacketsReceived st);
     vr_energy := (Ver3.totalTxPower st, Ver3.totalRxPower st, Ver3.totalIdlePower st);
     vr_gen := Ver3.gen w |}.

(** Agreement of two run results on their reports. *)
Definition agree {W A : Type} (report : W -> A) (r1 r2 : outcome W) : Prop :=
  match r1, r2 with
  | Ok w1, Ok w2 => report w1 = report w2
  | Undefined, Undefined => True
  | _, _ => False
  end.

(** One channel evaluation as the spec describes it: the ChannelSample of
    its data model (section 3) and the decision order of [evaluate]
    (section 4.1).  The sources have no such object, they compute these
    values inline; [ext_evaluate] and [v3_evaluate] gather them, calling
    the source functions for path loss, fading and noise, and the lemmas
    [ext_SimulateChannel_evaluate] and [v3_SimulateChannelEffects_evaluate]
    prove that the source functions compute and record exactly that. *)
Inductive ChannelOutcome : Type :=
| Delivered
| DroppedBySensitivity
| DroppedByFading
| DroppedByNoise.

Definition delivered (o : ChannelOutcome) : bool :=
  match o with Delivered => true | _ => false end.

Record ChannelSample : Type := mkChannelSample {
  cs_distance : R;
  cs_pathLoss : R;
  cs_fading : R;
  cs_rxPower : R;
  cs_noise : R;
  cs_snr : R;
  cs_outcome : ChannelOutcome
}.

(** Decision order of the spec, first match wins. *)
Definition decide_outcome (sensitivity threshold : R) (fadingEnabled : bool)
    (fading rxPower snr : R) : ChannelOutcome :=
  if Cpp.ltb rxPower sensitivity then DroppedBySensitivity
  else if Cpp.ltb snr threshold then
    if Cpp.ltb fading 0.5 && fadingEnabled then DroppedByFading else DroppedByNoise
  else Delivered.

Definition ext_evaluate (L : RandomLib) (cfg : Extended.ChannelConfig)
    (distance : R) (g : engine L) : ChannelSample * engine L :=
  let pathLoss := Extended.CalculatePathLoss cfg distance in
  let fg := Extended.GenerateRayleighFading L cfg g in
  let fadingDb := (20 * Cpp.log10 (Cpp.max (fst fg) 1e-10))%R in
  let rxPower := (Extended.txPowerDbm cfg - pathLoss + fadingDb)%R in
  let ng := Extended.GenerateNoisePower L cfg (snd fg) in
  let snr := (rxPower - fst ng)%R in
  ({| cs_distance := distance; cs_pathLoss := pathLoss; cs_fading := fst fg;
      cs_rxPower := rxPower; cs_noise := fst ng; cs_snr := snr;
      cs_outcome :=
        decide_outcome (Extended.sensitivityDbm cfg) (Extended.snrThresholdDb cfg)
          (Extended.enableFading cfg) (fst fg) rxPower snr |},
   snd ng).

Definition ext_count_outcome (o : ChannelOutcome) (st : Extended.SimStats) : Extended.SimStats :=
  match o with
  | Delivered => st
  | DroppedBySensitivity =>
      Extended.set_droppedBySensitivity (Cpp.incr (Extended.droppedBySensitivity st)) st
  | DroppedByFading =>
      Extended.set_droppedByFading (Cpp.incr (Extended.droppedByFading st)) st
  | DroppedByNoise =>
      Extended.set_droppedByNoise (Cpp.incr (Extended.droppedByNoise st)) st
  end.

Definition ext_record (s : ChannelSample) (st : Extended.SimStats) : Extended.SimStats :=
  let st := Extended.set_distanceSamples (Extended.distanceSamples st ++ [cs_distance s]) st in
  let st := Extended.set_snrSamples (Extended.snrSamples st ++ [cs_snr s]) st in
  let st := Extended.set_rxPowerSamples (Extended.rxPowerSamples st ++ [cs_rxPower s]) st in
  let st := Extended.set_fadingSamples (Extended.fadingSamples st ++ [cs_fading s]) st in
  ext_count_outcome (cs_outcome s) st.

(** Ver3 has no sensitivity floor and no fading switch: only the SNR
    threshold decides, and a drop is a fading drop below 0.5. *)
Definition v3_decide_outcome (fading snr : R) : ChannelOutcome :=
  if Cpp.ltb snr Ver3.SNR_THRESHOLD_DB then
    if Cpp.ltb fading 0.5 then DroppedByFading else DroppedByNoise
  else Delivered.

Definition v3_evaluate (L : RandomLib) (distance : R) (g : engine L)
    : ChannelSample * engine L :=
  let fg := Ver3.GenerateRayleighFading L g in
  let fadingDb := (20 * Cpp.log10 (fst fg))%R in
  let pathLoss := Ver3.CalculatePathLoss distance in
  let rxPower := (Ver3.TX_POWER_DBM - pathLoss + fadingDb)%R in
  let ng := Ver3.GenerateGaussianNoise L (snd fg) in
  let snr := (rxPower - fst ng)%R in
  ({| cs_distance := distance; cs_pathLoss := pathLoss; cs_fading := fst fg;
      cs_rxPower := rxPower; cs_noise := fst ng; cs_snr := snr;
      cs_outcome := v3_decide_outcome (fst fg) snr |},
   snd ng).

Definition v3_count_outcome (o : ChannelOutcome) (st : Ver3.NetworkStats) : Ver3.NetworkStats :=
  match o with
  | Delivered => st
  | DroppedBySensitivity => st
  | DroppedByFading =>
      Ver3.set_packetsDroppedByFading (Cpp.incr (Ver3.packetsDroppedByFading st)) st
  | DroppedByNoise =>
      Ver3.set_packetsDroppedByNoise (Cpp.incr (Ver3.packetsDroppedByNoise st)) st
  end.

Definition v3_record (s : ChannelSample) (st : Ver3.NetworkStats) : Ver3.NetworkStats :=
  let st := Ver3.set_snrValues (Ver3.snrValues st ++ [cs_snr s]) st in
  let st := Ver3.set_fadingCoefficients (Ver3.fadingCoefficients st ++ [cs_fading s]) st in
  v3_count_outcome (cs_outcome s) st.

(** The cause-classified drop counters: noise, fading, sensitivity. *)
Definition ext_drop_counters (st : Extended.SimStats) : N * N * N :=
  (Extended.droppedByNoise st, Extended.droppedByFading st,
   Extended.droppedBySensitivity st).

(** Noise, fading. *)
Definition v3_drop_counters (st : Ver3.NetworkStats) : N * N :=
  (Ver3.packetsDroppedByNoise st, Ver3.packetsDroppedByFading st).

(** Exactly one cause-classified drop counter went up by one between two
    statistics, the others staying as they were. *)
Definition ext_one_cause_counted (st st' : Extended.SimStats) : Prop :=
  let '(noise, fading, sens) := ext_drop_counters st in
  ext_drop_counters st' = (noise, fading, Cpp.incr sens)
  \/ ext_drop_counters st' = (noise, Cpp.incr fading, sens)
  \/ ext_drop_counters st' = (Cpp.incr noise, fading, sens).

Definition v3_one_cause_counted (st st' : Ver3.NetworkStats) : Prop :=
  let '(noise, fading) := v3_drop_counters st in
  v3_drop_counters st' = (noise, Cpp.incr fading)
  \/ v3_drop_counters st' = (Cpp.incr noise, fading).

(** Each of the four channel sample lists holds [n] samples. *)
Definition ext_sampled {L : RandomLib} (w : Extended.World L) (n : nat) : Prop :=
  length (Extended.snrSamples (Extended.g_stats w)) = n
  /\ length (Extended.rxPowerSamples (Extended.g_stats w)) = n
  /\ length (Extended.fadingSamples (Extended.g_stats w)) = n
  /\ length (Extended.distanceSamples (Extended.g_stats w)) = n.

Definition v3_sampled {L : RandomLib} (w : Ver3.World L) (n : nat) : Prop :=
  length (Ver3.snrValues (Ver3.g_stats w)) = n
  /\ length (Ver3.fadingCoefficients (Ver3.g_stats w)) = n.

(** The counters of a world after [s] sends, [i] data indications and [f]
    failed confirms: every send is either a cause-classified channel drop
    or a data request handed to the stack; [totalDropped] / [packetsFailed]
    counts the channel drops and the failed confirms. *)
Definition ext_accounted {L : RandomLib} (w : Extended.World L) (s i f : nat) : Prop :=
  let st := Extended.g_stats w in
  Extended.totalSent st = N.of_nat s
  /\ Extended.totalReceived st = N.of_nat i
  /\ (ext_channel_drops st + N.of_nat (handoffs (Extended.scheduled w)) = N.of_nat s)%N
  /\ Extended.totalDropped st = (ext_channel_drops st + N.of_nat f)%N.

Definition v3_accounted {L : RandomLib} (w : Ver3.World L) (s i f : nat) : Prop :=
  let st := Ver3.g_stats w in
  Ver3.packetsTransmitted st = N.of_nat s
  /\ Ver3.packetsReceived st = N.of_nat i
  /\ (v3_channel_drops st + N.of_nat (handoffs (Ver3.scheduled w)) = N.of_nat s)%N
  /\ Ver3.packetsFailed st = (v3_channel_drops st + N.of_nat f)%N.

Definition flag (b : bool) : nat := if b then 1 else 0.

(** The one callback input on which Ver3 reads past the end of a vector:
    a discovery confirm with status success and no network. *)
Definition v3_reads_empty_list (e : Ver3.Event) : bool :=
  match e with
  | Ver3.EvNwkNetworkDiscoveryConfirm _ SUCCESS [] => true
  | _ => false
  end.

(** The channel samples of a trace as the one generator yields them: each
    unicast send evaluates the channel once, starting from the generator
    state the evaluation before it left, and no other callback draws.
    Returns the samples in order and the generator after the last
    evaluation. *)
Fixpoint ext_samples (L : RandomLib) (GetDistanceFrom : N -> N -> R)
    (cfg : Extended.ChannelConfig) (g : engine L) (tr : list Extended.Event)
    : list ChannelSample * engine L :=
  match tr with
  | [] => ([], g)
  | Extended.EvSendSensorData sensor coordinator _ _ _ :: tr' =>
      let sg := ext_evaluate L cfg (GetDistanceFrom sensor coordinator) g in
      let rest := ext_samples L GetDistanceFrom cfg (snd sg) tr' in
      (fst sg :: fst rest, snd rest)
  | _ :: tr' => ext_samples L GetDistanceFrom cfg g tr'
  end.

Fixpoint v3_samples (L : RandomLib) (GetDistanceFrom : N -> N -> R)
    (g : engine L) (tr : list Ver3.Event) : list ChannelSample * engine L :=
  match tr with
  | [] => ([], g)
  | Ver3.EvSendTemperatureReading sensor coordinator _ _ _ :: tr' =>
      let sg := v3_evaluate L (GetDistanceFrom sensor coordinator) g in
      let rest := v3_samples L GetDistanceFrom (snd sg) tr' in
      (fst sg :: fst rest, snd rest)
  | _ :: tr' => v3_samples L GetDistanceFrom g tr'
  end.

End Obs.

(** ** Concrete inputs on which the model is run *)

Module Fixtures.

Local Open Scope R_scope.

(** A generator that replays [variates], whatever the seed. *)
Definition replay (variates : list R) : RandomLib := scripted (fun _ => variates).

(** Every pair of nodes is one metre apart. *)
Definition one_metre : N -> N -> R := fun _ _ => 1.

(** Every pair of nodes is a kilometre apart. *)
Definition far_apart : N -> N -> R := fun _ _ => 1000.

(** Node 1 is one metre from everybody, every other node ten metres. *)
Definition two_rooms : N -> N -> R := fun src _ => if (src =? 1)%N then 1 else 10.

(** Every pair of nodes is a hundred metres apart. *)
Definition hundred_metres : N -> N -> R := fun _ _ => 100.

(** Options of the extended variant with noise and fading switched off. *)
Definition quiet_command_line : Extended.CommandLine :=
  {| Extended.cl_nodes := 6; Extended.cl_distance := 10; Extended.cl_time := 120;
     Extended.cl_packets := 50; Extended.cl_interval := 2;
     Extended.cl_noise := false; Extended.cl_fading := false;
     Extended.cl_noiseFloor := -100; Extended.cl_pathLossExp := 3 |}.

Definition quiet_channel : Extended.ChannelConfig :=
  Extended.apply_configuration quiet_command_line.

(** The same options with a negative path-loss exponent. *)
Definition inverted_command_line : Extended.CommandLine :=
  {| Extended.cl_nodes := 6; Extended.cl_distance := 10; Extended.cl_time := 120;
     Extended.cl_packets := 50; Extended.cl_interval := 2;
     Extended.cl_noise := false; Extended.cl_fading := false;
     Extended.cl_noiseFloor := -100; Extended.cl_pathLossExp := -2 |}.

Definition inverted_channel : Extended.ChannelConfig :=
  Extended.apply_configuration inverted_command_line.

(** Options of Ver3 with noise and fading switched off on the command line. *)
Definition v3_quiet_command_line : Ver3.CommandLine :=
  {| Ver3.numNodes := 6; Ver3.simTime := 300; Ver3.verbose := false;
     Ver3.manyToOne := true; Ver3.exportCSV := false;
     Ver3.enableNoise := false; Ver3.enableFading := false;
     Ver3.snrThreshold := 6 |}.

(** Variates for Ver3: fading components 1 and 1, then a noise variate of 0. *)
Definition unit_fade : list R := [1; 1; 0].

(** Fading components 1 and 0, then a noise variate. *)
Definition half_fade : list R := [1; 0; 0].

(** Fading components 1 and 1, then a noise variate of -4, which puts the
    noise at -107 dBm. *)
Definition low_noise : list R := [1; 1; -4].

(** A generator whose output depends on its seed: [unit_fade] for seed 0,
    [half_fade] for any other. *)
Definition seeded : RandomLib :=
  scripted (fun seed => if (seed =? 0)%N then unit_fade else half_fade).

(** A group command indication as a group member receives it. *)
Definition group_indication : Ver3.ApsdeDataIndicationParams :=
  {| Ver3.ind_dstAddrMode := GROUP_ADDR_DST_ENDPOINT_NOT_PRESENT;
     Ver3.ind_dstEndPoint := 1; Ver3.ind_clusterId := 0x0006 |}.

Definition unicast_indication : Ver3.ApsdeDataIndicationParams :=
  {| Ver3.ind_dstAddrMode := DST_ADDR16_DST_ENDPOINT_PRESENT;
     Ver3.ind_dstEndPoint := 1; Ver3.ind_clusterId := 0x0402 |}.

(** A short run of Ver3: the network forms, node 5 joins, a second light
    joins group 3, two route discoveries are confirmed (one failed), node 5
    sends a reading that the coordinator receives, the coordinator sends a
    command to group 3 that both lights receive, and the stack reports one
    failed data request. *)
Definition v3_evening : list Ver3.Event :=
  [Ver3.EvNwkNetworkFormationConfirm 0 SUCCESS;
   Ver3.EvNwkNetworkDiscoveryConfirm 5 SUCCESS [mkNetworkDescriptor 51966];
   Ver3.EvNwkJoinConfirm 5 SUCCESS;
   Ver3.EvAddToGroup 4 Ver3.GROUP_ALL_LIGHTS 1;
   Ver3.EvNwkRouteDiscoveryConfirm 0 SUCCESS;
   Ver3.EvNwkRouteDiscoveryConfirm 0 (NWK_ERROR 1);
   Ver3.EvSendTemperatureReading 5 0 22000000000 7 0;
   Ver3.EvApsDataIndication 0 unicast_indication 22004500000 7 2;
   Ver3.EvSendGroupCommand 0 Ver3.GROUP_ALL_LIGHTS 1 27000000000 9;
   Ver3.EvApsDataIndication 4 group_indication 27004000000 9 1;
   Ver3.EvApsDataIndication 5 group_indication 27006000000 9 1;
   Ver3.EvApsDataConfirm 0 (Ver3.APS_ERROR 1)].

(** A short run of the extended variant: node 5 joins, sends two packets
    of which the stack delivers the first and reports the second failed. *)
Definition ext_evening : list Extended.Event :=
  [Extended.EvNetworkFormation 0 SUCCESS;
   Extended.EvNetworkDiscovery 5 SUCCESS [mkNetworkDescriptor 51966];
   Extended.EvJoinConfirm 5 SUCCESS;
   Extended.EvRouteDiscovery 0 SUCCESS;
   Extended.EvSendSensorData 5 0 21000000000 7 0;
   Extended.EvDataReceived 0 21004500000 7 10;
   Extended.EvSendSensorData 5 0 23000000000 8 0;
   Extended.EvDataConfirm 5 (Extended.APS_ERROR 1)].

End Fixtures.

(** ** Observations on reports, queues, traces and schedules *)

Module Tally.

Local Open Scope R_scope.

Definition sum_R (l : list R) : R := fold_right Rplus 0 l.

Definition sum_N (l : list N) : N := fold_right N.add 0%N l.

(** A count as a [uint32_t] counter shows it. *)
Definition wrap32 (n : N) : N := (n mod Cpp.UINT32_MOD)%N.

(** The entry of a per-node counter map after [c] increments: no entry
    before the first. *)
Definition per_node (c : nat) : option N :=
  if (c =? 0)%nat then None else Some (wrap32 (N.of_nat c)).

(** *** The queue of calls handed to the stack *)

Definition request_size (c : StackCall) : list N :=
  match c with ApsdeDataRequest _ _ _ size => [size] | _ => [] end.

(** Sizes of the data requests of a queue, oldest first. *)
Definition request_sizes (calls : list StackCall) : list N := flat_map request_size calls.

Definition request_uid (c : StackCall) : list N :=
  match c with ApsdeDataRequest _ _ uid _ => [uid] | _ => [] end.

Definition request_uids (calls : list StackCall) : list N := flat_map request_uid calls.

(** A data request of the stack of [node]. *)
Definition is_request_of (node : N) (c : StackCall) : bool :=
  match c with ApsdeDataRequest n _ _ _ => (n =? node)%N | _ => false end.

Definition is_group_request (c : StackCall) : bool :=
  match c with
  | ApsdeDataRequest _ p _ _ =>
      match m_dstAddrMode p with GROUP_ADDR_DST_ENDPOINT_NOT_PRESENT => true | _ => false end
  | _ => false
  end.

Definition is_unicast_request (c : StackCall) : bool :=
  match c with
  | ApsdeDataRequest _ p _ _ =>
      match m_dstAddrMode p with DST_ADDR16_DST_ENDPOINT_PRESENT => true | _ => false end
  | _ => false
  end.

Definition is_join_request (c : StackCall) : bool :=
  match c with NlmeJoinRequest _ _ => true | _ => false end.

Definition is_start_router_request (c : StackCall) : bool :=
  match c with NlmeStartRouterRequest _ => true | _ => false end.

(** *** Traces of the extended variant *)

Definition ext_send_time (e : Extended.Event) : list Z :=
  match e with Extended.EvSendSensorData _ _ now _ _ => [now] | _ => [] end.

(** Times of the sends of a trace, in order. *)
Definition ext_send_times (tr : list Extended.Event) : list Z := flat_map ext_send_time tr.

Definition ext_indication_time (e : Extended.Event) : list Z :=
  match e with Extended.EvDataReceived _ now _ _ => [now] | _ => [] end.

Definition ext_indication_times (tr : list Extended.Event) : list Z :=
  flat_map ext_indication_time tr.

(** The simulation time a callback reads, if it reads it. *)
Definition ext_event_time (e : Extended.Event) : option Z :=
  match e with
  | Extended.EvSendSensorData _ _ now _ _ => Some now
  | Extended.EvDataReceived _ now _ _ => Some now
  | _ => None
  end.

(** An event that writes or erases the pending entry of [uid]. *)
Definition ext_touches (uid : N) (e : Extended.Event) : bool :=
  match e with
  | Extended.EvSendSensorData _ _ _ u _ => (u =? uid)%N
  | Extended.EvDataReceived _ _ u _ => (u =? uid)%N
  | _ => false
  end.

(** *** Traces of Ver3 *)

Definition v3_reading_time (e : Ver3.Event) : list Z :=
  match e with Ver3.EvSendTemperatureReading _ _ now _ _ => [now] | _ => [] end.

Definition v3_reading_times (tr : list Ver3.Event) : list Z := flat_map v3_reading_time tr.

Definition v3_indication_time (e : Ver3.Event) : list Z :=
  match e with Ver3.EvApsDataIndication _ _ now _ _ => [now] | _ => [] end.

Definition v3_indication_times (tr : list Ver3.Event) : list Z :=
  flat_map v3_indication_time tr.

Definition v3_indication_size (e : Ver3.Event) : list N :=
  match e with Ver3.EvApsDataIndication _ _ _ _ size => [size] | _ => [] end.

Definition v3_indication_sizes (tr : list Ver3.Event) : list N :=
  flat_map v3_indication_size tr.

Definition v3_is_indication_at (node : N) (e : Ver3.Event) : bool :=
  match e with Ver3.EvApsDataIndication s _ _ _ _ => (s =? node)%N | _ => false end.

Definition v3_is_group_indication (e : Ver3.Event) : bool :=
  match e with
  | Ver3.EvApsDataIndication _ p _ _ _ =>
      match Ver3.ind_dstAddrMode p with
      | GROUP_ADDR_DST_ENDPOINT_NOT_PRESENT => true
      | _ => false
      end
  | _ => false
  end.

Definition v3_is_group_send (e : Ver3.Event) : bool :=
  match e with Ver3.EvSendGroupCommand _ _ _ _ _ => true | _ => false end.

Definition v3_is_route_confirm (e : Ver3.Event) : bool :=
  match e with Ver3.EvNwkRouteDiscoveryConfirm _ _ => true | _ => false end.

Definition v3_is_failed_route_confirm (e : Ver3.Event) : bool :=
  match e with Ver3.EvNwkRouteDiscoveryConfirm _ (NWK_ERROR _) => true | _ => false end.

Definition v3_is_successful_route_confirm (e : Ver3.Event) : bool :=
  match e with Ver3.EvNwkRouteDiscoveryConfirm _ SUCCESS => true | _ => false end.

Definition v3_event_time (e : Ver3.Event) : option Z :=
  match e with
  | Ver3.EvSendTemperatureReading _ _ now _ _ => Some now
  | Ver3.EvSendGroupCommand _ _ _ now _ => Some now
  | Ver3.EvApsDataIndication _ _ now _ _ => Some now
  | _ => None
  end.

Definition v3_touches (uid : N) (e : Ver3.Event) : bool :=
  match e with
  | Ver3.EvSendTemperatureReading _ _ _ u _ => (u =? uid)%N
  | Ver3.EvSendGroupCommand _ _ _ _ u => (u =? uid)%N
  | Ver3.EvApsDataIndication _ _ _ u _ => (u =? uid)%N
  | _ => false
  end.

(** *** Pending deliveries *)

(** The pending map [m] and the delay samples against the queue of calls
    and the number of data indications so far: every pending uid is the
    uid of a data request handed to the stack; pending entries and delay
    samples together are at most the data requests handed over; there are
    at most as many delay samples as indications. *)
Definition pending_accounted (m : gmap N Z) (delays : list R) (calls : list StackCall)
    (indications : nat) : Prop :=
  (forall uid t, m !! uid = Some t -> In uid (request_uids calls))
  /\ (size m + length delays <= Obs.handoffs calls)%nat
  /\ (length delays <= indications)%nat.

(** *** The simulation clock *)

(** The times the callbacks of a trace read never go back, starting from
    [t]: [Simulator::Now()] does not decrease. *)
Fixpoint chronological {E : Type} (time : E -> option Z) (t : Z) (tr : list E) : Prop :=
  match tr with
  | [] => True
  | e :: tr' =>
      match time e with
      | Some now => (t <= now)%Z /\ chronological time now tr'
      | None => chronological time t tr'
      end
  end.

Definition nonzero (t : Z) : bool := negb (t =? 0)%Z.

(** *** Energy of one packet in Ver3 (mW s) *)

Definition v3_tx_energy (size : N) : R :=
  Ver3.TX_POWER * Ver3.CalculateTransmissionTime size / 1000.

Definition v3_rx_energy (size : N) : R :=
  Ver3.RX_POWER * Ver3.CalculateTransmissionTime size / 1000.

(** *** Schedules *)

(** The node indices an action of [main] passes to a container's [Get]. *)
Definition ext_action_nodes (a : Extended.Action) : list N :=
  match a with
  | Extended.CallNetworkFormationRequest n => [n]
  | Extended.CallNetworkDiscoveryRequest n => [n]
  | Extended.CallRouteDiscoveryRequest n => [n]
  | Extended.CallSendSensorData s c => [s; c]
  | Extended.CallPrintResults => []
  | Extended.CallExportCSV => []
  end.

Definition v3_action_nodes (a : Ver3.Action) : list N :=
  match a with
  | Ver3.CallNetworkFormationRequest n => [n]
  | Ver3.CallNetworkDiscoveryRequest n => [n]
  | Ver3.CallAddToGroup n _ _ => [n]
  | Ver3.CallRouteDiscoveryManyToOne n => [n]
  | Ver3.CallRouteDiscoveryTo n dst => [n; dst]
  | Ver3.CallSendTemperatureReading s c => [s; c]
  | Ver3.CallSendGroupCommand s _ _ => [s]
  | Ver3.CallPrintPerformanceMetrics => []
  | Ver3.CallExportResultsToCSV => []
  end.

End Tally.

(** * Properties *)

Arguments Cpp.incr : simpl never.
Arguments Ver3.completePendingDelivery : simpl never.
Arguments Extended.completePendingDelivery : simpl never.
Arguments Cpp.add32 : simpl never.
Arguments Cpp.ltb : simpl never.
Arguments Cpp.max : simpl never.
Arguments Cpp.log10 : simpl never.

(** ** Facts about the scalar operations *)

Section ScalarFacts.

Local Open Scope R_scope.

Lemma ltb_true (a b : R) : a < b -> Cpp.ltb a b = true.
Proof. intros H. unfold Cpp.ltb. destruct (Rlt_dec a b); [reflexivity | contradiction]. Qed.

Lemma ltb_false (a b : R) : b <= a -> Cpp.ltb a b = false.
Proof. intros H. unfold Cpp.ltb. destruct (Rlt_dec a b); [lra | reflexivity]. Qed.

Lemma ltb_spec (a b : R) : Cpp.ltb a b = true <-> a < b.
Proof.
  unfold Cpp.ltb. destruct (Rlt_dec a b); split; auto; discriminate.
Qed.

Lemma max_is_Rmax (a b : R) : Cpp.max a b = Rmax a b.
Proof.
  unfold Cpp.max, Cpp.ltb, Rmax.
  destruct (Rlt_dec a b), (Rle_dec a b); lra.
Qed.

Lemma max_le_right (a b : R) : a <= b -> Cpp.max a b = b.
Proof. intros H. rewrite max_is_Rmax. apply Rmax_right, H. Qed.

Lemma ln10_pos : 0 < ln 10.
Proof. rewrite <- ln_1. apply ln_increasing; lra. Qed.

Lemma log10_1 : Cpp.log10 1 = 0.
Proof. unfold Cpp.log10. rewrite ln_1. lra. Qed.

Lemma log10_10 : Cpp.log10 10 = 1.
Proof. unfold Cpp.log10. pose proof ln10_pos. field. lra. Qed.

Lemma log10_100 : Cpp.log10 100 = 2.
Proof.
  unfold Cpp.log10. pose proof ln10_pos.
  replace 100 with (10 * 10) by lra.
  rewrite ln_mult by lra. field. lra.
Qed.

Lemma log10_1000 : Cpp.log10 1000 = 3.
Proof.
  unfold Cpp.log10. pose proof ln10_pos.
  replace 1000 with (10 * (10 * 10)) by lra.
  rewrite !ln_mult by lra. field. lra.
Qed.

Lemma log10_le (x y : R) : 0 < x -> x <= y -> Cpp.log10 x <= Cpp.log10 y.
Proof.
  intros Hx Hxy. unfold Cpp.log10. pose proof ln10_pos as H10.
  apply Rmult_le_compat_r.
  - left. apply Rinv_0_lt_compat, H10.
  - destruct Hxy as [Hlt | ->]; [left; apply ln_increasing; assumption | right; reflexivity].
Qed.

Lemma sqrt2_gt_1 : 1 < sqrt 2.
Proof. rewrite <- sqrt_1 at 1. apply sqrt_lt_1; lra. Qed.

Lemma incr_small (x : N) : (x + 1 < Cpp.UINT32_MOD)%N -> Cpp.incr x = (x + 1)%N.
Proof. intros H. unfold Cpp.incr. apply N.mod_small, H. Qed.

End ScalarFacts.

(** ** The channel evaluation of each variant is the spec's [evaluate] *)

Section ChannelRefinement.

Variable L : RandomLib.
Variable GetDistanceFrom : N -> N -> R.

Local Open Scope R_scope.

Ltac split_samples :=
  repeat match goal with
         | |- context [sample ?l ?d ?g] =>
             let r := fresh "r" in
             let d' := fresh "d" in
             let g' := fresh "g" in
             destruct (sample l d g) as [[r d'] g']; simpl
         end.

Lemma ext_SimulateChannel_evaluate (cfg : Extended.ChannelConfig) (src dst size : N)
    (w : Extended.World L) :
  Extended.SimulateChannel L GetDistanceFrom cfg src dst size w =
  let sg := Obs.ext_evaluate L cfg (GetDistanceFrom src dst) (Extended.g_rng w) in
  (Obs.delivered (Obs.cs_outcome (fst sg)),
   Extended.mkWorld (Obs.ext_record (fst sg) (Extended.g_stats w)) (snd sg)
     (Extended.scheduled w)).
Proof.
  unfold Extended.SimulateChannel, Obs.ext_evaluate, Obs.ext_record, Obs.decide_outcome.
  unfold Extended.GenerateRayleighFading, Extended.GenerateNoisePower.
  destruct (Extended.enableFading cfg), (Extended.enableNoise cfg); simpl;
    split_samples; simpl;
    repeat match goal with
           | |- context [Cpp.ltb ?a ?b] => destruct (Cpp.ltb a b); simpl
           end; reflexivity.
Qed.

Lemma v3_SimulateChannelEffects_evaluate (src dst : N) (w : Ver3.World L) :
  Ver3.SimulateChannelEffects L GetDistanceFrom src dst w =
  let sg := Obs.v3_evaluate L (GetDistanceFrom src dst) (Ver3.gen w) in
  (Obs.delivered (Obs.cs_outcome (fst sg)),
   Ver3.mkWorld (Obs.v3_record (fst sg) (Ver3.g_stats w)) (snd sg) (Ver3.scheduled w)).
Proof.
  unfold Ver3.SimulateChannelEffects, Ver3.CalculateReceivedPower, Ver3.CalculateSNR.
  unfold Obs.v3_evaluate, Obs.v3_record, Obs.v3_decide_outcome.
  unfold Ver3.GenerateRayleighFading, Ver3.GenerateGaussianNoise.
  split_samples; simpl.
  repeat match goal with
         | |- context [Cpp.ltb ?a ?b] => destruct (Cpp.ltb a b); simpl
         end; reflexivity.
Qed.

End ChannelRefinement.

(** ** Path loss and received power *)

Section PathLoss.

Local Open Scope R_scope.

Lemma ext_path_loss_Rmax (cfg : Extended.ChannelConfig) (d : R) :
  Extended.CalculatePathLoss cfg d =
  Extended.refPathLossDb cfg +
  10 * Extended.pathLossExp cfg *
  Cpp.log10 (Rmax d (Extended.refDistance cfg) / Extended.refDistance cfg).
Proof. unfold Extended.CalculatePathLoss. rewrite max_is_Rmax. reflexivity. Qed.

Lemma ext_path_loss_floor (cfg : Extended.ChannelConfig) (d : R) :
  Extended.refDistance cfg <> 0 ->
  d <= Extended.refDistance cfg ->
  Extended.CalculatePathLoss cfg d = Extended.refPathLossDb cfg.
Proof.
  intros Hne Hle. rewrite ext_path_loss_Rmax, Rmax_right by exact Hle.
  replace (Extended.refDistance cfg / Extended.refDistance cfg) with 1 by (field; exact Hne).
  rewrite log10_1. ring.
Qed.

Lemma ext_path_loss_mono (cfg : Extended.ChannelConfig) (d1 d2 : R) :
  0 <= Extended.pathLossExp cfg ->
  0 < Extended.refDistance cfg ->
  d1 <= d2 ->
  Extended.CalculatePathLoss cfg d1 <= Extended.CalculatePathLoss cfg d2.
Proof.
  intros Hn Href Hd. rewrite !ext_path_loss_Rmax.
  set (r := Extended.refDistance cfg) in *.
  assert (Hinv : 0 < / r) by (apply Rinv_0_lt_compat, Href).
  assert (H1 : r <= Rmax d1 r) by apply Rmax_r.
  assert (H12 : Rmax d1 r <= Rmax d2 r).
  { apply Rmax_case_strong; intros; [ eapply Rle_trans; [exact Hd | apply Rmax_l] | apply Rmax_r ]. }
  assert (Hlog : Cpp.log10 (Rmax d1 r / r) <= Cpp.log10 (Rmax d2 r / r)).
  { apply log10_le.
    - unfold Rdiv. apply Rmult_lt_0_compat; [lra | exact Hinv].
    - unfold Rdiv. apply Rmult_le_compat_r; [lra | exact H12]. }
  assert (H10n : 0 <= 10 * Extended.pathLossExp cfg) by lra.
  pose proof (Rmult_le_compat_l _ _ _ H10n Hlog). lra.
Qed.

Lemma v3_path_loss_Rmax (d : R) :
  Ver3.CalculatePathLoss d =
  40 + 10 * Ver3.PATH_LOSS_EXPONENT *
       Cpp.log10 (Rmax d Ver3.REFERENCE_DISTANCE / Ver3.REFERENCE_DISTANCE).
Proof.
  unfold Ver3.CalculatePathLoss, Cpp.ltb, Rmax.
  destruct (Rlt_dec d Ver3.REFERENCE_DISTANCE), (Rle_dec d Ver3.REFERENCE_DISTANCE);
    try reflexivity; try lra.
  replace d with Ver3.REFERENCE_DISTANCE by lra. reflexivity.
Qed.

Lemma v3_path_loss_floor (d : R) :
  d <= Ver3.REFERENCE_DISTANCE -> Ver3.CalculatePathLoss d = 40.
Proof.
  intros Hle. rewrite v3_path_loss_Rmax, Rmax_right by exact Hle.
  unfold Ver3.REFERENCE_DISTANCE.
  replace (1 / 1) with 1 by field. rewrite log10_1. ring.
Qed.

(** With fading switched off the fading term of the received power is 0. *)
Lemma fading_db_of_one : 20 * Cpp.log10 (Cpp.max 1 1e-10) = 0.
Proof.
  replace (Cpp.max 1 1e-10) with 1.
  - rewrite log10_1. ring.
  - unfold Cpp.max. rewrite ltb_false by lra. reflexivity.
Qed.

End PathLoss.

Section PathLossClaims.

Local Open Scope R_scope.

(** C7.  For every raw distance [d], negative and zero included, the path
    loss is [referencePathLoss + 10 * pathLossExponent *
    log10 (max (d, referenceDistance) / referenceDistance)], in both
    variants (Ver3 fixes the three parameters to 40 dB, 3 and 1 m); for
    every [d] at or below the reference distance it is exactly the
    reference path loss.  The reference distance of the extended variant
    is never written by [main], so it is 1 in every run. *)
Theorem path_loss_clamped_log_distance :
  (forall (cfg : Extended.ChannelConfig) (d : R),
      Extended.CalculatePathLoss cfg d =
      Extended.refPathLossDb cfg +
      10 * Extended.pathLossExp cfg *
      Cpp.log10 (Rmax d (Extended.refDistance cfg) / Extended.refDistance cfg))
  /\ (forall (cl : Extended.CommandLine) (d : R),
         d <= Extended.refDistance (Extended.apply_configuration cl) ->
         Extended.CalculatePathLoss (Extended.apply_configuration cl) d =
         Extended.refPathLossDb (Extended.apply_configuration cl))
  /\ (forall (cfg : Extended.ChannelConfig) (d : R),
         Extended.refDistance cfg <> 0 ->
         d <= Extended.refDistance cfg ->
         Extended.CalculatePathLoss cfg d = Extended.refPathLossDb cfg)
  /\ (forall d : R,
         Ver3.CalculatePathLoss d =
         40 + 10 * Ver3.PATH_LOSS_EXPONENT *
              Cpp.log10 (Rmax d Ver3.REFERENCE_DISTANCE / Ver3.REFERENCE_DISTANCE))
  /\ (forall d : R, d <= Ver3.REFERENCE_DISTANCE -> Ver3.CalculatePathLoss d = 40).
Proof.
  split; [exact ext_path_loss_Rmax |].
  split.
  { intros cl d Hd. apply ext_path_loss_floor; [simpl; lra | exact Hd]. }
  split; [exact ext_path_loss_floor |].
  split; [exact v3_path_loss_Rmax | exact v3_path_loss_floor].
Qed.

Lemma path_loss_clamped_log_distance_witness :
  Extended.CalculatePathLoss (Extended.apply_configuration Fixtures.quiet_command_line) (-3) = 40.77
  /\ Extended.CalculatePathLoss Extended.default_channel 0 = 40.77
  /\ Ver3.CalculatePathLoss (-3) = 40.
Proof.
  pose proof path_loss_clamped_log_distance as (_ & Hcl & Hcfg & _ & Hv3).
  split; [| split].
  - apply (Hcl Fixtures.quiet_command_line (-3)). simpl. lra.
  - apply (Hcfg Extended.default_channel 0); simpl; lra.
  - apply (Hv3 (-3)). unfold Ver3.REFERENCE_DISTANCE. lra.
Defined.

End PathLossClaims.

(** ** What one channel evaluation records *)

Section Recording.

Variable L : RandomLib.
Variable GetDistanceFrom : N -> N -> R.

Local Open Scope R_scope.

Lemma ext_record_samples (s : Obs.ChannelSample) (st : Extended.SimStats) :
  Extended.distanceSamples (Obs.ext_record s st)
    = Extended.distanceSamples st ++ [Obs.cs_distance s]
  /\ Extended.snrSamples (Obs.ext_record s st) = Extended.snrSamples st ++ [Obs.cs_snr s]
  /\ Extended.rxPowerSamples (Obs.ext_record s st)
     = Extended.rxPowerSamples st ++ [Obs.cs_rxPower s]
  /\ Extended.fadingSamples (Obs.ext_record s st)
     = Extended.fadingSamples st ++ [Obs.cs_fading s].
Proof. unfold Obs.ext_record. destruct (Obs.cs_outcome s); simpl; auto. Qed.

Lemma ext_record_kept (s : Obs.ChannelSample) (st : Extended.SimStats) :
  Extended.totalSent (Obs.ext_record s st) = Extended.totalSent st
  /\ Extended.totalReceived (Obs.ext_record s st) = Extended.totalReceived st
  /\ Extended.totalDropped (Obs.ext_record s st) = Extended.totalDropped st
  /\ Extended.delaysSamples (Obs.ext_record s st) = Extended.delaysSamples st
  /\ Extended.sendTimes (Obs.ext_record s st) = Extended.sendTimes st
  /\ Extended.firstSend (Obs.ext_record s st) = Extended.firstSend st
  /\ Extended.lastRecv (Obs.ext_record s st) = Extended.lastRecv st.
Proof. unfold Obs.ext_record. destruct (Obs.cs_outcome s); simpl; repeat split. Qed.

Lemma ext_record_drops (s : Obs.ChannelSample) (st : Extended.SimStats) :
  Obs.ext_drop_counters (Obs.ext_record s st) =
  let '(noise, fading, sens) := Obs.ext_drop_counters st in
  match Obs.cs_outcome s with
  | Obs.Delivered => (noise, fading, sens)
  | Obs.DroppedBySensitivity => (noise, fading, Cpp.incr sens)
  | Obs.DroppedByFading => (noise, Cpp.incr fading, sens)
  | Obs.DroppedByNoise => (Cpp.incr noise, fading, sens)
  end.
Proof. unfold Obs.ext_record. destruct (Obs.cs_outcome s); reflexivity. Qed.

Lemma v3_record_samples (s : Obs.ChannelSample) (st : Ver3.NetworkStats) :
  Ver3.snrValues (Obs.v3_record s st) = Ver3.snrValues st ++ [Obs.cs_snr s]
  /\ Ver3.fadingCoefficients (Obs.v3_record s st)
     = Ver3.fadingCoefficients st ++ [Obs.cs_fading s].
Proof. unfold Obs.v3_record. destruct (Obs.cs_outcome s); simpl; auto. Qed.

Lemma v3_record_kept (s : Obs.ChannelSample) (st : Ver3.NetworkStats) :
  Ver3.packetsTransmitted (Obs.v3_record s st) = Ver3.packetsTransmitted st
  /\ Ver3.packetsReceived (Obs.v3_record s st) = Ver3.packetsReceived st
  /\ Ver3.packetsFailed (Obs.v3_record s st) = Ver3.packetsFailed st
  /\ Ver3.packetSendTimes (Obs.v3_record s st) = Ver3.packetSendTimes st
  /\ Ver3.delays (Obs.v3_record s st) = Ver3.delays st.
Proof. unfold Obs.v3_record. destruct (Obs.cs_outcome s); simpl; repeat split. Qed.

Lemma v3_record_drops (s : Obs.ChannelSample) (st : Ver3.NetworkStats) :
  Obs.v3_drop_counters (Obs.v3_record s st) =
  let '(noise, fading) := Obs.v3_drop_counters st in
  match Obs.cs_outcome s with
  | Obs.Delivered | Obs.DroppedBySensitivity => (noise, fading)
  | Obs.DroppedByFading => (noise, Cpp.incr fading)
  | Obs.DroppedByNoise => (Cpp.incr noise, fading)
  end.
Proof. unfold Obs.v3_record. destruct (Obs.cs_outcome s); reflexivity. Qed.

(** The Ver3 evaluation never reports a sensitivity drop. *)
Lemma v3_outcome_cases (distance : R) (g : engine L) :
  Obs.cs_outcome (fst (Obs.v3_evaluate L distance g)) <> Obs.DroppedBySensitivity.
Proof.
  unfold Obs.v3_evaluate, Obs.v3_decide_outcome. simpl.
  repeat match goal with
         | |- context [Cpp.ltb ?a ?b] => destruct (Cpp.ltb a b)
         end; discriminate.
Qed.

(** The verdict of an evaluation depends on the generator only, not on
    the statistics gathered so far. *)
Lemma ext_verdict_of_generator (cfg : Extended.ChannelConfig) (src dst size : N)
    (w w' : Extended.World L) :
  Extended.g_rng w = Extended.g_rng w' ->
  fst (Extended.SimulateChannel L GetDistanceFrom cfg src dst size w) =
  fst (Extended.SimulateChannel L GetDistanceFrom cfg src dst size w').
Proof. intros H. rewrite !ext_SimulateChannel_evaluate. simpl. rewrite H. reflexivity. Qed.

End Recording.

(** ** The decision order of the extended variant *)

Section Decision.

Local Open Scope R_scope.

Lemma decide_outcome_sensitivity (sens thr : R) (fe : bool) (fading rx snr : R) :
  rx < sens -> Obs.decide_outcome sens thr fe fading rx snr = Obs.DroppedBySensitivity.
Proof. intros H. unfold Obs.decide_outcome. rewrite ltb_true by exact H. reflexivity. Qed.

Lemma decide_outcome_delivered (sens thr : R) (fe : bool) (fading rx snr : R) :
  sens <= rx -> thr <= snr -> Obs.decide_outcome sens thr fe fading rx snr = Obs.Delivered.
Proof.
  intros H1 H2. unfold Obs.decide_outcome. rewrite !ltb_false by assumption. reflexivity.
Qed.

(** On the quiet channel a node a kilometre away is heard at -126.77 dBm,
    with an SNR of 73.23 dB: far above the SNR threshold, below the
    -97 dBm floor. *)
Example quiet_channel_far_path_loss :
  Extended.CalculatePathLoss Fixtures.quiet_channel 1000 = 130.77.
Proof.
  rewrite ext_path_loss_Rmax. cbn [Fixtures.quiet_channel Extended.apply_configuration
    Extended.refDistance Extended.refPathLossDb Extended.pathLossExp
    Fixtures.quiet_command_line Extended.cl_pathLossExp Extended.default_channel].
  rewrite Rmax_left by lra. replace (1000 / 1) with 1000 by field.
  rewrite log10_1000. lra.
Qed.

Example quiet_channel_far_sample (g : list R) :
  let s := fst (Obs.ext_evaluate (Fixtures.replay []) Fixtures.quiet_channel 1000 g) in
  Obs.cs_rxPower s = -126.77 /\ Obs.cs_snr s = 73.23
  /\ Obs.cs_outcome s = Obs.DroppedBySensitivity.
Proof.
  assert (Hrx : Obs.cs_rxPower
                  (fst (Obs.ext_evaluate (Fixtures.replay []) Fixtures.quiet_channel 1000 g))
                = -126.77).
  { cbn [Obs.ext_evaluate Obs.cs_rxPower fst]. cbn [Extended.GenerateRayleighFading
      Fixtures.quiet_channel Extended.apply_configuration Fixtures.quiet_command_line
      Extended.cl_fading Extended.enableFading negb fst Extended.txPowerDbm].
    change (Extended.apply_configuration Fixtures.quiet_command_line)
      with Fixtures.quiet_channel.
    rewrite fading_db_of_one, quiet_channel_far_path_loss. simpl. lra. }
  cbn zeta. split; [exact Hrx | split].
  - cbn [Obs.ext_evaluate Obs.cs_snr fst] in *. cbn [Obs.cs_rxPower] in Hrx.
    rewrite Hrx. simpl. lra.
  - cbn [Obs.ext_evaluate Obs.cs_outcome fst] in *. cbn [Obs.cs_rxPower] in Hrx.
    apply decide_outcome_sensitivity. rewrite Hrx. simpl. lra.
Qed.

Lemma quiet_channel_far_drops (src dst size : N) (w : Extended.World (Fixtures.replay [])) :
  fst (Extended.SimulateChannel (Fixtures.replay []) Fixtures.far_apart
         Fixtures.quiet_channel src dst size w) = false.
Proof.
  rewrite ext_SimulateChannel_evaluate. cbn [fst]. unfold Fixtures.far_apart.
  destruct (quiet_channel_far_sample (Extended.g_rng w)) as (_ & _ & Ho).
  cbn zeta in Ho. rewrite Ho. reflexivity.
Qed.

(** A node one metre away is delivered: -36.77 dBm is above the floor and
    the SNR above the threshold. *)
Example quiet_channel_sample (g : list R) :
  let s := fst (Obs.ext_evaluate (Fixtures.replay []) Fixtures.quiet_channel 1 g) in
  Obs.cs_rxPower s = -36.77 /\ Obs.cs_snr s = 163.23 /\ Obs.cs_outcome s = Obs.Delivered.
Proof.
  assert (Hrx : Obs.cs_rxPower
                  (fst (Obs.ext_evaluate (Fixtures.replay []) Fixtures.quiet_channel 1 g))
                = -36.77).
  { cbn [Obs.ext_evaluate Obs.cs_rxPower fst]. cbn [Extended.GenerateRayleighFading
      Fixtures.quiet_channel Extended.apply_configuration Fixtures.quiet_command_line
      Extended.cl_fading Extended.enableFading negb fst Extended.txPowerDbm].
    rewrite fading_db_of_one, ext_path_loss_floor by (simpl; lra). simpl. lra. }
  cbn zeta. split; [exact Hrx | ].
  assert (Hsnr : Obs.cs_snr
                   (fst (Obs.ext_evaluate (Fixtures.replay []) Fixtures.quiet_channel 1 g))
                 = 163.23).
  { cbn [Obs.ext_evaluate Obs.cs_snr fst] in *. cbn [Obs.cs_rxPower] in Hrx.
    rewrite Hrx. simpl. lra. }
  split; [exact Hsnr |].
  cbn [Obs.ext_evaluate Obs.cs_outcome fst] in *. cbn [Obs.cs_rxPower] in Hrx.
  cbn [Obs.cs_snr] in Hsnr.
  apply decide_outcome_delivered; [rewrite Hrx | rewrite Hsnr]; simpl; lra.
Qed.

Lemma quiet_channel_delivers (src dst size : N) (w : Extended.World (Fixtures.replay [])) :
  fst (Extended.SimulateChannel (Fixtures.replay []) Fixtures.one_metre
         Fixtures.quiet_channel src dst size w) = true.
Proof.
  rewrite ext_SimulateChannel_evaluate. cbn [fst]. unfold Fixtures.one_metre.
  destruct (quiet_channel_sample (Extended.g_rng w)) as (_ & _ & Ho).
  cbn zeta in Ho. rewrite Ho. reflexivity.
Qed.

Lemma rayleigh_of_unit_components : sqrt (1 * 1 + 1 * 1) / sqrt 2 = 1.
Proof.
  replace (1 * 1 + 1 * 1) with 2 by ring.
  pose proof sqrt2_gt_1. field. lra.
Qed.

(** Ver3, fading components 1 and 1 and a noise variate of 0: the
    amplitude is 1 and the noise -95 dBm.  At one metre the received power
    is -40 dBm, the SNR 55 dB, and the packet is delivered; at a kilometre
    the received power is -130 dBm, the SNR -35 dB, and the packet is
    dropped by noise. *)
Example v3_near_sample :
  let s := fst (Obs.v3_evaluate (Fixtures.replay Fixtures.unit_fade) 1 Fixtures.unit_fade) in
  Obs.cs_fading s = 1 /\ Obs.cs_rxPower s = -40 /\ Obs.cs_snr s = 55
  /\ Obs.cs_outcome s = Obs.Delivered.
Proof.
  cbn zeta. unfold Obs.v3_evaluate, Ver3.GenerateRayleighFading, Ver3.GenerateGaussianNoise.
  cbn [Fixtures.replay Fixtures.unit_fade scripted sample make_normal hd tl fst snd
       Obs.cs_fading Obs.cs_rxPower Obs.cs_snr Obs.cs_outcome].
  rewrite rayleigh_of_unit_components, log10_1, v3_path_loss_floor
    by (unfold Ver3.REFERENCE_DISTANCE; lra).
  unfold Ver3.TX_POWER_DBM, Ver3.NOISE_FLOOR_DBM, Obs.v3_decide_outcome, Ver3.SNR_THRESHOLD_DB.
  repeat split; try lra.
  rewrite ltb_false by lra. reflexivity.
Qed.

Example v3_far_path_loss : Ver3.CalculatePathLoss 1000 = 130.
Proof.
  rewrite v3_path_loss_Rmax. unfold Ver3.REFERENCE_DISTANCE, Ver3.PATH_LOSS_EXPONENT.
  rewrite Rmax_left by lra. replace (1000 / 1) with 1000 by field.
  rewrite log10_1000. lra.
Qed.

Example v3_far_sample :
  let s := fst (Obs.v3_evaluate (Fixtures.replay Fixtures.unit_fade) 1000 Fixtures.unit_fade) in
  Obs.cs_fading s = 1 /\ Obs.cs_rxPower s = -130 /\ Obs.cs_snr s = -35
  /\ Obs.cs_outcome s = Obs.DroppedByNoise.
Proof.
  cbn zeta. unfold Obs.v3_evaluate, Ver3.GenerateRayleighFading, Ver3.GenerateGaussianNoise.
  cbn [Fixtures.replay Fixtures.unit_fade scripted sample make_normal hd tl fst snd
       Obs.cs_fading Obs.cs_rxPower Obs.cs_snr Obs.cs_outcome].
  rewrite rayleigh_of_unit_components, log10_1, v3_far_path_loss.
  unfold Ver3.TX_POWER_DBM, Ver3.NOISE_FLOOR_DBM, Obs.v3_decide_outcome, Ver3.SNR_THRESHOLD_DB.
  repeat split; try lra.
  rewrite ltb_true by lra. rewrite ltb_false by lra. reflexivity.
Qed.

Lemma v3_far_drops (src dst : N) (w : Ver3.World (Fixtures.replay Fixtures.unit_fade)) :
  Ver3.gen w = Fixtures.unit_fade ->
  fst (Ver3.SimulateChannelEffects (Fixtures.replay Fixtures.unit_fade) Fixtures.far_apart
         src dst w) = false.
Proof.
  intros Hg. rewrite v3_SimulateChannelEffects_evaluate. cbn [fst]. unfold Fixtures.far_apart.
  rewrite Hg. destruct v3_far_sample as (_ & _ & _ & Ho).
  cbn zeta in Ho. rewrite Ho. reflexivity.
Qed.

Lemma v3_near_delivers (src dst : N) (w : Ver3.World (Fixtures.replay Fixtures.unit_fade)) :
  Ver3.gen w = Fixtures.unit_fade ->
  fst (Ver3.SimulateChannelEffects (Fixtures.replay Fixtures.unit_fade) Fixtures.one_metre
         src dst w) = true.
Proof.
  intros Hg. rewrite v3_SimulateChannelEffects_evaluate. cbn [fst]. unfold Fixtures.one_metre.
  rewrite Hg. destruct v3_near_sample as (_ & _ & _ & Ho).
  cbn zeta in Ho. rewrite Ho. reflexivity.
Qed.

Example v3_hundred_metres_path_loss : Ver3.CalculatePathLoss 100 = 100.
Proof.
  rewrite v3_path_loss_Rmax. unfold Ver3.REFERENCE_DISTANCE, Ver3.PATH_LOSS_EXPONENT.
  rewrite Rmax_left by lra. replace (100 / 1) with 100 by field.
  rewrite log10_100. lra.
Qed.

(** Ver3 at a kilometre, fading components 1 and 1: the received power is
    -130 dBm. *)
Example v3_far_received_power :
  Ver3.CalculateReceivedPower (Fixtures.replay Fixtures.unit_fade) 1000 Fixtures.unit_fade
  = (-130, 1, [0]).
Proof.
  unfold Ver3.CalculateReceivedPower, Ver3.GenerateRayleighFading.
  cbn [Fixtures.replay Fixtures.unit_fade scripted sample make_normal hd tl].
  rewrite rayleigh_of_unit_components, log10_1, v3_far_path_loss.
  unfold Ver3.TX_POWER_DBM. repeat f_equal. lra.
Qed.

(** Ver3 at a hundred metres, fading components 1 and 1: the received
    power is -100 dBm. *)
Example v3_hundred_metres_received_power :
  Ver3.CalculateReceivedPower (Fixtures.replay Fixtures.low_noise) 100 Fixtures.low_noise
  = (-100, 1, [-4]).
Proof.
  unfold Ver3.CalculateReceivedPower, Ver3.GenerateRayleighFading.
  cbn [Fixtures.replay Fixtures.low_noise scripted sample make_normal hd tl].
  rewrite rayleigh_of_unit_components, log10_1, v3_hundred_metres_path_loss.
  unfold Ver3.TX_POWER_DBM. repeat f_equal. lra.
Qed.

(** With a noise variate of -4 the noise is at -107 dBm, the SNR of the
    -100 dBm packet is 7 dB, and the packet is delivered. *)
Example v3_hundred_metres_sample :
  let s := fst (Obs.v3_evaluate (Fixtures.replay Fixtures.low_noise) 100 Fixtures.low_noise) in
  Obs.cs_fading s = 1 /\ Obs.cs_rxPower s = -100 /\ Obs.cs_noise s = -107
  /\ Obs.cs_snr s = 7 /\ Obs.cs_outcome s = Obs.Delivered.
Proof.
  cbn zeta. unfold Obs.v3_evaluate, Ver3.GenerateRayleighFading, Ver3.GenerateGaussianNoise.
  cbn [Fixtures.replay Fixtures.low_noise scripted sample make_normal hd tl fst snd
       Obs.cs_fading Obs.cs_rxPower Obs.cs_noise Obs.cs_snr Obs.cs_outcome].
  rewrite rayleigh_of_unit_components, log10_1, v3_hundred_metres_path_loss.
  unfold Ver3.TX_POWER_DBM, Ver3.NOISE_FLOOR_DBM, Obs.v3_decide_outcome, Ver3.SNR_THRESHOLD_DB.
  repeat split; try lra.
  rewrite ltb_false by lra. reflexivity.
Qed.

(** One evaluation of Ver3 either passes, counting no drop, or fails,
    counting one noise or fading drop. *)
Lemma v3_evaluation_counts (L : RandomLib) (GetDistanceFrom : N -> N -> R) (src dst : N)
    (w : Ver3.World L) :
  let r := Ver3.SimulateChannelEffects L GetDistanceFrom src dst w in
  (fst r = true
   /\ Obs.v3_drop_counters (Ver3.g_stats (snd r)) = Obs.v3_drop_counters (Ver3.g_stats w))
  \/ (fst r = false /\ Obs.v3_one_cause_counted (Ver3.g_stats w) (Ver3.g_stats (snd r))).
Proof.
  cbv zeta. rewrite v3_SimulateChannelEffects_evaluate. cbv zeta. cbn [fst snd Ver3.g_stats].
  set (s := fst (Obs.v3_evaluate L (GetDistanceFrom src dst) (Ver3.gen w))).
  pose proof (v3_record_drops s (Ver3.g_stats w)) as Hd.
  pose proof (v3_outcome_cases L (GetDistanceFrom src dst) (Ver3.gen w)) as Hne.
  fold s in Hne. unfold Obs.v3_one_cause_counted.
  destruct (Obs.v3_drop_counters (Ver3.g_stats w)) as [noise fading].
  destruct (Obs.cs_outcome s); cbn [Obs.delivered]; auto; contradiction.
Qed.

End Decision.

(** The extended variant has the sensitivity floor: whenever the received
    power an evaluation computes and records is strictly below
    [sensitivityDbm], the verdict is a drop and it is the sensitivity
    counter that is incremented, the fading and noise counters staying as
    they were; nothing is asked of the SNR. *)
Lemma sensitivity_floor_takes_precedence :
  forall (L : RandomLib) (GetDistanceFrom : N -> N -> R) (cfg : Extended.ChannelConfig)
         (src dst size : N) (w : Extended.World L) (rx : R),
    let r := Extended.SimulateChannel L GetDistanceFrom cfg src dst size w in
    Extended.rxPowerSamples (Extended.g_stats (snd r))
      = Extended.rxPowerSamples (Extended.g_stats w) ++ [rx] ->
    (rx < Extended.sensitivityDbm cfg)%R ->
    fst r = false
    /\ Extended.droppedBySensitivity (Extended.g_stats (snd r))
       = Cpp.incr (Extended.droppedBySensitivity (Extended.g_stats w))
    /\ Extended.droppedByFading (Extended.g_stats (snd r))
       = Extended.droppedByFading (Extended.g_stats w)
    /\ Extended.droppedByNoise (Extended.g_stats (snd r))
       = Extended.droppedByNoise (Extended.g_stats w).
Proof.
  intros L dist cfg src dst size w rx r Hsample Hlow. subst r.
  rewrite ext_SimulateChannel_evaluate in *. cbn [fst snd Extended.g_stats] in *.
  set (s := fst (Obs.ext_evaluate L cfg (dist src dst) (Extended.g_rng w))) in *.
  destruct (ext_record_samples s (Extended.g_stats w)) as (_ & _ & Hrx & _).
  rewrite Hrx in Hsample. apply app_inv_head in Hsample. injection Hsample as Hrx'.
  assert (Ho : Obs.cs_outcome s = Obs.DroppedBySensitivity).
  { subst s. cbn [Obs.ext_evaluate Obs.cs_outcome fst] in *.
    apply decide_outcome_sensitivity. cbn [Obs.cs_rxPower] in Hrx'. rewrite Hrx'. exact Hlow. }
  pose proof (ext_record_drops s (Extended.g_stats w)) as Hd.
  rewrite Ho in Hd. unfold Obs.ext_drop_counters in Hd. injection Hd as Hn Hf Hs.
  rewrite Ho. auto.
Qed.

Lemma sensitivity_floor_takes_precedence_witness :
  let r := Extended.SimulateChannel (Fixtures.replay []) Fixtures.far_apart
             Fixtures.quiet_channel 5 0 10 (Extended.initial (Fixtures.replay [])) in
  fst r = false /\ Extended.droppedBySensitivity (Extended.g_stats (snd r)) = 1%N.
Proof.
  cbn zeta.
  destruct (sensitivity_floor_takes_precedence (Fixtures.replay []) Fixtures.far_apart
              Fixtures.quiet_channel 5 0 10 (Extended.initial (Fixtures.replay []))
              (-126.77)%R) as (Hv & Hs & _).
  - rewrite ext_SimulateChannel_evaluate. cbn [snd Extended.g_stats].
    destruct (ext_record_samples
                (fst (Obs.ext_evaluate (Fixtures.replay []) Fixtures.quiet_channel
                        (Fixtures.far_apart 5 0)
                        (Extended.g_rng (Extended.initial (Fixtures.replay [])))))
                (Extended.g_stats (Extended.initial (Fixtures.replay []))))
      as (_ & _ & Hrx & _).
    rewrite Hrx. f_equal. f_equal. apply (quiet_channel_far_sample []).
  - simpl. lra.
  - split; [exact Hv | rewrite Hs; reflexivity].
Defined.

(** C2.  Ver3 has no sensitivity floor.  Its channel evaluation has no
    receiver sensitivity to compare with and no sensitivity counter: the
    only test is the SNR against 6 dB, and a failed evaluation counts one
    noise or fading drop.  Two evaluations show what that does to weak
    packets.  A kilometre away, with fading components 1 and 1 and a noise
    variate of 0, the received power is -130 dBm, far below the -97 dBm
    floor of the extended variant, and the drop is counted as a noise
    drop.  A hundred metres away, with a noise variate of -4, the received
    power is -100 dBm, still below that floor, the SNR is 7 dB, and the
    packet passes and would be handed to the stack.  The claim holds for
    the extended variant ([sensitivity_floor_takes_precedence]) and fails
    for Ver3. *)
Theorem v3_has_no_sensitivity_floor :
  (forall (L : RandomLib) (GetDistanceFrom : N -> N -> R) (src dst : N) (w : Ver3.World L),
      let r := Ver3.SimulateChannelEffects L GetDistanceFrom src dst w in
      (fst r = true
       /\ Obs.v3_drop_counters (Ver3.g_stats (snd r))
          = Obs.v3_drop_counters (Ver3.g_stats w))
      \/ (fst r = false
          /\ Obs.v3_one_cause_counted (Ver3.g_stats w) (Ver3.g_stats (snd r))))
  /\ (Extended.sensitivityDbm Extended.default_channel = -97)%R
  /\ (let L := Fixtures.replay Fixtures.unit_fade in
      let r := Ver3.SimulateChannelEffects L Fixtures.far_apart 5 0 (Ver3.initial L 0) in
      Ver3.CalculateReceivedPower L (Fixtures.far_apart 5 0) (Ver3.gen (Ver3.initial L 0))
        = (-130, 1, [0])%R
      /\ fst r = false
      /\ Ver3.snrValues (Ver3.g_stats (snd r)) = [(-35)%R]
      /\ Ver3.packetsDroppedByNoise (Ver3.g_stats (snd r)) = 1%N
      /\ Ver3.packetsDroppedByFading (Ver3.g_stats (snd r)) = 0%N)
  /\ (let L := Fixtures.replay Fixtures.low_noise in
      let r := Ver3.SimulateChannelEffects L Fixtures.hundred_metres 5 0 (Ver3.initial L 0) in
      Ver3.CalculateReceivedPower L (Fixtures.hundred_metres 5 0)
        (Ver3.gen (Ver3.initial L 0))
        = (-100, 1, [(-4)%R])%R
      /\ fst r = true
      /\ Ver3.snrValues (Ver3.g_stats (snd r)) = [7%R]
      /\ Ver3.packetsDroppedByNoise (Ver3.g_stats (snd r)) = 0%N
      /\ Ver3.packetsDroppedByFading (Ver3.g_stats (snd r)) = 0%N).
Proof.
  split; [exact v3_evaluation_counts |]. split; [reflexivity |]. split.
  - cbv zeta. split; [exact v3_far_received_power |].
    rewrite v3_SimulateChannelEffects_evaluate. cbv zeta. cbn [fst snd Ver3.g_stats].
    change (Ver3.gen (Ver3.initial (Fixtures.replay Fixtures.unit_fade) 0))
      with Fixtures.unit_fade.
    change (Fixtures.far_apart 5 0) with 1000%R.
    destruct v3_far_sample as (_ & _ & Hsnr & Ho). cbn zeta in Hsnr, Ho.
    set (s := fst (Obs.v3_evaluate (Fixtures.replay Fixtures.unit_fade) 1000
                     Fixtures.unit_fade)) in *.
    destruct (v3_record_samples s
                (Ver3.g_stats (Ver3.initial (Fixtures.replay Fixtures.unit_fade) 0)))
      as [Hs _].
    pose proof (v3_record_drops s
                  (Ver3.g_stats (Ver3.initial (Fixtures.replay Fixtures.unit_fade) 0)))
      as Hd.
    rewrite Ho in Hd. unfold Obs.v3_drop_counters in Hd. injection Hd as Hn Hf.
    rewrite Ho. split; [reflexivity |].
    split; [etransitivity; [exact Hs | rewrite Hsnr; reflexivity] |].
    split; [etransitivity; [exact Hn | reflexivity] | etransitivity; [exact Hf | reflexivity]].
  - cbv zeta. split; [exact v3_hundred_metres_received_power |].
    rewrite v3_SimulateChannelEffects_evaluate. cbv zeta. cbn [fst snd Ver3.g_stats].
    change (Ver3.gen (Ver3.initial (Fixtures.replay Fixtures.low_noise) 0))
      with Fixtures.low_noise.
    change (Fixtures.hundred_metres 5 0) with 100%R.
    destruct v3_hundred_metres_sample as (_ & _ & _ & Hsnr & Ho). cbn zeta in Hsnr, Ho.
    set (s := fst (Obs.v3_evaluate (Fixtures.replay Fixtures.low_noise) 100
                     Fixtures.low_noise)) in *.
    destruct (v3_record_samples s
                (Ver3.g_stats (Ver3.initial (Fixtures.replay Fixtures.low_noise) 0)))
      as [Hs _].
    pose proof (v3_record_drops s
                  (Ver3.g_stats (Ver3.initial (Fixtures.replay Fixtures.low_noise) 0)))
      as Hd.
    rewrite Ho in Hd. unfold Obs.v3_drop_counters in Hd. injection Hd as Hn Hf.
    rewrite Ho. split; [reflexivity |].
    split; [etransitivity; [exact Hs | rewrite Hsnr; reflexivity] |].
    split; [etransitivity; [exact Hn | reflexivity] | etransitivity; [exact Hf | reflexivity]].
Qed.

(** ** Unicast sends whose channel verdict is a drop *)

Section DroppedSends.

Variable L : RandomLib.
Variable GetDistanceFrom : N -> N -> R.

Lemma ext_send_dropped (cfg : Extended.ChannelConfig) (sensor coordinator : N)
    (now : ns3Time) (uid addr : N) (w : Extended.World L) :
  fst (Extended.SimulateChannel L GetDistanceFrom cfg sensor coordinator 10 w) = false ->
  let w' := Extended.SendSensorData L GetDistanceFrom cfg sensor coordinator now uid addr w in
  Extended.totalSent (Extended.g_stats w') = Cpp.incr (Extended.totalSent (Extended.g_stats w))
  /\ Extended.totalDropped (Extended.g_stats w')
     = Cpp.incr (Extended.totalDropped (Extended.g_stats w))
  /\ Obs.ext_one_cause_counted (Extended.g_stats w) (Extended.g_stats w')
  /\ Extended.totalReceived (Extended.g_stats w') = Extended.totalReceived (Extended.g_stats w)
  /\ Extended.scheduled w' = Extended.scheduled w
  /\ Extended.sendTimes (Extended.g_stats w') = Extended.sendTimes (Extended.g_stats w).
Proof.
  intros Hdrop. unfold Extended.SendSensorData.
  set (w1 := if Z.eqb _ _ then _ else _).
  assert (Hg : Extended.g_rng w1 = Extended.g_rng w).
  { subst w1. destruct (Z.eqb _ _); reflexivity. }
  assert (Hsched : Extended.scheduled w1 = Extended.scheduled w).
  { subst w1. destruct (Z.eqb _ _); reflexivity. }
  assert (Hst : Extended.totalSent (Extended.g_stats w1)
                = Cpp.incr (Extended.totalSent (Extended.g_stats w))
                /\ Extended.totalDropped (Extended.g_stats w1)
                   = Extended.totalDropped (Extended.g_stats w)
                /\ Extended.totalReceived (Extended.g_stats w1)
                   = Extended.totalReceived (Extended.g_stats w)
                /\ Extended.sendTimes (Extended.g_stats w1)
                   = Extended.sendTimes (Extended.g_stats w)
                /\ Obs.ext_drop_counters (Extended.g_stats w1)
                   = Obs.ext_drop_counters (Extended.g_stats w)).
  { subst w1. destruct (Z.eqb _ _); simpl; repeat split. }
  destruct Hst as (Hsent & Hdropped & Hrecv & Htimes & Hcauses).
  rewrite (ext_verdict_of_generator L GetDistanceFrom cfg sensor coordinator 10 w w1)
    in Hdrop by (symmetry; exact Hg).
  rewrite ext_SimulateChannel_evaluate in *. cbn [fst] in Hdrop.
  cbv zeta. rewrite Hdrop. cbn [negb].
  set (s := fst (Obs.ext_evaluate L cfg (GetDistanceFrom sensor coordinator)
                   (Extended.g_rng w1))) in *.
  clearbody s.
  cbn [Extended.with_stats Extended.g_stats Extended.scheduled].
  destruct (ext_record_kept s (Extended.g_stats w1)) as (Ks & Kr & Kd & _ & Kt & _ & _).
  pose proof (ext_record_drops s (Extended.g_stats w1)) as Hc.
  rewrite Hcauses in Hc.
  repeat split.
  - cbn. rewrite Ks. exact Hsent.
  - cbn. rewrite Kd, Hdropped. reflexivity.
  - unfold Obs.ext_one_cause_counted.
    change (Obs.ext_drop_counters
              (Extended.set_totalDropped
                 (Cpp.incr (Extended.totalDropped (Obs.ext_record s (Extended.g_stats w1))))
                 (Obs.ext_record s (Extended.g_stats w1))))
      with (Obs.ext_drop_counters (Obs.ext_record s (Extended.g_stats w1))).
    rewrite Hc. destruct (Obs.ext_drop_counters (Extended.g_stats w)) as [[n f] se].
    destruct (Obs.cs_outcome s); try discriminate Hdrop; auto.
  - cbn. rewrite Kr. exact Hrecv.
  - exact Hsched.
  - cbn. rewrite Kt. exact Htimes.
Qed.

Lemma v3_send_dropped (sensor coordinator : N) (now : ns3Time) (uid addr : N)
    (w : Ver3.World L) :
  fst (Ver3.SimulateChannelEffects L GetDistanceFrom sensor coordinator w) = false ->
  let w' := Ver3.SendTemperatureReading L GetDistanceFrom sensor coordinator now uid addr w in
  Ver3.packetsTransmitted (Ver3.g_stats w')
    = Cpp.incr (Ver3.packetsTransmitted (Ver3.g_stats w))
  /\ Ver3.packetsFailed (Ver3.g_stats w') = Cpp.incr (Ver3.packetsFailed (Ver3.g_stats w))
  /\ Obs.v3_one_cause_counted (Ver3.g_stats w) (Ver3.g_stats w')
  /\ Ver3.packetsReceived (Ver3.g_stats w') = Ver3.packetsReceived (Ver3.g_stats w)
  /\ Ver3.scheduled w' = Ver3.scheduled w
  /\ Ver3.packetSendTimes (Ver3.g_stats w') = Ver3.packetSendTimes (Ver3.g_stats w).
Proof.
  intros Hdrop. unfold Ver3.SendTemperatureReading.
  pose proof (v3_outcome_cases L (GetDistanceFrom sensor coordinator) (Ver3.gen w)) as Hns.
  rewrite v3_SimulateChannelEffects_evaluate in *. cbn [fst] in Hdrop.
  cbv zeta. rewrite Hdrop. cbn [negb].
  set (s := fst (Obs.v3_evaluate L (GetDistanceFrom sensor coordinator) (Ver3.gen w))) in *.
  clearbody s.
  cbn [Ver3.with_stats Ver3.g_stats Ver3.scheduled].
  destruct (v3_record_kept s (Ver3.g_stats w)) as (Kt & Kr & Kf & Ks & _).
  pose proof (v3_record_drops s (Ver3.g_stats w)) as Hc.
  repeat split.
  - cbn. rewrite Kt. reflexivity.
  - cbn. rewrite Kf. reflexivity.
  - unfold Obs.v3_one_cause_counted.
    change (Obs.v3_drop_counters (Ver3.set_packetsFailed _ (Ver3.set_packetsTransmitted _ ?x)))
      with (Obs.v3_drop_counters x).
    rewrite Hc. destruct (Obs.v3_drop_counters (Ver3.g_stats w)) as [n f].
    destruct (Obs.cs_outcome s); try discriminate Hdrop; try contradiction; auto.
  - cbn. rewrite Kr. reflexivity.
  - cbn. rewrite Ks. reflexivity.
Qed.

End DroppedSends.

(** C3.  A unicast send whose channel verdict is a drop (SendSensorData
    of the extended variant, SendTemperatureReading of Ver3) increments
    the sent counter and exactly one cause-classified drop counter and
    returns: nothing is scheduled on the external stack (no
    ApsdeDataRequest) and the pending-delivery map is left as it was.  The
    verdict is that of the evaluation the send performs; it depends on the
    generator and the distance only, so it is written on the world the
    send starts from. *)
Theorem dropped_send_never_reaches_the_stack :
  (forall (L : RandomLib) (GetDistanceFrom : N -> N -> R) (cfg : Extended.ChannelConfig)
          (sensor coordinator : N) (now : ns3Time) (uid addr : N) (w : Extended.World L),
      fst (Extended.SimulateChannel L GetDistanceFrom cfg sensor coordinator 10 w) = false ->
      let w' :=
        Extended.SendSensorData L GetDistanceFrom cfg sensor coordinator now uid addr w in
      Extended.totalSent (Extended.g_stats w')
        = Cpp.incr (Extended.totalSent (Extended.g_stats w))
      /\ Obs.ext_one_cause_counted (Extended.g_stats w) (Extended.g_stats w')
      /\ Extended.scheduled w' = Extended.scheduled w
      /\ Extended.sendTimes (Extended.g_stats w') = Extended.sendTimes (Extended.g_stats w))
  /\ (forall (L : RandomLib) (GetDistanceFrom : N -> N -> R)
             (sensor coordinator : N) (now : ns3Time) (uid addr : N) (w : Ver3.World L),
         fst (Ver3.SimulateChannelEffects L GetDistanceFrom sensor coordinator w) = false ->
         let w' :=
           Ver3.SendTemperatureReading L GetDistanceFrom sensor coordinator now uid addr w in
         Ver3.packetsTransmitted (Ver3.g_stats w')
           = Cpp.incr (Ver3.packetsTransmitted (Ver3.g_stats w))
         /\ Obs.v3_one_cause_counted (Ver3.g_stats w) (Ver3.g_stats w')
         /\ Ver3.scheduled w' = Ver3.scheduled w
         /\ Ver3.packetSendTimes (Ver3.g_stats w') = Ver3.packetSendTimes (Ver3.g_stats w)).
Proof.
  split.
  - intros L dist cfg sensor coordinator now uid addr w Hdrop.
    destruct (ext_send_dropped L dist cfg sensor coordinator now uid addr w Hdrop)
      as (Hs & _ & Hc & _ & Hq & Ht).
    auto.
  - intros L dist sensor coordinator now uid addr w Hdrop.
    destruct (v3_send_dropped L dist sensor coordinator now uid addr w Hdrop)
      as (Hs & _ & Hc & _ & Hq & Ht).
    auto.
Qed.

Lemma dropped_send_never_reaches_the_stack_witness :
  Extended.scheduled
    (Extended.SendSensorData (Fixtures.replay []) Fixtures.far_apart Fixtures.quiet_channel
       5 0 30000000000 7 0 (Extended.initial (Fixtures.replay []))) = []
  /\ Ver3.scheduled
       (Ver3.SendTemperatureReading (Fixtures.replay Fixtures.unit_fade) Fixtures.far_apart
          5 0 30000000000 7 0 (Ver3.initial (Fixtures.replay Fixtures.unit_fade) 0)) = [].
Proof.
  destruct dropped_send_never_reaches_the_stack as [Hext Hv3].
  split.
  - apply (Hext (Fixtures.replay []) Fixtures.far_apart Fixtures.quiet_channel
             5%N 0%N 30000000000%Z 7%N 0%N (Extended.initial (Fixtures.replay []))).
    apply quiet_channel_far_drops.
  - apply (Hv3 (Fixtures.replay Fixtures.unit_fade) Fixtures.far_apart
             5%N 0%N 30000000000%Z 7%N 0%N
             (Ver3.initial (Fixtures.replay Fixtures.unit_fade) 0)).
    apply v3_far_drops. reflexivity.
Defined.

(** ** A unicast send, step by step *)

Section Sends.

Variable L : RandomLib.
Variable GetDistanceFrom : N -> N -> R.

(** SendSensorData as the sample it draws and what it does with it. *)
Lemma ext_send_unfolded (cfg : Extended.ChannelConfig) (sensor coordinator : N)
    (now : ns3Time) (uid addr : N) (w : Extended.World L) :
  exists st1 : Extended.SimStats,
    Extended.totalSent st1 = Cpp.incr (Extended.totalSent (Extended.g_stats w))
    /\ Obs.ext_report (Extended.mkWorld st1 (Extended.g_rng w) [])
       = Obs.ext_report
           (Extended.mkWorld
              (Extended.set_totalSent (Cpp.incr (Extended.totalSent (Extended.g_stats w)))
                 (Extended.g_stats w))
              (Extended.g_rng w) [])
    /\ Extended.sendTimes st1 = Extended.sendTimes (Extended.g_stats w)
    /\ Extended.delaysSamples st1 = Extended.delaysSamples (Extended.g_stats w)
    /\ let sg := Obs.ext_evaluate L cfg (GetDistanceFrom sensor coordinator)
                   (Extended.g_rng w) in
       let st2 := Obs.ext_record (fst sg) st1 in
       Extended.SendSensorData L GetDistanceFrom cfg sensor coordinator now uid addr w =
       if Obs.delivered (Obs.cs_outcome (fst sg)) then
         Extended.mkWorld (Extended.beginPendingDelivery uid now st2) (snd sg)
           (Extended.scheduled w ++
            [ApsdeDataRequest sensor
               {| m_srcEndPoint := 1; m_dstEndPoint := Some 1%N; m_clusterId := 0x0402;
                  m_profileId := 0x0104; m_dstAddrMode := DST_ADDR16_DST_ENDPOINT_PRESENT;
                  m_dstAddr16 := addr |} uid 10])
       else
         Extended.mkWorld
           (Extended.set_totalDropped (Cpp.incr (Extended.totalDropped st2)) st2)
           (snd sg) (Extended.scheduled w).
Proof.
  unfold Extended.SendSensorData.
  set (w1 := if Z.eqb _ _ then _ else _).
  exists (Extended.g_stats w1).
  assert (Hg : Extended.g_rng w1 = Extended.g_rng w)
    by (subst w1; destruct (Z.eqb _ _); reflexivity).
  assert (Hq : Extended.scheduled w1 = Extended.scheduled w)
    by (subst w1; destruct (Z.eqb _ _); reflexivity).
  split; [subst w1; destruct (Z.eqb _ _); reflexivity |].
  split; [subst w1; destruct (Z.eqb _ _); reflexivity |].
  split; [subst w1; destruct (Z.eqb _ _); reflexivity |].
  split; [subst w1; destruct (Z.eqb _ _); reflexivity |].
  cbv zeta. rewrite ext_SimulateChannel_evaluate. cbv zeta. rewrite Hg, Hq.
  destruct (Obs.delivered _); reflexivity.
Qed.

(** SendTemperatureReading likewise. *)
Lemma v3_send_unfolded (sensor coordinator : N) (now : ns3Time) (uid addr : N)
    (w : Ver3.World L) :
  let sg := Obs.v3_evaluate L (GetDistanceFrom sensor coordinator) (Ver3.gen w) in
  let st1 := Obs.v3_record (fst sg) (Ver3.g_stats w) in
  Ver3.SendTemperatureReading L GetDistanceFrom sensor coordinator now uid addr w =
  if Obs.delivered (Obs.cs_outcome (fst sg)) then
    let st := Ver3.beginPendingDelivery uid now st1 in
    let st :=
      if Z.eqb (Ver3.firstPacketTime st) Seconds0 then Ver3.set_firstPacketTime now st
      else st in
    let st := Ver3.set_packetsTransmitted (Cpp.incr (Ver3.packetsTransmitted st)) st in
    let st := Ver3.set_bytesTransmitted (Cpp.add32 (Ver3.bytesTransmitted st) 2) st in
    let st := Ver3.set_nodePacketsSent (Cpp.map_incr sensor (Ver3.nodePacketsSent st)) st in
    let st := Ver3.AddTransmissionPower 2 st in
    Ver3.mkWorld st (snd sg)
      (Ver3.scheduled w ++
       [ApsdeDataRequest sensor
          {| m_srcEndPoint := 1; m_dstEndPoint := Some 1%N; m_clusterId := 0x0402;
             m_profileId := 0x0104; m_dstAddrMode := DST_ADDR16_DST_ENDPOINT_PRESENT;
             m_dstAddr16 := addr |} uid 2])
  else
    Ver3.mkWorld
      (Ver3.set_packetsFailed (Cpp.incr (Ver3.packetsFailed st1))
         (Ver3.set_packetsTransmitted (Cpp.incr (Ver3.packetsTransmitted st1)) st1))
      (snd sg) (Ver3.scheduled w).
Proof.
  unfold Ver3.SendTemperatureReading.
  cbv zeta. rewrite v3_SimulateChannelEffects_evaluate. cbv zeta.
  destruct (Obs.delivered _); reflexivity.
Qed.

(** Delivered or not, a Ver3 send records the sample it drew and keeps
    the generator the evaluation left. *)
Lemma v3_send_samples (sensor coordinator : N) (now : ns3Time) (uid addr : N)
    (w : Ver3.World L) :
  let sg := Obs.v3_evaluate L (GetDistanceFrom sensor coordinator) (Ver3.gen w) in
  let w' := Ver3.SendTemperatureReading L GetDistanceFrom sensor coordinator now uid addr w in
  Ver3.snrValues (Ver3.g_stats w') = Ver3.snrValues (Ver3.g_stats w) ++ [Obs.cs_snr (fst sg)]
  /\ Ver3.fadingCoefficients (Ver3.g_stats w')
     = Ver3.fadingCoefficients (Ver3.g_stats w) ++ [Obs.cs_fading (fst sg)]
  /\ Ver3.gen w' = snd sg.
Proof.
  cbv zeta. rewrite v3_send_unfolded. cbv zeta.
  set (sg := Obs.v3_evaluate L (GetDistanceFrom sensor coordinator) (Ver3.gen w)).
  destruct (v3_record_samples (fst sg) (Ver3.g_stats w)) as [Hs Hf].
  clearbody sg.
  destruct (Obs.delivered _).
  - cbn [Ver3.g_stats Ver3.gen]. unfold Ver3.AddTransmissionPower, Ver3.beginPendingDelivery.
    destruct (Z.eqb _ _); cbn; rewrite Hs, Hf; auto.
  - cbn. rewrite Hs, Hf. auto.
Qed.

(** A unicast send whose verdict is delivery: the packet is registered as
    pending at the current time and one data request is handed to the
    stack; no drop is counted. *)
Lemma ext_send_delivered (cfg : Extended.ChannelConfig) (sensor coordinator : N)
    (now : ns3Time) (uid addr : N) (w : Extended.World L) :
  fst (Extended.SimulateChannel L GetDistanceFrom cfg sensor coordinator 10 w) = true ->
  let w' := Extended.SendSensorData L GetDistanceFrom cfg sensor coordinator now uid addr w in
  Extended.totalSent (Extended.g_stats w') = Cpp.incr (Extended.totalSent (Extended.g_stats w))
  /\ Extended.totalDropped (Extended.g_stats w') = Extended.totalDropped (Extended.g_stats w)
  /\ Obs.ext_drop_counters (Extended.g_stats w') = Obs.ext_drop_counters (Extended.g_stats w)
  /\ Extended.sendTimes (Extended.g_stats w')
     = <[uid := now]> (Extended.sendTimes (Extended.g_stats w))
  /\ exists params,
      Extended.scheduled w'
      = Extended.scheduled w ++ [ApsdeDataRequest sensor params uid 10]
      /\ m_dstAddrMode params = DST_ADDR16_DST_ENDPOINT_PRESENT
      /\ m_dstAddr16 params = addr.
Proof.
  intros Hok. rewrite ext_SimulateChannel_evaluate in Hok. cbn [fst] in Hok.
  destruct (ext_send_unfolded cfg sensor coordinator now uid addr w)
    as (st1 & Hsent & Hrep & Htimes & _ & Heq).
  cbv zeta in *. rewrite Heq, Hok. clear Heq.
  injection Hrep as _ _ Ed En Ef Es _ _ _ _. cbn in Ed, En, Ef, Es.
  set (smp := fst (Obs.ext_evaluate L cfg (GetDistanceFrom sensor coordinator)
                     (Extended.g_rng w))) in *.
  destruct (ext_record_kept smp st1) as (Ks & _ & Kd & _ & Kt & _ & _).
  pose proof (ext_record_drops smp st1) as Hc.
  destruct (Obs.cs_outcome smp); try discriminate Hok.
  unfold Obs.ext_drop_counters in *. rewrite En, Ef, Es in Hc.
  set (st2 := Obs.ext_record smp st1) in *. clearbody st2.
  cbn. rewrite Ks, Kd, Kt, Hsent, Ed, Htimes.
  repeat split; try assumption.
  eexists. repeat split.
Qed.

Lemma v3_send_delivered (sensor coordinator : N) (now : ns3Time) (uid addr : N)
    (w : Ver3.World L) :
  fst (Ver3.SimulateChannelEffects L GetDistanceFrom sensor coordinator w) = true ->
  let w' := Ver3.SendTemperatureReading L GetDistanceFrom sensor coordinator now uid addr w in
  Ver3.packetsTransmitted (Ver3.g_stats w')
    = Cpp.incr (Ver3.packetsTransmitted (Ver3.g_stats w))
  /\ Ver3.packetsFailed (Ver3.g_stats w') = Ver3.packetsFailed (Ver3.g_stats w)
  /\ Obs.v3_drop_counters (Ver3.g_stats w') = Obs.v3_drop_counters (Ver3.g_stats w)
  /\ Ver3.packetSendTimes (Ver3.g_stats w')
     = <[uid := now]> (Ver3.packetSendTimes (Ver3.g_stats w))
  /\ exists params,
      Ver3.scheduled w' = Ver3.scheduled w ++ [ApsdeDataRequest sensor params uid 2]
      /\ m_dstAddrMode params = DST_ADDR16_DST_ENDPOINT_PRESENT
      /\ m_dstAddr16 params = addr.
Proof.
  intros Hok. rewrite v3_SimulateChannelEffects_evaluate in Hok. cbn [fst] in Hok.
  rewrite v3_send_unfolded. cbv zeta. rewrite Hok.
  set (smp := fst (Obs.v3_evaluate L (GetDistanceFrom sensor coordinator) (Ver3.gen w))) in *.
  destruct (v3_record_kept smp (Ver3.g_stats w)) as (Kt & _ & Kf & Ks & _).
  pose proof (v3_record_drops smp (Ver3.g_stats w)) as Hc.
  destruct (Obs.cs_outcome smp); try discriminate Hok.
  unfold Obs.v3_drop_counters in *.
  set (st1 := Obs.v3_record smp (Ver3.g_stats w)) in *. clearbody st1.
  cbn [Ver3.g_stats Ver3.scheduled].
  unfold Ver3.AddTransmissionPower, Ver3.beginPendingDelivery.
  destruct (Z.eqb _ _); cbn; rewrite Kt, Kf, Ks;
    (repeat split; try assumption; eexists; repeat split).
Qed.

End Sends.

(** ** Runs *)

Section Runs.

Variable L : RandomLib.
Variable GetDistanceFrom : N -> N -> R.

Lemma handoffs_app (l1 l2 : list StackCall) :
  Obs.handoffs (l1 ++ l2) = (Obs.handoffs l1 + Obs.handoffs l2)%nat.
Proof. unfold Obs.handoffs. rewrite List.filter_app, length_app. reflexivity. Qed.

Lemma count_cons {E : Type} (p : E -> bool) (e : E) (tr : list E) :
  Obs.count p (e :: tr) = ((if p e then 1 else 0) + Obs.count p tr)%nat.
Proof. unfold Obs.count. simpl. destruct (p e); reflexivity. Qed.

Lemma count_le_length {E : Type} (p : E -> bool) (tr : list E) :
  (Obs.count p tr <= length tr)%nat.
Proof. unfold Obs.count. apply List.filter_length_le. Qed.

(** *** Extended: sample lists *)

Lemma ext_complete_report (uid : N) (now : ns3Time) (st : Extended.SimStats)
    (g : engine L) (q : list StackCall) :
  Obs.ext_report (Extended.mkWorld (Extended.completePendingDelivery uid now st) g q)
  = Obs.ext_report (Extended.mkWorld st g q).
Proof.
  unfold Extended.completePendingDelivery.
  destruct (Extended.sendTimes st !! uid); reflexivity.
Qed.

Lemma ext_step_sampled (cfg : Extended.ChannelConfig) (e : Extended.Event)
    (w w' : Extended.World L) (n : nat) :
  Extended.step L GetDistanceFrom cfg w e = Ok w' ->
  Obs.ext_sampled w n ->
  Obs.ext_sampled w' ((if Obs.ext_is_send e then 1 else 0) + n).
Proof.
  intros Hstep (H1 & H2 & H3 & H4). destruct e; simpl in Hstep.
  - injection Hstep as <-.
    destruct (ext_send_unfolded L GetDistanceFrom cfg sensor coordinator now uid
                coordinatorAddr w) as (st1 & _ & Hrep & _ & _ & Heq).
    cbv zeta in Heq. rewrite Heq. clear Heq.
    injection Hrep as _ _ _ _ _ _ Es Er Ef Ed.
    set (s := fst (Obs.ext_evaluate L cfg (GetDistanceFrom sensor coordinator)
                     (Extended.g_rng w))).
    destruct (ext_record_samples s st1) as (Rd & Rs & Rr & Rf).
    assert (Hlen : Obs.ext_sampled (Extended.mkWorld (Obs.ext_record s st1) (Extended.g_rng w) [])
                     (1 + n)).
    { unfold Obs.ext_sampled. cbn [Extended.g_stats]. rewrite Rd, Rs, Rr, Rf, Es, Er, Ef, Ed.
      rewrite !length_app. cbn [length]. simpl in *. lia. }
    destruct (Obs.delivered _); exact Hlen.
  - injection Hstep as <-. unfold Extended.OnDataReceived, Extended.with_stats.
    cbn [Extended.g_stats Extended.g_rng Extended.scheduled].
    match goal with
    | |- Obs.ext_sampled (Extended.mkWorld (Extended.completePendingDelivery ?u ?t ?st) ?g ?q) _ =>
        pose proof (ext_complete_report u t st g q) as Hrep
    end.
    injection Hrep as _ _ _ _ _ _ Es Er Ef Ed.
    unfold Obs.ext_sampled. cbn [Extended.g_stats]. rewrite Es, Er, Ef, Ed. simpl. auto.
  - injection Hstep as <-. destruct m_status; simpl; unfold Obs.ext_sampled; auto.
  - injection Hstep as <-. unfold Obs.ext_sampled; auto.
  - unfold Extended.OnNetworkDiscovery in Hstep.
    destruct (is_success m_status && negb (bool_decide (m_netDescList = []))).
    + destruct (Cpp.at_index m_netDescList 0); [| discriminate].
      injection Hstep as <-. unfold Obs.ext_sampled; auto.
    + injection Hstep as <-. unfold Obs.ext_sampled; auto.
  - injection Hstep as <-. unfold Extended.OnJoinConfirm.
    destruct (is_success m_status); unfold Obs.ext_sampled; auto.
  - injection Hstep as <-. unfold Obs.ext_sampled; auto.
Qed.

Lemma ext_run_sampled (cfg : Extended.ChannelConfig) (tr : list Extended.Event) :
  forall (w w' : Extended.World L) (n : nat),
    Extended.run L GetDistanceFrom cfg w tr = Ok w' ->
    Obs.ext_sampled w n ->
    Obs.ext_sampled w' (Obs.count Obs.ext_is_send tr + n).
Proof.
  induction tr as [| e tr IH]; intros w w' n Hrun Hn.
  - injection Hrun as <-. exact Hn.
  - cbn [Extended.run] in Hrun.
    destruct (Extended.step L GetDistanceFrom cfg w e) as [w1 |] eqn:Hstep; [| discriminate].
    rewrite count_cons.
    pose proof (IH w1 w' _ Hrun (ext_step_sampled cfg e w w1 n Hstep Hn)) as H.
    replace ((if Obs.ext_is_send e then 1 else 0) + Obs.count Obs.ext_is_send tr + n)%nat
      with (Obs.count Obs.ext_is_send tr + ((if Obs.ext_is_send e then 1 else 0) + n))%nat
      by lia.
    exact H.
Qed.

(** *** Ver3: sample lists *)

Lemma v3_complete_samples (uid : N) (now : ns3Time) (st : Ver3.NetworkStats) :
  Ver3.snrValues (Ver3.completePendingDelivery uid now st) = Ver3.snrValues st
  /\ Ver3.fadingCoefficients (Ver3.completePendingDelivery uid now st)
     = Ver3.fadingCoefficients st.
Proof.
  unfold Ver3.completePendingDelivery.
  destruct (Ver3.packetSendTimes st !! uid); split; reflexivity.
Qed.

Lemma v3_indication_samples (stack : N) (params : Ver3.ApsdeDataIndicationParams)
    (now : ns3Time) (uid size : N) (w : Ver3.World L) :
  Ver3.snrValues (Ver3.g_stats (Ver3.ApsDataIndication L stack params now uid size w))
    = Ver3.snrValues (Ver3.g_stats w)
  /\ Ver3.fadingCoefficients
       (Ver3.g_stats (Ver3.ApsDataIndication L stack params now uid size w))
     = Ver3.fadingCoefficients (Ver3.g_stats w).
Proof.
  unfold Ver3.ApsDataIndication. cbv zeta.
  match goal with
  | |- context [Ver3.completePendingDelivery ?u ?t ?st] =>
      destruct (v3_complete_samples u t st) as [Hs Hf];
      set (c := Ver3.completePendingDelivery u t st) in *
  end.
  cbn in Hs, Hf. clearbody c.
  destruct (Ver3.ind_dstAddrMode params); cbn; rewrite Hs, Hf; split; reflexivity.
Qed.

Lemma v3_step_sampled (e : Ver3.Event) (w w' : Ver3.World L) (n : nat) :
  Ver3.step L GetDistanceFrom w e = Ok w' ->
  Obs.v3_sampled w n ->
  Obs.v3_sampled w' ((if Obs.v3_is_unicast_send e then 1 else 0) + n).
Proof.
  intros Hstep (H1 & H2). destruct e; simpl in Hstep.
  - injection Hstep as <-.
    pose proof (v3_send_unfolded L GetDistanceFrom sensorStack coordinatorStack now uid
                  coordinatorAddr w) as Heq.
    cbv zeta in Heq. rewrite Heq. clear Heq.
    set (s := fst (Obs.v3_evaluate L (GetDistanceFrom sensorStack coordinatorStack)
                     (Ver3.gen w))).
    destruct (v3_record_samples s (Ver3.g_stats w)) as (Rs & Rf).
    clearbody s. unfold Obs.v3_sampled.
    destruct (Obs.delivered _).
    + cbn [Ver3.g_stats]. unfold Ver3.AddTransmissionPower, Ver3.beginPendingDelivery.
      destruct (Z.eqb _ _); cbn; rewrite Rs, Rf, !length_app; cbn [length]; lia.
    + cbn. rewrite Rs, Rf, !length_app. cbn [length]. lia.
  - injection Hstep as <-. unfold Obs.v3_sampled. cbn. auto.
  - injection Hstep as <-. unfold Obs.v3_sampled. cbn. auto.
  - injection Hstep as <-.
    destruct (v3_indication_samples stack params now uid size w) as [Hs Hf].
    unfold Obs.v3_sampled. rewrite Hs, Hf. cbn. auto.
  - injection Hstep as <-. destruct m_status; unfold Obs.v3_sampled; cbn; auto.
  - injection Hstep as <-. unfold Obs.v3_sampled; auto.
  - unfold Ver3.NwkNetworkDiscoveryConfirm in Hstep.
    destruct (is_success m_status).
    + destruct (Cpp.at_index m_netDescList 0); [| discriminate].
      injection Hstep as <-. unfold Obs.v3_sampled; cbn; auto.
    + injection Hstep as <-. unfold Obs.v3_sampled; auto.
  - injection Hstep as <-. unfold Ver3.NwkJoinConfirm.
    destruct (is_success m_status); unfold Obs.v3_sampled; cbn; auto.
  - injection Hstep as <-. unfold Obs.v3_sampled; cbn; auto.
Qed.

Lemma v3_run_sampled (tr : list Ver3.Event) :
  forall (w w' : Ver3.World L) (n : nat),
    Ver3.run L GetDistanceFrom w tr = Ok w' ->
    Obs.v3_sampled w n ->
    Obs.v3_sampled w' (Obs.count Obs.v3_is_unicast_send tr + n).
Proof.
  induction tr as [| e tr IH]; intros w w' n Hrun Hn.
  - injection Hrun as <-. exact Hn.
  - cbn [Ver3.run] in Hrun.
    destruct (Ver3.step L GetDistanceFrom w e) as [w1 |] eqn:Hstep; [| discriminate].
    rewrite count_cons.
    pose proof (IH w1 w' _ Hrun (v3_step_sampled e w w1 n Hstep Hn)) as H.
    replace ((if Obs.v3_is_unicast_send e then 1 else 0)
             + Obs.count Obs.v3_is_unicast_send tr + n)%nat
      with (Obs.count Obs.v3_is_unicast_send tr
            + ((if Obs.v3_is_unicast_send e then 1 else 0) + n))%nat by lia.
    exact H.
Qed.

(** *** Which runs are defined *)

Lemma ext_step_defined (cfg : Extended.ChannelConfig) (e : Extended.Event)
    (w : Extended.World L) :
  exists w', Extended.step L GetDistanceFrom cfg w e = Ok w'.
Proof.
  destruct e; cbn [Extended.step]; try (eexists; reflexivity).
  unfold Extended.OnNetworkDiscovery. destruct m_netDescList as [| d nets].
  - rewrite bool_decide_eq_true_2 by reflexivity. rewrite andb_false_r.
    eexists; reflexivity.
  - destruct (is_success m_status && _); eexists; reflexivity.
Qed.

Lemma ext_run_defined (cfg : Extended.ChannelConfig) (tr : list Extended.Event) :
  forall w : Extended.World L, exists w', Extended.run L GetDistanceFrom cfg w tr = Ok w'.
Proof.
  induction tr as [| e tr IH]; intros w.
  - exists w. reflexivity.
  - cbn [Extended.run]. destruct (ext_step_defined cfg e w) as [w1 ->]. apply IH.
Qed.

Lemma v3_step_defined (e : Ver3.Event) (w : Ver3.World L) :
  Obs.v3_reads_empty_list e = false ->
  exists w', Ver3.step L GetDistanceFrom w e = Ok w'.
Proof.
  intros He. destruct e; cbn [Ver3.step]; try (eexists; reflexivity).
  unfold Ver3.NwkNetworkDiscoveryConfirm.
  destruct m_status as [| code]; [| eexists; reflexivity].
  destruct m_netDescList as [| d nets]; [discriminate He |].
  eexists; reflexivity.
Qed.

Lemma v3_run_defined (tr : list Ver3.Event) :
  Forall (fun e => Obs.v3_reads_empty_list e = false) tr ->
  forall w : Ver3.World L, exists w', Ver3.run L GetDistanceFrom w tr = Ok w'.
Proof.
  induction 1 as [| e tr He _ IH]; intros w.
  - exists w. reflexivity.
  - cbn [Ver3.run]. destruct (v3_step_defined e w He) as [w1 ->]. apply IH.
Qed.

End Runs.

(** C10.  Every channel evaluation, delivered or dropped, appends exactly
    one sample to the SNR list and one to the fading list (in the extended
    variant also one received-power and one distance sample).  After any
    run the lists therefore all have the same length, the number of
    unicast sends of the run, each of which evaluates the channel once;
    samples of dropped packets are part of the lists the statistics are
    derived from.  (Every run of the extended variant is defined; for the
    runs of Ver3 that are, see [v3_run_defined].) *)
Theorem every_evaluation_is_sampled :
  (forall (L : RandomLib) (GetDistanceFrom : N -> N -> R) (cfg : Extended.ChannelConfig)
          (src dst size : N) (w : Extended.World L),
      exists s : Obs.ChannelSample,
        let r := Extended.SimulateChannel L GetDistanceFrom cfg src dst size w in
        fst r = Obs.delivered (Obs.cs_outcome s)
        /\ Extended.snrSamples (Extended.g_stats (snd r))
           = Extended.snrSamples (Extended.g_stats w) ++ [Obs.cs_snr s]
        /\ Extended.fadingSamples (Extended.g_stats (snd r))
           = Extended.fadingSamples (Extended.g_stats w) ++ [Obs.cs_fading s]
        /\ Extended.rxPowerSamples (Extended.g_stats (snd r))
           = Extended.rxPowerSamples (Extended.g_stats w) ++ [Obs.cs_rxPower s]
        /\ Extended.distanceSamples (Extended.g_stats (snd r))
           = Extended.distanceSamples (Extended.g_stats w) ++ [GetDistanceFrom src dst])
  /\ (forall (L : RandomLib) (GetDistanceFrom : N -> N -> R) (cfg : Extended.ChannelConfig)
             (tr : list Extended.Event),
         exists w : Extended.World L,
           Extended.run L GetDistanceFrom cfg (Extended.initial L) tr = Ok w
           /\ Obs.ext_sampled w (Obs.count Obs.ext_is_send tr))
  /\ (forall (L : RandomLib) (GetDistanceFrom : N -> N -> R) (src dst : N)
             (w : Ver3.World L),
         exists s : Obs.ChannelSample,
           let r := Ver3.SimulateChannelEffects L GetDistanceFrom src dst w in
           fst r = Obs.delivered (Obs.cs_outcome s)
           /\ Ver3.snrValues (Ver3.g_stats (snd r))
              = Ver3.snrValues (Ver3.g_stats w) ++ [Obs.cs_snr s]
           /\ Ver3.fadingCoefficients (Ver3.g_stats (snd r))
              = Ver3.fadingCoefficients (Ver3.g_stats w) ++ [Obs.cs_fading s])
  /\ (forall (L : RandomLib) (GetDistanceFrom : N -> N -> R) (rd : N)
             (tr : list Ver3.Event) (w : Ver3.World L),
         Ver3.run L GetDistanceFrom (Ver3.initial L rd) tr = Ok w ->
         Obs.v3_sampled w (Obs.count Obs.v3_is_unicast_send tr)).
Proof.
  split; [| split; [| split]].
  - intros L dist cfg src dst size w.
    exists (fst (Obs.ext_evaluate L cfg (dist src dst) (Extended.g_rng w))).
    cbv zeta. rewrite ext_SimulateChannel_evaluate. cbn [fst snd Extended.g_stats].
    destruct (ext_record_samples
                (fst (Obs.ext_evaluate L cfg (dist src dst) (Extended.g_rng w)))
                (Extended.g_stats w)) as (Hd & Hs & Hr & Hf).
    auto.
  - intros L dist cfg tr.
    destruct (ext_run_defined L dist cfg tr (Extended.initial L)) as [w Hrun].
    exists w. split; [exact Hrun |].
    pose proof (ext_run_sampled L dist cfg tr (Extended.initial L) w 0%nat Hrun) as H.
    rewrite Nat.add_0_r in H. apply H. repeat split.
  - intros L dist src dst w.
    exists (fst (Obs.v3_evaluate L (dist src dst) (Ver3.gen w))).
    cbv zeta. rewrite v3_SimulateChannelEffects_evaluate. cbn [fst snd Ver3.g_stats].
    destruct (v3_record_samples (fst (Obs.v3_evaluate L (dist src dst) (Ver3.gen w)))
                (Ver3.g_stats w)) as (Hs & Hf).
    auto.
  - intros L dist rd tr w Hrun.
    pose proof (v3_run_sampled L dist tr (Ver3.initial L rd) w 0%nat Hrun) as H.
    rewrite Nat.add_0_r in H. apply H. repeat split.
Qed.

Lemma every_evaluation_is_sampled_witness :
  Obs.v3_sampled
    (Ver3.SendTemperatureReading (Fixtures.replay Fixtures.unit_fade) Fixtures.far_apart
       5 0 30000000000 7 0 (Ver3.initial (Fixtures.replay Fixtures.unit_fade) 0))
    1.
Proof.
  destruct every_evaluation_is_sampled as (_ & _ & _ & Hv3).
  apply (Hv3 (Fixtures.replay Fixtures.unit_fade) Fixtures.far_apart 0%N
           [Ver3.EvSendTemperatureReading 5 0 30000000000 7 0]).
  reflexivity.
Defined.

(** ** Pending deliveries *)

Section Pending.






End Pending.




(** ** Network discovery *)

Section Discovery.

Variable L : RandomLib.

(** The extended variant tests the list before reading its first element:
    the read is always defined, and with no network found nothing is
    scheduled and the statistics are untouched. *)
Lemma ext_discovery_guarded (stack : N) (status : NwkStatus)
    (nets : list NetworkDescriptor) (w : Extended.World L) :
  Extended.OnNetworkDiscovery L stack status nets w <> Undefined
  /\ (nets = [] -> Extended.OnNetworkDiscovery L stack status nets w = Ok w).
Proof.
  unfold Extended.OnNetworkDiscovery. destruct nets as [| d nets].
  - rewrite bool_decide_eq_true_2 by reflexivity.
    rewrite andb_false_r. split; [discriminate | reflexivity].
  - destruct (is_success status && _); split; cbn; discriminate.
Qed.

(** Ver3 with a failure status: nothing happens. *)
Lemma v3_discovery_failed (stack code : N) (nets : list NetworkDescriptor)
    (w : Ver3.World L) :
  Ver3.NwkNetworkDiscoveryConfirm L stack (NWK_ERROR code) nets w = Ok w.
Proof. reflexivity. Qed.

(** Ver3 with a network found: one join attempt, one join request. *)
Lemma v3_discovery_found (stack : N) (d : NetworkDescriptor)
    (nets : list NetworkDescriptor) (w : Ver3.World L) :
  exists w',
    Ver3.NwkNetworkDiscoveryConfirm L stack SUCCESS (d :: nets) w = Ok w'
    /\ Ver3.joinAttempts (Ver3.g_stats w') = Cpp.incr (Ver3.joinAttempts (Ver3.g_stats w))
    /\ Ver3.scheduled w' = Ver3.scheduled w ++ [NlmeJoinRequest stack (m_extPanId d)].
Proof. eexists. split; [reflexivity | split; reflexivity]. Qed.

End Discovery.

(** C5.  Ver3 at a discovery confirm that reports success and an empty
    network list: the callback tests the status only, so it reads
    [m_netDescList[0]] of the empty list, a read with no defined result,
    on its way to counting a join attempt and scheduling a join request.
    The claim (no join request, counter unchanged, no read of element 0 of
    an empty list) fails for this input. *)
Theorem v3_discovery_reads_empty_list :
  forall (L : RandomLib) (stack : N) (w : Ver3.World L),
    Cpp.at_index ([] : list NetworkDescriptor) 0 = None
    /\ Ver3.NwkNetworkDiscoveryConfirm L stack SUCCESS [] w = Undefined
    /\ Ver3.NwkNetworkDiscoveryConfirm L stack SUCCESS [] w <> Ok w.
Proof. intros L stack w. split; [reflexivity | split; [reflexivity | discriminate]]. Qed.

(** ** The fading switch *)

Section FadingSwitch.

Local Open Scope R_scope.

(** Extended variant: with fading disabled the coefficient is exactly 1,
    the generator is returned as it was, and the fading term of the
    received power is 0. *)
Lemma ext_fading_disabled (L : RandomLib) (cfg : Extended.ChannelConfig) (g : engine L) :
  Extended.enableFading cfg = false ->
  Extended.GenerateRayleighFading L cfg g = (1, g)
  /\ 20 * Cpp.log10 (Cpp.max (fst (Extended.GenerateRayleighFading L cfg g)) 1e-10) = 0.
Proof.
  intros H. unfold Extended.GenerateRayleighFading. rewrite H. cbn [negb fst].
  split; [reflexivity | apply fading_db_of_one].
Qed.

Lemma half_fade_amplitude : sqrt (1 * 1 + 0 * 0) / sqrt 2 <> 1.
Proof.
  replace (1 * 1 + 0 * 0) with 1 by ring. rewrite sqrt_1.
  pose proof sqrt2_gt_1 as H. intros Heq.
  assert (Hs : sqrt 2 = 1).
  { apply (Rmult_eq_compat_r (sqrt 2)) in Heq. unfold Rdiv in Heq.
    rewrite Rmult_assoc, Rinv_l in Heq by lra. lra. }
  lra.
Qed.

End FadingSwitch.

(** C8.  Ver3 started with fading (and noise) disabled on the command
    line: the options never reach the channel functions, so any two
    command lines with the same node count run identically, and a send
    still draws two variates for the fading coefficient, here
    [sqrt (1 * 1 + 0 * 0) / sqrt 2], which is not 1.  The claim holds for
    the extended variant ([ext_fading_disabled]) and fails for Ver3. *)
Theorem v3_fading_switch_has_no_effect :
  (forall (L : RandomLib) (GetDistanceFrom : N -> N -> R) (nodes time : N)
          (v m x noise fading noise' fading' : bool) (thr thr' : R) (rd : N)
          (tr : list Ver3.Event),
      Ver3.main L GetDistanceFrom
        (Ver3.mkCommandLine nodes time v m x noise fading thr) rd tr
      = Ver3.main L GetDistanceFrom
          (Ver3.mkCommandLine nodes time v m x noise' fading' thr') rd tr)
  /\ Ver3.enableFading Fixtures.v3_quiet_command_line = false
  /\ exists w : Ver3.World (Fixtures.replay Fixtures.half_fade),
      Ver3.main (Fixtures.replay Fixtures.half_fade) Fixtures.one_metre
        Fixtures.v3_quiet_command_line 0
        [Ver3.EvSendTemperatureReading 5 0 30000000000 7 0] = Some (Ok w)
      /\ Ver3.fadingCoefficients (Ver3.g_stats w) = [(sqrt (1 * 1 + 0 * 0) / sqrt 2)%R]
      /\ (sqrt (1 * 1 + 0 * 0) / sqrt 2)%R <> 1%R
      /\ Ver3.gen w = [].
Proof.
  split; [reflexivity |]. split; [reflexivity |].
  eexists. split; [reflexivity |].
  destruct (v3_send_samples (Fixtures.replay Fixtures.half_fade) Fixtures.one_metre
              5 0 30000000000 7 0 (Ver3.initial (Fixtures.replay Fixtures.half_fade) 0))
    as (_ & Hf & Hg).
  split; [exact Hf | split; [exact half_fade_amplitude | exact Hg]].
Qed.

(** ** Received power against distance *)

Section ReceivedPower.

Variable L : RandomLib.
Variable GetDistanceFrom : N -> N -> R.

Local Open Scope R_scope.

(** The received power an evaluation records last is the one it computed. *)
Lemma ext_received_power (cfg : Extended.ChannelConfig) (src dst size : N)
    (w : Extended.World L) :
  Obs.latest
    (Extended.rxPowerSamples
       (Extended.g_stats (snd (Extended.SimulateChannel L GetDistanceFrom cfg src dst size w))))
  = Obs.cs_rxPower (fst (Obs.ext_evaluate L cfg (GetDistanceFrom src dst) (Extended.g_rng w))).
Proof.
  rewrite ext_SimulateChannel_evaluate. cbn [snd Extended.g_stats].
  destruct (ext_record_samples
              (fst (Obs.ext_evaluate L cfg (GetDistanceFrom src dst) (Extended.g_rng w)))
              (Extended.g_stats w)) as (_ & _ & Hr & _).
  rewrite Hr. unfold Obs.latest. apply last_last.
Qed.

Lemma ext_rx_without_fading (cfg : Extended.ChannelConfig) (d : R) (g : engine L) :
  Extended.enableFading cfg = false ->
  Obs.cs_rxPower (fst (Obs.ext_evaluate L cfg d g))
  = Extended.txPowerDbm cfg - Extended.CalculatePathLoss cfg d.
Proof.
  intros H. cbn [Obs.ext_evaluate fst Obs.cs_rxPower].
  destruct (ext_fading_disabled L cfg g H) as [_ Hdb]. rewrite Hdb. ring.
Qed.

End ReceivedPower.

Section ReceivedPowerExamples.

Local Open Scope R_scope.

Example inverted_path_loss_near : Extended.CalculatePathLoss Fixtures.inverted_channel 1 = 40.77.
Proof. apply ext_path_loss_floor; simpl; lra. Qed.

Example inverted_path_loss_far : Extended.CalculatePathLoss Fixtures.inverted_channel 10 = 20.77.
Proof.
  rewrite ext_path_loss_Rmax. cbn [Fixtures.inverted_channel Extended.apply_configuration
    Extended.refDistance Extended.refPathLossDb Extended.pathLossExp
    Fixtures.inverted_command_line Extended.cl_pathLossExp Extended.default_channel].
  rewrite Rmax_left by lra. replace (10 / 1) with 10 by field.
  rewrite log10_10. lra.
Qed.

End ReceivedPowerExamples.

(** C9, as the code has it.  With fading and noise disabled, a
    non-negative path-loss exponent and a positive reference distance (it
    is 1 in every run), the received power is non-increasing in distance:
    an evaluation over a strictly longer distance never records a higher
    received power, whatever the nodes, packet size and statistics. *)
Theorem received_power_non_increasing_in_distance :
  forall (L : RandomLib) (GetDistanceFrom : N -> N -> R) (cfg : Extended.ChannelConfig)
         (src1 dst1 size1 src2 dst2 size2 : N) (w1 w2 : Extended.World L),
    Extended.enableFading cfg = false ->
    Extended.enableNoise cfg = false ->
    (0 <= Extended.pathLossExp cfg)%R ->
    (0 < Extended.refDistance cfg)%R ->
    (GetDistanceFrom src1 dst1 < GetDistanceFrom src2 dst2)%R ->
    (Obs.latest
       (Extended.rxPowerSamples
          (Extended.g_stats
             (snd (Extended.SimulateChannel L GetDistanceFrom cfg src2 dst2 size2 w2))))
     <= Obs.latest
          (Extended.rxPowerSamples
             (Extended.g_stats
                (snd (Extended.SimulateChannel L GetDistanceFrom cfg src1 dst1 size1 w1)))))%R.
Proof.
  intros L dist cfg src1 dst1 size1 src2 dst2 size2 w1 w2 Hf Hn Hexp Href Hd.
  rewrite !ext_received_power, !ext_rx_without_fading by exact Hf.
  pose proof (ext_path_loss_mono cfg (dist src1 dst1) (dist src2 dst2) Hexp Href) as H.
  lra.
Qed.

Lemma received_power_non_increasing_in_distance_witness :
  (Obs.latest
     (Extended.rxPowerSamples
        (Extended.g_stats
           (snd (Extended.SimulateChannel (Fixtures.replay []) Fixtures.two_rooms
                   Fixtures.quiet_channel 2 0 10 (Extended.initial (Fixtures.replay []))))))
   <= Obs.latest
        (Extended.rxPowerSamples
           (Extended.g_stats
              (snd (Extended.SimulateChannel (Fixtures.replay []) Fixtures.two_rooms
                      Fixtures.quiet_channel 1 0 10
                      (Extended.initial (Fixtures.replay [])))))))%R.
Proof.
  apply (received_power_non_increasing_in_distance (Fixtures.replay []) Fixtures.two_rooms
           Fixtures.quiet_channel 1 0 10 2 0 10).
  - reflexivity.
  - reflexivity.
  - simpl. lra.
  - simpl. lra.
  - change (Fixtures.two_rooms 1 0) with 1%R. change (Fixtures.two_rooms 2 0) with 10%R. lra.
Defined.

(** C9 as stated fails: the path-loss exponent is a command-line value
    and nothing keeps it non-negative.  With exponent -2, fading and noise
    disabled, the node at 10 m is received at -16.77 dBm and the node at
    1 m at -36.77 dBm. *)
Lemma received_power_rises_with_negative_exponent :
  let near :=
    Extended.SimulateChannel (Fixtures.replay []) Fixtures.two_rooms
      Fixtures.inverted_channel 1 0 10 (Extended.initial (Fixtures.replay [])) in
  let far :=
    Extended.SimulateChannel (Fixtures.replay []) Fixtures.two_rooms
      Fixtures.inverted_channel 2 0 10 (Extended.initial (Fixtures.replay [])) in
  Extended.enableFading Fixtures.inverted_channel = false
  /\ Extended.enableNoise Fixtures.inverted_channel = false
  /\ (Fixtures.two_rooms 1 0 < Fixtures.two_rooms 2 0)%R
  /\ Obs.latest (Extended.rxPowerSamples (Extended.g_stats (snd near))) = (-36.77)%R
  /\ Obs.latest (Extended.rxPowerSamples (Extended.g_stats (snd far))) = (-16.77)%R
  /\ ~ (Obs.latest (Extended.rxPowerSamples (Extended.g_stats (snd far)))
        <= Obs.latest (Extended.rxPowerSamples (Extended.g_stats (snd near))))%R.
Proof.
  cbv zeta.
  rewrite !ext_received_power, !ext_rx_without_fading by reflexivity.
  change (Fixtures.two_rooms 1 0) with 1%R.
  change (Fixtures.two_rooms 2 0) with 10%R.
  rewrite inverted_path_loss_near, inverted_path_loss_far.
  change (Extended.txPowerDbm Fixtures.inverted_channel) with 4%R.
  repeat split; try reflexivity; lra.
Qed.

(** ** Accounting of sent packets *)

Section Accounting.

Variable L : RandomLib.
Variable GetDistanceFrom : N -> N -> R.

Lemma incr_of_nat (k : nat) :
  (N.of_nat k + 1 < Cpp.UINT32_MOD)%N -> Cpp.incr (N.of_nat k) = N.of_nat (1 + k).
Proof. intros H. rewrite incr_small by exact H. lia. Qed.

Lemma incr_bounded (x : N) (k : nat) :
  (x <= N.of_nat k)%N -> (N.of_nat k + 1 < Cpp.UINT32_MOD)%N -> Cpp.incr x = (x + 1)%N.
Proof. intros Hx Hk. apply incr_small. lia. Qed.

Lemma ext_step_accounted (cfg : Extended.ChannelConfig) (e : Extended.Event)
    (w w' : Extended.World L) (s i f : nat) :
  Extended.step L GetDistanceFrom cfg w e = Ok w' ->
  (N.of_nat (s + i + f) + 1 < Cpp.UINT32_MOD)%N ->
  Obs.ext_accounted w s i f ->
  Obs.ext_accounted w' (Obs.flag (Obs.ext_is_send e) + s)
    (Obs.flag (Obs.ext_is_indication e) + i)
    (Obs.flag (Obs.ext_is_failed_confirm e) + f).
Proof.
  intros Hstep Hbound (Hs & Hi & Hh & Hf). cbv zeta in *.
  unfold Obs.ext_channel_drops, Obs.handoffs in *.
  destruct e; simpl in Hstep; cbn [Obs.flag Obs.ext_is_send Obs.ext_is_indication
    Obs.ext_is_failed_confirm Nat.add].
  - injection Hstep as <-.
    destruct (ext_send_unfolded L GetDistanceFrom cfg sensor coordinator now uid
                coordinatorAddr w) as (st1 & Hsent & Hrep & _ & _ & Heq).
    cbv zeta in Heq. rewrite Heq. clear Heq.
    injection Hrep as _ Er Ed En Ef Es _ _ _ _. cbn in Er, Ed, En, Ef, Es.
    set (smp := fst (Obs.ext_evaluate L cfg (GetDistanceFrom sensor coordinator)
                       (Extended.g_rng w))).
    destruct (ext_record_kept smp st1) as (Ks & Kr & Kd & _ & _ & _ & _).
    pose proof (ext_record_drops smp st1) as Hc.
    unfold Obs.ext_drop_counters in Hc. rewrite En, Ef, Es in Hc.
    rewrite Hs in Hsent. rewrite incr_of_nat in Hsent by lia.
    set (st2 := Obs.ext_record smp st1) in *. clearbody st2.
    unfold Obs.ext_accounted, Obs.ext_channel_drops.
    destruct (Obs.cs_outcome smp); injection Hc as Hn' Hf' Hs'; cbn;
      rewrite ?Ks, ?Kr, ?Kd, ?Hn', ?Hf', ?Hs', ?List.filter_app, ?length_app;
      cbn [List.filter is_data_request length];
      rewrite ?Hsent, ?Er, ?Ed, ?Hi, ?Hf;
      repeat split; try reflexivity;
      rewrite ?(incr_bounded _ (s + i + f)) by lia; try lia.
  - injection Hstep as <-. unfold Extended.OnDataReceived, Extended.with_stats.
    cbn [Extended.g_stats Extended.g_rng Extended.scheduled].
    match goal with
    | |- Obs.ext_accounted (Extended.mkWorld (Extended.completePendingDelivery ?u ?t ?st) ?g ?q) _ _ _ =>
        pose proof (ext_complete_report L u t st g q) as Hrep
    end.
    injection Hrep as Et Er Ed En Ef Es _ _ _ _. cbn in Et, Er, Ed, En, Ef, Es.
    unfold Obs.ext_accounted, Obs.ext_channel_drops. cbn [Extended.g_stats Extended.scheduled].
    rewrite Et, Er, Ed, En, Ef, Es, Hs, Hi. rewrite incr_of_nat by lia.
    repeat split; try assumption; try lia.
  - injection Hstep as <-. destruct m_status; cbn.
    + repeat split; assumption.
    + unfold Obs.ext_accounted, Obs.ext_channel_drops. cbn.
      rewrite Hf. rewrite (incr_bounded _ (s + i + f)) by lia.
      repeat split; try assumption; lia.
  - injection Hstep as <-. repeat split; assumption.
  - unfold Extended.OnNetworkDiscovery in Hstep.
    destruct (is_success m_status && negb (bool_decide (m_netDescList = []))).
    + destruct (Cpp.at_index m_netDescList 0); [| discriminate].
      injection Hstep as <-. unfold Obs.ext_accounted, Obs.ext_channel_drops, Obs.handoffs.
      cbn. rewrite List.filter_app, length_app. cbn. rewrite Nat.add_0_r.
      repeat split; assumption.
    + injection Hstep as <-. repeat split; assumption.
  - injection Hstep as <-. unfold Extended.OnJoinConfirm.
    destruct (is_success m_status).
    + unfold Obs.ext_accounted, Obs.ext_channel_drops, Obs.handoffs. cbn.
      rewrite List.filter_app, length_app. cbn. rewrite Nat.add_0_r.
      repeat split; assumption.
    + repeat split; assumption.
  - injection Hstep as <-. repeat split; assumption.
Qed.

Lemma v3_complete_counters (uid : N) (now : ns3Time) (st : Ver3.NetworkStats) :
  Ver3.packetsTransmitted (Ver3.completePendingDelivery uid now st)
    = Ver3.packetsTransmitted st
  /\ Ver3.packetsReceived (Ver3.completePendingDelivery uid now st) = Ver3.packetsReceived st
  /\ Ver3.packetsFailed (Ver3.completePendingDelivery uid now st) = Ver3.packetsFailed st
  /\ Obs.v3_drop_counters (Ver3.completePendingDelivery uid now st) = Obs.v3_drop_counters st.
Proof.
  unfold Ver3.completePendingDelivery.
  destruct (Ver3.packetSendTimes st !! uid); repeat split.
Qed.

Lemma v3_step_accounted (e : Ver3.Event) (w w' : Ver3.World L) (s i f : nat) :
  Ver3.step L GetDistanceFrom w e = Ok w' ->
  (N.of_nat (s + i + f) + 1 < Cpp.UINT32_MOD)%N ->
  Obs.v3_accounted w s i f ->
  Obs.v3_accounted w' (Obs.flag (Obs.v3_is_send e) + s)
    (Obs.flag (Obs.v3_is_indication e) + i)
    (Obs.flag (Obs.v3_is_failed_confirm e) + f).
Proof.
  intros Hstep Hbound (Hs & Hi & Hh & Hf). cbv zeta in *.
  unfold Obs.v3_channel_drops, Obs.handoffs in *.
  destruct e; simpl in Hstep; cbn [Obs.flag Obs.v3_is_send Obs.v3_is_indication
    Obs.v3_is_failed_confirm Nat.add].
  - injection Hstep as <-.
    pose proof (v3_outcome_cases L (GetDistanceFrom sensorStack coordinatorStack)
                  (Ver3.gen w)) as Hns.
    rewrite v3_send_unfolded. cbv zeta.
    set (smp := fst (Obs.v3_evaluate L (GetDistanceFrom sensorStack coordinatorStack)
                       (Ver3.gen w))) in *.
    destruct (v3_record_kept smp (Ver3.g_stats w)) as (Kt & Kr & Kf & _ & _).
    pose proof (v3_record_drops smp (Ver3.g_stats w)) as Hc.
    unfold Obs.v3_drop_counters in Hc.
    set (st1 := Obs.v3_record smp (Ver3.g_stats w)) in *. clearbody st1.
    unfold Obs.v3_accounted, Obs.v3_channel_drops, Obs.handoffs.
    destruct (Obs.cs_outcome smp); try contradiction; injection Hc as Hn' Hf';
      cbn [Obs.delivered Ver3.g_stats Ver3.scheduled];
      unfold Ver3.AddTransmissionPower, Ver3.beginPendingDelivery;
      try destruct (Z.eqb _ _); cbn;
      rewrite ?Kt, ?Kr, ?Kf, ?Hn', ?Hf', ?List.filter_app, ?length_app;
      cbn [List.filter is_data_request length];
      rewrite ?Hs, ?Hi, ?Hf;
      rewrite ?incr_of_nat by lia;
      rewrite ?(incr_bounded _ (s + i + f)) by lia;
      repeat split; try reflexivity; try lia.
  - injection Hstep as <-. unfold Ver3.SendGroupCommand, Ver3.AddTransmissionPower,
      Ver3.beginPendingDelivery. unfold Obs.v3_accounted, Obs.v3_channel_drops, Obs.handoffs.
    cbn. rewrite List.filter_app, length_app. cbn [List.filter is_data_request length].
    rewrite Hs, Hi, Hf. rewrite incr_of_nat by lia.
    repeat split; try reflexivity; try lia.
  - injection Hstep as <-. unfold Obs.v3_accounted, Obs.v3_channel_drops, Obs.handoffs.
    cbn. rewrite List.filter_app, length_app. cbn. rewrite Nat.add_0_r.
    repeat split; assumption.
  - injection Hstep as <-. unfold Ver3.ApsDataIndication. cbv zeta.
    match goal with
    | |- context [Ver3.completePendingDelivery ?u ?t ?st] =>
        destruct (v3_complete_counters u t st) as (Ct & Cr & Cf & Cd);
        set (c := Ver3.completePendingDelivery u t st) in *
    end.
    unfold Obs.v3_drop_counters in Cd. cbn in Ct, Cr, Cf, Cd. injection Cd as Cn Cfa.
    clearbody c.
    unfold Obs.v3_accounted, Obs.v3_channel_drops, Obs.handoffs.
    destruct (Ver3.ind_dstAddrMode params); cbn;
      rewrite ?Ct, ?Cr, ?Cf, ?Cn, ?Cfa, ?Hs, ?Hi, ?Hf;
      rewrite ?incr_of_nat by lia;
      repeat split; try assumption; try reflexivity; try lia.
  - injection Hstep as <-. destruct m_status; cbn.
    + repeat split; assumption.
    + unfold Obs.v3_accounted, Obs.v3_channel_drops, Obs.handoffs. cbn.
      rewrite Hf. rewrite (incr_bounded _ (s + i + f)) by lia.
      repeat split; try assumption; lia.
  - injection Hstep as <-. repeat split; assumption.
  - unfold Ver3.NwkNetworkDiscoveryConfirm in Hstep.
    destruct (is_success m_status).
    + destruct (Cpp.at_index m_netDescList 0); [| discriminate].
      injection Hstep as <-. unfold Obs.v3_accounted, Obs.v3_channel_drops, Obs.handoffs.
      cbn. rewrite List.filter_app, length_app. cbn. rewrite Nat.add_0_r.
      repeat split; assumption.
    + injection Hstep as <-. repeat split; assumption.
  - injection Hstep as <-. unfold Ver3.NwkJoinConfirm.
    destruct (is_success m_status).
    + unfold Obs.v3_accounted, Obs.v3_channel_drops, Obs.handoffs. cbn.
      rewrite List.filter_app, length_app. cbn. rewrite Nat.add_0_r.
      repeat split; assumption.
    + repeat split; assumption.
  - injection Hstep as <-. unfold Obs.v3_accounted, Obs.v3_channel_drops, Obs.handoffs.
    cbn. repeat split; assumption.
Qed.

End Accounting.

Section AccountedRuns.

Variable L : RandomLib.
Variable GetDistanceFrom : N -> N -> R.

Lemma ext_flags_disjoint (e : Extended.Event) :
  (Obs.flag (Obs.ext_is_send e) + Obs.flag (Obs.ext_is_indication e)
   + Obs.flag (Obs.ext_is_failed_confirm e) <= 1)%nat.
Proof. destruct e as [| | ? [|] | | | |]; cbn; lia. Qed.

Lemma v3_flags_disjoint (e : Ver3.Event) :
  (Obs.flag (Obs.v3_is_send e) + Obs.flag (Obs.v3_is_indication e)
   + Obs.flag (Obs.v3_is_failed_confirm e) <= 1)%nat.
Proof. destruct e as [| | | | ? [|] | | | |]; cbn; lia. Qed.

Lemma ext_run_accounted (cfg : Extended.ChannelConfig) (tr : list Extended.Event) :
  forall (w w' : Extended.World L) (s i f : nat),
    Extended.run L GetDistanceFrom cfg w tr = Ok w' ->
    (N.of_nat (s + i + f + length tr) < Cpp.UINT32_MOD)%N ->
    Obs.ext_accounted w s i f ->
    Obs.ext_accounted w' (Obs.count Obs.ext_is_send tr + s)
      (Obs.count Obs.ext_is_indication tr + i)
      (Obs.count Obs.ext_is_failed_confirm tr + f).
Proof.
  induction tr as [| e tr IH]; intros w w' s i f Hrun Hbound Hacc.
  - injection Hrun as <-. exact Hacc.
  - cbn [Extended.run] in Hrun.
    destruct (Extended.step L GetDistanceFrom cfg w e) as [w1 |] eqn:Hstep; [| discriminate].
    cbn [length] in Hbound.
    pose proof (ext_flags_disjoint e) as Hdis.
    assert (Hstep' := ext_step_accounted L GetDistanceFrom cfg e w w1 s i f Hstep
                        ltac:(lia) Hacc).
    assert (Hbound' : (N.of_nat (Obs.flag (Obs.ext_is_send e) + s
                                 + (Obs.flag (Obs.ext_is_indication e) + i)
                                 + (Obs.flag (Obs.ext_is_failed_confirm e) + f)
                                 + length tr) < Cpp.UINT32_MOD)%N) by lia.
    specialize (IH w1 w' _ _ _ Hrun Hbound' Hstep').
    rewrite !count_cons. unfold Obs.flag in IH.
    match goal with
    | |- Obs.ext_accounted _ ?a ?b ?c =>
        match type of IH with
        | Obs.ext_accounted _ ?a' ?b' ?c' =>
            replace a with a' by lia; replace b with b' by lia; replace c with c' by lia
        end
    end.
    exact IH.
Qed.

Lemma v3_run_accounted (tr : list Ver3.Event) :
  forall (w w' : Ver3.World L) (s i f : nat),
    Ver3.run L GetDistanceFrom w tr = Ok w' ->
    (N.of_nat (s + i + f + length tr) < Cpp.UINT32_MOD)%N ->
    Obs.v3_accounted w s i f ->
    Obs.v3_accounted w' (Obs.count Obs.v3_is_send tr + s)
      (Obs.count Obs.v3_is_indication tr + i)
      (Obs.count Obs.v3_is_failed_confirm tr + f).
Proof.
  induction tr as [| e tr IH]; intros w w' s i f Hrun Hbound Hacc.
  - injection Hrun as <-. exact Hacc.
  - cbn [Ver3.run] in Hrun.
    destruct (Ver3.step L GetDistanceFrom w e) as [w1 |] eqn:Hstep; [| discriminate].
    cbn [length] in Hbound.
    pose proof (v3_flags_disjoint e) as Hdis.
    assert (Hstep' := v3_step_accounted L GetDistanceFrom e w w1 s i f Hstep
                        ltac:(lia) Hacc).
    assert (Hbound' : (N.of_nat (Obs.flag (Obs.v3_is_send e) + s
                                 + (Obs.flag (Obs.v3_is_indication e) + i)
                                 + (Obs.flag (Obs.v3_is_failed_confirm e) + f)
                                 + length tr) < Cpp.UINT32_MOD)%N) by lia.
    specialize (IH w1 w' _ _ _ Hrun Hbound' Hstep').
    rewrite !count_cons. unfold Obs.flag in IH.
    match goal with
    | |- Obs.v3_accounted _ ?a ?b ?c =>
        match type of IH with
        | Obs.v3_accounted _ ?a' ?b' ?c' =>
            replace a with a' by lia; replace b with b' by lia; replace c with c' by lia
        end
    end.
    exact IH.
Qed.

End AccountedRuns.

(** C1, as the code has it.  In any run of fewer than 2^32 callbacks from
    the initial state, the sent counter equals the cause-classified
    channel drops plus the data requests handed to the external stack:
    every send is resolved at once into exactly one of the two.  The
    received counter is the number of data indications the stack raised
    and the stack failures are the failed confirms it raised.  Hence
    received + droppedByNoise + droppedByFading + droppedBySensitivity +
    stack failures <= sent holds whenever the stack raised at most one
    indication or failed confirm per request handed to it, with equality
    when it raised exactly one for each.  (Ver3 has no sensitivity
    counter.)  Every run of the extended variant is defined; a run of Ver3
    is defined when no discovery confirm reports success with an empty
    network list. *)
Theorem sent_packets_are_accounted_for :
  (forall (L : RandomLib) (GetDistanceFrom : N -> N -> R) (cfg : Extended.ChannelConfig)
          (tr : list Extended.Event) (w : Extended.World L),
      (N.of_nat (length tr) < Cpp.UINT32_MOD)%N ->
      Extended.run L GetDistanceFrom cfg (Extended.initial L) tr = Ok w ->
      let st := Extended.g_stats w in
      let handed := N.of_nat (Obs.handoffs (Extended.scheduled w)) in
      let indications := N.of_nat (Obs.count Obs.ext_is_indication tr) in
      let failures := N.of_nat (Obs.count Obs.ext_is_failed_confirm tr) in
      let outcomes :=
        (Extended.totalReceived st + Extended.droppedByNoise st + Extended.droppedByFading st
         + Extended.droppedBySensitivity st + Obs.ext_stack_failures st)%N in
      Extended.totalSent st = N.of_nat (Obs.count Obs.ext_is_send tr)
      /\ Extended.totalSent st = (Obs.ext_channel_drops st + handed)%N
      /\ Extended.totalReceived st = indications
      /\ Obs.ext_stack_failures st = failures
      /\ ((indications + failures <= handed)%N -> (outcomes <= Extended.totalSent st)%N)
      /\ ((indications + failures = handed)%N -> outcomes = Extended.totalSent st))
  /\ (forall (L : RandomLib) (GetDistanceFrom : N -> N -> R) (cfg : Extended.ChannelConfig)
             (tr : list Extended.Event),
         exists w, Extended.run L GetDistanceFrom cfg (Extended.initial L) tr = Ok w)
  /\ (forall (L : RandomLib) (GetDistanceFrom : N -> N -> R) (rd : N)
             (tr : list Ver3.Event) (w : Ver3.World L),
         (N.of_nat (length tr) < Cpp.UINT32_MOD)%N ->
         Ver3.run L GetDistanceFrom (Ver3.initial L rd) tr = Ok w ->
         let st := Ver3.g_stats w in
         let handed := N.of_nat (Obs.handoffs (Ver3.scheduled w)) in
         let indications := N.of_nat (Obs.count Obs.v3_is_indication tr) in
         let failures := N.of_nat (Obs.count Obs.v3_is_failed_confirm tr) in
         let outcomes :=
           (Ver3.packetsReceived st + Ver3.packetsDroppedByNoise st
            + Ver3.packetsDroppedByFading st + Obs.v3_stack_failures st)%N in
         Ver3.packetsTransmitted st = N.of_nat (Obs.count Obs.v3_is_send tr)
         /\ Ver3.packetsTransmitted st = (Obs.v3_channel_drops st + handed)%N
         /\ Ver3.packetsReceived st = indications
         /\ Obs.v3_stack_failures st = failures
         /\ ((indications + failures <= handed)%N -> (outcomes <= Ver3.packetsTransmitted st)%N)
         /\ ((indications + failures = handed)%N -> outcomes = Ver3.packetsTransmitted st))
  /\ (forall (L : RandomLib) (GetDistanceFrom : N -> N -> R) (rd : N)
             (tr : list Ver3.Event),
         Forall (fun e => Obs.v3_reads_empty_list e = false) tr ->
         exists w, Ver3.run L GetDistanceFrom (Ver3.initial L rd) tr = Ok w).
Proof.
  split; [| split; [| split]].
  - intros L dist cfg tr w Hlen Hrun. cbv zeta.
    destruct (ext_run_accounted L dist cfg tr (Extended.initial L) w 0 0 0 Hrun)
      as (Hs & Hi & Hh & Hf).
    + cbn [Nat.add]. exact Hlen.
    + repeat split.
    + cbv zeta in *. rewrite !Nat.add_0_r in *.
      unfold Obs.ext_stack_failures. unfold Obs.ext_channel_drops in *.
      rewrite Hf, Hs, Hi.
      repeat split; try lia.
  - intros L dist cfg tr. apply ext_run_defined.
  - intros L dist rd tr w Hlen Hrun. cbv zeta.
    destruct (v3_run_accounted L dist tr (Ver3.initial L rd) w 0 0 0 Hrun)
      as (Hs & Hi & Hh & Hf).
    + cbn [Nat.add]. exact Hlen.
    + repeat split.
    + cbv zeta in *. rewrite !Nat.add_0_r in *.
      unfold Obs.v3_stack_failures. unfold Obs.v3_channel_drops in *.
      rewrite Hf, Hs, Hi.
      repeat split; try lia.
  - intros L dist rd tr Hdef. apply v3_run_defined, Hdef.
Qed.

Lemma sent_packets_are_accounted_for_witness :
  (let st :=
     Extended.g_stats
       (Extended.OnDataReceived (Fixtures.replay []) 0 30004500000 7 10
          (Extended.SendSensorData (Fixtures.replay []) Fixtures.one_metre
             Fixtures.quiet_channel 5 0 30000000000 7 0
             (Extended.initial (Fixtures.replay [])))) in
   (Extended.totalReceived st + Extended.droppedByNoise st + Extended.droppedByFading st
    + Extended.droppedBySensitivity st + Obs.ext_stack_failures st)%N
   = Extended.totalSent st)
  /\ (let st :=
        Ver3.g_stats
          (Ver3.ApsDataIndication (Fixtures.replay Fixtures.unit_fade) 0
             Fixtures.unicast_indication 30004500000 7 2
             (Ver3.SendTemperatureReading (Fixtures.replay Fixtures.unit_fade)
                Fixtures.one_metre 5 0 30000000000 7 0
                (Ver3.initial (Fixtures.replay Fixtures.unit_fade) 0))) in
      (Ver3.packetsReceived st + Ver3.packetsDroppedByNoise st
       + Ver3.packetsDroppedByFading st + Obs.v3_stack_failures st)%N
      = Ver3.packetsTransmitted st)
  /\ (exists w,
         Ver3.run (Fixtures.replay Fixtures.unit_fade) Fixtures.one_metre
           (Ver3.initial (Fixtures.replay Fixtures.unit_fade) 0)
           [Ver3.EvNwkNetworkDiscoveryConfirm 5 SUCCESS [mkNetworkDescriptor 51966];
            Ver3.EvNwkJoinConfirm 5 SUCCESS] = Ok w).
Proof.
  destruct sent_packets_are_accounted_for as (Hext & _ & Hv3 & Hdef).
  split; [| split].
  - destruct (Hext (Fixtures.replay []) Fixtures.one_metre Fixtures.quiet_channel
                [Extended.EvSendSensorData 5 0 30000000000 7 0;
                 Extended.EvDataReceived 0 30004500000 7 10]
                (Extended.OnDataReceived (Fixtures.replay []) 0 30004500000 7 10
                   (Extended.SendSensorData (Fixtures.replay []) Fixtures.one_metre
                      Fixtures.quiet_channel 5 0 30000000000 7 0
                      (Extended.initial (Fixtures.replay []))))
                eq_refl eq_refl) as (_ & _ & _ & _ & _ & Heq).
    apply Heq.
    destruct (ext_send_delivered (Fixtures.replay []) Fixtures.one_metre
                Fixtures.quiet_channel 5 0 30000000000 7 0
                (Extended.initial (Fixtures.replay []))
                (quiet_channel_delivers 5 0 10 (Extended.initial (Fixtures.replay [])))) as (_ & _ & _ & _ & params & Hq & _).
    change (Extended.scheduled
              (Extended.OnDataReceived (Fixtures.replay []) 0 30004500000 7 10
                 (Extended.SendSensorData (Fixtures.replay []) Fixtures.one_metre
                    Fixtures.quiet_channel 5 0 30000000000 7 0
                    (Extended.initial (Fixtures.replay [])))))
      with (Extended.scheduled
              (Extended.SendSensorData (Fixtures.replay []) Fixtures.one_metre
                 Fixtures.quiet_channel 5 0 30000000000 7 0
                 (Extended.initial (Fixtures.replay [])))).
    rewrite Hq. reflexivity.
  - destruct (Hv3 (Fixtures.replay Fixtures.unit_fade) Fixtures.one_metre 0%N
                [Ver3.EvSendTemperatureReading 5 0 30000000000 7 0;
                 Ver3.EvApsDataIndication 0 Fixtures.unicast_indication 30004500000 7 2]
                (Ver3.ApsDataIndication (Fixtures.replay Fixtures.unit_fade) 0
                   Fixtures.unicast_indication 30004500000 7 2
                   (Ver3.SendTemperatureReading (Fixtures.replay Fixtures.unit_fade)
                      Fixtures.one_metre 5 0 30000000000 7 0
                      (Ver3.initial (Fixtures.replay Fixtures.unit_fade) 0)))
                eq_refl eq_refl) as (_ & _ & _ & _ & _ & Heq).
    apply Heq.
    destruct (v3_send_delivered (Fixtures.replay Fixtures.unit_fade) Fixtures.one_metre
                5 0 30000000000 7 0
                (Ver3.initial (Fixtures.replay Fixtures.unit_fade) 0)
                (v3_near_delivers 5 0
                   (Ver3.initial (Fixtures.replay Fixtures.unit_fade) 0) eq_refl)) as (_ & _ & _ & _ & params & Hq & _).
    change (Ver3.scheduled
              (Ver3.ApsDataIndication (Fixtures.replay Fixtures.unit_fade) 0
                 Fixtures.unicast_indication 30004500000 7 2
                 (Ver3.SendTemperatureReading (Fixtures.replay Fixtures.unit_fade)
                    Fixtures.one_metre 5 0 30000000000 7 0
                    (Ver3.initial (Fixtures.replay Fixtures.unit_fade) 0))))
      with (Ver3.scheduled
              (Ver3.SendTemperatureReading (Fixtures.replay Fixtures.unit_fade)
                 Fixtures.one_metre 5 0 30000000000 7 0
                 (Ver3.initial (Fixtures.replay Fixtures.unit_fade) 0))).
    rewrite Hq. reflexivity.
  - apply Hdef. repeat constructor.
Defined.

(** C1 as stated fails.  Ver3, no channel drop involved: the coordinator
    sends one command to the group of all lights, which [main] gives two
    members (nodes 4 and 5); each member's stack raises a data indication
    and each indication increments the received counter.  One packet
    sent, two received, none pending. *)
Lemma group_command_is_received_twice :
  exists w : Ver3.World (Fixtures.replay []),
    Ver3.run (Fixtures.replay []) Fixtures.one_metre (Ver3.initial (Fixtures.replay []) 0)
      [Ver3.EvSendGroupCommand 0 Ver3.GROUP_ALL_LIGHTS 0 43000000000 9;
       Ver3.EvApsDataIndication 4 Fixtures.group_indication 43004000000 9 1;
       Ver3.EvApsDataIndication 5 Fixtures.group_indication 43006000000 9 1] = Ok w
    /\ Ver3.packetsTransmitted (Ver3.g_stats w) = 1%N
    /\ Ver3.packetsReceived (Ver3.g_stats w) = 2%N
    /\ Ver3.packetsDroppedByNoise (Ver3.g_stats w) = 0%N
    /\ Ver3.packetsDroppedByFading (Ver3.g_stats w) = 0%N
    /\ Obs.v3_stack_failures (Ver3.g_stats w) = 0%N
    /\ Ver3.packetSendTimes (Ver3.g_stats w) = ∅
    /\ ~ (Ver3.packetsReceived (Ver3.g_stats w) + Ver3.packetsDroppedByNoise (Ver3.g_stats w)
          + Ver3.packetsDroppedByFading (Ver3.g_stats w)
          + Obs.v3_stack_failures (Ver3.g_stats w)
          <= Ver3.packetsTransmitted (Ver3.g_stats w))%N.
Proof.
  eexists. split; [reflexivity |].
  repeat split; try reflexivity.
  intros H. vm_compute in H. apply H. reflexivity.
Qed.

(** ** Reproducibility *)

Section Reproducible.

Variable L : RandomLib.
Variable GetDistanceFrom : N -> N -> R.

Lemma ext_record_report (smp : Obs.ChannelSample) (st st' : Extended.SimStats)
    (g g' : engine L) :
  Obs.ext_report (Extended.mkWorld st g []) = Obs.ext_report (Extended.mkWorld st' g []) ->
  Obs.ext_report (Extended.mkWorld (Obs.ext_record smp st) g' [])
  = Obs.ext_report (Extended.mkWorld (Obs.ext_record smp st') g' []).
Proof.
  intros H. injection H as Hs Hr Hd Hn Hf Hse Hsnr Hrx Hfa Hdi.
  unfold Obs.ext_report, Obs.ext_record. cbn in *.
  destruct (Obs.cs_outcome smp); cbn; congruence.
Qed.

Lemma ext_send_agree (cfg : Extended.ChannelConfig) (sensor coordinator : N)
    (now1 now2 : ns3Time) (uid1 uid2 addr : N) (w1 w2 : Extended.World L) :
  Obs.ext_report w1 = Obs.ext_report w2 ->
  Obs.ext_report
    (Extended.SendSensorData L GetDistanceFrom cfg sensor coordinator now1 uid1 addr w1)
  = Obs.ext_report
      (Extended.SendSensorData L GetDistanceFrom cfg sensor coordinator now2 uid2 addr w2).
Proof.
  intros H.
  destruct (ext_send_unfolded L GetDistanceFrom cfg sensor coordinator now1 uid1 addr w1)
    as (st1 & _ & Hrep1 & _ & _ & Heq1).
  destruct (ext_send_unfolded L GetDistanceFrom cfg sensor coordinator now2 uid2 addr w2)
    as (st2 & _ & Hrep2 & _ & _ & Heq2).
  cbv zeta in Heq1, Heq2. rewrite Heq1, Heq2. clear Heq1 Heq2.
  assert (Hg : Extended.g_rng w1 = Extended.g_rng w2).
  { injection H as _ _ _ _ _ _ _ _ _ _ Hg. exact Hg. }
  assert (Hst : Obs.ext_report (Extended.mkWorld st1 (Extended.g_rng w1) [])
                = Obs.ext_report (Extended.mkWorld st2 (Extended.g_rng w1) [])).
  { rewrite Hrep1. rewrite Hg at 2. rewrite Hrep2.
    injection H as Hs Hr Hd Hn Hf Hse Hsnr Hrx Hfa Hdi _.
    unfold Obs.ext_report. cbn. rewrite Hg. congruence. }
  rewrite <- Hg.
  set (sg := Obs.ext_evaluate L cfg (GetDistanceFrom sensor coordinator) (Extended.g_rng w1)).
  pose proof (ext_record_report (fst sg) st1 st2 (Extended.g_rng w1) (snd sg) Hst) as Hrec.
  clearbody sg.
  set (r1 := Obs.ext_record (fst sg) st1) in *.
  set (r2 := Obs.ext_record (fst sg) st2) in *. clearbody r1 r2.
  injection Hrec as Hs Hr Hd Hn Hf Hse Hsnr Hrx Hfa Hdi.
  destruct (Obs.delivered _); unfold Obs.ext_report; cbn; congruence.
Qed.

Lemma ext_step_agree (cfg : Extended.ChannelConfig) (e1 e2 : Extended.Event)
    (w1 w2 : Extended.World L) :
  Obs.ext_same_call e1 e2 ->
  Obs.ext_report w1 = Obs.ext_report w2 ->
  Obs.agree Obs.ext_report (Extended.step L GetDistanceFrom cfg w1 e1)
    (Extended.step L GetDistanceFrom cfg w2 e2).
Proof.
  intros Hcall H.
  destruct e1, e2; cbn in Hcall; try contradiction; cbn [Extended.step Obs.agree].
  - destruct Hcall as (-> & -> & ->). apply ext_send_agree, H.
  - unfold Extended.OnDataReceived, Extended.with_stats.
    cbn [Extended.g_stats Extended.g_rng Extended.scheduled].
    repeat match goal with
    | |- context [Extended.mkWorld (Extended.completePendingDelivery ?u ?t ?st) ?g ?q] =>
        rewrite (ext_complete_report L u t st g q)
    end.
    injection H as Hs Hr Hd Hn Hf Hse Hsnr Hrx Hfa Hdi Hg.
    unfold Obs.ext_report. cbn. congruence.
  - destruct Hcall as (-> & ->).
    injection H as Hs Hr Hd Hn Hf Hse Hsnr Hrx Hfa Hdi Hg.
    destruct m_status0; unfold Obs.ext_report; cbn; congruence.
  - exact H.
  - destruct Hcall as (-> & -> & ->). unfold Extended.OnNetworkDiscovery.
    destruct (is_success m_status0 && negb (bool_decide (m_netDescList0 = []))).
    + destruct (Cpp.at_index m_netDescList0 0); [| exact I]. exact H.
    + exact H.
  - destruct Hcall as (-> & ->). unfold Extended.OnJoinConfirm.
    destruct (is_success m_status0); exact H.
  - exact H.
Qed.

Lemma ext_run_agree (cfg : Extended.ChannelConfig) (tr1 tr2 : list Extended.Event) :
  Forall2 Obs.ext_same_call tr1 tr2 ->
  forall w1 w2 : Extended.World L,
    Obs.ext_report w1 = Obs.ext_report w2 ->
    Obs.agree Obs.ext_report (Extended.run L GetDistanceFrom cfg w1 tr1)
      (Extended.run L GetDistanceFrom cfg w2 tr2).
Proof.
  induction 1 as [| e1 e2 tr1 tr2 Hcall _ IH]; intros w1 w2 H.
  - exact H.
  - cbn [Extended.run].
    pose proof (ext_step_agree cfg e1 e2 w1 w2 Hcall H) as Hstep.
    destruct (Extended.step L GetDistanceFrom cfg w1 e1) as [w1' |],
             (Extended.step L GetDistanceFrom cfg w2 e2) as [w2' |];
      cbn in Hstep; try contradiction.
    + apply IH, Hstep.
    + exact I.
Qed.

Lemma v3_record_report (smp : Obs.ChannelSample) (st st' : Ver3.NetworkStats)
    (g g' : engine L) :
  Obs.v3_report (Ver3.mkWorld st g []) = Obs.v3_report (Ver3.mkWorld st' g []) ->
  Obs.v3_report (Ver3.mkWorld (Obs.v3_record smp st) g' [])
  = Obs.v3_report (Ver3.mkWorld (Obs.v3_record smp st') g' []).
Proof.
  intros H. injection H as Ht Hr Hf Hbt Hbr Hrd Hja Hjs Hgc Hn Hfa Hsnr Hfc Hns Hnr Hpt Hpr Hpi.
  unfold Obs.v3_report, Obs.v3_record. cbn in *.
  destruct (Obs.cs_outcome smp); cbn; congruence.
Qed.

Lemma v3_complete_report (uid : N) (now : ns3Time) (st : Ver3.NetworkStats)
    (g : engine L) (q : list StackCall) :
  Obs.v3_report (Ver3.mkWorld (Ver3.completePendingDelivery uid now st) g q)
  = Obs.v3_report (Ver3.mkWorld st g q).
Proof.
  unfold Ver3.completePendingDelivery.
  destruct (Ver3.packetSendTimes st !! uid); reflexivity.
Qed.

Lemma v3_indication_report (stack : N) (params : Ver3.ApsdeDataIndicationParams)
    (now : ns3Time) (uid size : N) (w : Ver3.World L) :
  Obs.v3_report (Ver3.ApsDataIndication L stack params now uid size w)
  = let st := Ver3.g_stats w in
    {| Obs.vr_packets :=
         (Ver3.packetsTransmitted st, Cpp.incr (Ver3.packetsReceived st),
          Ver3.packetsFailed st, Ver3.bytesTransmitted st,
          Cpp.add32 (Ver3.bytesReceived st) size);
       Obs.vr_control :=
         (Ver3.routeDiscoveries st, Ver3.joinAttempts st, Ver3.joinSuccesses st,
          match Ver3.ind_dstAddrMode params with
          | GROUP_ADDR_DST_ENDPOINT_NOT_PRESENT => Cpp.incr (Ver3.groupCommands st)
          | _ => Ver3.groupCommands st
          end);
       Obs.vr_drops := (Ver3.packetsDroppedByNoise st, Ver3.packetsDroppedByFading st);
       Obs.vr_snr := Ver3.snrValues st;
       Obs.vr_fading := Ver3.fadingCoefficients st;
       Obs.vr_nodes :=
         (Ver3.nodePacketsSent st, Cpp.map_incr stack (Ver3.nodePacketsReceived st));
       Obs.vr_energy :=
         (Ver3.totalTxPower st,
          (Ver3.totalRxPower st
           + Ver3.RX_POWER * Ver3.CalculateTransmissionTime size / 1000)%R,
          Ver3.totalIdlePower st);
       Obs.vr_gen := Ver3.gen w |}.
Proof.
  unfold Ver3.ApsDataIndication. cbv zeta.
  match goal with
  | |- context [Ver3.completePendingDelivery ?u ?t ?st] =>
      pose proof (v3_complete_report u t st (Ver3.gen w) []) as Hc;
      generalize dependent (Ver3.completePendingDelivery u t st)
  end.
  intros c Hc. injection Hc as Ht Hr Hf Hbt Hbr Hrd Hja Hjs Hgc Hn Hfa Hsnr Hfc Hns Hnr Hpt Hpr Hpi.
  cbn in Ht, Hr, Hf, Hbt, Hbr, Hrd, Hja, Hjs, Hgc, Hn, Hfa, Hsnr, Hfc.
  unfold Obs.v3_report, Ver3.AddReceptionPower.
  destruct (Ver3.ind_dstAddrMode params); cbn; congruence.
Qed.

Lemma v3_send_agree (sensor coordinator : N) (now1 now2 : ns3Time) (uid1 uid2 addr : N)
    (w1 w2 : Ver3.World L) :
  Obs.v3_report w1 = Obs.v3_report w2 ->
  Obs.v3_report
    (Ver3.SendTemperatureReading L GetDistanceFrom sensor coordinator now1 uid1 addr w1)
  = Obs.v3_report
      (Ver3.SendTemperatureReading L GetDistanceFrom sensor coordinator now2 uid2 addr w2).
Proof.
  intros H. rewrite !v3_send_unfolded. cbv zeta.
  assert (Hg : Ver3.gen w1 = Ver3.gen w2).
  { injection H as _ _ _ _ _ _ _ _ _ _ _ _ _ _ _ _ _ _ Hg. exact Hg. }
  assert (Hst : Obs.v3_report (Ver3.mkWorld (Ver3.g_stats w1) (Ver3.gen w1) [])
                = Obs.v3_report (Ver3.mkWorld (Ver3.g_stats w2) (Ver3.gen w1) [])).
  { injection H as Ht Hr Hf Hbt Hbr Hrd Hja Hjs Hgc Hn Hfa Hsnr Hfc Hns Hnr Hpt Hpr Hpi _.
    unfold Obs.v3_report. cbn. congruence. }
  rewrite <- Hg.
  set (sg := Obs.v3_evaluate L (GetDistanceFrom sensor coordinator) (Ver3.gen w1)).
  pose proof (v3_record_report (fst sg) _ _ (Ver3.gen w1) (snd sg) Hst) as Hrec.
  clearbody sg.
  set (r1 := Obs.v3_record (fst sg) (Ver3.g_stats w1)) in *.
  set (r2 := Obs.v3_record (fst sg) (Ver3.g_stats w2)) in *. clearbody r1 r2.
  injection Hrec as Ht Hr Hf Hbt Hbr Hrd Hja Hjs Hgc Hn Hfa Hsnr Hfc Hns Hnr Hpt Hpr Hpi.
  destruct (Obs.delivered _).
  - unfold Ver3.AddTransmissionPower, Ver3.beginPendingDelivery.
    do 2 destruct (Z.eqb _ _); unfold Obs.v3_report; cbn; congruence.
  - unfold Obs.v3_report; cbn; congruence.
Qed.

Lemma v3_step_agree (e1 e2 : Ver3.Event) (w1 w2 : Ver3.World L) :
  Obs.v3_same_call e1 e2 ->
  Obs.v3_report w1 = Obs.v3_report w2 ->
  Obs.agree Obs.v3_report (Ver3.step L GetDistanceFrom w1 e1)
    (Ver3.step L GetDistanceFrom w2 e2).
Proof.
  intros Hcall H.
  destruct e1, e2; cbn in Hcall; try contradiction; cbn [Ver3.step Obs.agree].
  - destruct Hcall as (-> & -> & ->). apply v3_send_agree, H.
  - destruct Hcall as (-> & -> & ->).
    injection H as Ht Hr Hf Hbt Hbr Hrd Hja Hjs Hgc Hn Hfa Hsnr Hfc Hns Hnr Hpt Hpr Hpi Hg.
    unfold Ver3.SendGroupCommand, Ver3.AddTransmissionPower, Ver3.beginPendingDelivery.
    unfold Obs.v3_report. cbn. congruence.
  - exact H.
  - destruct Hcall as (-> & -> & ->). rewrite !v3_indication_report. cbv zeta.
    injection H as Ht Hr Hf Hbt Hbr Hrd Hja Hjs Hgc Hn Hfa Hsnr Hfc Hns Hnr Hpt Hpr Hpi Hg.
    destruct (Ver3.ind_dstAddrMode params0); congruence.
  - destruct Hcall as (-> & ->).
    injection H as Ht Hr Hf Hbt Hbr Hrd Hja Hjs Hgc Hn Hfa Hsnr Hfc Hns Hnr Hpt Hpr Hpi Hg.
    destruct m_status0; unfold Obs.v3_report; cbn; congruence.
  - exact H.
  - destruct Hcall as (-> & -> & ->). unfold Ver3.NwkNetworkDiscoveryConfirm.
    destruct (is_success m_status0); [| exact H].
    destruct (Cpp.at_index m_netDescList0 0); [| exact I].
    injection H as Ht Hr Hf Hbt Hbr Hrd Hja Hjs Hgc Hn Hfa Hsnr Hfc Hns Hnr Hpt Hpr Hpi Hg.
    unfold Obs.v3_report; cbn; congruence.
  - destruct Hcall as (-> & ->). unfold Ver3.NwkJoinConfirm.
    destruct (is_success m_status0); [| exact H].
    injection H as Ht Hr Hf Hbt Hbr Hrd Hja Hjs Hgc Hn Hfa Hsnr Hfc Hns Hnr Hpt Hpr Hpi Hg.
    unfold Obs.v3_report; cbn; congruence.
  - injection H as Ht Hr Hf Hbt Hbr Hrd Hja Hjs Hgc Hn Hfa Hsnr Hfc Hns Hnr Hpt Hpr Hpi Hg.
    unfold Obs.v3_report; cbn; congruence.
Qed.

Lemma v3_run_agree (tr1 tr2 : list Ver3.Event) :
  Forall2 Obs.v3_same_call tr1 tr2 ->
  forall w1 w2 : Ver3.World L,
    Obs.v3_report w1 = Obs.v3_report w2 ->
    Obs.agree Obs.v3_report (Ver3.run L GetDistanceFrom w1 tr1)
      (Ver3.run L GetDistanceFrom w2 tr2).
Proof.
  induction 1 as [| e1 e2 tr1 tr2 Hcall _ IH]; intros w1 w2 H.
  - exact H.
  - cbn [Ver3.run].
    pose proof (v3_step_agree e1 e2 w1 w2 Hcall H) as Hstep.
    destruct (Ver3.step L GetDistanceFrom w1 e1) as [w1' |],
             (Ver3.step L GetDistanceFrom w2 e2) as [w2' |];
      cbn in Hstep; try contradiction.
    + apply IH, Hstep.
    + exact I.
Qed.

(** *** The samples of a run come from the one generator, in call order *)

Lemma ext_samples_cons (cfg : Extended.ChannelConfig) (g : engine L) (e : Extended.Event)
    (tr : list Extended.Event) :
  Obs.ext_samples L GetDistanceFrom cfg g (e :: tr)
  = let first := Obs.ext_samples L GetDistanceFrom cfg g [e] in
    let rest := Obs.ext_samples L GetDistanceFrom cfg (snd first) tr in
    (fst first ++ fst rest, snd rest).
Proof. destruct e; cbn; try reflexivity; apply surjective_pairing. Qed.

Lemma v3_samples_cons (g : engine L) (e : Ver3.Event) (tr : list Ver3.Event) :
  Obs.v3_samples L GetDistanceFrom g (e :: tr)
  = let first := Obs.v3_samples L GetDistanceFrom g [e] in
    let rest := Obs.v3_samples L GetDistanceFrom (snd first) tr in
    (fst first ++ fst rest, snd rest).
Proof. destruct e; cbn; try reflexivity; apply surjective_pairing. Qed.

Lemma ext_step_samples (cfg : Extended.ChannelConfig) (e : Extended.Event)
    (w w' : Extended.World L) :
  Extended.step L GetDistanceFrom cfg w e = Ok w' ->
  let chain := Obs.ext_samples L GetDistanceFrom cfg (Extended.g_rng w) [e] in
  Extended.snrSamples (Extended.g_stats w')
    = Extended.snrSamples (Extended.g_stats w) ++ map Obs.cs_snr (fst chain)
  /\ Extended.rxPowerSamples (Extended.g_stats w')
     = Extended.rxPowerSamples (Extended.g_stats w) ++ map Obs.cs_rxPower (fst chain)
  /\ Extended.fadingSamples (Extended.g_stats w')
     = Extended.fadingSamples (Extended.g_stats w) ++ map Obs.cs_fading (fst chain)
  /\ Extended.distanceSamples (Extended.g_stats w')
     = Extended.distanceSamples (Extended.g_stats w) ++ map Obs.cs_distance (fst chain)
  /\ Extended.g_rng w' = snd chain.
Proof.
  intros Hstep. destruct e; simpl in Hstep; cbn [Obs.ext_samples fst snd map];
    rewrite ?app_nil_r.
  - injection Hstep as <-.
    destruct (ext_send_unfolded L GetDistanceFrom cfg sensor coordinator now uid
                coordinatorAddr w) as (st1 & _ & Hrep & _ & _ & Heq).
    cbv zeta in Heq. rewrite Heq. clear Heq.
    injection Hrep as _ _ _ _ _ _ Es Er Ef Ed.
    set (sg := Obs.ext_evaluate L cfg (GetDistanceFrom sensor coordinator)
                 (Extended.g_rng w)).
    destruct (ext_record_samples (fst sg) st1) as (Rd & Rs & Rr & Rf).
    cbn in Es, Er, Ef, Ed.
    destruct (Obs.delivered _); unfold Extended.beginPendingDelivery;
      cbn [Extended.g_stats Extended.g_rng Extended.snrSamples Extended.rxPowerSamples
           Extended.fadingSamples Extended.distanceSamples Extended.set_sendTimes
           Extended.set_totalDropped];
      rewrite Rd, Rs, Rr, Rf, Es, Er, Ef, Ed; auto.
  - injection Hstep as <-. unfold Extended.OnDataReceived, Extended.with_stats.
    cbn [Extended.g_stats Extended.g_rng Extended.scheduled].
    match goal with
    | |- context [Extended.completePendingDelivery ?u ?t ?st] =>
        pose proof (ext_complete_report L u t st (Extended.g_rng w) []) as Hrep
    end.
    injection Hrep as _ _ _ _ _ _ Es Er Ef Ed.
    rewrite Es, Er, Ef, Ed. cbn. auto.
  - injection Hstep as <-. destruct m_status; cbn; auto.
  - injection Hstep as <-. cbn. auto.
  - unfold Extended.OnNetworkDiscovery in Hstep.
    destruct (is_success m_status && negb (bool_decide (m_netDescList = []))).
    + destruct (Cpp.at_index m_netDescList 0); [| discriminate].
      injection Hstep as <-. cbn. auto.
    + injection Hstep as <-. auto.
  - injection Hstep as <-. unfold Extended.OnJoinConfirm.
    destruct (is_success m_status); cbn; auto.
  - injection Hstep as <-. cbn. auto.
Qed.

Lemma ext_run_samples (cfg : Extended.ChannelConfig) (tr : list Extended.Event) :
  forall w w' : Extended.World L,
    Extended.run L GetDistanceFrom cfg w tr = Ok w' ->
    let chain := Obs.ext_samples L GetDistanceFrom cfg (Extended.g_rng w) tr in
    Extended.snrSamples (Extended.g_stats w')
      = Extended.snrSamples (Extended.g_stats w) ++ map Obs.cs_snr (fst chain)
    /\ Extended.rxPowerSamples (Extended.g_stats w')
       = Extended.rxPowerSamples (Extended.g_stats w) ++ map Obs.cs_rxPower (fst chain)
    /\ Extended.fadingSamples (Extended.g_stats w')
       = Extended.fadingSamples (Extended.g_stats w) ++ map Obs.cs_fading (fst chain)
    /\ Extended.distanceSamples (Extended.g_stats w')
       = Extended.distanceSamples (Extended.g_stats w) ++ map Obs.cs_distance (fst chain)
    /\ Extended.g_rng w' = snd chain.
Proof.
  induction tr as [| e tr IH]; intros w w' Hrun.
  - injection Hrun as <-. cbn. rewrite !app_nil_r. auto.
  - cbn [Extended.run] in Hrun.
    destruct (Extended.step L GetDistanceFrom cfg w e) as [w1 |] eqn:Hstep; [| discriminate].
    destruct (ext_step_samples cfg e w w1 Hstep) as (S1 & R1 & F1 & D1 & G1).
    destruct (IH w1 w' Hrun) as (S2 & R2 & F2 & D2 & G2).
    cbv zeta in *. rewrite ext_samples_cons. cbv zeta. cbn [fst snd].
    rewrite G1 in S2, R2, F2, D2, G2.
    rewrite S2, R2, F2, D2, G2, S1, R1, F1, D1, !map_app, !app_assoc. auto.
Qed.

Lemma v3_step_samples (e : Ver3.Event) (w w' : Ver3.World L) :
  Ver3.step L GetDistanceFrom w e = Ok w' ->
  let chain := Obs.v3_samples L GetDistanceFrom (Ver3.gen w) [e] in
  Ver3.snrValues (Ver3.g_stats w')
    = Ver3.snrValues (Ver3.g_stats w) ++ map Obs.cs_snr (fst chain)
  /\ Ver3.fadingCoefficients (Ver3.g_stats w')
     = Ver3.fadingCoefficients (Ver3.g_stats w) ++ map Obs.cs_fading (fst chain)
  /\ Ver3.gen w' = snd chain.
Proof.
  intros Hstep. destruct e; simpl in Hstep; cbn [Obs.v3_samples fst snd map];
    rewrite ?app_nil_r.
  - injection Hstep as <-.
    exact (v3_send_samples L GetDistanceFrom sensorStack coordinatorStack now uid
             coordinatorAddr w).
  - injection Hstep as <-. cbn. auto.
  - injection Hstep as <-. cbn. auto.
  - injection Hstep as <-.
    destruct (v3_indication_samples L stack params now uid size w) as [Hs Hf].
    rewrite Hs, Hf. auto.
  - injection Hstep as <-. destruct m_status; cbn; auto.
  - injection Hstep as <-. auto.
  - unfold Ver3.NwkNetworkDiscoveryConfirm in Hstep.
    destruct (is_success m_status).
    + destruct (Cpp.at_index m_netDescList 0); [| discriminate].
      injection Hstep as <-. cbn. auto.
    + injection Hstep as <-. auto.
  - injection Hstep as <-. unfold Ver3.NwkJoinConfirm.
    destruct (is_success m_status); cbn; auto.
  - injection Hstep as <-. cbn. auto.
Qed.

Lemma v3_run_samples (tr : list Ver3.Event) :
  forall w w' : Ver3.World L,
    Ver3.run L GetDistanceFrom w tr = Ok w' ->
    let chain := Obs.v3_samples L GetDistanceFrom (Ver3.gen w) tr in
    Ver3.snrValues (Ver3.g_stats w')
      = Ver3.snrValues (Ver3.g_stats w) ++ map Obs.cs_snr (fst chain)
    /\ Ver3.fadingCoefficients (Ver3.g_stats w')
       = Ver3.fadingCoefficients (Ver3.g_stats w) ++ map Obs.cs_fading (fst chain)
    /\ Ver3.gen w' = snd chain.
Proof.
  induction tr as [| e tr IH]; intros w w' Hrun.
  - injection Hrun as <-. cbn. rewrite !app_nil_r. auto.
  - cbn [Ver3.run] in Hrun.
    destruct (Ver3.step L GetDistanceFrom w e) as [w1 |] eqn:Hstep; [| discriminate].
    destruct (v3_step_samples e w w1 Hstep) as (S1 & F1 & G1).
    destruct (IH w1 w' Hrun) as (S2 & F2 & G2).
    cbv zeta in *. rewrite v3_samples_cons. cbv zeta. cbn [fst snd].
    rewrite G1 in S2, F2, G2.
    rewrite S2, F2, G2, S1, F1, !map_app, !app_assoc. auto.
Qed.

End Reproducible.

(** C6.  The channel functions draw from one generator only, the global
    engine, which every evaluation takes from the world and puts back
    advanced, and which no other callback touches: the SNR, received
    power, fading and distance samples of a run are those of the
    evaluations of its unicast sends, chained through the generator in
    call order from the seed, whatever else happens in between; and two
    runs from the same seed that make the same calls agree on every
    counter, sample list, per-node count, energy and on the final
    generator, even when the simulation times and packet uids given to the
    calls differ.  The seed is where the variants part.  The extended
    variant seeds [g_rng] with the constant 42.  Ver3 seeds [gen] with
    what [std::random_device] returns at start-up, a value that is no part
    of the command line: with a generator whose output depends on its
    seed, two runs of Ver3 with the same command line and the same single
    send record different fading coefficients.  The claim's identical seed
    cannot be arranged for Ver3, and its runs are not reproducible. *)
Theorem v3_generator_is_seeded_by_the_random_device :
  (forall (L : RandomLib) (GetDistanceFrom : N -> N -> R) (cfg : Extended.ChannelConfig)
          (tr : list Extended.Event) (w : Extended.World L),
      Extended.run L GetDistanceFrom cfg (Extended.initial L) tr = Ok w ->
      let chain := Obs.ext_samples L GetDistanceFrom cfg (seed_engine L 42) tr in
      Extended.snrSamples (Extended.g_stats w) = map Obs.cs_snr (fst chain)
      /\ Extended.rxPowerSamples (Extended.g_stats w) = map Obs.cs_rxPower (fst chain)
      /\ Extended.fadingSamples (Extended.g_stats w) = map Obs.cs_fading (fst chain)
      /\ Extended.distanceSamples (Extended.g_stats w) = map Obs.cs_distance (fst chain)
      /\ Extended.g_rng w = snd chain)
  /\ (forall (L : RandomLib) (GetDistanceFrom : N -> N -> R) (cl : Ver3.CommandLine)
             (rd : N) (tr : list Ver3.Event) (w : Ver3.World L),
         Ver3.main L GetDistanceFrom cl rd tr = Some (Ok w) ->
         let chain := Obs.v3_samples L GetDistanceFrom (seed_engine L rd) tr in
         Ver3.snrValues (Ver3.g_stats w) = map Obs.cs_snr (fst chain)
         /\ Ver3.fadingCoefficients (Ver3.g_stats w) = map Obs.cs_fading (fst chain)
         /\ Ver3.gen w = snd chain)
  /\ (forall (L : RandomLib) (GetDistanceFrom : N -> N -> R) (cfg : Extended.ChannelConfig)
             (tr1 tr2 : list Extended.Event),
         Forall2 Obs.ext_same_call tr1 tr2 ->
         Obs.agree Obs.ext_report
           (Extended.run L GetDistanceFrom cfg (Extended.initial L) tr1)
           (Extended.run L GetDistanceFrom cfg (Extended.initial L) tr2))
  /\ (forall (L : RandomLib) (GetDistanceFrom : N -> N -> R) (rd : N)
             (tr1 tr2 : list Ver3.Event),
         Forall2 Obs.v3_same_call tr1 tr2 ->
         Obs.agree Obs.v3_report
           (Ver3.run L GetDistanceFrom (Ver3.initial L rd) tr1)
           (Ver3.run L GetDistanceFrom (Ver3.initial L rd) tr2))
  /\ (forall L : RandomLib, Extended.g_rng (Extended.initial L) = seed_engine L 42)
  /\ (forall (L : RandomLib) (rd : N), Ver3.gen (Ver3.initial L rd) = seed_engine L rd)
  /\ exists w0 w1 : Ver3.World Fixtures.seeded,
       Ver3.main Fixtures.seeded Fixtures.one_metre Fixtures.v3_quiet_command_line 0
         [Ver3.EvSendTemperatureReading 5 0 30000000000 7 0] = Some (Ok w0)
       /\ Ver3.main Fixtures.seeded Fixtures.one_metre Fixtures.v3_quiet_command_line 1
            [Ver3.EvSendTemperatureReading 5 0 30000000000 7 0] = Some (Ok w1)
       /\ Ver3.fadingCoefficients (Ver3.g_stats w0) = [1%R]
       /\ Ver3.fadingCoefficients (Ver3.g_stats w1) = [(sqrt (1 * 1 + 0 * 0) / sqrt 2)%R]
       /\ Ver3.fadingCoefficients (Ver3.g_stats w0)
          <> Ver3.fadingCoefficients (Ver3.g_stats w1).
Proof.
  split; [| split; [| split; [| split; [| split; [| split]]]]].
  - intros L dist cfg tr w Hrun.
    exact (ext_run_samples L dist cfg tr (Extended.initial L) w Hrun).
  - intros L dist cl rd tr w Hmain. unfold Ver3.main in Hmain.
    destruct (Ver3.numNodes cl <? 3)%N; [discriminate |].
    injection Hmain as Hrun.
    exact (v3_run_samples L dist tr (Ver3.initial L rd) w Hrun).
  - intros L dist cfg tr1 tr2 Hcalls. apply ext_run_agree; [exact Hcalls | reflexivity].
  - intros L dist rd tr1 tr2 Hcalls. apply v3_run_agree; [exact Hcalls | reflexivity].
  - reflexivity.
  - reflexivity.
  - eexists. eexists. split; [reflexivity |]. split; [reflexivity |].
    destruct (v3_send_samples Fixtures.seeded Fixtures.one_metre 5 0 30000000000 7 0
                (Ver3.initial Fixtures.seeded 0)) as (_ & Hf0 & _).
    destruct (v3_send_samples Fixtures.seeded Fixtures.one_metre 5 0 30000000000 7 0
                (Ver3.initial Fixtures.seeded 1)) as (_ & Hf1 & _).
    assert (H0 : Ver3.fadingCoefficients
                   (Ver3.g_stats
                      (Ver3.SendTemperatureReading Fixtures.seeded Fixtures.one_metre
                         5 0 30000000000 7 0 (Ver3.initial Fixtures.seeded 0)))
                 = [1%R]).
    { etransitivity; [exact Hf0 |].
      change ([(sqrt (1 * 1 + 1 * 1) / sqrt 2)%R] = [1%R]).
      rewrite rayleigh_of_unit_components. reflexivity. }
    split; [exact H0 |]. split; [exact Hf1 |].
    intros Heq.
    assert (Hne : [1%R] = [(sqrt (1 * 1 + 0 * 0) / sqrt 2)%R]).
    { etransitivity; [symmetry; exact H0 |]. etransitivity; [exact Heq | exact Hf1]. }
    injection Hne as Hne. apply half_fade_amplitude. symmetry. exact Hne.
Qed.

Lemma v3_generator_is_seeded_by_the_random_device_witness :
  (exists w : Extended.World (Fixtures.replay []),
      Extended.run (Fixtures.replay []) Fixtures.one_metre Fixtures.quiet_channel
        (Extended.initial (Fixtures.replay [])) Fixtures.ext_evening = Ok w
      /\ Extended.g_rng w
         = snd (Obs.ext_samples (Fixtures.replay []) Fixtures.one_metre
                  Fixtures.quiet_channel (seed_engine (Fixtures.replay []) 42)
                  Fixtures.ext_evening))
  /\ (exists w : Ver3.World (Fixtures.replay Fixtures.unit_fade),
         Ver3.main (Fixtures.replay Fixtures.unit_fade) Fixtures.one_metre
           Fixtures.v3_quiet_command_line 0 Fixtures.v3_evening = Some (Ok w)
         /\ Ver3.gen w
            = snd (Obs.v3_samples (Fixtures.replay Fixtures.unit_fade) Fixtures.one_metre
                     (seed_engine (Fixtures.replay Fixtures.unit_fade) 0)
                     Fixtures.v3_evening))
  /\ Obs.agree Obs.ext_report
       (Extended.run (Fixtures.replay []) Fixtures.one_metre Fixtures.quiet_channel
          (Extended.initial (Fixtures.replay []))
          [Extended.EvSendSensorData 5 0 30000000000 7 0;
           Extended.EvDataReceived 0 30004500000 7 10])
       (Extended.run (Fixtures.replay []) Fixtures.one_metre Fixtures.quiet_channel
          (Extended.initial (Fixtures.replay []))
          [Extended.EvSendSensorData 5 0 31000000000 8 0;
           Extended.EvDataReceived 0 31009000000 8 10])
  /\ Obs.agree Obs.v3_report
       (Ver3.run (Fixtures.replay Fixtures.unit_fade) Fixtures.one_metre
          (Ver3.initial (Fixtures.replay Fixtures.unit_fade) 0)
          [Ver3.EvSendTemperatureReading 5 0 30000000000 7 0;
           Ver3.EvApsDataIndication 0 Fixtures.unicast_indication 30004500000 7 2])
       (Ver3.run (Fixtures.replay Fixtures.unit_fade) Fixtures.one_metre
          (Ver3.initial (Fixtures.replay Fixtures.unit_fade) 0)
          [Ver3.EvSendTemperatureReading 5 0 31000000000 8 0;
           Ver3.EvApsDataIndication 0 Fixtures.unicast_indication 31009000000 8 2]).
Proof.
  destruct v3_generator_is_seeded_by_the_random_device
    as (Hext & Hv3 & Hext' & Hv3' & _).
  split; [| split; [| split]].
  - eexists. split; [reflexivity |].
    apply (Hext (Fixtures.replay []) Fixtures.one_metre Fixtures.quiet_channel
             Fixtures.ext_evening _ eq_refl).
  - eexists. split; [reflexivity |].
    apply (Hv3 (Fixtures.replay Fixtures.unit_fade) Fixtures.one_metre
             Fixtures.v3_quiet_command_line 0%N Fixtures.v3_evening _ eq_refl).
  - apply Hext'. repeat constructor.
  - apply Hv3'. repeat constructor.
Defined.

(** ** Report statistics *)

Section Summaries.

Local Open Scope R_scope.

Variable fadd : R -> R -> R.

Lemma ext_summary_step_fold (l : list R) :
  forall sum mn mx : R,
    mn <= mx ->
    let '(sum', mn', mx') := fold_left (Extended.summary_step fadd) l (sum, mn, mx) in
    sum' = fold_left fadd l sum
    /\ mn' <= mn /\ mx <= mx'
    /\ Forall (fun s => mn' <= s <= mx') l
    /\ (mn' = mn \/ In mn' l)
    /\ (mx' = mx \/ In mx' l).
Proof.
  induction l as [| s l IH]; intros sum mn mx Hle; simpl.
  - repeat split; auto; lra.
  - assert (Hle' : Cpp.min mn s <= Cpp.max mx s).
    { unfold Cpp.min, Cpp.max, Cpp.ltb.
      destruct (Rlt_dec s mn), (Rlt_dec mx s); lra. }
    specialize (IH (fadd sum s) (Cpp.min mn s) (Cpp.max mx s) Hle').
    destruct (fold_left (Extended.summary_step fadd) l
                (fadd sum s, Cpp.min mn s, Cpp.max mx s))
      as [[sum' mn'] mx'].
    destruct IH as (Hsum & Hmn & Hmx & Hall & Hin_mn & Hin_mx).
    assert (Hmin : Cpp.min mn s <= mn /\ Cpp.min mn s <= s
                   /\ (Cpp.min mn s = mn \/ Cpp.min mn s = s)).
    { unfold Cpp.min, Cpp.ltb. destruct (Rlt_dec s mn); repeat split; auto; lra. }
    assert (Hmax : mx <= Cpp.max mx s /\ s <= Cpp.max mx s
                   /\ (Cpp.max mx s = mx \/ Cpp.max mx s = s)).
    { unfold Cpp.max, Cpp.ltb. destruct (Rlt_dec mx s); repeat split; auto; lra. }
    destruct Hmin as (Hm1 & Hm2 & Hm3). destruct Hmax as (HM1 & HM2 & HM3).
    repeat split.
    + exact Hsum.
    + lra.
    + lra.
    + constructor; [lra | exact Hall].
    + destruct Hin_mn as [-> | Hin]; [| right; right; exact Hin].
      destruct Hm3 as [-> | ->]; [left; reflexivity | right; left; reflexivity].
    + destruct Hin_mx as [-> | Hin]; [| right; right; exact Hin].
      destruct HM3 as [-> | ->]; [left; reflexivity | right; left; reflexivity].
Qed.

End Summaries.

(** X1.  The minimum and maximum that the reports print and export for a
    sample list (SNR, fading, distance, delay), whatever the binary64
    addition and division of the running sum round to.  For an empty list
    average, minimum and maximum are 0.  For a list with at least one
    sample, the minimum and the maximum are samples of the list and every
    sample lies between them; the average is the samples added up from 0
    in list order and divided by their number.  The loops of the two files
    ([std::min]/[std::max] in the extended variant, [if (s < min)]/
    [if (s > max)] in Ver3) give the same three numbers, and the separate
    loop of ExportCSV for the average delay makes the same additions in
    the same order, so it gives the same average. *)
Theorem report_extremes_bracket_samples :
  forall fadd fdiv : R -> R -> R,
    Extended.summary fadd fdiv [] = (0, 0, 0)%R
    /\ Ver3.summary fadd fdiv [] = (0, 0, 0)%R
    /\ Extended.average fadd fdiv [] = 0%R
    /\ forall (s0 : R) (rest : list R),
         let samples := s0 :: rest in
         let '(avg, mn, mx) := Extended.summary fadd fdiv samples in
         Ver3.summary fadd fdiv samples = (avg, mn, mx)
         /\ Extended.average fadd fdiv samples = avg
         /\ avg = fdiv (fold_left fadd samples 0%R) (INR (length samples))
         /\ In mn samples /\ In mx samples
         /\ Forall (fun s => mn <= s <= mx)%R samples.
Proof.
  intros fadd fdiv.
  split; [reflexivity |]. split; [reflexivity |]. split; [reflexivity |].
  intros s0 rest samples. subst samples.
  change (Ver3.summary fadd fdiv (s0 :: rest)) with (Extended.summary fadd fdiv (s0 :: rest)).
  unfold Extended.summary, Extended.average.
  pose proof (ext_summary_step_fold fadd (s0 :: rest) 0 s0 s0 (Rle_refl s0)) as H.
  destruct (fold_left (Extended.summary_step fadd) (s0 :: rest) (0%R, s0, s0))
    as [[sum mn] mx].
  destruct H as (Hsum & _ & _ & Hall & Hmn & Hmx).
  split; [reflexivity |].
  split; [rewrite Hsum; reflexivity |].
  split; [rewrite Hsum; reflexivity |].
  split; [destruct Hmn as [-> | H]; [left; reflexivity | exact H] |].
  split; [destruct Hmx as [-> | H]; [left; reflexivity | exact H] |].
  exact Hall.
Qed.

(** ** Invariants of runs *)

Section RunInvariants.

Variable L : RandomLib.
Variable GetDistanceFrom : N -> N -> R.

Lemma ext_run_app (cfg : Extended.ChannelConfig) (tr1 tr2 : list Extended.Event) :
  forall w : Extended.World L,
    Extended.run L GetDistanceFrom cfg w (tr1 ++ tr2) =
    match Extended.run L GetDistanceFrom cfg w tr1 with
    | Ok w1 => Extended.run L GetDistanceFrom cfg w1 tr2
    | Undefined => Undefined
    end.
Proof.
  induction tr1 as [| e tr1 IH]; intros w; [reflexivity |].
  cbn [Extended.run app].
  destruct (Extended.step L GetDistanceFrom cfg w e); [apply IH | reflexivity].
Qed.

Lemma v3_run_app (tr1 tr2 : list Ver3.Event) :
  forall w : Ver3.World L,
    Ver3.run L GetDistanceFrom w (tr1 ++ tr2) =
    match Ver3.run L GetDistanceFrom w tr1 with
    | Ok w1 => Ver3.run L GetDistanceFrom w1 tr2
    | Undefined => Undefined
    end.
Proof.
  induction tr1 as [| e tr1 IH]; intros w; [reflexivity |].
  cbn [Ver3.run app].
  destruct (Ver3.step L GetDistanceFrom w e); [apply IH | reflexivity].
Qed.

(** A property of the trace run so far and the world it led to holds
    after every run from [w0] if it holds of the empty trace and every
    callback preserves it. *)
Lemma ext_run_invariant (cfg : Extended.ChannelConfig)
    (I : list Extended.Event -> Extended.World L -> Prop) (w0 : Extended.World L) :
  I [] w0 ->
  (forall tr w e w',
      I tr w -> Extended.step L GetDistanceFrom cfg w e = Ok w' -> I (tr ++ [e]) w') ->
  forall tr w', Extended.run L GetDistanceFrom cfg w0 tr = Ok w' -> I tr w'.
Proof.
  intros H0 Hstep tr. induction tr as [| e tr IH] using rev_ind; intros w' Hrun.
  - injection Hrun as <-. exact H0.
  - rewrite ext_run_app in Hrun.
    destruct (Extended.run L GetDistanceFrom cfg w0 tr) as [w1 |]; [| discriminate].
    cbn [Extended.run] in Hrun.
    destruct (Extended.step L GetDistanceFrom cfg w1 e) as [w2 |] eqn:He; [| discriminate].
    injection Hrun as <-. exact (Hstep tr w1 e w2 (IH w1 eq_refl) He).
Qed.

Lemma v3_run_invariant (I : list Ver3.Event -> Ver3.World L -> Prop) (w0 : Ver3.World L) :
  I [] w0 ->
  (forall tr w e w',
      I tr w -> Ver3.step L GetDistanceFrom w e = Ok w' -> I (tr ++ [e]) w') ->
  forall tr w', Ver3.run L GetDistanceFrom w0 tr = Ok w' -> I tr w'.
Proof.
  intros H0 Hstep tr. induction tr as [| e tr IH] using rev_ind; intros w' Hrun.
  - injection Hrun as <-. exact H0.
  - rewrite v3_run_app in Hrun.
    destruct (Ver3.run L GetDistanceFrom w0 tr) as [w1 |]; [| discriminate].
    cbn [Ver3.run] in Hrun.
    destruct (Ver3.step L GetDistanceFrom w1 e) as [w2 |] eqn:He; [| discriminate].
    injection Hrun as <-. exact (Hstep tr w1 e w2 (IH w1 eq_refl) He).
Qed.

(** SendSensorData as one expression: the counters it sets before the
    channel is asked, the sample it records, and the two ways it ends. *)
Lemma ext_send_explicit (cfg : Extended.ChannelConfig) (sensor coordinator : N)
    (now : ns3Time) (uid addr : N) (w : Extended.World L) :
  Extended.SendSensorData L GetDistanceFrom cfg sensor coordinator now uid addr w =
  let st0 :=
    Extended.set_totalSent (Cpp.incr (Extended.totalSent (Extended.g_stats w)))
      (Extended.g_stats w) in
  let st1 :=
    if Z.eqb (Extended.firstSend st0) Seconds0 then Extended.set_firstSend now st0 else st0 in
  let sg := Obs.ext_evaluate L cfg (GetDistanceFrom sensor coordinator) (Extended.g_rng w) in
  let st2 := Obs.ext_record (fst sg) st1 in
  if Obs.delivered (Obs.cs_outcome (fst sg)) then
    Extended.mkWorld (Extended.beginPendingDelivery uid now st2) (snd sg)
      (Extended.scheduled w ++
       [ApsdeDataRequest sensor
          {| m_srcEndPoint := 1; m_dstEndPoint := Some 1%N; m_clusterId := 0x0402;
             m_profileId := 0x0104; m_dstAddrMode := DST_ADDR16_DST_ENDPOINT_PRESENT;
             m_dstAddr16 := addr |} uid 10])
  else
    Extended.mkWorld
      (Extended.set_totalDropped (Cpp.incr (Extended.totalDropped st2)) st2)
      (snd sg) (Extended.scheduled w).
Proof.
  unfold Extended.SendSensorData, Extended.with_stats. cbv zeta.
  cbn [Extended.g_stats Extended.g_rng Extended.scheduled].
  destruct (Z.eqb (Extended.firstSend (Extended.set_totalSent _ _)) Seconds0);
    rewrite ext_SimulateChannel_evaluate; cbv zeta;
    cbn [Extended.g_stats Extended.g_rng Extended.scheduled];
    destruct (Obs.delivered _); reflexivity.
Qed.

End RunInvariants.

(** Case analysis on the callback of a step [H : step w e = Ok w']: one
    goal per callback and branch, with [w'] replaced by the world the
    branch builds.  A unicast send is split by the outcome of its channel
    sample [smp]. *)
Ltac v3_callback_cases H :=
  match type of H with
  | Ver3.step ?L ?dist ?w ?e = Ok ?w' =>
      destruct e; cbn [Ver3.step] in H;
      [ injection H as <-; rewrite v3_send_unfolded; cbv zeta;
        let smp := fresh "smp" in
        let g := fresh "g" in
        match goal with
        | |- context [Obs.v3_evaluate L ?d ?g0] =>
            destruct (Obs.v3_evaluate L d g0) as [smp g]
        end;
        cbn [fst snd]; unfold Obs.v3_record, Obs.v3_count_outcome;
        destruct (Obs.cs_outcome smp); cbn [Obs.delivered]
      | injection H as <-; unfold Ver3.SendGroupCommand
      | injection H as <-; unfold Ver3.AddToGroup
      | injection H as <-; unfold Ver3.ApsDataIndication
      | injection H as <-; unfold Ver3.ApsDataConfirm;
        match goal with
        | |- context [match ?s with Ver3.APS_SUCCESS => _ | Ver3.APS_ERROR _ => _ end] =>
            destruct s
        end
      | injection H as <-; unfold Ver3.NwkNetworkFormationConfirm
      | unfold Ver3.NwkNetworkDiscoveryConfirm in H;
        match type of H with
        | context [is_success ?s] => destruct (is_success s)
        end;
        [ match type of H with
          | context [Cpp.at_index ?l 0] => destruct (Cpp.at_index l 0); [| discriminate H]
          end
        | ];
        injection H as <-
      | injection H as <-; unfold Ver3.NwkJoinConfirm;
        match goal with
        | |- context [is_success ?s] => destruct (is_success s)
        end
      | injection H as <-; unfold Ver3.NwkRouteDiscoveryConfirm ]
  end.

Ltac ext_callback_cases H :=
  match type of H with
  | Extended.step ?L ?dist ?cfg ?w ?e = Ok ?w' =>
      destruct e; cbn [Extended.step] in H;
      [ injection H as <-; rewrite ext_send_explicit; cbv zeta;
        let smp := fresh "smp" in
        let g := fresh "g" in
        match goal with
        | |- context [Obs.ext_evaluate L cfg ?d ?g0] =>
            destruct (Obs.ext_evaluate L cfg d g0) as [smp g]
        end;
        cbn [fst snd]; unfold Obs.ext_record, Obs.ext_count_outcome;
        destruct (Obs.cs_outcome smp); cbn [Obs.delivered]
      | injection H as <-; unfold Extended.OnDataReceived
      | injection H as <-; unfold Extended.OnDataConfirm;
        match goal with
        | |- context [match ?s with Extended.APS_SUCCESS => _ | Extended.APS_ERROR _ => _ end] =>
            destruct s
        end
      | injection H as <-; unfold Extended.OnNetworkFormation
      | unfold Extended.OnNetworkDiscovery in H;
        match type of H with
        | context [is_success ?s && ?b] => destruct (is_success s && b)
        end;
        [ match type of H with
          | context [Cpp.at_index ?l 0] => destruct (Cpp.at_index l 0); [| discriminate H]
          end
        | ];
        injection H as <-
      | injection H as <-; unfold Extended.OnJoinConfirm;
        match goal with
        | |- context [is_success ?s] => destruct (is_success s)
        end
      | injection H as <-; unfold Extended.OnRouteDiscovery ]
  end.

(** ** Counters of Ver3 as counts of events and of calls *)

Arguments Tally.wrap32 : simpl never.
Arguments Tally.per_node : simpl never.
Arguments Cpp.map_incr : simpl never.
Arguments Ver3.CalculateTransmissionTime : simpl never.
Arguments Tally.sum_R : simpl never.
Arguments Obs.count : simpl never.
Arguments Tally.sum_N : simpl never.
Arguments Tally.v3_tx_energy : simpl never.
Arguments Tally.v3_rx_energy : simpl never.

Section WrappedCounts.

Lemma wrap32_incr (n : N) : Cpp.incr (Tally.wrap32 n) = Tally.wrap32 (n + 1).
Proof.
  unfold Cpp.incr, Tally.wrap32. apply N.Div0.add_mod_idemp_l.
Qed.

Lemma wrap32_add (n k : N) : Cpp.add32 (Tally.wrap32 n) k = Tally.wrap32 (n + k).
Proof.
  unfold Cpp.add32, Tally.wrap32. apply N.Div0.add_mod_idemp_l.
Qed.

Lemma wrap32_small (n : N) : (n < Cpp.UINT32_MOD)%N -> Tally.wrap32 n = n.
Proof. intros H. apply N.mod_small, H. Qed.

Lemma IZR_of_N_of_nat (k : nat) : IZR (Z.of_N (N.of_nat k)) = INR k.
Proof. rewrite nat_N_Z. symmetry. apply INR_IZR_INZ. Qed.

Lemma count_app {E : Type} (p : E -> bool) (l1 l2 : list E) :
  Obs.count p (l1 ++ l2) = (Obs.count p l1 + Obs.count p l2)%nat.
Proof. unfold Obs.count. rewrite List.filter_app, length_app. reflexivity. Qed.

Lemma count_snoc {E : Type} (p : E -> bool) (l : list E) (e : E) :
  Obs.count p (l ++ [e]) = (Obs.count p l + (if p e then 1 else 0))%nat.
Proof. rewrite count_app. unfold Obs.count. simpl. destruct (p e); reflexivity. Qed.

Lemma wrap32_count_snoc {E : Type} (p : E -> bool) (l : list E) (e : E) :
  Tally.wrap32 (N.of_nat (Obs.count p (l ++ [e]))) =
  if p e then Cpp.incr (Tally.wrap32 (N.of_nat (Obs.count p l)))
  else Tally.wrap32 (N.of_nat (Obs.count p l)).
Proof.
  rewrite count_snoc. destruct (p e).
  - rewrite wrap32_incr. f_equal. lia.
  - f_equal. lia.
Qed.

Lemma sum_N_app (l1 l2 : list N) :
  Tally.sum_N (l1 ++ l2) = (Tally.sum_N l1 + Tally.sum_N l2)%N.
Proof.
  unfold Tally.sum_N. induction l1 as [| x l1 IH]; simpl; [reflexivity | rewrite IH; lia].
Qed.

Lemma sum_R_app (l1 l2 : list R) :
  Tally.sum_R (l1 ++ l2) = (Tally.sum_R l1 + Tally.sum_R l2)%R.
Proof.
  unfold Tally.sum_R. induction l1 as [| x l1 IH]; simpl; [lra | rewrite IH; lra].
Qed.

(** [m[k]++] read back at any key. *)
Lemma map_incr_lookup (k n : N) (m : gmap N N) :
  Cpp.map_incr k m !! n =
  if (k =? n)%N then Some (Cpp.incr (default 0%N (m !! k))) else m !! n.
Proof.
  unfold Cpp.map_incr. destruct (N.eqb_spec k n) as [-> | Hne].
  - apply lookup_insert_eq.
  - apply lookup_insert_ne, Hne.
Qed.

Lemma per_node_incr (c : nat) :
  Some (Cpp.incr (default 0%N (Tally.per_node c))) = Tally.per_node (c + 1).
Proof.
  unfold Tally.per_node. replace (c + 1 =? 0)%nat with false by (symmetry; apply Nat.eqb_neq; lia).
  destruct (Nat.eqb_spec c 0) as [-> | Hc]; cbn.
  - reflexivity.
  - rewrite wrap32_incr. do 2 f_equal. lia.
Qed.

Lemma per_node_snoc {E : Type} (p : N -> E -> bool) (m : gmap N N) (tr : list E) (e : E)
    (k n : N) :
  m !! k = Tally.per_node (Obs.count (p k) tr) ->
  m !! n = Tally.per_node (Obs.count (p n) tr) ->
  p k e = true ->
  p n e = (k =? n)%N ->
  Cpp.map_incr k m !! n = Tally.per_node (Obs.count (p n) (tr ++ [e])).
Proof.
  intros Hk Hn Hpk Hpn. rewrite map_incr_lookup, count_snoc, Hpn.
  destruct (N.eqb_spec k n) as [-> | Hne].
  - rewrite Hn. apply per_node_incr.
  - rewrite Nat.add_0_r. exact Hn.
Qed.

End WrappedCounts.

Ltac v3_fields :=
  unfold Ver3.AddTransmissionPower, Ver3.AddReceptionPower, Ver3.beginPendingDelivery,
    Ver3.completePendingDelivery, Ver3.with_stats, Ver3.ScheduleNow;
  cbn;
  repeat match goal with
         | |- context [if Z.eqb ?a ?b then _ else _] => destruct (Z.eqb a b); cbn
         | |- context [match ?m !! ?k with Some _ => _ | None => _ end] =>
             destruct (m !! k); cbn
         | |- context [match Ver3.ind_dstAddrMode ?p with _ => _ end] =>
             destruct (Ver3.ind_dstAddrMode p); cbn
         end.

Section V3TraceCounters.

Variable L : RandomLib.
Variable GetDistanceFrom : N -> N -> R.

Local Open Scope R_scope.

Lemma v3_route_confirms_counted (rd : N) (tr : list Ver3.Event) (w : Ver3.World L) :
  Ver3.run L GetDistanceFrom (Ver3.initial L rd) tr = Ok w ->
  Ver3.routeDiscoveries (Ver3.g_stats w)
  = Tally.wrap32 (N.of_nat (Obs.count Tally.v3_is_route_confirm tr)).
Proof.
  revert tr w.
  apply (v3_run_invariant L GetDistanceFrom
           (fun tr w => Ver3.routeDiscoveries (Ver3.g_stats w)
                        = Tally.wrap32 (N.of_nat (Obs.count Tally.v3_is_route_confirm tr)))).
  - reflexivity.
  - intros tr w e w' IH Hstep. rewrite wrap32_count_snoc, <- IH. clear IH.
    v3_callback_cases Hstep; v3_fields; reflexivity.
Qed.

Lemma v3_group_indications_counted (rd : N) (tr : list Ver3.Event) (w : Ver3.World L) :
  Ver3.run L GetDistanceFrom (Ver3.initial L rd) tr = Ok w ->
  Ver3.groupCommands (Ver3.g_stats w)
  = Tally.wrap32 (N.of_nat (Obs.count Tally.v3_is_group_indication tr)).
Proof.
  revert tr w.
  apply (v3_run_invariant L GetDistanceFrom
           (fun tr w => Ver3.groupCommands (Ver3.g_stats w)
                        = Tally.wrap32 (N.of_nat (Obs.count Tally.v3_is_group_indication tr)))).
  - reflexivity.
  - intros tr w e w' IH Hstep. rewrite wrap32_count_snoc, <- IH. clear IH.
    v3_callback_cases Hstep; v3_fields; reflexivity.
Qed.

Lemma v3_bytes_received_counted (rd : N) (tr : list Ver3.Event) (w : Ver3.World L) :
  Ver3.run L GetDistanceFrom (Ver3.initial L rd) tr = Ok w ->
  Ver3.bytesReceived (Ver3.g_stats w)
  = Tally.wrap32 (Tally.sum_N (Tally.v3_indication_sizes tr)).
Proof.
  revert tr w.
  apply (v3_run_invariant L GetDistanceFrom
           (fun tr w => Ver3.bytesReceived (Ver3.g_stats w)
                        = Tally.wrap32 (Tally.sum_N (Tally.v3_indication_sizes tr)))).
  - reflexivity.
  - intros tr w e w' IH Hstep.
    unfold Tally.v3_indication_sizes in *. rewrite flat_map_app, sum_N_app.
    cbn [flat_map app].
    v3_callback_cases Hstep; v3_fields;
      rewrite ?IH, ?wrap32_add; f_equal; unfold Tally.sum_N; cbn; lia.
Qed.

Lemma v3_rx_energy_counted (rd : N) (tr : list Ver3.Event) (w : Ver3.World L) :
  Ver3.run L GetDistanceFrom (Ver3.initial L rd) tr = Ok w ->
  Ver3.totalRxPower (Ver3.g_stats w)
  = Tally.sum_R (map Tally.v3_rx_energy (Tally.v3_indication_sizes tr)).
Proof.
  revert tr w.
  apply (v3_run_invariant L GetDistanceFrom
           (fun tr w => Ver3.totalRxPower (Ver3.g_stats w)
                        = Tally.sum_R (map Tally.v3_rx_energy (Tally.v3_indication_sizes tr)))).
  - reflexivity.
  - intros tr w e w' IH Hstep.
    unfold Tally.v3_indication_sizes in *. rewrite flat_map_app, map_app, sum_R_app.
    cbn [flat_map app]. rewrite <- IH. clear IH.
    v3_callback_cases Hstep; v3_fields; unfold Tally.v3_rx_energy, Tally.sum_R; cbn; lra.
Qed.

Lemma v3_node_received_counted (rd : N) (tr : list Ver3.Event) (w : Ver3.World L) :
  Ver3.run L GetDistanceFrom (Ver3.initial L rd) tr = Ok w ->
  forall node : N,
    Ver3.nodePacketsReceived (Ver3.g_stats w) !! node
    = Tally.per_node (Obs.count (Tally.v3_is_indication_at node) tr).
Proof.
  revert tr w.
  apply (v3_run_invariant L GetDistanceFrom
           (fun tr w => forall node : N,
                Ver3.nodePacketsReceived (Ver3.g_stats w) !! node
                = Tally.per_node (Obs.count (Tally.v3_is_indication_at node) tr))).
  - intros node. apply lookup_empty.
  - intros tr w e w' IH Hstep node.
    assert (Hsame : Tally.v3_is_indication_at node e = false ->
                    Tally.per_node (Obs.count (Tally.v3_is_indication_at node) (tr ++ [e]))
                    = Ver3.nodePacketsReceived (Ver3.g_stats w) !! node).
    { intros He. rewrite count_snoc, He, Nat.add_0_r. symmetry. apply IH. }
    v3_callback_cases Hstep; try (rewrite Hsame by reflexivity; v3_fields; reflexivity).
    assert (Hincr : Cpp.map_incr stack (Ver3.nodePacketsReceived (Ver3.g_stats w)) !! node
                    = Tally.per_node
                        (Obs.count (Tally.v3_is_indication_at node)
                           (tr ++ [Ver3.EvApsDataIndication stack params now uid size]))).
    { apply (per_node_snoc Tally.v3_is_indication_at);
        [apply IH | apply IH | cbn; apply N.eqb_refl | reflexivity]. }
    rewrite <- Hincr. v3_fields; reflexivity.
Qed.

Lemma last_snoc {A : Type} (l : list A) (a d : A) : List.last (l ++ [a]) d = a.
Proof. apply List.last_last. Qed.

Lemma v3_last_packet_time (rd : N) (tr : list Ver3.Event) (w : Ver3.World L) :
  Ver3.run L GetDistanceFrom (Ver3.initial L rd) tr = Ok w ->
  Ver3.lastPacketTime (Ver3.g_stats w) = List.last (Tally.v3_indication_times tr) 0%Z.
Proof.
  revert tr w.
  apply (v3_run_invariant L GetDistanceFrom
           (fun tr w => Ver3.lastPacketTime (Ver3.g_stats w)
                        = List.last (Tally.v3_indication_times tr) 0%Z)).
  - reflexivity.
  - intros tr w e w' IH Hstep.
    unfold Tally.v3_indication_times in *. rewrite flat_map_app.
    cbn [flat_map app].
    v3_callback_cases Hstep; cbn [Tally.v3_indication_time]; rewrite ?app_nil_r, ?last_snoc;
      try rewrite <- IH; v3_fields; reflexivity.
Qed.

End V3TraceCounters.

Section V3QueueCounters.

Variable L : RandomLib.
Variable GetDistanceFrom : N -> N -> R.

Local Open Scope R_scope.

Lemma v3_bytes_transmitted_counted (rd : N) (tr : list Ver3.Event) (w : Ver3.World L) :
  Ver3.run L GetDistanceFrom (Ver3.initial L rd) tr = Ok w ->
  Ver3.bytesTransmitted (Ver3.g_stats w)
  = Tally.wrap32 (Tally.sum_N (Tally.request_sizes (Ver3.scheduled w))).
Proof.
  apply (v3_run_invariant L GetDistanceFrom
           (fun _ w => Ver3.bytesTransmitted (Ver3.g_stats w)
                       = Tally.wrap32 (Tally.sum_N (Tally.request_sizes (Ver3.scheduled w))))).
  - reflexivity.
  - clear tr w. intros _ w e w' IH Hstep.
    unfold Tally.request_sizes in *.
    v3_callback_cases Hstep; v3_fields;
      rewrite ?flat_map_app, ?sum_N_app, ?IH, ?wrap32_add; f_equal;
      unfold Tally.sum_N; cbn; lia.
Qed.

Lemma v3_tx_energy_counted (rd : N) (tr : list Ver3.Event) (w : Ver3.World L) :
  Ver3.run L GetDistanceFrom (Ver3.initial L rd) tr = Ok w ->
  Ver3.totalTxPower (Ver3.g_stats w)
  = Tally.sum_R (map Tally.v3_tx_energy (Tally.request_sizes (Ver3.scheduled w))).
Proof.
  apply (v3_run_invariant L GetDistanceFrom
           (fun _ w => Ver3.totalTxPower (Ver3.g_stats w)
                       = Tally.sum_R (map Tally.v3_tx_energy
                                        (Tally.request_sizes (Ver3.scheduled w))))).
  - reflexivity.
  - clear tr w. intros _ w e w' IH Hstep.
    unfold Tally.request_sizes in *.
    v3_callback_cases Hstep; v3_fields;
      rewrite ?flat_map_app, ?map_app, ?sum_R_app, <- ?IH;
      unfold Tally.v3_tx_energy, Tally.sum_R; cbn; lra.
Qed.

Lemma v3_node_sent_counted (rd : N) (tr : list Ver3.Event) (w : Ver3.World L) :
  Ver3.run L GetDistanceFrom (Ver3.initial L rd) tr = Ok w ->
  forall node : N,
    Ver3.nodePacketsSent (Ver3.g_stats w) !! node
    = Tally.per_node (Obs.count (Tally.is_request_of node) (Ver3.scheduled w)).
Proof.
  apply (v3_run_invariant L GetDistanceFrom
           (fun _ w => forall node : N,
                Ver3.nodePacketsSent (Ver3.g_stats w) !! node
                = Tally.per_node (Obs.count (Tally.is_request_of node) (Ver3.scheduled w)))).
  - intros node. apply lookup_empty.
  - clear tr w. intros _ w e w' IH Hstep node.
    assert (Hincr : forall k p uid size,
               Cpp.map_incr k (Ver3.nodePacketsSent (Ver3.g_stats w)) !! node
               = Tally.per_node
                   (Obs.count (Tally.is_request_of node)
                      (Ver3.scheduled w ++ [ApsdeDataRequest k p uid size]))).
    { intros k p uid size.
      apply (per_node_snoc Tally.is_request_of);
        [apply IH | apply IH | cbn; apply N.eqb_refl | reflexivity]. }
    v3_callback_cases Hstep; v3_fields;
      first [ apply IH
            | apply Hincr
            | rewrite count_snoc; cbn [Tally.is_request_of]; rewrite Nat.add_0_r; apply IH ].
Qed.

Lemma v3_join_requests_counted (rd : N) (tr : list Ver3.Event) (w : Ver3.World L) :
  Ver3.run L GetDistanceFrom (Ver3.initial L rd) tr = Ok w ->
  Ver3.joinAttempts (Ver3.g_stats w)
  = Tally.wrap32 (N.of_nat (Obs.count Tally.is_join_request (Ver3.scheduled w)))
  /\ Ver3.joinSuccesses (Ver3.g_stats w)
     = Tally.wrap32 (N.of_nat (Obs.count Tally.is_start_router_request (Ver3.scheduled w))).
Proof.
  apply (v3_run_invariant L GetDistanceFrom
           (fun _ w =>
              Ver3.joinAttempts (Ver3.g_stats w)
              = Tally.wrap32 (N.of_nat (Obs.count Tally.is_join_request (Ver3.scheduled w)))
              /\ Ver3.joinSuccesses (Ver3.g_stats w)
                 = Tally.wrap32
                     (N.of_nat (Obs.count Tally.is_start_router_request (Ver3.scheduled w))))).
  - split; reflexivity.
  - clear tr w. intros _ w e w' [IHa IHs] Hstep.
    v3_callback_cases Hstep; v3_fields;
      rewrite ?wrap32_count_snoc; cbn [Tally.is_join_request Tally.is_start_router_request];
      rewrite <- ?IHa, <- ?IHs; split; reflexivity.
Qed.

Lemma v3_queue_length (rd : N) (tr : list Ver3.Event) (w : Ver3.World L) :
  Ver3.run L GetDistanceFrom (Ver3.initial L rd) tr = Ok w ->
  (length (Ver3.scheduled w) <= length tr)%nat.
Proof.
  revert tr w.
  apply (v3_run_invariant L GetDistanceFrom
           (fun tr w => (length (Ver3.scheduled w) <= length tr)%nat)).
  - cbn. lia.
  - intros tr w e w' IH Hstep. rewrite length_app. cbn [length].
    v3_callback_cases Hstep; v3_fields; rewrite ?length_app; cbn [length]; lia.
Qed.

(** The data requests of a queue of Ver3 are temperature readings (two
    bytes, unicast) and group commands (one byte, group-addressed). *)
Lemma v3_requests_are_readings_or_commands (rd : N) (tr : list Ver3.Event)
    (w : Ver3.World L) :
  Ver3.run L GetDistanceFrom (Ver3.initial L rd) tr = Ok w ->
  Forall (fun c =>
            match c with
            | ApsdeDataRequest _ p _ size =>
                (m_dstAddrMode p = DST_ADDR16_DST_ENDPOINT_PRESENT /\ size = 2%N)
                \/ (m_dstAddrMode p = GROUP_ADDR_DST_ENDPOINT_NOT_PRESENT /\ size = 1%N)
            | _ => True
            end) (Ver3.scheduled w).
Proof.
  apply (v3_run_invariant L GetDistanceFrom
           (fun _ w =>
              Forall (fun c =>
                        match c with
                        | ApsdeDataRequest _ p _ size =>
                            (m_dstAddrMode p = DST_ADDR16_DST_ENDPOINT_PRESENT /\ size = 2%N)
                            \/ (m_dstAddrMode p = GROUP_ADDR_DST_ENDPOINT_NOT_PRESENT
                                /\ size = 1%N)
                        | _ => True
                        end) (Ver3.scheduled w))).
  - constructor.
  - clear tr w. intros _ w e w' IH Hstep.
    v3_callback_cases Hstep; v3_fields; try exact IH;
      apply Forall_app; (split; [exact IH |]);
      (constructor; [cbn; auto | constructor]).
Qed.

End V3QueueCounters.

(** ** The sizes and energies of the packets of Ver3 *)

Section PacketShapes.

Local Open Scope R_scope.

Lemma v3_transmission_time_linear (size : N) :
  (size + 39 < Cpp.UINT32_MOD)%N ->
  Ver3.CalculateTransmissionTime size = 0.032 * IZR (Z.of_N (size + 39)).
Proof.
  intros H. unfold Ver3.CalculateTransmissionTime, Cpp.add32.
  replace (((size + 6) mod Cpp.UINT32_MOD + 25) mod Cpp.UINT32_MOD + 8)%N
    with (size + 39)%N.
  - rewrite N.mod_small by exact H. lra.
  - rewrite (N.mod_small (size + 6)) by lia.
    rewrite (N.mod_small (size + 6 + 25)) by lia. lia.
Qed.

Lemma v3_transmission_time_nonneg (size : N) : 0 <= Ver3.CalculateTransmissionTime size.
Proof.
  unfold Ver3.CalculateTransmissionTime.
  assert (0 <= IZR (Z.of_N (Cpp.add32 (Cpp.add32 (Cpp.add32 size 6) 25) 8)))
    by (apply IZR_le; lia).
  lra.
Qed.

Lemma v3_tx_energy_reading : Tally.v3_tx_energy 2 = 0.04592.
Proof.
  unfold Tally.v3_tx_energy, Ver3.TX_POWER.
  rewrite v3_transmission_time_linear by reflexivity.
  change (IZR (Z.of_N (2 + 39))) with 41. lra.
Qed.

Lemma v3_tx_energy_command : Tally.v3_tx_energy 1 = 0.0448.
Proof.
  unfold Tally.v3_tx_energy, Ver3.TX_POWER.
  rewrite v3_transmission_time_linear by reflexivity.
  change (IZR (Z.of_N (1 + 39))) with 40. lra.
Qed.

Lemma v3_queue_totals (q : list StackCall) :
  Forall (fun c =>
            match c with
            | ApsdeDataRequest _ p _ size =>
                (m_dstAddrMode p = DST_ADDR16_DST_ENDPOINT_PRESENT /\ size = 2%N)
                \/ (m_dstAddrMode p = GROUP_ADDR_DST_ENDPOINT_NOT_PRESENT /\ size = 1%N)
            | _ => True
            end) q ->
  Tally.sum_N (Tally.request_sizes q)
  = N.of_nat (2 * Obs.count Tally.is_unicast_request q + Obs.count Tally.is_group_request q)
  /\ Tally.sum_R (map Tally.v3_tx_energy (Tally.request_sizes q))
     = 0.04592 * INR (Obs.count Tally.is_unicast_request q)
       + 0.0448 * INR (Obs.count Tally.is_group_request q).
Proof.
  induction 1 as [| c q Hc Hq [IHn IHr]].
  - split; [reflexivity |]. unfold Tally.sum_R, Obs.count. simpl. lra.
  - rewrite !count_cons.
    change (Tally.request_sizes (c :: q)) with (Tally.request_size c ++ Tally.request_sizes q).
    rewrite map_app, sum_N_app, sum_R_app, IHn, IHr.
    destruct c as [node p uid size | | |];
      try (cbn [Tally.request_size Tally.is_unicast_request Tally.is_group_request];
           unfold Tally.sum_N, Tally.sum_R; cbn; split; [lia | lra]).
    destruct Hc as [[Hm ->] | [Hm ->]];
      cbn [Tally.request_size Tally.is_unicast_request Tally.is_group_request];
      rewrite Hm; unfold Tally.sum_N, Tally.sum_R; cbn [map fold_right];
      rewrite ?v3_tx_energy_reading, ?v3_tx_energy_command.
    + split; [lia |]. rewrite !plus_INR. cbn. lra.
    + split; [lia |]. rewrite !plus_INR. cbn. lra.
Qed.

Lemma v3_rx_energy_linear (sizes : list N) :
  Forall (fun size => (size + 39 < Cpp.UINT32_MOD)%N) sizes ->
  Tally.sum_R (map Tally.v3_rx_energy sizes)
  = 0.0008 * (IZR (Z.of_N (Tally.sum_N sizes)) + 39 * INR (length sizes)).
Proof.
  induction 1 as [| size sizes Hs Hall IH].
  - unfold Tally.sum_R, Tally.sum_N. cbn. lra.
  - change (Tally.sum_R (map Tally.v3_rx_energy (size :: sizes)))
      with (Tally.v3_rx_energy size + Tally.sum_R (map Tally.v3_rx_energy sizes)).
    change (Tally.sum_N (size :: sizes)) with (size + Tally.sum_N sizes)%N.
    change (length (size :: sizes)) with (S (length sizes)).
    rewrite IH, S_INR. unfold Tally.v3_rx_energy, Ver3.RX_POWER.
    rewrite v3_transmission_time_linear by exact Hs.
    rewrite !N2Z.inj_add, !plus_IZR. cbn. lra.
Qed.

End PacketShapes.

(** X2.  Ver3, energy of transmission.  After any run from the initial
    state, the transmission energy in the statistics is the sum, over the
    data requests handed to the stack, of TX_POWER times the transmission
    time of the request's packet.  A reading dropped by the channel adds
    nothing although it is counted as transmitted.  As the only packets
    are two-byte readings and one-byte group commands, the total is
    0.04592 mW s per reading handed to the stack plus 0.0448 mW s per group
    command. *)
Theorem v3_tx_energy_is_charged_per_handoff (L : RandomLib) (GetDistanceFrom : N -> N -> R)
    (rd : N) (tr : list Ver3.Event) (w : Ver3.World L) :
  Ver3.run L GetDistanceFrom (Ver3.initial L rd) tr = Ok w ->
  Ver3.totalTxPower (Ver3.g_stats w)
  = Tally.sum_R (map Tally.v3_tx_energy (Tally.request_sizes (Ver3.scheduled w)))
  /\ Ver3.totalTxPower (Ver3.g_stats w)
     = (0.04592 * INR (Obs.count Tally.is_unicast_request (Ver3.scheduled w))
        + 0.0448 * INR (Obs.count Tally.is_group_request (Ver3.scheduled w)))%R
  /\ Obs.count Tally.is_group_request (Ver3.scheduled w)
     = Obs.count Tally.v3_is_group_send tr.
Proof.
  intros Hrun.
  pose proof (v3_tx_energy_counted L GetDistanceFrom rd tr w Hrun) as Htx.
  pose proof (v3_requests_are_readings_or_commands L GetDistanceFrom rd tr w Hrun) as Hq.
  destruct (v3_queue_totals _ Hq) as [_ Hsum].
  split; [exact Htx |]. split; [rewrite Htx; exact Hsum |].
  revert tr w Hrun Htx Hq Hsum. intros tr w Hrun _ _ _. revert tr w Hrun.
  apply (v3_run_invariant L GetDistanceFrom
           (fun tr w => Obs.count Tally.is_group_request (Ver3.scheduled w)
                        = Obs.count Tally.v3_is_group_send tr)).
  - reflexivity.
  - intros tr w e w' IH Hstep. rewrite (count_snoc Tally.v3_is_group_send), <- IH.
    v3_callback_cases Hstep; v3_fields; rewrite ?count_snoc; cbn; lia.
Qed.

Lemma v3_tx_energy_is_charged_per_handoff_witness :
  exists w : Ver3.World (Fixtures.replay Fixtures.unit_fade),
    Ver3.run (Fixtures.replay Fixtures.unit_fade) Fixtures.one_metre
      (Ver3.initial (Fixtures.replay Fixtures.unit_fade) 0) Fixtures.v3_evening = Ok w
    /\ Ver3.totalTxPower (Ver3.g_stats w)
       = (0.04592 * INR (Obs.count Tally.is_unicast_request (Ver3.scheduled w))
          + 0.0448 * INR (Obs.count Tally.is_group_request (Ver3.scheduled w)))%R.
Proof.
  eexists. split; [reflexivity |].
  apply (v3_tx_energy_is_charged_per_handoff (Fixtures.replay Fixtures.unit_fade)
           Fixtures.one_metre 0 Fixtures.v3_evening _ eq_refl).
Defined.

(** X3.  Ver3, energy of reception.  After any run from the initial state,
    the reception energy in the statistics is the sum, over the data
    indications the stack raised, of RX_POWER times the transmission time
    of the indicated packet: every indication is charged, one per
    receiving node.  When no packet size wraps the 32-bit byte count (size
    + 39 below 2^32), this is 0.0008 mW s per byte, with 39 bytes of
    overhead per indication. *)
Theorem v3_rx_energy_is_charged_per_indication (L : RandomLib)
    (GetDistanceFrom : N -> N -> R) (rd : N) (tr : list Ver3.Event) (w : Ver3.World L) :
  Ver3.run L GetDistanceFrom (Ver3.initial L rd) tr = Ok w ->
  let sizes := Tally.v3_indication_sizes tr in
  Ver3.totalRxPower (Ver3.g_stats w) = Tally.sum_R (map Tally.v3_rx_energy sizes)
  /\ (Forall (fun size => (size + 39 < Cpp.UINT32_MOD)%N) sizes ->
      Ver3.totalRxPower (Ver3.g_stats w)
      = (0.0008 * (IZR (Z.of_N (Tally.sum_N sizes)) + 39 * INR (length sizes)))%R).
Proof.
  intros Hrun sizes.
  pose proof (v3_rx_energy_counted L GetDistanceFrom rd tr w Hrun) as Hrx.
  split; [exact Hrx |].
  intros Hsmall. rewrite Hrx. apply v3_rx_energy_linear, Hsmall.
Qed.

Lemma v3_rx_energy_is_charged_per_indication_witness :
  exists w : Ver3.World (Fixtures.replay Fixtures.unit_fade),
    Ver3.run (Fixtures.replay Fixtures.unit_fade) Fixtures.one_metre
      (Ver3.initial (Fixtures.replay Fixtures.unit_fade) 0) Fixtures.v3_evening = Ok w
    /\ Ver3.totalRxPower (Ver3.g_stats w) = (0.0008 * (4 + 39 * 3))%R.
Proof.
  eexists. split; [reflexivity |].
  destruct (v3_rx_energy_is_charged_per_indication (Fixtures.replay Fixtures.unit_fade)
              Fixtures.one_metre 0 Fixtures.v3_evening _ eq_refl) as [_ H].
  rewrite H.
  - unfold Tally.sum_N. simpl. change (Z.pos (2 + (1 + 1))) with 4%Z. lra.
  - repeat constructor.
Defined.

(** X4.  Ver3, byte counters.  After a run of any length from the initial
    state, [bytesTransmitted] is, modulo 2^32, the total size of the data
    requests handed to the stack: two bytes per reading handed over, one
    per group command, nothing for a reading the channel dropped (which
    [packetsTransmitted] does count).  [bytesReceived] is, modulo 2^32,
    the total size of the packets of all data indications. *)
Theorem v3_byte_counters_are_sums_modulo_2_32 (L : RandomLib)
    (GetDistanceFrom : N -> N -> R) (rd : N) (tr : list Ver3.Event) (w : Ver3.World L) :
  Ver3.run L GetDistanceFrom (Ver3.initial L rd) tr = Ok w ->
  Ver3.bytesTransmitted (Ver3.g_stats w)
  = Tally.wrap32 (Tally.sum_N (Tally.request_sizes (Ver3.scheduled w)))
  /\ Ver3.bytesTransmitted (Ver3.g_stats w)
     = Tally.wrap32
         (N.of_nat (2 * Obs.count Tally.is_unicast_request (Ver3.scheduled w)
                    + Obs.count Tally.is_group_request (Ver3.scheduled w)))
  /\ Ver3.bytesReceived (Ver3.g_stats w)
     = Tally.wrap32 (Tally.sum_N (Tally.v3_indication_sizes tr)).
Proof.
  intros Hrun.
  pose proof (v3_bytes_transmitted_counted L GetDistanceFrom rd tr w Hrun) as Htx.
  pose proof (v3_requests_are_readings_or_commands L GetDistanceFrom rd tr w Hrun) as Hq.
  destruct (v3_queue_totals _ Hq) as [Hsum _].
  split; [exact Htx |]. split; [rewrite Htx, Hsum; reflexivity |].
  exact (v3_bytes_received_counted L GetDistanceFrom rd tr w Hrun).
Qed.

Lemma v3_byte_counters_are_sums_modulo_2_32_witness :
  exists w : Ver3.World (Fixtures.replay Fixtures.unit_fade),
    Ver3.run (Fixtures.replay Fixtures.unit_fade) Fixtures.one_metre
      (Ver3.initial (Fixtures.replay Fixtures.unit_fade) 0) Fixtures.v3_evening = Ok w
    /\ Ver3.bytesReceived (Ver3.g_stats w) = 4%N.
Proof.
  eexists. split; [reflexivity |].
  destruct (v3_byte_counters_are_sums_modulo_2_32 (Fixtures.replay Fixtures.unit_fade)
              Fixtures.one_metre 0 Fixtures.v3_evening _ eq_refl) as (_ & _ & H).
  rewrite H. reflexivity.
Defined.

(** X5.  Ver3, per-node counters.  After a run of any length from the
    initial state, the map [nodePacketsSent] has an entry for a node
    exactly when a data request of that node was handed to the stack, and
    the entry is the number of these requests modulo 2^32; a reading the
    channel dropped is not counted for its node.  [nodePacketsReceived]
    has an entry for a node exactly when the stack raised a data
    indication at that node, and the entry is their number modulo 2^32. *)
Theorem v3_per_node_counters (L : RandomLib) (GetDistanceFrom : N -> N -> R)
    (rd : N) (tr : list Ver3.Event) (w : Ver3.World L) (node : N) :
  Ver3.run L GetDistanceFrom (Ver3.initial L rd) tr = Ok w ->
  let handed := Obs.count (Tally.is_request_of node) (Ver3.scheduled w) in
  let indicated := Obs.count (Tally.v3_is_indication_at node) tr in
  Ver3.nodePacketsSent (Ver3.g_stats w) !! node
  = (if (handed =? 0)%nat then None else Some (Tally.wrap32 (N.of_nat handed)))
  /\ Ver3.nodePacketsReceived (Ver3.g_stats w) !! node
     = (if (indicated =? 0)%nat then None else Some (Tally.wrap32 (N.of_nat indicated))).
Proof.
  intros Hrun. split.
  - exact (v3_node_sent_counted L GetDistanceFrom rd tr w Hrun node).
  - exact (v3_node_received_counted L GetDistanceFrom rd tr w Hrun node).
Qed.

Lemma v3_per_node_counters_witness :
  exists w : Ver3.World (Fixtures.replay Fixtures.unit_fade),
    Ver3.run (Fixtures.replay Fixtures.unit_fade) Fixtures.one_metre
      (Ver3.initial (Fixtures.replay Fixtures.unit_fade) 0) Fixtures.v3_evening = Ok w
    /\ Ver3.nodePacketsReceived (Ver3.g_stats w) !! 5%N = Some 1%N
    /\ Ver3.nodePacketsReceived (Ver3.g_stats w) !! 3%N = None.
Proof.
  eexists. split; [reflexivity |]. split.
  - destruct (v3_per_node_counters (Fixtures.replay Fixtures.unit_fade)
                Fixtures.one_metre 0 Fixtures.v3_evening _ 5 eq_refl) as [_ H].
    rewrite H. reflexivity.
  - destruct (v3_per_node_counters (Fixtures.replay Fixtures.unit_fade)
                Fixtures.one_metre 0 Fixtures.v3_evening _ 3 eq_refl) as [_ H].
    rewrite H. reflexivity.
Defined.

(** X6.  Ver3, join counters.  After a run of any length from the initial
    state, [joinAttempts] is the number of join requests handed to the
    stack and [joinSuccesses] the number of start-router requests handed
    to it, both modulo 2^32: an attempt is counted exactly when a
    discovery confirm makes the node ask to join, a success exactly when a
    join confirm makes the node start as a router.  In a run of fewer than
    2^32 callbacks the join success rate of the reports is therefore 0
    when no join request was made and otherwise 100 times the start-router
    requests over the join requests. *)
Theorem v3_join_counters_follow_the_requests (L : RandomLib)
    (GetDistanceFrom : N -> N -> R) (rd : N) (tr : list Ver3.Event) (w : Ver3.World L) :
  Ver3.run L GetDistanceFrom (Ver3.initial L rd) tr = Ok w ->
  let joins := Obs.count Tally.is_join_request (Ver3.scheduled w) in
  let starts := Obs.count Tally.is_start_router_request (Ver3.scheduled w) in
  Ver3.joinAttempts (Ver3.g_stats w) = Tally.wrap32 (N.of_nat joins)
  /\ Ver3.joinSuccesses (Ver3.g_stats w) = Tally.wrap32 (N.of_nat starts)
  /\ ((N.of_nat (length tr) < Cpp.UINT32_MOD)%N ->
      Ver3.joinSuccessRate (Ver3.g_stats w)
      = (if (joins =? 0)%nat then 0 else INR starts / INR joins * 100)%R).
Proof.
  intros Hrun joins starts.
  destruct (v3_join_requests_counted L GetDistanceFrom rd tr w Hrun) as [Ha Hs].
  fold joins in Ha. fold starts in Hs.
  split; [exact Ha |]. split; [exact Hs |].
  intros Hlen.
  pose proof (v3_queue_length L GetDistanceFrom rd tr w Hrun) as Hq.
  pose proof (count_le_length Tally.is_join_request (Ver3.scheduled w)) as Hj.
  pose proof (count_le_length Tally.is_start_router_request (Ver3.scheduled w)) as Hst.
  fold joins in Hj. fold starts in Hst.
  unfold Ver3.joinSuccessRate. rewrite Ha, Hs.
  rewrite !wrap32_small by lia. rewrite !IZR_of_N_of_nat.
  destruct (Nat.eqb_spec joins 0) as [-> | Hne]; [reflexivity |].
  replace (0 <? N.of_nat joins)%N with true by (symmetry; apply N.ltb_lt; lia).
  reflexivity.
Qed.

Lemma v3_join_counters_follow_the_requests_witness :
  exists w : Ver3.World (Fixtures.replay Fixtures.unit_fade),
    Ver3.run (Fixtures.replay Fixtures.unit_fade) Fixtures.one_metre
      (Ver3.initial (Fixtures.replay Fixtures.unit_fade) 0) Fixtures.v3_evening = Ok w
    /\ Ver3.joinAttempts (Ver3.g_stats w)
       = Tally.wrap32 (N.of_nat (Obs.count Tally.is_join_request (Ver3.scheduled w))).
Proof.
  eexists. split; [reflexivity |].
  apply (v3_join_counters_follow_the_requests (Fixtures.replay Fixtures.unit_fade)
           Fixtures.one_metre 0 Fixtures.v3_evening _ eq_refl).
Defined.

Lemma v3_route_confirms_split (tr : list Ver3.Event) :
  Obs.count Tally.v3_is_route_confirm tr
  = (Obs.count Tally.v3_is_successful_route_confirm tr
     + Obs.count Tally.v3_is_failed_route_confirm tr)%nat.
Proof.
  induction tr as [| e tr IH]; [reflexivity |].
  rewrite !count_cons, IH.
  destruct e as [| | | | | | | | s st]; cbn; try lia. destruct st; cbn; lia.
Qed.

(** X7.  Ver3, route discoveries.  After a run of any length from the
    initial state, [routeDiscoveries] is, modulo 2^32, the number of
    route-discovery confirms the stack raised, the failed ones included:
    the callback counts before it looks at the status. *)
Theorem v3_route_discoveries_count_failures_too (L : RandomLib)
    (GetDistanceFrom : N -> N -> R) (rd : N) (tr : list Ver3.Event) (w : Ver3.World L) :
  Ver3.run L GetDistanceFrom (Ver3.initial L rd) tr = Ok w ->
  Ver3.routeDiscoveries (Ver3.g_stats w)
  = Tally.wrap32
      (N.of_nat (Obs.count Tally.v3_is_successful_route_confirm tr
                 + Obs.count Tally.v3_is_failed_route_confirm tr)).
Proof.
  intros Hrun. rewrite <- v3_route_confirms_split.
  exact (v3_route_confirms_counted L GetDistanceFrom rd tr w Hrun).
Qed.

Lemma v3_route_discoveries_count_failures_too_witness :
  exists w : Ver3.World (Fixtures.replay Fixtures.unit_fade),
    Ver3.run (Fixtures.replay Fixtures.unit_fade) Fixtures.one_metre
      (Ver3.initial (Fixtures.replay Fixtures.unit_fade) 0) Fixtures.v3_evening = Ok w
    /\ Ver3.routeDiscoveries (Ver3.g_stats w) = 2%N.
Proof.
  eexists. split; [reflexivity |].
  rewrite (v3_route_discoveries_count_failures_too (Fixtures.replay Fixtures.unit_fade)
             Fixtures.one_metre 0 Fixtures.v3_evening _ eq_refl).
  reflexivity.
Defined.

(** X8.  Ver3, group commands.  After a run of any length from the initial
    state, [groupCommands] is, modulo 2^32, the number of data indications
    whose destination address mode is the group mode.  It counts
    receptions, one per receiving member, and not the commands sent: it
    does not depend on the calls of SendGroupCommand in the run. *)
Theorem v3_group_commands_count_receptions (L : RandomLib)
    (GetDistanceFrom : N -> N -> R) (rd : N) (tr : list Ver3.Event) (w : Ver3.World L) :
  Ver3.run L GetDistanceFrom (Ver3.initial L rd) tr = Ok w ->
  Ver3.groupCommands (Ver3.g_stats w)
  = Tally.wrap32 (N.of_nat (Obs.count Tally.v3_is_group_indication tr)).
Proof. apply v3_group_indications_counted. Qed.

Lemma v3_group_commands_count_receptions_witness :
  exists w : Ver3.World (Fixtures.replay Fixtures.unit_fade),
    Ver3.run (Fixtures.replay Fixtures.unit_fade) Fixtures.one_metre
      (Ver3.initial (Fixtures.replay Fixtures.unit_fade) 0) Fixtures.v3_evening = Ok w
    /\ Obs.count Tally.v3_is_group_send Fixtures.v3_evening = 1%nat
    /\ Ver3.groupCommands (Ver3.g_stats w) = 2%N.
Proof.
  eexists. split; [reflexivity |]. split; [reflexivity |].
  rewrite (v3_group_commands_count_receptions (Fixtures.replay Fixtures.unit_fade)
             Fixtures.one_metre 0 Fixtures.v3_evening _ eq_refl).
  reflexivity.
Defined.

(** ** What the reports print after a run *)

Ltac ext_fields :=
  unfold Extended.beginPendingDelivery, Extended.completePendingDelivery,
    Extended.with_stats, Extended.ScheduleNow;
  cbn;
  repeat match goal with
         | |- context [if Z.eqb ?a ?b then _ else _] => destruct (Z.eqb a b) eqn:?; cbn
         | |- context [match ?m !! ?k with Some _ => _ | None => _ end] =>
             destruct (m !! k) eqn:?; cbn
         end.

Section Ratios.

Local Open Scope R_scope.

Lemma ratio_above_one (i s : nat) :
  (0 < s)%nat -> (INR s < INR i <-> (s < i)%nat).
Proof.
  intros Hs. split; [apply INR_lt | apply lt_INR].
Qed.

Lemma sum_R_nonneg (l : list R) : Forall (fun x => 0 <= x) l -> 0 <= Tally.sum_R l.
Proof.
  unfold Tally.sum_R. induction 1 as [| x l Hx Hl IH]; simpl; lra.
Qed.

Lemma hd_nonzero_empty (l : list Z) :
  hd 0%Z (List.filter Tally.nonzero l) = 0%Z -> List.filter Tally.nonzero l = [].
Proof.
  destruct (List.filter Tally.nonzero l) as [| a l'] eqn:Hf; [reflexivity |].
  cbn [hd]. intros ->.
  assert (Hin : In 0%Z (List.filter Tally.nonzero l)) by (rewrite Hf; left; reflexivity).
  apply List.filter_In in Hin. destruct Hin as [_ Hnz]. discriminate Hnz.
Qed.

End Ratios.

(** X9.  Extended variant, packet delivery ratio.  After a run of fewer
    than 2^32 callbacks from the initial state, the ratio PrintResults and
    ExportCSV compute is 0 when no send was made (no division is done) and
    otherwise 100 times the number of data indications over the number of
    sends, dropped sends included.  It exceeds 100 exactly when the stack
    raised more indications than there were sends. *)
Theorem ext_pdr_is_indications_over_sends (L : RandomLib) (GetDistanceFrom : N -> N -> R)
    (cfg : Extended.ChannelConfig) (tr : list Extended.Event) (w : Extended.World L) :
  (N.of_nat (length tr) < Cpp.UINT32_MOD)%N ->
  Extended.run L GetDistanceFrom cfg (Extended.initial L) tr = Ok w ->
  let sends := Obs.count Obs.ext_is_send tr in
  let indications := Obs.count Obs.ext_is_indication tr in
  Extended.pdr (Extended.g_stats w)
  = (if (sends =? 0)%nat then 0 else 100 * INR indications / INR sends)%R
  /\ ((100 < Extended.pdr (Extended.g_stats w))%R <-> (0 < sends < indications)%nat).
Proof.
  intros Hlen Hrun sends indications.
  destruct (ext_run_accounted L GetDistanceFrom cfg tr (Extended.initial L) w 0 0 0 Hrun)
    as (Hs & Hi & _ & _); [exact Hlen | repeat split |].
  rewrite !Nat.add_0_r in Hs, Hi. fold sends in Hs. fold indications in Hi.
  assert (Hpdr : Extended.pdr (Extended.g_stats w)
                 = (if (sends =? 0)%nat then 0 else 100 * INR indications / INR sends)%R).
  { unfold Extended.pdr. rewrite Hs, Hi, !IZR_of_N_of_nat.
    destruct (Nat.eqb_spec sends 0) as [-> | Hne]; [reflexivity |].
    replace (0 <? N.of_nat sends)%N with true by (symmetry; apply N.ltb_lt; lia).
    reflexivity. }
  split; [exact Hpdr |]. rewrite Hpdr.
  destruct (Nat.eqb_spec sends 0) as [H0 | Hne].
  - split; [lra | lia].
  - assert (Hpos : (0 < INR sends)%R) by (apply lt_0_INR; lia).
    rewrite <- (ratio_above_one indications sends) by lia.
    split.
    + intros H. split; [lia |].
      apply Rmult_lt_reg_r with (r := (100 / INR sends)%R).
      * apply Rdiv_lt_0_compat; lra.
      * replace (INR sends * (100 / INR sends))%R with 100%R by (field; lra).
        replace (INR indications * (100 / INR sends))%R
          with (100 * INR indications / INR sends)%R by (field; lra).
        exact H.
    + intros [_ H].
      replace 100%R with (100 * INR sends / INR sends)%R at 1 by (field; lra).
      apply Rmult_lt_compat_r; [apply Rinv_0_lt_compat, Hpos | lra].
Qed.

Lemma ext_pdr_is_indications_over_sends_witness :
  exists w : Extended.World (Fixtures.replay []),
    Extended.run (Fixtures.replay []) Fixtures.one_metre Fixtures.quiet_channel
      (Extended.initial (Fixtures.replay [])) Fixtures.ext_evening = Ok w
    /\ Extended.pdr (Extended.g_stats w) = 50%R.
Proof.
  eexists. split; [reflexivity |].
  destruct (ext_pdr_is_indications_over_sends (Fixtures.replay []) Fixtures.one_metre
              Fixtures.quiet_channel Fixtures.ext_evening _ eq_refl eq_refl) as [H _].
  rewrite H. simpl. lra.
Defined.

(** X10.  Ver3, loss rate.  After a run of fewer than 2^32 callbacks from
    the initial state, the loss rate PrintPerformanceMetrics and
    ExportResultsToCSV compute is 100 when nothing was sent, and otherwise
    100 minus 100 times the data indications over the sends (readings,
    dropped or not, and group commands).  It is negative exactly when the
    stack raised more indications than there were sends, as it does when a
    group command reaches several members. *)
Theorem v3_loss_rate_is_negative_when_indications_exceed_sends (L : RandomLib)
    (GetDistanceFrom : N -> N -> R) (rd : N) (tr : list Ver3.Event) (w : Ver3.World L) :
  (N.of_nat (length tr) < Cpp.UINT32_MOD)%N ->
  Ver3.run L GetDistanceFrom (Ver3.initial L rd) tr = Ok w ->
  let sends := Obs.count Obs.v3_is_send tr in
  let indications := Obs.count Obs.v3_is_indication tr in
  Ver3.lossRate (Ver3.g_stats w)
  = (if (sends =? 0)%nat then 100 else 100 - INR indications / INR sends * 100)%R
  /\ ((Ver3.lossRate (Ver3.g_stats w) < 0)%R <-> (0 < sends < indications)%nat).
Proof.
  intros Hlen Hrun sends indications.
  destruct (v3_run_accounted L GetDistanceFrom tr (Ver3.initial L rd) w 0 0 0 Hrun)
    as (Hs & Hi & _ & _); [exact Hlen | repeat split |].
  rewrite !Nat.add_0_r in Hs, Hi. fold sends in Hs. fold indications in Hi.
  assert (Hloss : Ver3.lossRate (Ver3.g_stats w)
                  = (if (sends =? 0)%nat then 100
                     else 100 - INR indications / INR sends * 100)%R).
  { unfold Ver3.lossRate, Ver3.pdr. rewrite Hs, Hi, !IZR_of_N_of_nat.
    destruct (Nat.eqb_spec sends 0) as [-> | Hne];
      [change (0 <? N.of_nat 0)%N with false; cbv iota; lra |].
    replace (0 <? N.of_nat sends)%N with true by (symmetry; apply N.ltb_lt; lia).
    reflexivity. }
  split; [exact Hloss |]. rewrite Hloss.
  destruct (Nat.eqb_spec sends 0) as [H0 | Hne].
  - split; [lra | lia].
  - assert (Hpos : (0 < INR sends)%R) by (apply lt_0_INR; lia).
    rewrite <- (ratio_above_one indications sends) by lia.
    split.
    + intros H. split; [lia |].
      apply Rmult_lt_reg_r with (r := (100 / INR sends)%R).
      * apply Rdiv_lt_0_compat; lra.
      * replace (INR sends * (100 / INR sends))%R with 100%R by (field; lra).
        replace (INR indications * (100 / INR sends))%R
          with (INR indications / INR sends * 100)%R by (field; lra).
        lra.
    + intros [_ H].
      assert (100 * INR sends / INR sends < INR indications / INR sends * 100)%R.
      { replace (INR indications / INR sends * 100)%R
          with (100 * INR indications / INR sends)%R by (field; lra).
        apply Rmult_lt_compat_r; [apply Rinv_0_lt_compat, Hpos | lra]. }
      replace (100 * INR sends / INR sends)%R with 100%R in H0 by (field; lra).
      lra.
Qed.

Lemma v3_loss_rate_is_negative_when_indications_exceed_sends_witness :
  exists w : Ver3.World (Fixtures.replay Fixtures.unit_fade),
    Ver3.run (Fixtures.replay Fixtures.unit_fade) Fixtures.one_metre
      (Ver3.initial (Fixtures.replay Fixtures.unit_fade) 0) Fixtures.v3_evening = Ok w
    /\ (Ver3.lossRate (Ver3.g_stats w) < 0)%R.
Proof.
  eexists. split; [reflexivity |].
  apply (v3_loss_rate_is_negative_when_indications_exceed_sends
           (Fixtures.replay Fixtures.unit_fade) Fixtures.one_metre 0 Fixtures.v3_evening _
           eq_refl eq_refl).
  unfold Obs.count. simpl. lia.
Defined.

(** X11.  Ver3, power shares.  PrintPerformanceMetrics and
    ExportResultsToCSV first store the idle energy, [IDLE_POWER] (0.3 mW)
    for every node over the whole simulation time, and then divide each of
    the three energies by their sum.  After any run from the initial
    state, with at least one node and a simulation time of at least one
    second, the transmission and reception energies are not negative, the
    idle energy and the sum are positive, so no share is a division by
    zero, and each share computed lies between 0 and 100 per cent.  Only
    the order of the values is stated: what the shares add up to depends
    on rounding and on the three decimals they are printed with. *)
Theorem v3_power_total_is_positive (L : RandomLib) (GetDistanceFrom : N -> N -> R)
    (rd : N) (tr : list Ver3.Event) (w : Ver3.World L) (numNodes : N) (simTime : R) :
  Ver3.run L GetDistanceFrom (Ver3.initial L rd) tr = Ok w ->
  (0 < numNodes)%N ->
  (1 <= simTime)%R ->
  let st := Ver3.estimate_idle_power numNodes simTime (Ver3.g_stats w) in
  let total := Ver3.totalPower st in
  Ver3.totalIdlePower st = (Ver3.IDLE_POWER * (simTime * IZR (Z.of_N numNodes)))%R
  /\ Ver3.totalTxPower st = Ver3.totalTxPower (Ver3.g_stats w)
  /\ Ver3.totalRxPower st = Ver3.totalRxPower (Ver3.g_stats w)
  /\ (0 <= Ver3.totalTxPower st)%R
  /\ (0 <= Ver3.totalRxPower st)%R
  /\ (0 < Ver3.totalIdlePower st)%R
  /\ (0 < total)%R
  /\ (0 <= Ver3.totalTxPower st / total * 100 <= 100)%R
  /\ (0 <= Ver3.totalRxPower st / total * 100 <= 100)%R
  /\ (0 < Ver3.totalIdlePower st / total * 100 <= 100)%R.
Proof.
  intros Hrun Hn Ht st total.
  assert (Htx : (0 <= Ver3.totalTxPower (Ver3.g_stats w))%R).
  { rewrite (v3_tx_energy_counted L GetDistanceFrom rd tr w Hrun).
    apply sum_R_nonneg, Forall_map, Forall_forall. intros size _.
    unfold Tally.v3_tx_energy, Ver3.TX_POWER.
    pose proof (v3_transmission_time_nonneg size). lra. }
  assert (Hrx : (0 <= Ver3.totalRxPower (Ver3.g_stats w))%R).
  { rewrite (v3_rx_energy_counted L GetDistanceFrom rd tr w Hrun).
    apply sum_R_nonneg, Forall_map, Forall_forall. intros size _.
    unfold Tally.v3_rx_energy, Ver3.RX_POWER.
    pose proof (v3_transmission_time_nonneg size). lra. }
  assert (Hidle : (0 < Ver3.IDLE_POWER * (simTime * IZR (Z.of_N numNodes)))%R).
  { assert (0 < IZR (Z.of_N numNodes))%R by (apply IZR_lt; lia).
    unfold Ver3.IDLE_POWER.
    apply Rmult_lt_0_compat; [lra | apply Rmult_lt_0_compat; [lra | assumption]]. }
  subst total st. unfold Ver3.totalPower, Ver3.estimate_idle_power.
  cbn [Ver3.totalIdlePower Ver3.totalTxPower Ver3.totalRxPower Ver3.set_totalIdlePower].
  set (tx := Ver3.totalTxPower (Ver3.g_stats w)) in *.
  set (rx := Ver3.totalRxPower (Ver3.g_stats w)) in *.
  set (idle := (Ver3.IDLE_POWER * (simTime * IZR (Z.of_N numNodes)))%R) in *.
  assert (Htotal : (0 < tx + rx + idle)%R) by lra.
  pose proof (Rinv_0_lt_compat _ Htotal) as Hinv.
  assert (Hone : (tx * / (tx + rx + idle) + rx * / (tx + rx + idle)
                  + idle * / (tx + rx + idle) = 1)%R) by (field; lra).
  assert (Htx' : (0 <= tx * / (tx + rx + idle))%R) by (apply Rmult_le_pos; lra).
  assert (Hrx' : (0 <= rx * / (tx + rx + idle))%R) by (apply Rmult_le_pos; lra).
  assert (Hidle' : (0 < idle * / (tx + rx + idle))%R) by (apply Rmult_lt_0_compat; lra).
  unfold Rdiv.
  repeat split; try reflexivity; try assumption; lra.
Qed.

Lemma v3_power_total_is_positive_witness :
  exists w : Ver3.World (Fixtures.replay Fixtures.unit_fade),
    Ver3.run (Fixtures.replay Fixtures.unit_fade) Fixtures.one_metre
      (Ver3.initial (Fixtures.replay Fixtures.unit_fade) 0) Fixtures.v3_evening = Ok w
    /\ Ver3.totalIdlePower (Ver3.estimate_idle_power 6 300 (Ver3.g_stats w))
       = (Ver3.IDLE_POWER * (300 * 6))%R.
Proof.
  eexists. split; [reflexivity |].
  apply (v3_power_total_is_positive (Fixtures.replay Fixtures.unit_fade)
           Fixtures.one_metre 0 Fixtures.v3_evening _ 6 300 eq_refl).
  - reflexivity.
  - lra.
Defined.

(** ** Time stamps *)

Section TimeStamps.

Variable L : RandomLib.
Variable GetDistanceFrom : N -> N -> R.

Lemma ext_first_send_time (cfg : Extended.ChannelConfig) (tr : list Extended.Event)
    (w : Extended.World L) :
  Extended.run L GetDistanceFrom cfg (Extended.initial L) tr = Ok w ->
  Extended.firstSend (Extended.g_stats w)
  = hd 0%Z (List.filter Tally.nonzero (Tally.ext_send_times tr)).
Proof.
  revert tr w.
  apply (ext_run_invariant L GetDistanceFrom cfg
           (fun tr w => Extended.firstSend (Extended.g_stats w)
                        = hd 0%Z (List.filter Tally.nonzero (Tally.ext_send_times tr)))).
  - reflexivity.
  - intros tr w e w' IH Hstep.
    unfold Tally.ext_send_times in *. rewrite flat_map_app, List.filter_app.
    cbn [flat_map app].
    assert (Hkeep : forall l : list Z,
               l = [] ->
               hd 0%Z (List.filter Tally.nonzero (flat_map Tally.ext_send_time tr) ++ l)
               = Extended.firstSend (Extended.g_stats w)).
    { intros l ->. rewrite app_nil_r. symmetry. exact IH. }
    assert (Hsend : forall now : Z,
               (if Z.eqb (Extended.firstSend (Extended.g_stats w)) 0 then now
                else Extended.firstSend (Extended.g_stats w))
               = hd 0%Z (List.filter Tally.nonzero (flat_map Tally.ext_send_time tr)
                         ++ List.filter Tally.nonzero [now])).
    { intros now. destruct (Z.eqb_spec (Extended.firstSend (Extended.g_stats w)) 0) as [H0 | Hne].
      - rewrite H0 in IH. symmetry in IH. apply hd_nonzero_empty in IH. rewrite IH.
        cbn [app List.filter]. unfold Tally.nonzero.
        destruct (Z.eqb_spec now 0) as [-> | Hn]; reflexivity.
      - rewrite IH in Hne |- *.
        destruct (List.filter Tally.nonzero (flat_map Tally.ext_send_time tr));
          [contradiction | reflexivity]. }
    ext_callback_cases Hstep; cbn [Tally.ext_send_time];
      try (rewrite Hkeep by reflexivity);
      try (specialize (Hsend now); revert Hsend);
      unfold Seconds0; ext_fields; try reflexivity; auto.
Qed.

Lemma ext_last_receive_time (cfg : Extended.ChannelConfig) (tr : list Extended.Event)
    (w : Extended.World L) :
  Extended.run L GetDistanceFrom cfg (Extended.initial L) tr = Ok w ->
  Extended.lastRecv (Extended.g_stats w) = List.last (Tally.ext_indication_times tr) 0%Z.
Proof.
  revert tr w.
  apply (ext_run_invariant L GetDistanceFrom cfg
           (fun tr w => Extended.lastRecv (Extended.g_stats w)
                        = List.last (Tally.ext_indication_times tr) 0%Z)).
  - reflexivity.
  - intros tr w e w' IH Hstep.
    unfold Tally.ext_indication_times in *. rewrite flat_map_app.
    cbn [flat_map app].
    ext_callback_cases Hstep; cbn [Tally.ext_indication_time];
      rewrite ?app_nil_r, ?last_snoc; try rewrite <- IH; ext_fields; reflexivity.
Qed.

Lemma v3_first_packet_time (rd : N) (tr : list Ver3.Event) (w : Ver3.World L) :
  Ver3.run L GetDistanceFrom (Ver3.initial L rd) tr = Ok w ->
  Ver3.firstPacketTime (Ver3.g_stats w) = 0%Z
  \/ In (Ver3.firstPacketTime (Ver3.g_stats w)) (Tally.v3_reading_times tr).
Proof.
  revert tr w.
  apply (v3_run_invariant L GetDistanceFrom
           (fun tr w => Ver3.firstPacketTime (Ver3.g_stats w) = 0%Z
                        \/ In (Ver3.firstPacketTime (Ver3.g_stats w))
                             (Tally.v3_reading_times tr))).
  - left. reflexivity.
  - intros tr w e w' IH Hstep.
    unfold Tally.v3_reading_times in *. rewrite flat_map_app.
    assert (Hold : Ver3.firstPacketTime (Ver3.g_stats w) = 0%Z
                   \/ In (Ver3.firstPacketTime (Ver3.g_stats w))
                        (flat_map Tally.v3_reading_time tr
                         ++ flat_map Tally.v3_reading_time [e])).
    { destruct IH as [H | H]; [left; exact H | right; apply in_or_app; left; exact H]. }
    v3_callback_cases Hstep; v3_fields; try exact Hold.
    right. apply in_or_app. right. left. reflexivity.
Qed.

End TimeStamps.

(** X12.  Extended variant, time stamps.  After any run from the initial
    state, [firstSend] is the time of the first call of SendSensorData
    made at a time other than 0, whether the channel dropped that packet
    or not, and 0 if there is none: a send at time 0 leaves the stamp
    unset, so that the next send sets it.  [lastRecv] is the time of the
    last data indication, 0 if there is none. *)
Theorem ext_first_send_and_last_receive_times (L : RandomLib)
    (GetDistanceFrom : N -> N -> R) (cfg : Extended.ChannelConfig)
    (tr : list Extended.Event) (w : Extended.World L) :
  Extended.run L GetDistanceFrom cfg (Extended.initial L) tr = Ok w ->
  Extended.firstSend (Extended.g_stats w)
  = hd 0%Z (List.filter Tally.nonzero (Tally.ext_send_times tr))
  /\ Extended.lastRecv (Extended.g_stats w)
     = List.last (Tally.ext_indication_times tr) 0%Z.
Proof.
  intros Hrun. split.
  - exact (ext_first_send_time L GetDistanceFrom cfg tr w Hrun).
  - exact (ext_last_receive_time L GetDistanceFrom cfg tr w Hrun).
Qed.

Lemma ext_first_send_and_last_receive_times_witness :
  exists w : Extended.World (Fixtures.replay []),
    Extended.run (Fixtures.replay []) Fixtures.one_metre Fixtures.quiet_channel
      (Extended.initial (Fixtures.replay [])) Fixtures.ext_evening = Ok w
    /\ Extended.firstSend (Extended.g_stats w) = 21000000000%Z
    /\ Extended.lastRecv (Extended.g_stats w) = 21004500000%Z.
Proof.
  eexists. split; [reflexivity |].
  destruct (ext_first_send_and_last_receive_times (Fixtures.replay []) Fixtures.one_metre
              Fixtures.quiet_channel Fixtures.ext_evening _ eq_refl) as [Hf Hl].
  rewrite Hf, Hl. split; reflexivity.
Defined.

(** X13.  Ver3, the window of the throughput.  After any run from the
    initial state, [lastPacketTime] is the time of the last data
    indication (0 if there is none), and [firstPacketTime] is either still
    0 or the time of a call of SendTemperatureReading of the run.  A group
    command never sets it: in a run without readings it stays 0, so that
    the throughput is taken over the time since the start of the
    simulation. *)
Theorem v3_first_packet_time_ignores_group_commands (L : RandomLib)
    (GetDistanceFrom : N -> N -> R) (rd : N) (tr : list Ver3.Event) (w : Ver3.World L) :
  Ver3.run L GetDistanceFrom (Ver3.initial L rd) tr = Ok w ->
  Ver3.lastPacketTime (Ver3.g_stats w) = List.last (Tally.v3_indication_times tr) 0%Z
  /\ (Ver3.firstPacketTime (Ver3.g_stats w) = 0%Z
      \/ In (Ver3.firstPacketTime (Ver3.g_stats w)) (Tally.v3_reading_times tr))
  /\ (Obs.count Obs.v3_is_unicast_send tr = 0%nat ->
      Ver3.firstPacketTime (Ver3.g_stats w) = 0%Z
      /\ Ver3.throughputKbps (Ver3.g_stats w)
         = (if (0 <? Ver3.lastPacketTime (Ver3.g_stats w))%Z
            then IZR (Z.of_N (Ver3.bytesReceived (Ver3.g_stats w))) * 8
                 / GetSeconds (Ver3.lastPacketTime (Ver3.g_stats w)) / 1000
            else 0)%R).
Proof.
  intros Hrun.
  pose proof (v3_first_packet_time L GetDistanceFrom rd tr w Hrun) as Hfirst.
  split; [exact (v3_last_packet_time L GetDistanceFrom rd tr w Hrun) |].
  split; [exact Hfirst |].
  intros Hnone.
  assert (Hempty : Tally.v3_reading_times tr = []).
  { clear -Hnone. induction tr as [| e tr IH]; [reflexivity |].
    rewrite count_cons in Hnone. destruct e; cbn in Hnone; try discriminate Hnone;
      cbn; apply IH; lia. }
  rewrite Hempty in Hfirst. destruct Hfirst as [H0 | []].
  split; [exact H0 |].
  unfold Ver3.throughputKbps. rewrite H0, Z.sub_0_r. reflexivity.
Qed.

Lemma v3_first_packet_time_ignores_group_commands_witness :
  exists w : Ver3.World (Fixtures.replay []),
    Ver3.run (Fixtures.replay []) Fixtures.one_metre (Ver3.initial (Fixtures.replay []) 0)
      [Ver3.EvSendGroupCommand 0 Ver3.GROUP_ALL_LIGHTS 0 43000000000 9;
       Ver3.EvApsDataIndication 4 Fixtures.group_indication 43004000000 9 1] = Ok w
    /\ Ver3.firstPacketTime (Ver3.g_stats w) = 0%Z
    /\ Ver3.lastPacketTime (Ver3.g_stats w) = 43004000000%Z.
Proof.
  eexists. split; [reflexivity |].
  destruct (v3_first_packet_time_ignores_group_commands (Fixtures.replay [])
              Fixtures.one_metre 0
              [Ver3.EvSendGroupCommand 0 Ver3.GROUP_ALL_LIGHTS 0 43000000000 9;
               Ver3.EvApsDataIndication 4 Fixtures.group_indication 43004000000 9 1]
              _ eq_refl) as (Hlast & _ & Hgroup).
  destruct (Hgroup eq_refl) as [Hfirst _].
  split; [exact Hfirst | exact Hlast].
Defined.

(** ** The pending deliveries *)

Section PendingSteps.

Variable L : RandomLib.
Variable GetDistanceFrom : N -> N -> R.

(** What one callback of the extended variant does to the pending map,
    the delay samples and the queue: it registers a packet it hands to
    the stack, or completes a pending delivery, or leaves map and samples
    alone. *)
Lemma ext_step_pending (cfg : Extended.ChannelConfig) (w w' : Extended.World L)
    (e : Extended.Event) :
  Extended.step L GetDistanceFrom cfg w e = Ok w' ->
  let st := Extended.g_stats w in
  let st' := Extended.g_stats w' in
  (exists s c now uid a p size,
      e = Extended.EvSendSensorData s c now uid a
      /\ Extended.sendTimes st' = <[uid := now]> (Extended.sendTimes st)
      /\ Extended.delaysSamples st' = Extended.delaysSamples st
      /\ Extended.scheduled w' = Extended.scheduled w ++ [ApsdeDataRequest s p uid size])
  \/ (exists s now uid size t0,
         e = Extended.EvDataReceived s now uid size
         /\ Extended.sendTimes st !! uid = Some t0
         /\ Extended.sendTimes st' = delete uid (Extended.sendTimes st)
         /\ Extended.delaysSamples st'
            = Extended.delaysSamples st ++ [IZR (GetMilliSeconds (now - t0))]
         /\ Extended.scheduled w' = Extended.scheduled w)
  \/ (Extended.sendTimes st' = Extended.sendTimes st
      /\ Extended.delaysSamples st' = Extended.delaysSamples st
      /\ Obs.handoffs (Extended.scheduled w') = Obs.handoffs (Extended.scheduled w)
      /\ Tally.request_uids (Extended.scheduled w')
         = Tally.request_uids (Extended.scheduled w)).
Proof.
  intros Hstep. cbv zeta.
  ext_callback_cases Hstep.
  5: { ext_fields.
       - right. left. do 5 eexists. repeat split; eassumption.
       - right. right. repeat split. }
  1: { left. do 7 eexists. ext_fields; repeat split. }
  all: right; right; ext_fields;
    unfold Obs.handoffs, Tally.request_uids;
    rewrite ?List.filter_app, ?flat_map_app, ?length_app; cbn;
    rewrite ?app_nil_r, ?Nat.add_0_r; repeat split.
Qed.

Lemma v3_step_pending (w w' : Ver3.World L) (e : Ver3.Event) :
  Ver3.step L GetDistanceFrom w e = Ok w' ->
  let st := Ver3.g_stats w in
  let st' := Ver3.g_stats w' in
  (exists now uid node p size,
      (Tally.v3_event_time e = Some now /\ Tally.v3_touches uid e = true
       /\ forall u, Tally.v3_touches u e = (uid =? u)%N)
      /\ Ver3.packetSendTimes st' = <[uid := now]> (Ver3.packetSendTimes st)
      /\ Ver3.delays st' = Ver3.delays st
      /\ Ver3.scheduled w' = Ver3.scheduled w ++ [ApsdeDataRequest node p uid size])
  \/ (exists s params now uid size t0,
         e = Ver3.EvApsDataIndication s params now uid size
         /\ Ver3.packetSendTimes st !! uid = Some t0
         /\ Ver3.packetSendTimes st' = delete uid (Ver3.packetSendTimes st)
         /\ Ver3.delays st' = Ver3.delays st ++ [IZR (GetMilliSeconds (now - t0))]
         /\ Ver3.scheduled w' = Ver3.scheduled w)
  \/ (Ver3.packetSendTimes st' = Ver3.packetSendTimes st
      /\ Ver3.delays st' = Ver3.delays st
      /\ Obs.handoffs (Ver3.scheduled w') = Obs.handoffs (Ver3.scheduled w)
      /\ Tally.request_uids (Ver3.scheduled w') = Tally.request_uids (Ver3.scheduled w)).
Proof.
  intros Hstep. cbv zeta.
  v3_callback_cases Hstep.
  7: { unfold Ver3.AddReceptionPower, Ver3.completePendingDelivery, Ver3.with_stats.
       cbn. destruct (Ver3.packetSendTimes (Ver3.g_stats w) !! uid) as [t0 |] eqn:Hlook.
       - right. left. exists stack, params, now, uid, size, t0.
         destruct (Ver3.ind_dstAddrMode params); cbn; repeat split; assumption.
       - right. right. destruct (Ver3.ind_dstAddrMode params); cbn; repeat split. }
  5: { left. exists now, uid, sourceStack. do 2 eexists. v3_fields.
       repeat split; try apply N.eqb_refl. }
  1: { left. exists now, uid, sensorStack. do 2 eexists.
       v3_fields; repeat split; try apply N.eqb_refl. }
  all: right; right; v3_fields;
    unfold Obs.handoffs, Tally.request_uids;
    rewrite ?List.filter_app, ?flat_map_app, ?length_app; cbn;
    rewrite ?app_nil_r, ?Nat.add_0_r; repeat split.
Qed.

End PendingSteps.

Section PendingMaps.

Lemma pending_registered (m : gmap N Z) (d : list R) (q : list StackCall) (n n' : nat)
    (node uid size : N) (p : ApsdeDataRequestParams) (now : Z) :
  Tally.pending_accounted m d q n ->
  (n <= n')%nat ->
  Tally.pending_accounted (<[uid := now]> m) d (q ++ [ApsdeDataRequest node p uid size]) n'.
Proof.
  intros (Hkeys & Hsize & Hlen) Hn. repeat split.
  - intros u t Hu. unfold Tally.request_uids. rewrite flat_map_app. apply in_or_app.
    apply lookup_insert_Some in Hu. destruct Hu as [[<- _] | [_ Hu]].
    + right. left. reflexivity.
    + left. exact (Hkeys u t Hu).
  - rewrite handoffs_app. change (Obs.handoffs [ApsdeDataRequest node p uid size]) with 1%nat.
    destruct (m !! uid) as [t |] eqn:Hu;
      [rewrite map_size_insert_Some by eauto | rewrite map_size_insert_None by exact Hu];
      lia.
  - lia.
Qed.

Lemma pending_completed (m : gmap N Z) (d : list R) (q : list StackCall) (n n' : nat)
    (uid : N) (t0 : Z) (x : R) :
  Tally.pending_accounted m d q n ->
  m !! uid = Some t0 ->
  (S n <= n')%nat ->
  Tally.pending_accounted (delete uid m) (d ++ [x]) q n'.
Proof.
  intros (Hkeys & Hsize & Hlen) Hu Hn. repeat split.
  - intros u t Ht. apply lookup_delete_Some in Ht. destruct Ht as [_ Ht].
    exact (Hkeys u t Ht).
  - rewrite map_size_delete_Some by eauto. rewrite length_app. cbn [length].
    assert (size m <> 0)%nat.
    { intros H0. apply map_size_empty_inv in H0. subst m.
      rewrite lookup_empty in Hu. discriminate Hu. }
    lia.
  - rewrite length_app. cbn [length]. lia.
Qed.

Lemma pending_untouched (m : gmap N Z) (d : list R) (q q' : list StackCall) (n n' : nat) :
  Tally.pending_accounted m d q n ->
  Obs.handoffs q' = Obs.handoffs q ->
  Tally.request_uids q' = Tally.request_uids q ->
  (n <= n')%nat ->
  Tally.pending_accounted m d q' n'.
Proof.
  intros (Hkeys & Hsize & Hlen) Hh Hu Hn. unfold Tally.pending_accounted.
  rewrite Hh, Hu. repeat split; [exact Hkeys | exact Hsize | lia].
Qed.

End PendingMaps.

(** X14.  Pending deliveries and the queue, in both variants.  After any
    run from the initial state, every uid in the map of send times is the
    uid of a data request handed to the stack; the entries of the map and
    the delay samples together number at most the data requests handed
    over (a packet is pending, or has given one delay sample, or its entry
    was overwritten by a later packet with the same uid); and there are at
    most as many delay samples as data indications.  A channel-dropped
    send leaves no entry. *)
Theorem pending_deliveries_are_handed_off_requests :
  (forall (L : RandomLib) (GetDistanceFrom : N -> N -> R) (cfg : Extended.ChannelConfig)
          (tr : list Extended.Event) (w : Extended.World L),
      Extended.run L GetDistanceFrom cfg (Extended.initial L) tr = Ok w ->
      Tally.pending_accounted (Extended.sendTimes (Extended.g_stats w))
        (Extended.delaysSamples (Extended.g_stats w)) (Extended.scheduled w)
        (Obs.count Obs.ext_is_indication tr))
  /\ (forall (L : RandomLib) (GetDistanceFrom : N -> N -> R) (rd : N)
             (tr : list Ver3.Event) (w : Ver3.World L),
         Ver3.run L GetDistanceFrom (Ver3.initial L rd) tr = Ok w ->
         Tally.pending_accounted (Ver3.packetSendTimes (Ver3.g_stats w))
           (Ver3.delays (Ver3.g_stats w)) (Ver3.scheduled w)
           (Obs.count Obs.v3_is_indication tr)).
Proof.
  split.
  - intros L dist cfg.
    apply (ext_run_invariant L dist cfg
             (fun tr w =>
                Tally.pending_accounted (Extended.sendTimes (Extended.g_stats w))
                  (Extended.delaysSamples (Extended.g_stats w)) (Extended.scheduled w)
                  (Obs.count Obs.ext_is_indication tr))).
    + repeat split;
        [intros uid t H; exfalso; exact (lookup_empty_Some (M := gmap N) uid t H) | |];
        vm_compute; lia.
    + intros tr w e w' IH Hstep. rewrite count_snoc.
      destruct (ext_step_pending L dist cfg w w' e Hstep)
        as [(s & c & now & uid & a & p & size & -> & Hm & Hd & Hq)
           | [(s & now & uid & size & t0 & -> & Hlook & Hm & Hd & Hq)
             | (Hm & Hd & Hh & Hu)]].
      * rewrite Hm, Hd, Hq. apply pending_registered with (n := Obs.count Obs.ext_is_indication tr);
          [exact IH | lia].
      * rewrite Hm, Hd, Hq.
        apply pending_completed with (n := Obs.count Obs.ext_is_indication tr) (t0 := t0);
          [exact IH | exact Hlook | cbn; lia].
      * rewrite Hm, Hd.
        apply pending_untouched with (q := Extended.scheduled w)
                                     (n := Obs.count Obs.ext_is_indication tr);
          [exact IH | exact Hh | exact Hu | lia].
  - intros L dist rd.
    apply (v3_run_invariant L dist
             (fun tr w =>
                Tally.pending_accounted (Ver3.packetSendTimes (Ver3.g_stats w))
                  (Ver3.delays (Ver3.g_stats w)) (Ver3.scheduled w)
                  (Obs.count Obs.v3_is_indication tr))).
    + repeat split;
        [intros uid t H; exfalso; exact (lookup_empty_Some (M := gmap N) uid t H) | |];
        vm_compute; lia.
    + intros tr w e w' IH Hstep. rewrite count_snoc.
      destruct (v3_step_pending L dist w w' e Hstep)
        as [(now & uid & node & p & size & _ & Hm & Hd & Hq)
           | [(s & params & now & uid & size & t0 & -> & Hlook & Hm & Hd & Hq)
             | (Hm & Hd & Hh & Hu)]].
      * rewrite Hm, Hd, Hq. apply pending_registered with (n := Obs.count Obs.v3_is_indication tr);
          [exact IH | lia].
      * rewrite Hm, Hd, Hq.
        apply pending_completed with (n := Obs.count Obs.v3_is_indication tr) (t0 := t0);
          [exact IH | exact Hlook | cbn; lia].
      * rewrite Hm, Hd.
        apply pending_untouched with (q := Ver3.scheduled w)
                                     (n := Obs.count Obs.v3_is_indication tr);
          [exact IH | exact Hh | exact Hu | lia].
Qed.

Lemma pending_deliveries_are_handed_off_requests_witness :
  (exists w : Extended.World (Fixtures.replay []),
      Extended.run (Fixtures.replay []) Fixtures.one_metre Fixtures.quiet_channel
        (Extended.initial (Fixtures.replay [])) Fixtures.ext_evening = Ok w
      /\ (length (Extended.delaysSamples (Extended.g_stats w)) <= 1)%nat)
  /\ (exists w : Ver3.World (Fixtures.replay Fixtures.unit_fade),
         Ver3.run (Fixtures.replay Fixtures.unit_fade) Fixtures.one_metre
           (Ver3.initial (Fixtures.replay Fixtures.unit_fade) 0) Fixtures.v3_evening = Ok w
         /\ (length (Ver3.delays (Ver3.g_stats w)) <= 3)%nat).
Proof.
  destruct pending_deliveries_are_handed_off_requests as [Hext Hv3].
  split.
  - eexists. split; [reflexivity |].
    exact (proj2 (proj2 (Hext (Fixtures.replay []) Fixtures.one_metre Fixtures.quiet_channel
                           Fixtures.ext_evening _ eq_refl))).
  - eexists. split; [reflexivity |].
    exact (proj2 (proj2 (Hv3 (Fixtures.replay Fixtures.unit_fade) Fixtures.one_metre 0%N
                           Fixtures.v3_evening _ eq_refl))).
Defined.

Section PendingFrames.

Variable L : RandomLib.
Variable GetDistanceFrom : N -> N -> R.

Lemma ext_pending_frame (cfg : Extended.ChannelConfig) (uid : N) (tr : list Extended.Event) :
  forall w w' : Extended.World L,
    Extended.run L GetDistanceFrom cfg w tr = Ok w' ->
    Forall (fun e => Tally.ext_touches uid e = false) tr ->
    Extended.sendTimes (Extended.g_stats w') !! uid
    = Extended.sendTimes (Extended.g_stats w) !! uid.
Proof.
  induction tr as [| e tr IH]; intros w w' Hrun Hfree.
  - injection Hrun as <-. reflexivity.
  - cbn [Extended.run] in Hrun.
    destruct (Extended.step L GetDistanceFrom cfg w e) as [w1 |] eqn:Hstep; [| discriminate].
    inversion Hfree as [| e0 tr0 He Htr]; subst.
    rewrite (IH w1 w' Hrun Htr).
    destruct (ext_step_pending L GetDistanceFrom cfg w w1 e Hstep)
      as [(s & c & now & u & a & p & size & -> & Hm & _)
         | [(s & now & u & size & t0 & -> & _ & Hm & _) | (Hm & _)]];
      rewrite Hm; [| | reflexivity]; cbn in He; apply N.eqb_neq in He.
    + apply lookup_insert_ne, He.
    + apply lookup_delete_ne, He.
Qed.

Lemma v3_pending_frame (uid : N) (tr : list Ver3.Event) :
  forall w w' : Ver3.World L,
    Ver3.run L GetDistanceFrom w tr = Ok w' ->
    Forall (fun e => Tally.v3_touches uid e = false) tr ->
    Ver3.packetSendTimes (Ver3.g_stats w') !! uid
    = Ver3.packetSendTimes (Ver3.g_stats w) !! uid.
Proof.
  induction tr as [| e tr IH]; intros w w' Hrun Hfree.
  - injection Hrun as <-. reflexivity.
  - cbn [Ver3.run] in Hrun.
    destruct (Ver3.step L GetDistanceFrom w e) as [w1 |] eqn:Hstep; [| discriminate].
    inversion Hfree as [| e0 tr0 He Htr]; subst.
    rewrite (IH w1 w' Hrun Htr).
    destruct (v3_step_pending L GetDistanceFrom w w1 e Hstep)
      as [(now & u & node & p & size & (_ & _ & Htouch) & Hm & _)
         | [(s & params & now & u & size & t0 & -> & _ & Hm & _) | (Hm & _)]];
      rewrite Hm; [| | reflexivity].
    + rewrite Htouch in He. apply N.eqb_neq in He. apply lookup_insert_ne, He.
    + cbn in He. apply N.eqb_neq in He. apply lookup_delete_ne, He.
Qed.

Lemma elapsed_nonneg (t0 now : Z) : (t0 <= now)%Z -> (0 <= IZR (GetMilliSeconds (now - t0)))%R.
Proof.
  intros H. apply IZR_le. unfold GetMilliSeconds. apply Z.quot_pos; lia.
Qed.

Lemma ext_delays_nonneg (cfg : Extended.ChannelConfig) (tr : list Extended.Event) :
  forall (w w' : Extended.World L) (t : Z),
    Extended.run L GetDistanceFrom cfg w tr = Ok w' ->
    Tally.chronological Tally.ext_event_time t tr ->
    map_Forall (fun _ t0 => (t0 <= t)%Z) (Extended.sendTimes (Extended.g_stats w)) ->
    Forall (fun d => (0 <= d)%R) (Extended.delaysSamples (Extended.g_stats w)) ->
    Forall (fun d => (0 <= d)%R) (Extended.delaysSamples (Extended.g_stats w')).
Proof.
  induction tr as [| e tr IH]; intros w w' t Hrun Hclock Hmap Hd.
  - injection Hrun as <-. exact Hd.
  - cbn [Extended.run] in Hrun.
    destruct (Extended.step L GetDistanceFrom cfg w e) as [w1 |] eqn:Hstep; [| discriminate].
    cbn [Tally.chronological] in Hclock.
    destruct (ext_step_pending L GetDistanceFrom cfg w w1 e Hstep)
      as [(s & c & now & u & a & p & size & -> & Hm & Hd1 & _)
         | [(s & now & u & size & t0 & -> & Hlook & Hm & Hd1 & _) | (Hm & Hd1 & _)]].
    + cbn in Hclock. destruct Hclock as [Hle Hclock].
      apply (IH w1 w' now Hrun Hclock).
      * rewrite Hm. apply map_Forall_insert_2; [lia |].
        intros k t0 Hk. specialize (Hmap k t0 Hk). cbn in Hmap. lia.
      * rewrite Hd1. exact Hd.
    + cbn in Hclock. destruct Hclock as [Hle Hclock].
      apply (IH w1 w' now Hrun Hclock).
      * rewrite Hm. apply map_Forall_delete.
        intros k t1 Hk. specialize (Hmap k t1 Hk). cbn in Hmap. lia.
      * rewrite Hd1. apply Forall_app. split; [exact Hd |].
        constructor; [| constructor]. apply elapsed_nonneg.
        specialize (Hmap u t0 Hlook). cbn in Hmap. lia.
    + destruct (Tally.ext_event_time e) as [now |].
      * destruct Hclock as [Hle Hclock]. apply (IH w1 w' now Hrun Hclock).
        -- rewrite Hm. intros k t1 Hk. specialize (Hmap k t1 Hk). cbn in Hmap. lia.
        -- rewrite Hd1. exact Hd.
      * apply (IH w1 w' t Hrun Hclock); [rewrite Hm; exact Hmap | rewrite Hd1; exact Hd].
Qed.

Lemma v3_delays_nonneg (tr : list Ver3.Event) :
  forall (w w' : Ver3.World L) (t : Z),
    Ver3.run L GetDistanceFrom w tr = Ok w' ->
    Tally.chronological Tally.v3_event_time t tr ->
    map_Forall (fun _ t0 => (t0 <= t)%Z) (Ver3.packetSendTimes (Ver3.g_stats w)) ->
    Forall (fun d => (0 <= d)%R) (Ver3.delays (Ver3.g_stats w)) ->
    Forall (fun d => (0 <= d)%R) (Ver3.delays (Ver3.g_stats w')).
Proof.
  induction tr as [| e tr IH]; intros w w' t Hrun Hclock Hmap Hd.
  - injection Hrun as <-. exact Hd.
  - cbn [Ver3.run] in Hrun.
    destruct (Ver3.step L GetDistanceFrom w e) as [w1 |] eqn:Hstep; [| discriminate].
    cbn [Tally.chronological] in Hclock.
    destruct (v3_step_pending L GetDistanceFrom w w1 e Hstep)
      as [(now & u & node & p & size & (Htime & _ & _) & Hm & Hd1 & _)
         | [(s & params & now & u & size & t0 & -> & Hlook & Hm & Hd1 & _) | (Hm & Hd1 & _)]].
    + rewrite Htime in Hclock. destruct Hclock as [Hle Hclock].
      apply (IH w1 w' now Hrun Hclock).
      * rewrite Hm. apply map_Forall_insert_2; [lia |].
        intros k t0 Hk. specialize (Hmap k t0 Hk). cbn in Hmap. lia.
      * rewrite Hd1. exact Hd.
    + cbn in Hclock. destruct Hclock as [Hle Hclock].
      apply (IH w1 w' now Hrun Hclock).
      * rewrite Hm. apply map_Forall_delete.
        intros k t1 Hk. specialize (Hmap k t1 Hk). cbn in Hmap. lia.
      * rewrite Hd1. apply Forall_app. split; [exact Hd |].
        constructor; [| constructor]. apply elapsed_nonneg.
        specialize (Hmap u t0 Hlook). cbn in Hmap. lia.
    + destruct (Tally.v3_event_time e) as [now |].
      * destruct Hclock as [Hle Hclock]. apply (IH w1 w' now Hrun Hclock).
        -- rewrite Hm. intros k t1 Hk. specialize (Hmap k t1 Hk). cbn in Hmap. lia.
        -- rewrite Hd1. exact Hd.
      * apply (IH w1 w' t Hrun Hclock); [rewrite Hm; exact Hmap | rewrite Hd1; exact Hd].
Qed.

End PendingFrames.

(** X15.  Who touches a pending entry, in both variants.  Over any run
    from any state, the entry of a uid in the map of send times is the
    same at the end as at the start unless the run contains a send or a
    data indication with that uid.  No other callback writes or erases it:
    in particular the data confirm that reports a failed transmission
    does not erase the entry of the packet, which then stays in the map. *)
Theorem pending_entry_changes_only_with_its_uid :
  (forall (L : RandomLib) (GetDistanceFrom : N -> N -> R) (cfg : Extended.ChannelConfig)
          (uid : N) (tr : list Extended.Event) (w w' : Extended.World L),
      Extended.run L GetDistanceFrom cfg w tr = Ok w' ->
      Forall (fun e => Tally.ext_touches uid e = false) tr ->
      Extended.sendTimes (Extended.g_stats w') !! uid
      = Extended.sendTimes (Extended.g_stats w) !! uid)
  /\ (forall (L : RandomLib) (GetDistanceFrom : N -> N -> R) (uid : N)
             (tr : list Ver3.Event) (w w' : Ver3.World L),
         Ver3.run L GetDistanceFrom w tr = Ok w' ->
         Forall (fun e => Tally.v3_touches uid e = false) tr ->
         Ver3.packetSendTimes (Ver3.g_stats w') !! uid
         = Ver3.packetSendTimes (Ver3.g_stats w) !! uid).
Proof.
  split.
  - intros L dist cfg uid tr w w'. apply ext_pending_frame.
  - intros L dist uid tr w w'. apply v3_pending_frame.
Qed.

Lemma pending_entry_changes_only_with_its_uid_witness :
  exists w : Ver3.World (Fixtures.replay []),
    Ver3.run (Fixtures.replay []) Fixtures.one_metre
      (Ver3.SendGroupCommand (Fixtures.replay []) 0 Ver3.GROUP_ALL_LIGHTS 0 43000000000 9
         (Ver3.initial (Fixtures.replay []) 0))
      [Ver3.EvApsDataConfirm 0 (Ver3.APS_ERROR 1);
       Ver3.EvSendGroupCommand 0 Ver3.GROUP_ALL_LIGHTS 1 58000000000 10;
       Ver3.EvApsDataIndication 4 Fixtures.group_indication 58004000000 10 1] = Ok w
    /\ Ver3.packetSendTimes (Ver3.g_stats w) !! 9%N = Some 43000000000%Z.
Proof.
  eexists. split; [reflexivity |].
  rewrite (proj2 pending_entry_changes_only_with_its_uid (Fixtures.replay [])
             Fixtures.one_metre 9%N
             [Ver3.EvApsDataConfirm 0 (Ver3.APS_ERROR 1);
              Ver3.EvSendGroupCommand 0 Ver3.GROUP_ALL_LIGHTS 1 58000000000 10;
              Ver3.EvApsDataIndication 4 Fixtures.group_indication 58004000000 10 1]
             (Ver3.SendGroupCommand (Fixtures.replay []) 0 Ver3.GROUP_ALL_LIGHTS 0
                43000000000 9 (Ver3.initial (Fixtures.replay []) 0))
             _ eq_refl).
  - apply lookup_insert_eq.
  - repeat constructor.
Defined.

(** X16.  Delay samples under a clock that does not go back, in both
    variants.  In a run from the initial state in which the times read by
    the successive callbacks never decrease (as [Simulator::Now()] does
    not), every delay sample is at least 0: an indication is never stamped
    before the send that registered its packet. *)
Theorem delay_samples_are_not_negative :
  (forall (L : RandomLib) (GetDistanceFrom : N -> N -> R) (cfg : Extended.ChannelConfig)
          (tr : list Extended.Event) (w : Extended.World L),
      Extended.run L GetDistanceFrom cfg (Extended.initial L) tr = Ok w ->
      Tally.chronological Tally.ext_event_time 0 tr ->
      Forall (fun d => (0 <= d)%R) (Extended.delaysSamples (Extended.g_stats w)))
  /\ (forall (L : RandomLib) (GetDistanceFrom : N -> N -> R) (rd : N)
             (tr : list Ver3.Event) (w : Ver3.World L),
         Ver3.run L GetDistanceFrom (Ver3.initial L rd) tr = Ok w ->
         Tally.chronological Tally.v3_event_time 0 tr ->
         Forall (fun d => (0 <= d)%R) (Ver3.delays (Ver3.g_stats w))).
Proof.
  split.
  - intros L dist cfg tr w Hrun Hclock.
    apply (ext_delays_nonneg L dist cfg tr (Extended.initial L) w 0%Z Hrun Hclock).
    + apply map_Forall_empty.
    + constructor.
  - intros L dist rd tr w Hrun Hclock.
    apply (v3_delays_nonneg L dist tr (Ver3.initial L rd) w 0%Z Hrun Hclock).
    + apply map_Forall_empty.
    + constructor.
Qed.

Lemma delay_samples_are_not_negative_witness :
  (exists w : Extended.World (Fixtures.replay []),
      Extended.run (Fixtures.replay []) Fixtures.one_metre Fixtures.quiet_channel
        (Extended.initial (Fixtures.replay [])) Fixtures.ext_evening = Ok w
      /\ Forall (fun d => (0 <= d)%R) (Extended.delaysSamples (Extended.g_stats w)))
  /\ (exists w : Ver3.World (Fixtures.replay Fixtures.unit_fade),
         Ver3.run (Fixtures.replay Fixtures.unit_fade) Fixtures.one_metre
           (Ver3.initial (Fixtures.replay Fixtures.unit_fade) 0) Fixtures.v3_evening = Ok w
         /\ Forall (fun d => (0 <= d)%R) (Ver3.delays (Ver3.g_stats w))).
Proof.
  destruct delay_samples_are_not_negative as [Hext Hv3].
  split.
  - eexists. split; [reflexivity |].
    apply (Hext (Fixtures.replay []) Fixtures.one_metre Fixtures.quiet_channel
             Fixtures.ext_evening _ eq_refl).
    cbn. lia.
  - eexists. split; [reflexivity |].
    apply (Hv3 (Fixtures.replay Fixtures.unit_fade) Fixtures.one_metre 0%N
             Fixtures.v3_evening _ eq_refl).
    cbn. lia.
Defined.

(** ** The channel switches of the extended variant *)

Section ChannelSteps.

Variable L : RandomLib.
Variable GetDistanceFrom : N -> N -> R.

Local Open Scope R_scope.

(** What one callback of the extended variant does to the channel
    statistics: a send records the sample it draws and counts its outcome;
    nothing else touches them. *)
Lemma ext_step_channel (cfg : Extended.ChannelConfig) (w w' : Extended.World L)
    (e : Extended.Event) :
  Extended.step L GetDistanceFrom cfg w e = Ok w' ->
  let st := Extended.g_stats w in
  let st' := Extended.g_stats w' in
  (exists s c now uid a,
      e = Extended.EvSendSensorData s c now uid a
      /\ let smp := fst (Obs.ext_evaluate L cfg (GetDistanceFrom s c) (Extended.g_rng w)) in
         Extended.distanceSamples st' = Extended.distanceSamples st ++ [Obs.cs_distance smp]
         /\ Extended.snrSamples st' = Extended.snrSamples st ++ [Obs.cs_snr smp]
         /\ Extended.rxPowerSamples st' = Extended.rxPowerSamples st ++ [Obs.cs_rxPower smp]
         /\ Extended.fadingSamples st' = Extended.fadingSamples st ++ [Obs.cs_fading smp]
         /\ Obs.ext_drop_counters st'
            = (let '(noise, fading, sens) := Obs.ext_drop_counters st in
               match Obs.cs_outcome smp with
               | Obs.Delivered => (noise, fading, sens)
               | Obs.DroppedBySensitivity => (noise, fading, Cpp.incr sens)
               | Obs.DroppedByFading => (noise, Cpp.incr fading, sens)
               | Obs.DroppedByNoise => (Cpp.incr noise, fading, sens)
               end))
  \/ (Extended.distanceSamples st' = Extended.distanceSamples st
      /\ Extended.snrSamples st' = Extended.snrSamples st
      /\ Extended.rxPowerSamples st' = Extended.rxPowerSamples st
      /\ Extended.fadingSamples st' = Extended.fadingSamples st
      /\ Obs.ext_drop_counters st' = Obs.ext_drop_counters st).
Proof.
  intros Hstep. cbv zeta.
  destruct e.
  1: { left. exists sensor, coordinator, now, uid, coordinatorAddr.
       split; [reflexivity |].
       cbn [Extended.step] in Hstep. injection Hstep as <-.
       rewrite ext_send_explicit. cbv zeta.
       set (smp := fst (Obs.ext_evaluate L cfg (GetDistanceFrom sensor coordinator)
                          (Extended.g_rng w))).
       set (st1 := if Z.eqb _ _ then _ else _).
       destruct (ext_record_samples smp st1) as (Hd & Hs & Hr & Hf).
       pose proof (ext_record_drops smp st1) as Hc.
       assert (H1 : Extended.distanceSamples st1 = Extended.distanceSamples (Extended.g_stats w)
                    /\ Extended.snrSamples st1 = Extended.snrSamples (Extended.g_stats w)
                    /\ Extended.rxPowerSamples st1 = Extended.rxPowerSamples (Extended.g_stats w)
                    /\ Extended.fadingSamples st1 = Extended.fadingSamples (Extended.g_stats w)
                    /\ Obs.ext_drop_counters st1 = Obs.ext_drop_counters (Extended.g_stats w)).
       { subst st1. destruct (Z.eqb _ _); repeat split. }
       destruct H1 as (Ed & Es & Er & Ef & Ec).
       rewrite Ed in Hd. rewrite Es in Hs. rewrite Er in Hr. rewrite Ef in Hf.
       rewrite Ec in Hc. clearbody st1 smp.
       destruct (Obs.delivered (Obs.cs_outcome smp));
         cbn [Extended.g_stats]; unfold Extended.beginPendingDelivery;
         repeat split; assumption. }
  all: right; cbn [Extended.step] in Hstep;
    try (unfold Extended.OnNetworkDiscovery in Hstep;
         destruct (is_success _ && _);
         [destruct (Cpp.at_index _ 0); [| discriminate Hstep] |]);
    injection Hstep as <-;
    unfold Extended.OnDataReceived, Extended.OnDataConfirm, Extended.OnJoinConfirm,
      Extended.OnNetworkFormation, Extended.OnRouteDiscovery;
    try match goal with
        | |- context [match ?s with Extended.APS_SUCCESS => _ | Extended.APS_ERROR _ => _ end] =>
            destruct s
        end;
    try match goal with |- context [is_success ?s] => destruct (is_success s) end;
    ext_fields; repeat split.
Qed.

(** With noise switched off on the command line the noise power is -200
    dBm, so a packet above the sensitivity floor has an SNR of at least
    103 dB. *)
Lemma ext_sample_without_noise (cl : Extended.CommandLine) (d : R) (g : engine L) :
  Extended.cl_noise cl = false ->
  let smp := fst (Obs.ext_evaluate L (Extended.apply_configuration cl) d g) in
  Obs.cs_snr smp = Obs.cs_rxPower smp + 200
  /\ (Obs.cs_outcome smp = Obs.Delivered \/ Obs.cs_outcome smp = Obs.DroppedBySensitivity)
  /\ (Obs.cs_outcome smp = Obs.Delivered <-> -97 <= Obs.cs_rxPower smp).
Proof.
  intros Hn. cbv zeta.
  unfold Obs.ext_evaluate. cbn [fst Obs.cs_snr Obs.cs_rxPower Obs.cs_outcome].
  unfold Extended.GenerateNoisePower.
  replace (Extended.enableNoise (Extended.apply_configuration cl)) with false
    by (symmetry; exact Hn).
  cbn [negb fst].
  set (rx := Extended.txPowerDbm (Extended.apply_configuration cl) - _ + _).
  change (Extended.sensitivityDbm (Extended.apply_configuration cl)) with (-97).
  change (Extended.snrThresholdDb (Extended.apply_configuration cl)) with 3.
  split; [ring |].
  unfold Obs.decide_outcome.
  destruct (Rlt_dec rx (-97)) as [Hlt | Hge].
  - rewrite (ltb_true _ _ Hlt). split; [right; reflexivity |].
    split; [discriminate | lra].
  - rewrite (ltb_false rx (-97)) by lra.
    rewrite (ltb_false (rx - -200) 3) by lra.
    split; [left; reflexivity |]. split; [lra | reflexivity].
Qed.

Lemma ext_sample_without_fading (cfg : Extended.ChannelConfig) (d : R) (g : engine L) :
  Extended.enableFading cfg = false ->
  let smp := fst (Obs.ext_evaluate L cfg d g) in
  Obs.cs_fading smp = 1
  /\ Obs.cs_distance smp = d
  /\ Obs.cs_rxPower smp = Extended.txPowerDbm cfg - Extended.CalculatePathLoss cfg d
  /\ Obs.cs_outcome smp <> Obs.DroppedByFading.
Proof.
  intros Hf. cbv zeta.
  split; [| split; [reflexivity | split; [apply ext_rx_without_fading, Hf |]]].
  - cbn [Obs.ext_evaluate fst Obs.cs_fading].
    destruct (ext_fading_disabled L cfg g Hf) as [-> _]. reflexivity.
  - cbn [Obs.ext_evaluate fst Obs.cs_outcome]. unfold Obs.decide_outcome.
    rewrite Hf, andb_false_r.
    repeat match goal with
           | |- context [Cpp.ltb ?a ?b] => destruct (Cpp.ltb a b)
           end; discriminate.
Qed.

End ChannelSteps.

(** X17.  Extended variant with noise switched off.  For any command line
    with [--noise=false], after any run from the initial state the noise
    and fading drop counters are 0 and every recorded SNR is the recorded
    received power plus 200 dB: the noise power is then -200 dBm, so a
    packet that passes the sensitivity floor of -97 dBm has an SNR of at
    least 103 dB and passes the threshold of 3 dB.  The only channel drops
    left are sensitivity drops. *)
Theorem ext_without_noise_only_sensitivity_drops (L : RandomLib)
    (GetDistanceFrom : N -> N -> R) (cl : Extended.CommandLine)
    (tr : list Extended.Event) (w : Extended.World L) :
  Extended.cl_noise cl = false ->
  Extended.run L GetDistanceFrom (Extended.apply_configuration cl) (Extended.initial L) tr
  = Ok w ->
  Extended.droppedByNoise (Extended.g_stats w) = 0%N
  /\ Extended.droppedByFading (Extended.g_stats w) = 0%N
  /\ Extended.snrSamples (Extended.g_stats w)
     = map (fun rx => (rx + 200)%R) (Extended.rxPowerSamples (Extended.g_stats w)).
Proof.
  intros Hn. revert tr w.
  apply (ext_run_invariant L GetDistanceFrom (Extended.apply_configuration cl)
           (fun _ w =>
              Extended.droppedByNoise (Extended.g_stats w) = 0%N
              /\ Extended.droppedByFading (Extended.g_stats w) = 0%N
              /\ Extended.snrSamples (Extended.g_stats w)
                 = map (fun rx => (rx + 200)%R) (Extended.rxPowerSamples (Extended.g_stats w)))).
  - repeat split.
  - intros _ w e w' (IHn & IHf & IHs) Hstep.
    destruct (ext_step_channel L GetDistanceFrom _ w w' e Hstep)
      as [(s & c & now & uid & a & -> & Hsmp) | (_ & Hs & Hr & _ & Hc)].
    + cbv zeta in Hsmp. destruct Hsmp as (_ & Hs & Hr & _ & Hc).
      destruct (ext_sample_without_noise L cl (GetDistanceFrom s c) (Extended.g_rng w) Hn)
        as (Hsnr & Hout & _).
      cbv zeta in Hsnr, Hout.
      unfold Obs.ext_drop_counters in Hc. rewrite IHn, IHf in Hc.
      rewrite Hs, Hr, map_app, IHs, Hsnr. cbn [map].
      destruct Hout as [Ho | Ho]; rewrite Ho in Hc; injection Hc as -> -> _;
        repeat split.
    + unfold Obs.ext_drop_counters in Hc. injection Hc as -> -> _.
      rewrite Hs, Hr. repeat split; assumption.
Qed.

Lemma ext_without_noise_only_sensitivity_drops_witness :
  exists w : Extended.World (Fixtures.replay []),
    Extended.run (Fixtures.replay []) Fixtures.far_apart Fixtures.quiet_channel
      (Extended.initial (Fixtures.replay [])) Fixtures.ext_evening = Ok w
    /\ Extended.droppedByNoise (Extended.g_stats w) = 0%N
    /\ Extended.droppedByFading (Extended.g_stats w) = 0%N.
Proof.
  eexists. split; [reflexivity |].
  destruct (ext_without_noise_only_sensitivity_drops (Fixtures.replay []) Fixtures.far_apart
              Fixtures.quiet_command_line Fixtures.ext_evening _ eq_refl eq_refl)
    as (Hn & Hf & _).
  split; assumption.
Defined.

(** X18.  Extended variant with fading switched off.  For any
    configuration whose fading switch is off, after any run from the
    initial state every recorded fading coefficient is 1, the fading drop
    counter is 0, and the recorded received powers are the transmit power
    minus the path loss at the recorded distances, sample by sample. *)
Theorem ext_without_fading_power_follows_distance (L : RandomLib)
    (GetDistanceFrom : N -> N -> R) (cfg : Extended.ChannelConfig)
    (tr : list Extended.Event) (w : Extended.World L) :
  Extended.enableFading cfg = false ->
  Extended.run L GetDistanceFrom cfg (Extended.initial L) tr = Ok w ->
  Forall (fun f => f = 1%R) (Extended.fadingSamples (Extended.g_stats w))
  /\ Extended.droppedByFading (Extended.g_stats w) = 0%N
  /\ Extended.rxPowerSamples (Extended.g_stats w)
     = map (fun d => (Extended.txPowerDbm cfg - Extended.CalculatePathLoss cfg d)%R)
         (Extended.distanceSamples (Extended.g_stats w)).
Proof.
  intros Hoff. revert tr w.
  apply (ext_run_invariant L GetDistanceFrom cfg
           (fun _ w =>
              Forall (fun f => f = 1%R) (Extended.fadingSamples (Extended.g_stats w))
              /\ Extended.droppedByFading (Extended.g_stats w) = 0%N
              /\ Extended.rxPowerSamples (Extended.g_stats w)
                 = map (fun d => (Extended.txPowerDbm cfg - Extended.CalculatePathLoss cfg d)%R)
                     (Extended.distanceSamples (Extended.g_stats w)))).
  - repeat split. constructor.
  - intros _ w e w' (IHa & IHf & IHr) Hstep.
    destruct (ext_step_channel L GetDistanceFrom _ w w' e Hstep)
      as [(s & c & now & uid & a & -> & Hsmp) | (Hd & _ & Hr & Hf & Hc)].
    + cbv zeta in Hsmp. destruct Hsmp as (Hd & _ & Hr & Hf & Hc).
      destruct (ext_sample_without_fading L cfg (GetDistanceFrom s c) (Extended.g_rng w) Hoff)
        as (Hone & Hdist & Hrx & Hout).
      cbv zeta in Hone, Hdist, Hrx, Hout.
      unfold Obs.ext_drop_counters in Hc. rewrite IHf in Hc.
      rewrite Hf, Hr, Hd, map_app, IHr, Hrx, Hdist, Hone. cbn [map].
      split; [apply Forall_app; split; [exact IHa | repeat constructor] |].
      split; [| reflexivity].
      destruct (Obs.cs_outcome _); try contradiction; injection Hc as _ -> _; reflexivity.
    + unfold Obs.ext_drop_counters in Hc. injection Hc as _ -> _.
      rewrite Hf, Hr, Hd. repeat split; assumption.
Qed.

Lemma ext_without_fading_power_follows_distance_witness :
  exists w : Extended.World (Fixtures.replay []),
    Extended.run (Fixtures.replay []) Fixtures.one_metre Fixtures.quiet_channel
      (Extended.initial (Fixtures.replay [])) Fixtures.ext_evening = Ok w
    /\ Extended.droppedByFading (Extended.g_stats w) = 0%N.
Proof.
  eexists. split; [reflexivity |].
  apply (ext_without_fading_power_follows_distance (Fixtures.replay []) Fixtures.one_metre
           Fixtures.quiet_channel Fixtures.ext_evening _ eq_refl eq_refl).
Defined.

(** ** The verdict of the channel *)

Section Verdicts.

Variable L : RandomLib.
Variable GetDistanceFrom : N -> N -> R.

Local Open Scope R_scope.

Lemma ltb_ge_false (a b : R) : Cpp.ltb a b = false <-> b <= a.
Proof.
  unfold Cpp.ltb. destruct (Rlt_dec a b); split; intros H;
    try reflexivity; try lra; discriminate H.
Qed.

Lemma ext_verdict_thresholds (cfg : Extended.ChannelConfig) (src dst size : N)
    (w : Extended.World L) :
  let r := Extended.SimulateChannel L GetDistanceFrom cfg src dst size w in
  let st' := Extended.g_stats (snd r) in
  fst r = true
  <-> Extended.sensitivityDbm cfg <= Obs.latest (Extended.rxPowerSamples st')
      /\ Extended.snrThresholdDb cfg <= Obs.latest (Extended.snrSamples st').
Proof.
  cbv zeta. rewrite ext_SimulateChannel_evaluate. cbv zeta. cbn [fst snd Extended.g_stats].
  set (sg := Obs.ext_evaluate L cfg (GetDistanceFrom src dst) (Extended.g_rng w)).
  destruct (ext_record_samples (fst sg) (Extended.g_stats w)) as (_ & Hs & Hr & _).
  rewrite Hs, Hr. unfold Obs.latest. rewrite !last_last.
  subst sg. cbn [Obs.ext_evaluate fst Obs.cs_outcome Obs.cs_rxPower Obs.cs_snr].
  unfold Obs.decide_outcome.
  set (rx := Extended.txPowerDbm cfg - _ + _).
  set (snr := rx - _).
  destruct (Cpp.ltb rx (Extended.sensitivityDbm cfg)) eqn:Hsens.
  - apply ltb_spec in Hsens. split; [discriminate | lra].
  - apply ltb_ge_false in Hsens.
    destruct (Cpp.ltb snr (Extended.snrThresholdDb cfg)) eqn:Hthr.
    + apply ltb_spec in Hthr.
      destruct (Cpp.ltb _ 0.5 && Extended.enableFading cfg); (split; [discriminate | lra]).
    + apply ltb_ge_false in Hthr. split; [intros _; split; assumption | reflexivity].
Qed.

Lemma v3_verdict_threshold (src dst : N) (w : Ver3.World L) :
  let r := Ver3.SimulateChannelEffects L GetDistanceFrom src dst w in
  let st := Ver3.g_stats w in
  let st' := Ver3.g_stats (snd r) in
  (fst r = true <-> Ver3.SNR_THRESHOLD_DB <= Obs.latest (Ver3.snrValues st'))
  /\ (fst r = true -> Obs.v3_drop_counters st' = Obs.v3_drop_counters st)
  /\ (fst r = false ->
      Obs.v3_drop_counters st'
      = if Cpp.ltb (Obs.latest (Ver3.fadingCoefficients st')) 0.5
        then (Ver3.packetsDroppedByNoise st, Cpp.incr (Ver3.packetsDroppedByFading st))
        else (Cpp.incr (Ver3.packetsDroppedByNoise st), Ver3.packetsDroppedByFading st)).
Proof.
  cbv zeta. rewrite v3_SimulateChannelEffects_evaluate. cbv zeta. cbn [fst snd Ver3.g_stats].
  set (sg := Obs.v3_evaluate L (GetDistanceFrom src dst) (Ver3.gen w)).
  destruct (v3_record_samples (fst sg) (Ver3.g_stats w)) as (Hs & Hf).
  pose proof (v3_record_drops (fst sg) (Ver3.g_stats w)) as Hc.
  rewrite Hs, Hf, Hc. unfold Obs.latest. rewrite !last_last.
  subst sg. cbn [Obs.v3_evaluate fst Obs.cs_outcome Obs.cs_snr Obs.cs_fading].
  unfold Obs.v3_decide_outcome, Obs.v3_drop_counters.
  set (fading := fst (Ver3.GenerateRayleighFading L (Ver3.gen w))).
  set (snr := Ver3.TX_POWER_DBM - _ + _ - _).
  destruct (Cpp.ltb snr Ver3.SNR_THRESHOLD_DB) eqn:Hthr.
  - apply ltb_spec in Hthr.
    destruct (Cpp.ltb fading 0.5); cbn [Obs.delivered];
      (split; [split; [discriminate | lra] | split; [discriminate | reflexivity]]).
  - apply ltb_ge_false in Hthr. cbn [Obs.delivered].
    split; [split; [intros _; exact Hthr | reflexivity] |].
    split; [reflexivity | discriminate].
Qed.

Lemma ext_quiet_verdict (cl : Extended.CommandLine) (src dst size : N)
    (w : Extended.World L) :
  Extended.cl_noise cl = false ->
  Extended.cl_fading cl = false ->
  fst (Extended.SimulateChannel L GetDistanceFrom (Extended.apply_configuration cl)
         src dst size w) = true
  <-> Extended.CalculatePathLoss (Extended.apply_configuration cl) (GetDistanceFrom src dst)
      <= 101.
Proof.
  intros Hn Hf. rewrite ext_SimulateChannel_evaluate. cbv zeta. cbn [fst].
  destruct (ext_sample_without_noise L cl (GetDistanceFrom src dst) (Extended.g_rng w) Hn)
    as (_ & Hout & Hiff).
  pose proof (ext_rx_without_fading L (Extended.apply_configuration cl)
                (GetDistanceFrom src dst) (Extended.g_rng w) Hf) as Hrx.
  cbv zeta in Hout, Hiff. rewrite Hrx in Hiff.
  change (Extended.txPowerDbm (Extended.apply_configuration cl)) with 4 in Hiff.
  split.
  - intros Hd. destruct Hout as [Ho | Ho]; rewrite Ho in Hd; [| discriminate Hd].
    apply Hiff in Ho. lra.
  - intros Hpl. assert (Ho : -97 <= 4 - Extended.CalculatePathLoss
                                        (Extended.apply_configuration cl)
                                        (GetDistanceFrom src dst)) by lra.
    apply Hiff in Ho. rewrite Ho. reflexivity.
Qed.

End Verdicts.

(** X19.  The verdict of one channel evaluation against the samples it
    records.  Extended variant: SimulateChannel returns true exactly when
    the received power it has just recorded is at least the sensitivity
    and the SNR it has just recorded is at least the SNR threshold.  Ver3:
    SimulateChannelEffects returns true exactly when the recorded SNR is at
    least 6 dB; when it returns false exactly one drop counter goes up, the
    fading one if the recorded fading coefficient is below 0.5 and the
    noise one otherwise; when it returns true neither changes. *)
Theorem channel_verdict_is_a_threshold_test :
  (forall (L : RandomLib) (GetDistanceFrom : N -> N -> R) (cfg : Extended.ChannelConfig)
          (src dst size : N) (w : Extended.World L),
      let r := Extended.SimulateChannel L GetDistanceFrom cfg src dst size w in
      let st' := Extended.g_stats (snd r) in
      fst r = true
      <-> (Extended.sensitivityDbm cfg <= Obs.latest (Extended.rxPowerSamples st')
           /\ Extended.snrThresholdDb cfg <= Obs.latest (Extended.snrSamples st'))%R)
  /\ (forall (L : RandomLib) (GetDistanceFrom : N -> N -> R) (src dst : N)
             (w : Ver3.World L),
         let r := Ver3.SimulateChannelEffects L GetDistanceFrom src dst w in
         let st := Ver3.g_stats w in
         let st' := Ver3.g_stats (snd r) in
         (fst r = true <-> (6 <= Obs.latest (Ver3.snrValues st'))%R)
         /\ (fst r = true ->
             Ver3.packetsDroppedByNoise st' = Ver3.packetsDroppedByNoise st
             /\ Ver3.packetsDroppedByFading st' = Ver3.packetsDroppedByFading st)
         /\ (fst r = false ->
             (Ver3.packetsDroppedByNoise st', Ver3.packetsDroppedByFading st')
             = if Cpp.ltb (Obs.latest (Ver3.fadingCoefficients st')) 0.5
               then (Ver3.packetsDroppedByNoise st, Cpp.incr (Ver3.packetsDroppedByFading st))
               else (Cpp.incr (Ver3.packetsDroppedByNoise st),
                     Ver3.packetsDroppedByFading st))).
Proof.
  split.
  - intros L dist cfg src dst size w. apply ext_verdict_thresholds.
  - intros L dist src dst w.
    destruct (v3_verdict_threshold L dist src dst w) as (Hiff & Hkeep & Hdrop).
    cbv zeta in *. split; [exact Hiff |]. split.
    + intros Hok. specialize (Hkeep Hok). unfold Obs.v3_drop_counters in Hkeep.
      injection Hkeep as -> ->. split; reflexivity.
    + exact Hdrop.
Qed.

(** X20.  Extended variant, the link budget.  With noise and fading
    switched off on the command line, a packet is delivered exactly when
    the path loss over the distance of the two nodes is at most 101 dB,
    the transmit power of 4 dBm minus the sensitivity of -97 dBm.  Nodes
    at most one metre apart are always in range, and with a path-loss
    exponent that is not negative, a pair of nodes closer than a pair in
    range is in range as well. *)
Theorem ext_quiet_channel_delivers_within_link_budget (L : RandomLib)
    (cl : Extended.CommandLine) (src dst size : N) :
  Extended.cl_noise cl = false ->
  Extended.cl_fading cl = false ->
  let cfg := Extended.apply_configuration cl in
  let verdict (GetDistanceFrom : N -> N -> R) (w : Extended.World L) :=
    fst (Extended.SimulateChannel L GetDistanceFrom cfg src dst size w) in
  (forall GetDistanceFrom w,
      verdict GetDistanceFrom w = true
      <-> (Extended.CalculatePathLoss cfg (GetDistanceFrom src dst) <= 101)%R)
  /\ (forall GetDistanceFrom w,
         (GetDistanceFrom src dst <= 1)%R -> verdict GetDistanceFrom w = true)
  /\ ((0 <= Extended.cl_pathLossExp cl)%R ->
      forall near far w1 w2,
        (near src dst <= far src dst)%R ->
        verdict far w2 = true -> verdict near w1 = true).
Proof.
  intros Hn Hf cfg verdict.
  assert (Hiff : forall dist w,
             verdict dist w = true
             <-> (Extended.CalculatePathLoss cfg (dist src dst) <= 101)%R).
  { intros dist w. apply ext_quiet_verdict; assumption. }
  split; [exact Hiff |]. split.
  - intros dist w Hd. apply Hiff.
    rewrite ext_path_loss_floor.
    + change (Extended.refPathLossDb cfg) with 40.77%R. lra.
    + change (Extended.refDistance cfg) with 1%R. lra.
    + exact Hd.
  - intros Hexp near far w1 w2 Hle Hfar. apply Hiff. apply Hiff in Hfar.
    eapply Rle_trans; [| exact Hfar].
    apply ext_path_loss_mono; [exact Hexp | change (Extended.refDistance cfg) with 1%R; lra
                              | exact Hle].
Qed.

Lemma ext_quiet_channel_delivers_within_link_budget_witness :
  fst (Extended.SimulateChannel (Fixtures.replay []) Fixtures.one_metre Fixtures.quiet_channel
         5 0 10 (Extended.initial (Fixtures.replay []))) = true.
Proof.
  apply (ext_quiet_channel_delivers_within_link_budget (Fixtures.replay [])
           Fixtures.quiet_command_line 5 0 10 eq_refl eq_refl).
  unfold Fixtures.one_metre. lra.
Defined.

(** ** The events [main] schedules *)

Section ExtendedSchedule.

Local Open Scope R_scope.

Lemma INR_to_nat (x : N) : INR (N.to_nat x) = IZR (Z.of_N x).
Proof. rewrite INR_IZR_INZ, N_nat_Z. reflexivity. Qed.

Lemma IZR_of_N_add_nat (i : N) (j : nat) :
  IZR (Z.of_N (i + N.of_nat j)) = IZR (Z.of_N i) + INR j.
Proof. rewrite N2Z.inj_add, plus_IZR, nat_N_Z, <- INR_IZR_INZ. reflexivity. Qed.

Lemma ext_join_loop_spec (k : nat) :
  forall (i : N) (t : R),
    snd (Extended.join_loop k i t) = t + 2 * INR k
    /\ length (fst (Extended.join_loop k i t)) = k
    /\ forall t' a,
         In (t', a) (fst (Extended.join_loop k i t)) ->
         exists j, (j < k)%nat /\ t' = t + 2 * INR j
                   /\ a = Extended.CallNetworkDiscoveryRequest (i + N.of_nat j).
Proof.
  induction k as [| k IH]; intros i t.
  - cbn. repeat split; [lra | intros t' a []].
  - cbn [Extended.join_loop]. specialize (IH (i + 1)%N (t + 2)).
    destruct (Extended.join_loop k (i + 1) (t + 2)) as [rest final].
    cbn [fst snd] in *. destruct IH as (Hfinal & Hlen & Hin).
    rewrite S_INR. repeat split.
    + rewrite Hfinal. lra.
    + cbn [length]. rewrite Hlen. reflexivity.
    + intros t' a [Heq | Hrest].
      * injection Heq as <- <-. exists 0%nat. cbn.
        repeat split; [lia | lra | f_equal; lia].
      * destruct (Hin t' a Hrest) as (j & Hj & -> & ->).
        exists (S j). rewrite S_INR. repeat split; [lia | lra | f_equal; lia].
Qed.

Lemma ext_send_loop_spec (k : nat) (start interval : R) (sensor coordinator : N) :
  forall i : N,
    length (Extended.send_loop k i start interval sensor coordinator) = k
    /\ forall t a,
         In (t, a) (Extended.send_loop k i start interval sensor coordinator) ->
         exists j, (j < k)%nat /\ t = start + IZR (Z.of_N (i + N.of_nat j)) * interval
                   /\ a = Extended.CallSendSensorData sensor coordinator.
Proof.
  induction k as [| k IH]; intros i.
  - cbn. split; [reflexivity | intros t a []].
  - cbn [Extended.send_loop]. destruct (IH (i + 1)%N) as (Hlen & Hin). split.
    + cbn [length]. rewrite Hlen. reflexivity.
    + intros t a [Heq | Hrest].
      * injection Heq as <- <-. exists 0%nat.
        repeat split; [lia | do 3 f_equal; lia].
      * destruct (Hin t a Hrest) as (j & Hj & -> & ->).
        exists (S j). repeat split; [lia | do 3 f_equal; lia].
Qed.

Lemma ext_join_loop_closed (k : nat) :
  forall (i : N) (t : R),
    Extended.join_loop k i t
    = (map (fun j : nat =>
              (t + 2 * INR j, Extended.CallNetworkDiscoveryRequest (i + N.of_nat j)))
         (seq 0 k),
       t + 2 * INR k).
Proof.
  induction k as [| k IH]; intros i t.
  - cbn. f_equal. lra.
  - cbn [Extended.join_loop seq map]. rewrite IH. rewrite <- seq_shift, map_map.
    rewrite S_INR. f_equal; [| lra].
    f_equal.
    + f_equal; [cbn; lra | f_equal; lia].
    + apply map_ext. intros j. rewrite S_INR. f_equal; [lra | f_equal; lia].
Qed.

Lemma ext_send_loop_closed (k : nat) (start interval : R) (sensor coordinator : N) :
  forall i : N,
    Extended.send_loop k i start interval sensor coordinator
    = map (fun j : nat =>
             (start + (IZR (Z.of_N i) + INR j) * interval,
              Extended.CallSendSensorData sensor coordinator))
        (seq 0 k).
Proof.
  induction k as [| k IH]; intros i.
  - reflexivity.
  - cbn [Extended.send_loop seq map]. rewrite IH. rewrite <- seq_shift, map_map.
    f_equal.
    + f_equal. cbn. lra.
    + apply map_ext. intros j. rewrite S_INR. f_equal.
      rewrite N2Z.inj_add, plus_IZR. change (IZR (Z.of_N 1)) with 1. lra.
Qed.

End ExtendedSchedule.

(** X21.  Extended variant, the schedule of [main].  For a node count
    between 1 and 2^32 - 1, the events [main] schedules are exactly these,
    in this order: the network formation of node 0 at 1 s; the discovery
    of every node i from 1 to nodes - 1 at 2 i + 1 s; one route discovery
    of node 0 at 2 nodes + 4 s; the sends of the last node to node 0, one
    for every k below the packet count, at 2 nodes + 9 + k * interval s,
    whatever the simulation time; the report at time - 1 s and the export
    at time - 0.5 s.  Hence there are nodes + packets + 3 events, each of
    one of these forms, and every node index used is below the node
    count. *)
Theorem ext_main_schedule_times (cl : Extended.CommandLine) :
  (1 <= Extended.cl_nodes cl < Cpp.UINT32_MOD)%N ->
  let nodes := Extended.cl_nodes cl in
  let n := IZR (Z.of_N nodes) in
  let time := IZR (Z.of_N (Extended.cl_time cl)) in
  let schedule := Extended.main_schedule cl in
  schedule
  = [(1%R, Extended.CallNetworkFormationRequest 0)]
    ++ map (fun i : nat =>
              ((2 * INR i + 1)%R, Extended.CallNetworkDiscoveryRequest (N.of_nat i)))
         (seq 1 (N.to_nat nodes - 1))
    ++ [((2 * n + 4)%R, Extended.CallRouteDiscoveryRequest 0)]
    ++ map (fun k : nat =>
              ((2 * n + 9 + INR k * Extended.cl_interval cl)%R,
               Extended.CallSendSensorData (nodes - 1) 0))
         (seq 0 (N.to_nat (Extended.cl_packets cl)))
    ++ [((time - 1)%R, Extended.CallPrintResults);
        ((time - 0.5)%R, Extended.CallExportCSV)]
  /\ length schedule = (N.to_nat nodes + N.to_nat (Extended.cl_packets cl) + 3)%nat
  /\ (forall t a,
         In (t, a) schedule ->
         match a with
         | Extended.CallNetworkFormationRequest node => node = 0%N /\ t = 1%R
         | Extended.CallNetworkDiscoveryRequest i =>
             (1 <= i < nodes)%N /\ t = (2 * IZR (Z.of_N i) + 1)%R
         | Extended.CallRouteDiscoveryRequest node => node = 0%N /\ t = (2 * n + 4)%R
         | Extended.CallSendSensorData s c =>
             s = (nodes - 1)%N /\ c = 0%N
             /\ exists k, (k < Extended.cl_packets cl)%N
                          /\ t = (2 * n + 9 + IZR (Z.of_N k) * Extended.cl_interval cl)%R
         | Extended.CallPrintResults => t = (time - 1)%R
         | Extended.CallExportCSV => t = (time - 0.5)%R
         end)
  /\ Forall (fun node => (node < nodes)%N)
       (flat_map Tally.ext_action_nodes (map snd schedule)).
Proof.
  intros [Hlo Hhi] nodes n time schedule.
  assert (Hdecr : Cpp.decr nodes = (nodes - 1)%N).
  { unfold Cpp.decr. fold nodes in Hlo, Hhi.
    replace (nodes + (Cpp.UINT32_MOD - 1))%N with (nodes - 1 + 1 * Cpp.UINT32_MOD)%N
      by (unfold Cpp.UINT32_MOD in *; lia).
    rewrite N.Div0.mod_add. apply N.mod_small. lia. }
  assert (Hk : INR (N.to_nat (nodes - 1)) = (n - 1)%R).
  { rewrite INR_to_nat, N2Z.inj_sub, minus_IZR by exact Hlo. reflexivity. }
  assert (Hclosed :
            schedule
            = [(1%R, Extended.CallNetworkFormationRequest 0)]
              ++ map (fun i : nat =>
                        ((2 * INR i + 1)%R,
                         Extended.CallNetworkDiscoveryRequest (N.of_nat i)))
                   (seq 1 (N.to_nat nodes - 1))
              ++ [((2 * n + 4)%R, Extended.CallRouteDiscoveryRequest 0)]
              ++ map (fun k : nat =>
                        ((2 * n + 9 + INR k * Extended.cl_interval cl)%R,
                         Extended.CallSendSensorData (nodes - 1) 0))
                   (seq 0 (N.to_nat (Extended.cl_packets cl)))
              ++ [((time - 1)%R, Extended.CallPrintResults);
                  ((time - 0.5)%R, Extended.CallExportCSV)]).
  { subst schedule. unfold Extended.main_schedule. fold nodes.
    rewrite ext_join_loop_closed, Hdecr, ext_send_loop_closed, Hk.
    replace (N.to_nat nodes - 1)%nat with (N.to_nat (nodes - 1)) by lia.
    rewrite <- seq_shift, map_map.
    apply (f_equal2 (@app _)); [reflexivity |].
    apply (f_equal2 (@app _)).
    - apply map_ext. intros j. rewrite S_INR.
      apply (f_equal2 pair); [lra | f_equal; lia].
    - apply (f_equal2 (@app _)).
      + apply (f_equal2 cons); [| reflexivity]. apply (f_equal2 pair); [lra | reflexivity].
      + apply (f_equal2 (@app _)); [| reflexivity].
        apply map_ext. intros j. apply (f_equal2 pair); [| reflexivity].
        change (IZR (Z.of_N 0)) with 0%R. lra. }
  split; [exact Hclosed |].
  destruct (ext_join_loop_spec (N.to_nat (nodes - 1)) 1 3) as (Hfinal & Hjlen & Hjoin).
  assert (Hentries :
            forall t a,
              In (t, a) schedule ->
              match a with
              | Extended.CallNetworkFormationRequest node => node = 0%N /\ t = 1%R
              | Extended.CallNetworkDiscoveryRequest i =>
                  (1 <= i < nodes)%N /\ t = (2 * IZR (Z.of_N i) + 1)%R
              | Extended.CallRouteDiscoveryRequest node => node = 0%N /\ t = (2 * n + 4)%R
              | Extended.CallSendSensorData s c =>
                  s = (nodes - 1)%N /\ c = 0%N
                  /\ exists k, (k < Extended.cl_packets cl)%N
                               /\ t = (2 * n + 9 + IZR (Z.of_N k) * Extended.cl_interval cl)%R
              | Extended.CallPrintResults => t = (time - 1)%R
              | Extended.CallExportCSV => t = (time - 0.5)%R
              end).
  { intros t a Hin. subst schedule. unfold Extended.main_schedule in Hin.
    fold nodes in Hin. rewrite Hdecr in Hin.
    destruct (Extended.join_loop (N.to_nat (nodes - 1)) 1 3) as [joins joinTime].
    cbn [fst snd] in Hfinal, Hjlen, Hjoin. rewrite Hk in Hfinal.
    repeat (apply in_app_or in Hin; destruct Hin as [Hin | Hin]).
    - destruct Hin as [Heq | []]. injection Heq as <- <-. split; reflexivity.
    - destruct (Hjoin t a Hin) as (j & Hj & -> & ->).
      rewrite IZR_of_N_add_nat. split; [lia | cbn; lra].
    - destruct Hin as [Heq | []]. injection Heq as <- <-. split; [reflexivity |].
      rewrite Hfinal. lra.
    - destruct (ext_send_loop_spec (N.to_nat (Extended.cl_packets cl))
                  (joinTime + 3 + 5) (Extended.cl_interval cl) (nodes - 1) 0 0)
        as (_ & Hsend).
      destruct (Hsend t a Hin) as (j & Hj & -> & ->).
      repeat split. exists (N.of_nat j). split; [lia |].
      rewrite Hfinal, N.add_0_l. lra.
    - destruct Hin as [Heq | [Heq | []]]; injection Heq as <- <-; reflexivity. }
  split; [| split; [exact Hentries |]].
  - subst schedule. unfold Extended.main_schedule. fold nodes.
    destruct (Extended.join_loop (N.to_nat (nodes - 1)) 1 3) as [joins joinTime].
    cbn [fst] in Hjlen.
    destruct (ext_send_loop_spec (N.to_nat (Extended.cl_packets cl))
                (joinTime + 3 + 5) (Extended.cl_interval cl)
                (Cpp.decr nodes) 0 0) as (Hslen & _).
    rewrite !length_app, Hjlen, Hslen. cbn [length]. lia.
  - apply List.Forall_forall. intros node Hnode.
    apply in_flat_map in Hnode. destruct Hnode as (a & Ha & Hnode).
    apply in_map_iff in Ha. destruct Ha as ([t a'] & Heq & Hin). cbn in Heq. subst a'.
    specialize (Hentries t a Hin).
    destruct a; cbn in Hnode.
    + destruct Hnode as [<- | []]. destruct Hentries as [-> _]. lia.
    + destruct Hnode as [<- | []]. lia.
    + destruct Hnode as [<- | []]. destruct Hentries as [-> _]. lia.
    + destruct Hentries as (-> & -> & _). destruct Hnode as [<- | [<- | []]]; lia.
    + destruct Hnode.
    + destruct Hnode.
Qed.

Lemma ext_main_schedule_times_witness :
  length (Extended.main_schedule Fixtures.quiet_command_line) = 59%nat.
Proof.
  apply (ext_main_schedule_times Fixtures.quiet_command_line).
  vm_compute. split; [discriminate | reflexivity].
Defined.

Section Ver3Schedule.

Local Open Scope R_scope.

Lemma v3_join_loop_spec (k : nat) :
  forall (i : N) (t : R),
    snd (Ver3.join_loop k i t) = t + 2 * INR k
    /\ forall t' a,
         In (t', a) (fst (Ver3.join_loop k i t)) ->
         exists j, (j < k)%nat /\ t' = t + 2 * INR j
                   /\ a = Ver3.CallNetworkDiscoveryRequest (i + N.of_nat j).
Proof.
  induction k as [| k IH]; intros i t.
  - cbn. split; [lra | intros t' a []].
  - cbn [Ver3.join_loop]. specialize (IH (i + 1)%N (t + 2)).
    destruct (Ver3.join_loop k (i + 1) (t + 2)) as [rest final].
    cbn [fst snd] in *. destruct IH as (Hfinal & Hin).
    rewrite S_INR. split.
    + rewrite Hfinal. lra.
    + intros t' a [Heq | Hrest].
      * injection Heq as <- <-. exists 0%nat. cbn.
        repeat split; [lia | lra | f_equal; lia].
      * destruct (Hin t' a Hrest) as (j & Hj & -> & ->).
        exists (S j). rewrite S_INR. repeat split; [lia | lra | f_equal; lia].
Qed.

Lemma v3_report_loop_spec (k : nat) (dataTime : R) (sensor coordinator : N) :
  forall i : N,
    length (Ver3.report_loop k i dataTime sensor coordinator) = k
    /\ forall t a,
         In (t, a) (Ver3.report_loop k i dataTime sensor coordinator) ->
         exists j, (j < k)%nat /\ t = dataTime + IZR (Z.of_N (i + N.of_nat j)) * 15
                   /\ a = Ver3.CallSendTemperatureReading sensor coordinator.
Proof.
  induction k as [| k IH]; intros i.
  - cbn. split; [reflexivity | intros t a []].
  - cbn [Ver3.report_loop]. destruct (IH (i + 1)%N) as (Hlen & Hin). split.
    + cbn [length]. rewrite Hlen. reflexivity.
    + intros t a [Heq | Hrest].
      * injection Heq as <- <-. exists 0%nat.
        repeat split; [lia | do 3 f_equal; lia].
      * destruct (Hin t a Hrest) as (j & Hj & -> & ->).
        exists (S j). repeat split; [lia | do 3 f_equal; lia].
Qed.

Lemma v3_extra_report_loop_spec (k : nat) (dataTime : R) (node coordinator : N) :
  forall j0 : N,
    forall t a,
      In (t, a) (Ver3.extra_report_loop k j0 dataTime node coordinator) ->
      exists j, (j < k)%nat
                /\ t = dataTime + 10 + IZR (Z.of_N node) * 2
                       + IZR (Z.of_N (j0 + N.of_nat j)) * 20
                /\ a = Ver3.CallSendTemperatureReading node coordinator.
Proof.
  induction k as [| k IH]; intros j0 t a Hin.
  - destruct Hin.
  - cbn [Ver3.extra_report_loop] in Hin. destruct Hin as [Heq | Hrest].
    + injection Heq as <- <-. exists 0%nat. repeat split; [lia | do 3 f_equal; lia].
    + destruct (IH (j0 + 1)%N t a Hrest) as (j & Hj & -> & ->).
      exists (S j). repeat split; [lia | do 3 f_equal; lia].
Qed.

Lemma v3_extra_sensor_loop_spec (k : nat) (dataTime : R) (coordinator : N) :
  forall (i : N) t a,
    In (t, a) (Ver3.extra_sensor_loop k i dataTime coordinator) ->
    exists m j, (m < k)%nat /\ (j < 5)%nat
                /\ t = dataTime + 10 + IZR (Z.of_N (i + N.of_nat m)) * 2 + INR j * 20
                /\ a = Ver3.CallSendTemperatureReading (i + N.of_nat m) coordinator.
Proof.
  induction k as [| k IH]; intros i t a Hin.
  - destruct Hin.
  - cbn [Ver3.extra_sensor_loop] in Hin. apply in_app_or in Hin.
    destruct Hin as [Hfirst | Hrest].
    + destruct (v3_extra_report_loop_spec 5 dataTime i coordinator 0 t a Hfirst)
        as (j & Hj & -> & ->).
      exists 0%nat, j. rewrite N.add_0_l, N.add_0_r, nat_N_Z, <- INR_IZR_INZ.
      repeat split; [lia | exact Hj].
    + destruct (IH (i + 1)%N t a Hrest) as (m & j & Hm & Hj & -> & ->).
      exists (S m), j.
      replace (i + 1 + N.of_nat m)%N with (i + N.of_nat (S m))%N by lia.
      repeat split; [lia | exact Hj].
Qed.

(** Truncation of a double toward zero. *)
Lemma truncate_nonneg (x : R) :
  0 <= x -> (0 <= Cpp.truncate x)%Z /\ IZR (Cpp.truncate x) <= x < IZR (Cpp.truncate x) + 1.
Proof.
  intros Hx. unfold Cpp.truncate. rewrite (ltb_false x 0) by exact Hx.
  destruct (base_Int_part x) as [Hlo Hhi]. split; [| lra].
  assert (H : -1 < IZR (Int_part x)) by lra.
  apply lt_IZR in H. lia.
Qed.

Lemma truncate_neg (x : R) :
  x < 0 -> (Cpp.truncate x <= 0)%Z /\ ((Cpp.truncate x < 0)%Z <-> x <= -1).
Proof.
  intros Hx. unfold Cpp.truncate. rewrite (ltb_true x 0) by exact Hx.
  destruct (base_Int_part (- x)) as [Hlo Hhi].
  assert (Hm : (0 <= Int_part (- x))%Z).
  { assert (H : -1 < IZR (Int_part (- x))) by lra. apply lt_IZR in H. lia. }
  split; [lia |]. split.
  - intros Hlt. assert (H1 : (1 <= Int_part (- x))%Z) by lia.
    apply IZR_le in H1. lra.
  - intros Hle. assert (H : 0 < IZR (Int_part (- x))) by lra.
    apply lt_IZR in H. lia.
Qed.

Lemma to_uint32_undefined (x : R) :
  x < 4294967296 -> (Cpp.to_uint32 x = None <-> x <= -1).
Proof.
  intros Hhi. unfold Cpp.to_uint32. cbv zeta.
  destruct (Rlt_dec x 0) as [Hneg | Hpos].
  - destruct (truncate_neg x Hneg) as [Hle Hiff].
    destruct (Z.leb_spec 0 (Cpp.truncate x)) as [H0 | H0].
    + replace (Cpp.truncate x <? 2 ^ 32)%Z with true by (symmetry; apply Z.ltb_lt; lia).
      cbn [andb]. split; [discriminate |].
      intros Hx. apply Hiff in Hx. lia.
    + cbn [andb]. split; [intros _; apply Hiff; exact H0 | reflexivity].
  - destruct (truncate_nonneg x) as [H0 [Hlo _]]; [lra |].
    assert (Hlt : (Cpp.truncate x < 2 ^ 32)%Z).
    { apply lt_IZR. change (IZR (2 ^ 32)) with 4294967296. lra. }
    replace (0 <=? Cpp.truncate x)%Z with true by (symmetry; apply Z.leb_le; exact H0).
    replace (Cpp.truncate x <? 2 ^ 32)%Z with true by (symmetry; apply Z.ltb_lt; exact Hlt).
    cbn [andb]. split; [discriminate | lra].
Qed.

Lemma to_uint32_defined (x : R) (n : N) :
  Cpp.to_uint32 x = Some n -> n = 0%N \/ IZR (Z.of_N n) <= x.
Proof.
  unfold Cpp.to_uint32. cbv zeta.
  destruct ((0 <=? Cpp.truncate x)%Z && (Cpp.truncate x <? 2 ^ 32)%Z) eqn:Hin;
    [| discriminate].
  intros Heq. injection Heq as <-.
  apply andb_true_iff in Hin. destruct Hin as [H0 _]. apply Z.leb_le in H0.
  destruct (Rlt_dec x 0) as [Hneg | Hpos].
  - left. destruct (truncate_neg x Hneg) as [Hle _].
    replace (Cpp.truncate x) with 0%Z by lia. reflexivity.
  - right. destruct (truncate_nonneg x) as [_ [Hlo _]]; [lra |].
    rewrite Z2N.id by exact H0. exact Hlo.
Qed.

Lemma v3_periodic_reports_spec (numNodes simTime : N) (dataTime : R) :
  (simTime < Cpp.UINT32_MOD)%N ->
  0 <= dataTime ->
  (Ver3.periodic_reports numNodes simTime dataTime = Undefined
   <-> (4 <= numNodes)%N /\ IZR (Z.of_N simTime) - dataTime <= -15)
  /\ forall l,
       Ver3.periodic_reports numNodes simTime dataTime = Ok l ->
       (length l <= 10)%nat
       /\ forall t a,
            In (t, a) l ->
            (4 <= numNodes)%N
            /\ a = Ver3.CallSendTemperatureReading (Cpp.decr numNodes) 0
            /\ t + 15 <= IZR (Z.of_N simTime)
            /\ exists k, (k < 10)%nat /\ t = dataTime + 15 * INR k.
Proof.
  intros Hsim Hdata.
  set (x := (IZR (Z.of_N simTime) - dataTime) / 15).
  assert (Hx : x < 4294967296).
  { assert (IZR (Z.of_N simTime) < 4294967296).
    { change 4294967296 with (IZR (2 ^ 32)). apply IZR_lt.
      unfold Cpp.UINT32_MOD in Hsim. lia. }
    unfold x. lra. }
  pose proof (to_uint32_undefined x Hx) as Hundef.
  unfold Ver3.periodic_reports. fold x.
  destruct (N.leb_spec 4 numNodes) as [H4 | H4].
  - destruct (Cpp.to_uint32 x) as [n |] eqn:Hcast.
    + split.
      * split; [discriminate |]. intros [_ Hle].
        assert (Hneg : x <= -1) by (unfold x; lra).
        apply Hundef in Hneg. discriminate Hneg.
      * intros l Heq. injection Heq as <-.
        destruct (v3_report_loop_spec (N.to_nat (N.min 10 n)) dataTime
                    (Cpp.decr numNodes) 0 0) as (Hlen & Hin).
        split; [rewrite Hlen; lia |].
        intros t a Hta. destruct (Hin t a Hta) as (j & Hj & -> & ->).
        rewrite N.add_0_l, nat_N_Z, <- INR_IZR_INZ.
        split; [exact H4 |]. split; [reflexivity |].
        split; [| exists j; split; [lia | lra]].
        assert (Hjn : (S j <= N.to_nat n)%nat) by lia.
        destruct (to_uint32_defined x n Hcast) as [-> | Hnx]; [cbn in Hjn; lia |].
        apply le_INR in Hjn. rewrite S_INR, INR_to_nat in Hjn.
        unfold x in Hnx. lra.
    + split.
      * split; [| reflexivity]. intros _. split; [exact H4 |].
        assert (Hneg : x <= -1) by (apply Hundef; reflexivity).
        unfold x in Hneg. lra.
      * intros l Heq. discriminate Heq.
  - split.
    + split; [discriminate | intros [H _]; lia].
    + intros l Heq. injection Heq as <-. split; [cbn; lia | intros t a []].
Qed.

(** The loops as lists. *)
Lemma v3_join_loop_closed (k : nat) :
  forall (i : N) (t : R),
    Ver3.join_loop k i t
    = (map (fun j : nat =>
              (t + 2 * INR j, Ver3.CallNetworkDiscoveryRequest (i + N.of_nat j)))
         (seq 0 k),
       t + 2 * INR k).
Proof.
  induction k as [| k IH]; intros i t.
  - cbn. apply (f_equal2 pair); [reflexivity | lra].
  - cbn [Ver3.join_loop seq map]. rewrite IH. rewrite <- seq_shift, map_map.
    rewrite S_INR. apply (f_equal2 pair); [| lra].
    apply (f_equal2 cons).
    + apply (f_equal2 pair); [cbn; lra | f_equal; lia].
    + apply map_ext. intros j. rewrite S_INR.
      apply (f_equal2 pair); [lra | f_equal; lia].
Qed.

Lemma v3_report_loop_closed (k : nat) (dataTime : R) (sensor coordinator : N) :
  forall i : N,
    Ver3.report_loop k i dataTime sensor coordinator
    = map (fun j : nat =>
             (dataTime + (IZR (Z.of_N i) + INR j) * 15,
              Ver3.CallSendTemperatureReading sensor coordinator))
        (seq 0 k).
Proof.
  induction k as [| k IH]; intros i.
  - reflexivity.
  - cbn [Ver3.report_loop seq map]. rewrite IH. rewrite <- seq_shift, map_map.
    apply (f_equal2 cons).
    + apply (f_equal2 pair); [cbn; lra | reflexivity].
    + apply map_ext. intros j. rewrite S_INR.
      apply (f_equal2 pair); [| reflexivity].
      rewrite N2Z.inj_add, plus_IZR. change (IZR (Z.of_N 1)) with 1. lra.
Qed.

Lemma v3_extra_report_loop_closed (k : nat) (dataTime : R) (node coordinator : N) :
  forall j0 : N,
    Ver3.extra_report_loop k j0 dataTime node coordinator
    = map (fun j : nat =>
             (dataTime + 10 + IZR (Z.of_N node) * 2 + (IZR (Z.of_N j0) + INR j) * 20,
              Ver3.CallSendTemperatureReading node coordinator))
        (seq 0 k).
Proof.
  induction k as [| k IH]; intros j0.
  - reflexivity.
  - cbn [Ver3.extra_report_loop seq map]. rewrite IH. rewrite <- seq_shift, map_map.
    apply (f_equal2 cons).
    + apply (f_equal2 pair); [cbn; lra | reflexivity].
    + apply map_ext. intros j. rewrite S_INR.
      apply (f_equal2 pair); [| reflexivity].
      rewrite N2Z.inj_add, plus_IZR. change (IZR (Z.of_N 1)) with 1. lra.
Qed.

Lemma flat_map_after_map {A B C : Type} (f : B -> list C) (g : A -> B) (l : list A) :
  flat_map f (map g l) = flat_map (fun x => f (g x)) l.
Proof. induction l as [| x l IH]; [reflexivity | cbn; rewrite IH; reflexivity]. Qed.

Lemma v3_extra_sensor_loop_closed (k : nat) (dataTime : R) (coordinator : N) :
  forall i : N,
    Ver3.extra_sensor_loop k i dataTime coordinator
    = flat_map
        (fun m : nat =>
           map (fun j : nat =>
                  (dataTime + 10 + (IZR (Z.of_N i) + INR m) * 2 + INR j * 20,
                   Ver3.CallSendTemperatureReading (i + N.of_nat m) coordinator))
             (seq 0 5))
        (seq 0 k).
Proof.
  induction k as [| k IH]; intros i.
  - reflexivity.
  - cbn [Ver3.extra_sensor_loop]. rewrite IH, v3_extra_report_loop_closed.
    change (seq 0 (S k)) with (0%nat :: seq 1 k). rewrite <- seq_shift.
    cbn [flat_map]. apply (f_equal2 (@app _)).
    + replace (i + N.of_nat 0)%N with i by lia.
      apply map_ext. intros j. apply (f_equal2 pair); [| reflexivity].
      change (IZR (Z.of_N 0)) with 0. cbn [INR]. lra.
    + rewrite flat_map_after_map.
      apply flat_map_ext. intros m.
      replace (i + 1 + N.of_nat m)%N with (i + N.of_nat (S m))%N by lia.
      apply map_ext. intros j. apply (f_equal2 pair); [| reflexivity].
      rewrite S_INR, N2Z.inj_add, plus_IZR. change (IZR (Z.of_N 1)) with 1. lra.
Qed.

Lemma to_uint32_value (x : R) (z : Z) :
  (0 <= z < 2 ^ 32)%Z -> IZR z <= x < IZR z + 1 -> Cpp.to_uint32 x = Some (Z.to_N z).
Proof.
  intros Hz Hx. unfold Cpp.to_uint32, Cpp.truncate.
  assert (H0 : 0 <= IZR z) by (apply IZR_le; lia).
  rewrite (ltb_false x 0) by lra.
  rewrite <- (Int_part_spec x z) by lra.
  replace (0 <=? z)%Z with true by (symmetry; apply Z.leb_le; lia).
  replace (z <? 2 ^ 32)%Z with true by (symmetry; apply Z.ltb_lt; lia).
  reflexivity.
Qed.

(** The conversion of a double above -1 and below 0 gives 0. *)
Lemma to_uint32_small_negative (x : R) : -1 < x < 0 -> Cpp.to_uint32 x = Some 0%N.
Proof.
  intros [Hlo Hhi]. destruct (truncate_neg x Hhi) as [Hle Hiff].
  assert (Hz : Cpp.truncate x = 0%Z).
  { destruct (Z.eq_dec (Cpp.truncate x) 0%Z) as [H | H]; [exact H |].
    assert (Hlt : (Cpp.truncate x < 0)%Z) by lia. apply Hiff in Hlt. lra. }
  unfold Cpp.to_uint32. cbv zeta. rewrite Hz. reflexivity.
Qed.

(** The number of periodic reports when it is defined: the whole number
    of 15 s periods between the data start and the end of the simulation,
    none when the simulation ends before the data start. *)
Lemma v3_report_count (simTime start : N) :
  (simTime < Cpp.UINT32_MOD)%N ->
  (start < simTime + 15)%N ->
  Cpp.to_uint32 ((IZR (Z.of_N simTime) - IZR (Z.of_N start)) / 15)
  = Some ((simTime - start) / 15)%N.
Proof.
  intros Hsim Hlate.
  destruct (N.le_gt_cases start simTime) as [Hle | Hgt].
  - set (q := ((simTime - start) / 15)%N).
    assert (Hdiv : (simTime - start = 15 * q + (simTime - start) mod 15)%N)
      by (apply N.div_mod; discriminate).
    assert (Hmod : ((simTime - start) mod 15 < 15)%N) by (apply N.mod_lt; discriminate).
    set (r := ((simTime - start) mod 15)%N) in *.
    assert (Hz : (Z.of_N simTime - Z.of_N start = 15 * Z.of_N q + Z.of_N r)%Z) by lia.
    apply (f_equal IZR) in Hz. rewrite minus_IZR, plus_IZR, mult_IZR in Hz.
    assert (Hr : 0 <= IZR (Z.of_N r) < 15).
    { split; [apply IZR_le; lia | apply IZR_lt; lia]. }
    rewrite <- (N2Z.id q). apply to_uint32_value.
    + unfold Cpp.UINT32_MOD in Hsim. split; [lia |].
      assert (q <= simTime)%N; [| lia].
      unfold q. transitivity (simTime - start)%N; [| lia].
      apply N.Div0.div_le_upper_bound. lia.
    + lra.
  - replace ((simTime - start) / 15)%N with 0%N
      by (replace (simTime - start)%N with 0%N by lia; reflexivity).
    apply to_uint32_small_negative.
    assert (H1 : IZR (Z.of_N simTime) < IZR (Z.of_N start)) by (apply IZR_lt; lia).
    assert (H2 : IZR (Z.of_N start) < IZR (Z.of_N simTime) + 15).
    { replace (IZR (Z.of_N simTime) + 15) with (IZR (Z.of_N (simTime + 15)))
        by (rewrite N2Z.inj_add, plus_IZR; reflexivity).
      apply IZR_lt. lia. }
    lra.
Qed.

End Ver3Schedule.

(** X22.  Ver3, when the schedule of [main] is defined.  [main] refuses
    fewer than three nodes.  Otherwise, for a simulation time below 2^32,
    the schedule has no defined result exactly when there are at least
    four nodes and simTime + 5 <= 2 numNodes: the number of periodic
    reports is the conversion to [uint32_t] of (simTime - dataTime) / 15,
    where dataTime is 2 numNodes + 10 s, and that double is then -1 or
    less. *)
Theorem v3_main_schedule_undefined_iff (cl : Ver3.CommandLine) :
  (Ver3.simTime cl < Cpp.UINT32_MOD)%N ->
  (Ver3.main_schedule cl = None <-> (Ver3.numNodes cl < 3)%N)
  /\ (Ver3.main_schedule cl = Some Undefined
      <-> (4 <= Ver3.numNodes cl)%N /\ (Ver3.simTime cl + 5 <= 2 * Ver3.numNodes cl)%N).
Proof.
  intros Hsim. unfold Ver3.main_schedule.
  destruct (N.ltb_spec (Ver3.numNodes cl) 3) as [H3 | H3].
  - split; [split; [intros _; exact H3 | reflexivity] |].
    split; [discriminate | intros [H4 _]; lia].
  - destruct (v3_join_loop_spec (N.to_nat (Ver3.numNodes cl - 1)) 1 3) as (Hfinal & _).
    destruct (Ver3.join_loop (N.to_nat (Ver3.numNodes cl - 1)) 1 3) as [joins joinTime].
    cbn [snd] in Hfinal.
    assert (Hk : INR (N.to_nat (Ver3.numNodes cl - 1))
                 = (IZR (Z.of_N (Ver3.numNodes cl)) - 1)%R).
    { rewrite INR_to_nat, N2Z.inj_sub, minus_IZR by lia. reflexivity. }
    rewrite Hk in Hfinal.
    assert (Hn : (3 <= IZR (Z.of_N (Ver3.numNodes cl)))%R) by (apply IZR_le; lia).
    destruct (v3_periodic_reports_spec (Ver3.numNodes cl) (Ver3.simTime cl)
                (joinTime + 2 + 2 + 5) Hsim) as (Hundef & _); [lra |].
    destruct (Ver3.periodic_reports (Ver3.numNodes cl) (Ver3.simTime cl)
                (joinTime + 2 + 2 + 5)) as [reports |].
    + split; [split; [discriminate | lia] |].
      split; [discriminate |].
      intros [H4 Hle]. assert (Hu : @Ok (list (R * Ver3.Action)) reports = Undefined).
      { apply Hundef. split; [exact H4 |]. rewrite Hfinal.
        assert (H : (IZR (Z.of_N (Ver3.simTime cl + 5))
                     <= IZR (Z.of_N (2 * Ver3.numNodes cl)))%R) by (apply IZR_le; lia).
        rewrite N2Z.inj_add, N2Z.inj_mul, plus_IZR, mult_IZR in H.
        change (IZR (Z.of_N 5)) with 5%R in H. change (IZR (Z.of_N 2)) with 2%R in H. lra. }
      discriminate Hu.
    + split; [split; [discriminate | lia] |].
      split; [| reflexivity]. intros _.
      destruct (proj1 Hundef eq_refl) as [H4 Hle]. split; [exact H4 |].
      rewrite Hfinal in Hle.
      assert (H : (IZR (Z.of_N (Ver3.simTime cl + 5))
                   <= IZR (Z.of_N (2 * Ver3.numNodes cl)))%R).
      { rewrite N2Z.inj_add, N2Z.inj_mul, plus_IZR, mult_IZR.
        change (IZR (Z.of_N 5)) with 5%R. change (IZR (Z.of_N 2)) with 2%R. lra. }
      apply le_IZR in H. lia.
Qed.

Lemma v3_main_schedule_undefined_iff_witness :
  Ver3.main_schedule
    {| Ver3.numNodes := 6; Ver3.simTime := 5; Ver3.verbose := false;
       Ver3.manyToOne := true; Ver3.exportCSV := false; Ver3.enableNoise := true;
       Ver3.enableFading := true; Ver3.snrThreshold := 6 |} = Some Undefined.
Proof.
  apply (v3_main_schedule_undefined_iff
           {| Ver3.numNodes := 6; Ver3.simTime := 5; Ver3.verbose := false;
              Ver3.manyToOne := true; Ver3.exportCSV := false; Ver3.enableNoise := true;
              Ver3.enableFading := true; Ver3.snrThreshold := 6 |}).
  - reflexivity.
  - vm_compute. split; discriminate.
Defined.

(** Ver3: the form of every event of a defined schedule, and the node
    indices it uses. *)
Lemma v3_main_schedule_entries (cl : Ver3.CommandLine) (schedule : list (R * Ver3.Action)) :
  (Ver3.numNodes cl < Cpp.UINT32_MOD)%N ->
  (Ver3.simTime cl < Cpp.UINT32_MOD)%N ->
  Ver3.main_schedule cl = Some (Ok schedule) ->
  let nodes := Ver3.numNodes cl in
  let n := IZR (Z.of_N nodes) in
  let time := IZR (Z.of_N (Ver3.simTime cl)) in
  (forall t a,
      In (t, a) schedule ->
      match a with
      | Ver3.CallNetworkFormationRequest node => node = 0%N /\ t = 1%R
      | Ver3.CallNetworkDiscoveryRequest i =>
          (1 <= i < nodes)%N /\ t = (2 * IZR (Z.of_N i) + 1)%R
      | Ver3.CallAddToGroup node group endpoint =>
          endpoint = 1%N
          /\ ((node = 4%N /\ (5 <= nodes)%N
               /\ ((group = Ver3.GROUP_LIVING_ROOM /\ t = (2 * n + 3)%R)
                   \/ (group = Ver3.GROUP_ALL_LIGHTS /\ t = (2 * n + 3 + 0.1)%R)))
              \/ (node = 5%N /\ (6 <= nodes)%N
                  /\ ((group = Ver3.GROUP_BEDROOM /\ t = (2 * n + 3 + 0.2)%R)
                      \/ (group = Ver3.GROUP_ALL_LIGHTS /\ t = (2 * n + 3 + 0.3)%R))))
      | Ver3.CallRouteDiscoveryManyToOne node =>
          node = 0%N /\ Ver3.manyToOne cl = true /\ t = (2 * n + 5)%R
      | Ver3.CallRouteDiscoveryTo node dst =>
          node = 0%N /\ dst = (nodes - 1)%N /\ Ver3.manyToOne cl = false
          /\ (4 <= nodes)%N /\ t = (2 * n + 5)%R
      | Ver3.CallSendTemperatureReading sensor coordinator =>
          coordinator = 0%N
          /\ ((sensor = (nodes - 1)%N /\ (4 <= nodes)%N
               /\ (t + 15 <= time)%R
               /\ exists k, (k < 10)%nat /\ t = (2 * n + 10 + 15 * INR k)%R)
              \/ ((8 <= nodes)%N /\ (3 <= sensor < 8)%N
                  /\ exists j, (j < 5)%nat
                               /\ t = (2 * n + 20 + 2 * IZR (Z.of_N sensor) + 20 * INR j)%R))
      | Ver3.CallSendGroupCommand source group command =>
          source = 0%N /\ (5 <= nodes)%N
          /\ ((group = Ver3.GROUP_LIVING_ROOM /\ command = 1%N /\ t = (2 * n + 15)%R)
              \/ (group = Ver3.GROUP_ALL_LIGHTS /\ command = 0%N /\ t = (2 * n + 30)%R)
              \/ (group = Ver3.GROUP_ALL_LIGHTS /\ command = 1%N /\ t = (2 * n + 45)%R))
      | Ver3.CallPrintPerformanceMetrics => t = (time - 1)%R
      | Ver3.CallExportResultsToCSV => Ver3.exportCSV cl = true /\ t = (time - 0.5)%R
      end)
  /\ Forall (fun node => (node < nodes)%N)
       (flat_map Tally.v3_action_nodes (map snd schedule)).
Proof.
  intros Hnodes Hsim Hmain nodes n time.
  unfold Ver3.main_schedule in Hmain. fold nodes in Hmain.
  destruct (N.ltb_spec nodes 3) as [H3 | H3]; [discriminate Hmain |].
  assert (Hdecr : Cpp.decr nodes = (nodes - 1)%N).
  { unfold Cpp.decr.
    replace (nodes + (Cpp.UINT32_MOD - 1))%N with (nodes - 1 + 1 * Cpp.UINT32_MOD)%N
      by (unfold Cpp.UINT32_MOD in *; lia).
    rewrite N.Div0.mod_add. apply N.mod_small. fold nodes in Hnodes. lia. }
  destruct (v3_join_loop_spec (N.to_nat (nodes - 1)) 1 3) as (Hfinal & Hjoin).
  destruct (Ver3.join_loop (N.to_nat (nodes - 1)) 1 3) as [joins joinTime].
  cbn [fst snd] in Hfinal, Hjoin.
  assert (Hk : INR (N.to_nat (nodes - 1)) = (n - 1)%R).
  { rewrite INR_to_nat, N2Z.inj_sub, minus_IZR by lia. reflexivity. }
  rewrite Hk in Hfinal.
  assert (Hn : (3 <= n)%R) by (apply IZR_le; lia).
  destruct (v3_periodic_reports_spec nodes (Ver3.simTime cl) (joinTime + 2 + 2 + 5) Hsim)
    as (_ & Hreports); [lra |].
  destruct (Ver3.periodic_reports nodes (Ver3.simTime cl) (joinTime + 2 + 2 + 5))
    as [reports |]; [| discriminate Hmain].
  specialize (Hreports reports eq_refl). destruct Hreports as [_ Hreports].
  injection Hmain as Hsched.
  match goal with |- ?A /\ _ => assert (Hentries : A) end.
  { intros t a Hin. rewrite <- Hsched in Hin. cbv zeta in Hin. rewrite Hdecr in Hin.
    destruct Hin as [Heq | Hin]; [injection Heq as <- <-; split; reflexivity |].
    repeat (apply in_app_or in Hin; destruct Hin as [Hin | Hin]).
    - destruct (Hjoin t a Hin) as (j & Hj & -> & ->).
      rewrite IZR_of_N_add_nat. split; [lia | cbn; lra].
    - destruct (N.leb_spec 5 nodes) as [H5 | H5]; [| destruct Hin].
      destruct Hin as [Heq | [Heq | []]]; injection Heq as <- <-;
        (split; [reflexivity |]); left; (split; [reflexivity |]);
        (split; [exact H5 |]); [left | right]; (split; [reflexivity | lra]).
    - destruct (N.leb_spec 6 nodes) as [H6 | H6]; [| destruct Hin].
      destruct Hin as [Heq | [Heq | []]]; injection Heq as <- <-;
        (split; [reflexivity |]); right; (split; [reflexivity |]);
        (split; [exact H6 |]); [left | right]; (split; [reflexivity | lra]).
    - destruct (Ver3.manyToOne cl) eqn:Hm2o.
      + destruct Hin as [Heq | []]. injection Heq as <- <-.
        repeat split; lra.
      + destruct (N.leb_spec 4 nodes) as [H4 | H4]; [| destruct Hin].
        destruct Hin as [Heq | []]. injection Heq as <- <-.
        repeat split; [exact H4 | lra].
    - destruct (Hreports t a Hin) as (H4 & -> & Hfit & k & Hk10 & ->).
      rewrite Hdecr. split; [reflexivity |]. left.
      repeat split; [exact H4 | exact Hfit |].
      exists k. split; [exact Hk10 | lra].
    - destruct (N.leb_spec 5 nodes) as [H5 | H5]; [| destruct Hin].
      destruct Hin as [Heq | [Heq | [Heq | []]]]; injection Heq as <- <-;
        (split; [reflexivity |]); (split; [exact H5 |]);
        [left | right; left | right; right]; repeat split; lra.
    - destruct (N.leb_spec 8 nodes) as [H8 | H8]; [| destruct Hin].
      destruct (v3_extra_sensor_loop_spec _ _ _ _ _ _ Hin) as (m & j & Hm & Hj & -> & ->).
      split; [reflexivity |]. right. split; [exact H8 |]. split; [lia |].
      exists j. split; [exact Hj | lra].
    - destruct Hin as [Heq | Hin]; [injection Heq as <- <-; reflexivity |].
      destruct (Ver3.exportCSV cl); [| destruct Hin].
      destruct Hin as [Heq | []]. injection Heq as <- <-. split; reflexivity. }
  split; [exact Hentries |].
  apply List.Forall_forall. intros node Hnode.
  apply in_flat_map in Hnode. destruct Hnode as (a & Ha & Hnode).
  apply in_map_iff in Ha. destruct Ha as ([t a'] & Heq & Hin). cbn in Heq. subst a'.
  specialize (Hentries t a Hin).
  destruct a; cbn in Hnode.
  - destruct Hnode as [<- | []]. destruct Hentries as [-> _]. lia.
  - destruct Hnode as [<- | []]. lia.
  - destruct Hnode as [<- | []].
    destruct Hentries as (_ & [(-> & H5 & _) | (-> & H6 & _)]); lia.
  - destruct Hnode as [<- | []]. destruct Hentries as [-> _]. lia.
  - destruct Hentries as (-> & -> & _ & H4 & _). destruct Hnode as [<- | [<- | []]]; lia.
  - destruct Hentries as (-> & [(-> & H4 & _) | (H8 & Hs & _)]);
      destruct Hnode as [<- | [<- | []]]; lia.
  - destruct Hnode as [<- | []]. destruct Hentries as [-> _]. lia.
  - destruct Hnode.
  - destruct Hnode.
Qed.

(** X23.  Ver3, the schedule of [main].  For a node count from 3 to
    2^32 - 1 and a simulation time below 2^32, whenever the schedule is
    defined (fewer than four nodes, or 2 numNodes < simTime + 5) the events
    [main] schedules are exactly these, in this order: the formation of
    node 0 at 1 s; the discovery of every node i from 1 to numNodes - 1 at
    2 i + 1 s; from five nodes, the two group memberships of node 4 at
    2 numNodes + 3 and + 3.1 s and, from six nodes, those of node 5 at
    + 3.2 and + 3.3 s; one route discovery of node 0 at 2 numNodes + 5 s,
    many-to-one or, from four nodes, toward the last node; from four
    nodes, the periodic readings of the last node at 2 numNodes + 10 +
    15 k s, one for every k below min (10, (simTime - (2 numNodes + 10))
    / 15), the division being the whole-number one and the difference 0
    when the simulation ends before the data start; from five nodes, three
    group commands of node 0 at 2 numNodes + 15, + 30 and + 45 s, whatever
    the simulation time; from eight nodes, five readings of each of the
    nodes 3 to 7, reading j of node i at 2 numNodes + 20 + 2 i + 20 j s;
    the report at simTime - 1 s and, if asked for, the export at
    simTime - 0.5 s.  Every periodic reading is at least 15 s before the
    end, and every node index used is below the node count. *)
Theorem v3_main_schedule_times (cl : Ver3.CommandLine) :
  (3 <= Ver3.numNodes cl < Cpp.UINT32_MOD)%N ->
  (Ver3.simTime cl < Cpp.UINT32_MOD)%N ->
  (Ver3.numNodes cl < 4 \/ 2 * Ver3.numNodes cl < Ver3.simTime cl + 5)%N ->
  let nodes := Ver3.numNodes cl in
  let n := IZR (Z.of_N nodes) in
  let time := IZR (Z.of_N (Ver3.simTime cl)) in
  let reports := N.to_nat (N.min 10 ((Ver3.simTime cl - (2 * nodes + 10)) / 15)) in
  let schedule :=
    [(1%R, Ver3.CallNetworkFormationRequest 0)]
    ++ map (fun i : nat =>
              ((2 * INR i + 1)%R, Ver3.CallNetworkDiscoveryRequest (N.of_nat i)))
         (seq 1 (N.to_nat nodes - 1))
    ++ (if (5 <=? nodes)%N
        then [((2 * n + 3)%R, Ver3.CallAddToGroup 4 Ver3.GROUP_LIVING_ROOM 1);
              ((2 * n + 3 + 0.1)%R, Ver3.CallAddToGroup 4 Ver3.GROUP_ALL_LIGHTS 1)]
        else [])
    ++ (if (6 <=? nodes)%N
        then [((2 * n + 3 + 0.2)%R, Ver3.CallAddToGroup 5 Ver3.GROUP_BEDROOM 1);
              ((2 * n + 3 + 0.3)%R, Ver3.CallAddToGroup 5 Ver3.GROUP_ALL_LIGHTS 1)]
        else [])
    ++ (if Ver3.manyToOne cl then [((2 * n + 5)%R, Ver3.CallRouteDiscoveryManyToOne 0)]
        else if (4 <=? nodes)%N
             then [((2 * n + 5)%R, Ver3.CallRouteDiscoveryTo 0 (nodes - 1))]
             else [])
    ++ (if (4 <=? nodes)%N
        then map (fun k : nat =>
                    ((2 * n + 10 + 15 * INR k)%R,
                     Ver3.CallSendTemperatureReading (nodes - 1) 0))
               (seq 0 reports)
        else [])
    ++ (if (5 <=? nodes)%N
        then [((2 * n + 15)%R, Ver3.CallSendGroupCommand 0 Ver3.GROUP_LIVING_ROOM 1);
              ((2 * n + 30)%R, Ver3.CallSendGroupCommand 0 Ver3.GROUP_ALL_LIGHTS 0);
              ((2 * n + 45)%R, Ver3.CallSendGroupCommand 0 Ver3.GROUP_ALL_LIGHTS 1)]
        else [])
    ++ (if (8 <=? nodes)%N
        then flat_map
               (fun i : nat =>
                  map (fun j : nat =>
                         ((2 * n + 20 + 2 * INR i + 20 * INR j)%R,
                          Ver3.CallSendTemperatureReading (N.of_nat i) 0))
                    (seq 0 5))
               (seq 3 5)
        else [])
    ++ [((time - 1)%R, Ver3.CallPrintPerformanceMetrics)]
    ++ (if Ver3.exportCSV cl then [((time - 0.5)%R, Ver3.CallExportResultsToCSV)] else [])
  in
  Ver3.main_schedule cl = Some (Ok schedule)
  /\ (forall k : nat, (k < reports)%nat -> (2 * n + 10 + 15 * INR k + 15 <= time)%R)
  /\ Forall (fun node => (node < nodes)%N)
       (flat_map Tally.v3_action_nodes (map snd schedule)).
Proof.
  intros [Hlo Hhi] Hsim Hdef nodes n time reports schedule.
  assert (Hdecr : Cpp.decr nodes = (nodes - 1)%N).
  { unfold Cpp.decr.
    replace (nodes + (Cpp.UINT32_MOD - 1))%N with (nodes - 1 + 1 * Cpp.UINT32_MOD)%N
      by (unfold Cpp.UINT32_MOD in *; fold nodes in Hlo; lia).
    rewrite N.Div0.mod_add. apply N.mod_small. fold nodes in Hhi. lia. }
  assert (Hk : INR (N.to_nat (nodes - 1)) = (n - 1)%R).
  { rewrite INR_to_nat, N2Z.inj_sub, minus_IZR by (fold nodes in Hlo; lia). reflexivity. }
  assert (Hstart : IZR (Z.of_N (2 * nodes + 10)) = (2 * n + 10)%R).
  { rewrite N2Z.inj_add, N2Z.inj_mul, plus_IZR, mult_IZR. reflexivity. }
  assert (Hmain : Ver3.main_schedule cl = Some (Ok schedule)).
  { unfold Ver3.main_schedule. fold nodes.
    replace (nodes <? 3)%N with false by (symmetry; apply N.ltb_ge; exact Hlo).
    rewrite v3_join_loop_closed, Hk.
    assert (Hreports :
              Ver3.periodic_reports nodes (Ver3.simTime cl) (3 + 2 * (n - 1) + 2 + 2 + 5)
              = Ok (if (4 <=? nodes)%N
                    then map (fun k : nat =>
                                ((2 * n + 10 + 15 * INR k)%R,
                                 Ver3.CallSendTemperatureReading (nodes - 1) 0))
                           (seq 0 reports)
                    else [])).
    { unfold Ver3.periodic_reports.
      destruct (N.leb_spec 4 nodes) as [H4 | H4]; [| reflexivity].
      replace ((IZR (Z.of_N (Ver3.simTime cl)) - (3 + 2 * (n - 1) + 2 + 2 + 5)) / 15)%R
        with ((IZR (Z.of_N (Ver3.simTime cl)) - IZR (Z.of_N (2 * nodes + 10))) / 15)%R
        by (rewrite Hstart; lra).
      rewrite v3_report_count by (fold nodes in Hdef; lia).
      rewrite v3_report_loop_closed, Hdecr. fold reports. f_equal.
      apply map_ext. intros k. apply (f_equal2 pair); [| reflexivity].
      change (IZR (Z.of_N 0)) with 0%R. lra. }
    rewrite Hreports. apply f_equal. apply f_equal. subst schedule.
    apply (f_equal2 (@app _)); [reflexivity |].
    apply (f_equal2 (@app _)).
    { replace (N.to_nat nodes - 1)%nat with (N.to_nat (nodes - 1)) by lia.
      rewrite <- seq_shift, map_map. apply map_ext. intros j. rewrite S_INR.
      apply (f_equal2 pair); [lra | f_equal; lia]. }
    apply (f_equal2 (@app _)).
    { destruct (5 <=? nodes)%N; [| reflexivity].
      repeat (apply (f_equal2 cons); [apply (f_equal2 pair); [lra | reflexivity] |]).
      reflexivity. }
    apply (f_equal2 (@app _)).
    { destruct (6 <=? nodes)%N; [| reflexivity].
      repeat (apply (f_equal2 cons); [apply (f_equal2 pair); [lra | reflexivity] |]).
      reflexivity. }
    apply (f_equal2 (@app _)).
    { destruct (Ver3.manyToOne cl).
      - apply (f_equal2 cons); [apply (f_equal2 pair); [lra | reflexivity] | reflexivity].
      - destruct (4 <=? nodes)%N; [| reflexivity]. rewrite Hdecr.
        apply (f_equal2 cons); [apply (f_equal2 pair); [lra | reflexivity] | reflexivity]. }
    apply (f_equal2 (@app _)); [reflexivity |].
    apply (f_equal2 (@app _)).
    { destruct (5 <=? nodes)%N; [| reflexivity].
      repeat (apply (f_equal2 cons); [apply (f_equal2 pair); [lra | reflexivity] |]).
      reflexivity. }
    apply (f_equal2 (@app _)); [| reflexivity].
    destruct (N.leb_spec 8 nodes) as [H8 | H8]; [| reflexivity].
    replace (N.to_nat (N.min nodes 8 - 3)) with 5%nat by lia.
    rewrite v3_extra_sensor_loop_closed.
    change (seq 3 5) with (map (Nat.add 3) (seq 0 5)). rewrite flat_map_after_map.
    apply flat_map_ext. intros m. apply map_ext. intros j.
    apply (f_equal2 pair); [| f_equal; f_equal; lia].
    rewrite plus_INR. change (IZR (Z.of_N 3)) with 3%R. change (INR 3) with (1 + 1 + 1)%R.
    lra. }
  split; [exact Hmain |].
  destruct (v3_main_schedule_entries cl schedule Hhi Hsim Hmain) as [Hentries Hall].
  split; [| exact Hall].
  intros k Hlt. subst reports.
  pose proof (N.Div0.mul_div_le (Ver3.simTime cl - (2 * nodes + 10)) 15) as Hq.
  assert (Hz : (Z.of_N (2 * nodes + 10) + 15 * (Z.of_nat k + 1)
                <= Z.of_N (Ver3.simTime cl))%Z) by lia.
  apply IZR_le in Hz. rewrite plus_IZR, mult_IZR, plus_IZR, Hstart, <- INR_IZR_INZ in Hz.
  fold time in Hz. lra.
Qed.

Lemma v3_main_schedule_times_witness :
  exists schedule,
    Ver3.main_schedule Fixtures.v3_quiet_command_line = Some (Ok schedule)
    /\ length schedule = 25%nat
    /\ Forall (fun node => (node < 6)%N)
         (flat_map Tally.v3_action_nodes (map snd schedule)).
Proof.
  assert (H1 : (3 <= Ver3.numNodes Fixtures.v3_quiet_command_line < Cpp.UINT32_MOD)%N)
    by (vm_compute; split; [discriminate | reflexivity]).
  assert (H2 : (Ver3.simTime Fixtures.v3_quiet_command_line < Cpp.UINT32_MOD)%N)
    by reflexivity.
  assert (H3 : (Ver3.numNodes Fixtures.v3_quiet_command_line < 4
                \/ 2 * Ver3.numNodes Fixtures.v3_quiet_command_line
                   < Ver3.simTime Fixtures.v3_quiet_command_line + 5)%N)
    by (right; reflexivity).
  destruct (v3_main_schedule_times Fixtures.v3_quiet_command_line H1 H2 H3)
    as (Hmain & _ & Hall).
  eexists. split; [exact Hmain | split; [reflexivity | exact Hall]].
Defined.

(** ** Bounds of the channel model *)

Section ChannelBounds.

Variable L : RandomLib.
Variable GetDistanceFrom : N -> N -> R.

Local Open Scope R_scope.

Lemma log10_floor : Cpp.log10 1e-10 = -10.
Proof.
  unfold Cpp.log10. pose proof ln10_pos as H10.
  replace 1e-10 with (/ (10 ^ 10)) by lra.
  rewrite ln_Rinv by (apply pow_lt; lra).
  rewrite ln_pow by lra. simpl INR. field. lra.
Qed.

Lemma ext_fading_db_bounds (f : R) :
  -200 <= 20 * Cpp.log10 (Cpp.max f 1e-10)
  /\ (f <= 1 -> 20 * Cpp.log10 (Cpp.max f 1e-10) <= 0).
Proof.
  rewrite max_is_Rmax. split.
  - assert (H : Cpp.log10 1e-10 <= Cpp.log10 (Rmax f 1e-10)).
    { apply log10_le; [lra | apply Rmax_r]. }
    rewrite log10_floor in H. lra.
  - intros Hf. assert (H : Cpp.log10 (Rmax f 1e-10) <= Cpp.log10 1).
    { apply log10_le.
      - apply Rlt_le_trans with (r2 := 1e-10); [lra | apply Rmax_r].
      - apply Rmax_lub; lra. }
    rewrite log10_1 in H. lra.
Qed.

Lemma ext_fading_nonneg (cfg : Extended.ChannelConfig) (g : engine L) :
  0 <= fst (Extended.GenerateRayleighFading L cfg g).
Proof.
  unfold Extended.GenerateRayleighFading.
  destruct (negb (Extended.enableFading cfg)); [cbn; lra |].
  destruct (sample L (make_normal L 0 (1 / sqrt 2)) g) as [[real d1] g1].
  destruct (sample L d1 g1) as [[imag d2] g2]. cbn [fst]. apply sqrt_pos.
Qed.

Lemma ext_step_rng (cfg : Extended.ChannelConfig) (w w' : Extended.World L)
    (e : Extended.Event) :
  Extended.step L GetDistanceFrom cfg w e = Ok w' ->
  Extended.g_rng w'
  = match e with
    | Extended.EvSendSensorData s c _ _ _ =>
        snd (Obs.ext_evaluate L cfg (GetDistanceFrom s c) (Extended.g_rng w))
    | _ => Extended.g_rng w
    end.
Proof.
  intros Hstep. destruct e.
  1: { cbn [Extended.step] in Hstep. injection Hstep as <-.
       rewrite ext_send_explicit. cbv zeta.
       destruct (Obs.delivered _); reflexivity. }
  all: cbn [Extended.step] in Hstep;
    try (unfold Extended.OnNetworkDiscovery in Hstep;
         destruct (is_success _ && _);
         [destruct (Cpp.at_index _ 0); [| discriminate Hstep] |]);
    injection Hstep as <-;
    unfold Extended.OnDataReceived, Extended.OnDataConfirm, Extended.OnJoinConfirm,
      Extended.OnNetworkFormation, Extended.OnRouteDiscovery;
    try match goal with
        | |- context [match ?s with Extended.APS_SUCCESS => _ | Extended.APS_ERROR _ => _ end] =>
            destruct s
        end;
    try match goal with |- context [is_success ?s] => destruct (is_success s) end;
    reflexivity.
Qed.

Lemma ext_evaluate_without_draws (cfg : Extended.ChannelConfig) (d : R) (g : engine L) :
  Extended.enableNoise cfg = false ->
  Extended.enableFading cfg = false ->
  snd (Obs.ext_evaluate L cfg d g) = g.
Proof.
  intros Hn Hf. unfold Obs.ext_evaluate. cbn [snd].
  unfold Extended.GenerateNoisePower, Extended.GenerateRayleighFading.
  rewrite Hn, Hf. reflexivity.
Qed.

End ChannelBounds.

(** X24.  Extended variant, bounds of the received power.  Whatever the
    generator returns, the fading coefficient recorded by one evaluation is
    at least 0 and the received power recorded is at least the transmit
    power minus the path loss minus 200 dB: the coefficient is raised to
    1e-10 before its logarithm is taken, so a zero coefficient costs 200 dB
    and not an infinite loss.  With a coefficient of at most 1 the received
    power is at most the transmit power minus the path loss. *)
Theorem ext_received_power_is_bounded (L : RandomLib) (GetDistanceFrom : N -> N -> R)
    (cfg : Extended.ChannelConfig) (src dst size : N) (w : Extended.World L) :
  let st' :=
    Extended.g_stats (snd (Extended.SimulateChannel L GetDistanceFrom cfg src dst size w)) in
  let budget :=
    (Extended.txPowerDbm cfg - Extended.CalculatePathLoss cfg (GetDistanceFrom src dst))%R in
  (0 <= Obs.latest (Extended.fadingSamples st'))%R
  /\ (budget - 200 <= Obs.latest (Extended.rxPowerSamples st'))%R
  /\ ((Obs.latest (Extended.fadingSamples st') <= 1)%R ->
      (Obs.latest (Extended.rxPowerSamples st') <= budget)%R).
Proof.
  cbv zeta. rewrite ext_SimulateChannel_evaluate. cbv zeta. cbn [snd Extended.g_stats].
  set (sg := Obs.ext_evaluate L cfg (GetDistanceFrom src dst) (Extended.g_rng w)).
  destruct (ext_record_samples (fst sg) (Extended.g_stats w)) as (_ & _ & Hr & Hf).
  rewrite Hr, Hf. unfold Obs.latest. rewrite !last_last.
  subst sg. cbn [Obs.ext_evaluate fst Obs.cs_rxPower Obs.cs_fading].
  pose proof (ext_fading_nonneg L cfg (Extended.g_rng w)) as H0.
  destruct (ext_fading_db_bounds (fst (Extended.GenerateRayleighFading L cfg (Extended.g_rng w))))
    as [Hlo Hhi].
  split; [exact H0 |]. split; [lra |]. intros H1. specialize (Hhi H1). lra.
Qed.

(** X25.  Extended variant with both switches off.  When noise and fading
    are both disabled no random variate is drawn: after any run from the
    initial state the generator is still in the state the seed 42 gave
    it. *)
Theorem ext_quiet_channel_never_draws (L : RandomLib) (GetDistanceFrom : N -> N -> R)
    (cfg : Extended.ChannelConfig) (tr : list Extended.Event) (w : Extended.World L) :
  Extended.enableNoise cfg = false ->
  Extended.enableFading cfg = false ->
  Extended.run L GetDistanceFrom cfg (Extended.initial L) tr = Ok w ->
  Extended.g_rng w = seed_engine L 42.
Proof.
  intros Hn Hf. revert tr w.
  apply (ext_run_invariant L GetDistanceFrom cfg
           (fun _ w => Extended.g_rng w = seed_engine L 42)).
  - reflexivity.
  - intros _ w e w' IH Hstep.
    rewrite (ext_step_rng L GetDistanceFrom cfg w w' e Hstep).
    destruct e; try exact IH.
    rewrite ext_evaluate_without_draws by assumption. exact IH.
Qed.

Lemma ext_quiet_channel_never_draws_witness :
  exists w : Extended.World (Fixtures.replay [1; 2; 3]%R),
    Extended.run (Fixtures.replay [1; 2; 3]%R) Fixtures.one_metre Fixtures.quiet_channel
      (Extended.initial (Fixtures.replay [1; 2; 3]%R)) Fixtures.ext_evening = Ok w
    /\ Extended.g_rng w = [1; 2; 3]%R.
Proof.
  eexists. split; [reflexivity |].
  apply (ext_quiet_channel_never_draws (Fixtures.replay [1; 2; 3]%R) Fixtures.one_metre
           Fixtures.quiet_channel Fixtures.ext_evening _ eq_refl eq_refl eq_refl).
Defined.

(** X26.  The path loss of the two variants.  With the path-loss exponent
    3 on the command line of the extended variant (its default there),
    the two files compute the same log-distance loss up to their reference
    loss at one metre: at every distance the extended variant loses 0.77
    dB more than Ver3, whose reference loss is 40 dB against 40.77 dB. *)
Theorem path_loss_of_the_two_variants_differs_by_reference_loss
    (cl : Extended.CommandLine) (d : R) :
  Extended.cl_pathLossExp cl = 3%R ->
  Extended.CalculatePathLoss (Extended.apply_configuration cl) d
  = (Ver3.CalculatePathLoss d + 0.77)%R.
Proof.
  intros Hexp. rewrite ext_path_loss_Rmax, v3_path_loss_Rmax.
  change (Extended.refPathLossDb (Extended.apply_configuration cl)) with 40.77%R.
  change (Extended.refDistance (Extended.apply_configuration cl)) with 1%R.
  change (Extended.pathLossExp (Extended.apply_configuration cl))
    with (Extended.cl_pathLossExp cl).
  rewrite Hexp. unfold Ver3.PATH_LOSS_EXPONENT, Ver3.REFERENCE_DISTANCE. lra.
Qed.

Lemma path_loss_of_the_two_variants_differs_by_reference_loss_witness :
  Extended.CalculatePathLoss Fixtures.quiet_channel 10
  = (Ver3.CalculatePathLoss 10 + 0.77)%R.
Proof.
  apply (path_loss_of_the_two_variants_differs_by_reference_loss
           Fixtures.quiet_command_line 10 eq_refl).
Defined.
